(** * Service proxies of the kRPC C++ client

    The sources are the generated service proxies of the kRPC C++ client:
    the core [KRPC] service (krpc.hpp), [UI] (part_000), [Drawing] and
    [KerbalAlarmClock] (part_001), [RemoteTech] (part_002) and
    [InfernalRobotics] (infernal_robotics.hpp).  Every proxy method encodes
    its arguments and either sends them through [Client::invoke], or asks
    [Client::build_call] for a call descriptor, which a [_stream] method
    hands to the constructor of [krpc::Stream].

    The client runtime itself ([krpc/client.hpp], [krpc/encoder.hpp],
    [krpc/decoder.hpp], [krpc/object.hpp], [krpc/service.hpp],
    [krpc/stream.hpp], [krpc/error.hpp]) is not part of the sources.  Its
    types and codecs are the fields of the class [Runtime], and the calls a
    proxy makes on its client are the nodes of a program of type [Prog],
    which [run] executes against any client, given as [Handlers].

    All 829 inline member functions and all 22 constructors of the sources
    are embedded, each under its own name, in a module per service and per
    class: [KRPC::Expression::add] is [KRPC.Expression.add].  Four names
    are keywords or names of the library and get an underscore: the class
    [Type] is [Type_], the method [Type::string] is [string_], a method or
    parameter [end] is [end_], and the method [where] is [where_]. *)

From Stdlib Require Import ZArith NArith.
From stdpp Require Import base option strings list countable gmap.

Set Default Proof Using "Type".
Open Scope string_scope.
Open Scope list_scope.

(** ** The runtime boundary (namespace [krpc]) *)

(** [std::string] holding an encoded value. *)
Definition bytes : Type := list Byte.byte.

(** [int32_t] and [uint64_t].  The proxies only pass these values on and
    convert enumerations to and from [int32_t]; no arithmetic is done on
    them. *)
Definition int32_t : Type := Z.
Definition uint64_t : Type := N.

(** A [Client] is reached by the proxies through [Client*] and [Client&]
    only; it is modelled by the identity of the object. *)
Definition Client : Type := positive.
Definition Client_ptr : Type := option Client.
Definition nullptr : Client_ptr := None.
(** [&_client] *)
Definition address_of (c : Client) : Client_ptr := Some c.

(** A parameter declared with a default argument, [T x = d]: the caller
    passes a value or leaves the argument out.  (C++ lets a call leave out
    trailing arguments only; here each one is left out on its own.) *)
Definition default_arg {T : Type} (d : T) (x : option T) : T :=
  match x with Some v => v | None => d end.

(** [std::tuple] of two, three and four components. *)
Record tuple2 (A B : Type) : Type := Tuple2 { get2_0 : A; get2_1 : B }.
Record tuple3 (A B C : Type) : Type :=
  Tuple3 { get3_0 : A; get3_1 : B; get3_2 : C }.
Record tuple4 (A B C D : Type) : Type :=
  Tuple4 { get4_0 : A; get4_1 : B; get4_2 : C; get4_3 : D }.
Arguments Tuple2 {A B}.
Arguments Tuple3 {A B C}.
Arguments Tuple4 {A B C D}.

(** *** Exceptions *)

(** A thrown object: the chain of its classes, most derived first, and the
    message it was constructed with.  A handler for class [T] catches the
    object when [T] is in the chain. *)
Record exception : Type :=
  Exception { exception_classes : list string; what : string }.

(** Modelled from the spec: [krpc::RPCError] of [krpc/error.hpp], the base
    of the typed exceptions, which carries the message supplied by the
    server. *)
Definition RPCError (msg : string) : exception :=
  {| exception_classes := ["krpc::RPCError"]; what := msg |}.

(** [class name : public base], whose constructor passes its message to
    the constructor of the base. *)
Definition derived (name : string) (base : exception) : exception :=
  {| exception_classes := name :: exception_classes base; what := what base |}.

Definition dynamic_type (e : exception) : option string :=
  head (exception_classes e).

Definition catches (T : string) (e : exception) : bool :=
  bool_decide (T ∈ exception_classes e).

(** A call returns a value or leaves by an exception. *)
Inductive Result (A : Type) : Type :=
| Ok (a : A)
| Err (e : exception).
Arguments Ok {A} a.
Arguments Err {A} e.

#[global] Instance Result_ret : MRet Result := @Ok.
#[global] Instance Result_bind : MBind Result := λ A B f r,
  match r with Ok a => f a | Err e => Err e end.
#[global] Instance Result_throw : MThrow exception Result := @Err.

(** [std::function<void(std::string)>], the type of an exception thrower. *)
Definition thrower : Type := string → Result unit.

(** *** Remote objects *)

(** [krpc::Object<T>]: the base of every remote-object proxy, constructed
    as [Object(client, name, id)].  The class name is kept in the type, as
    the template argument is in C++. *)
Record Object (name : string) : Type :=
  Object_ { Object_client : Client_ptr; Object_id : uint64_t }.
Arguments Object_ name _client _id : rename.
Arguments Object_client {name} _.
Arguments Object_id {name} _.

#[global] Instance Object_eq_dec name : EqDecision (Object name).
Proof. solve_decision. Defined.

#[global] Instance Object_countable name : Countable (Object name) :=
  inj_countable' (λ o, (Object_client o, Object_id o))
                 (λ p, Object_ name p.1 p.2)
                 (λ o, match o with Object_ _ _ _ => eq_refl end).

(** [krpc::Service]: the base of every service proxy, holding the client. *)
Record Service : Type := Service_ { Service_client : Client_ptr }.

(** [this->_client], of a service proxy and of a remote object. *)
Class HasClient (T : Type) : Type := _client : T → Client_ptr.
#[global] Hint Mode HasClient ! : typeclass_instances.
#[global] Instance Object_HasClient name : HasClient (Object name) :=
  Object_client.

(** *** Codecs *)

(** The overloads of [encoder::encode] and of [decoder::decode]. *)
Class Encodable (T : Type) : Type := encode : T → bytes.
Class Decodable (T : Type) : Type := decode : bytes → Client_ptr → Result T.
#[global] Hint Mode Encodable ! : typeclass_instances.
#[global] Hint Mode Decodable ! : typeclass_instances.

(** The types and the codecs the proxies take from the runtime. *)
Class Runtime : Type := {
  float : Type;
  double : Type;
  (** a floating literal of the sources, as it is spelled *)
  double_literal : string → double;
  (** the conversion of a [double] initializer to [float] *)
  double_to_float : double → float;
  (** [krpc::schema::ProcedureCall], [Stream], [Services], [Status] *)
  schema_ProcedureCall : Type;
  schema_Stream : Type;
  schema_Services : Type;
  schema_Status : Type;
  (** [krpc::Event] and [krpc::Stream<T>] *)
  Event : Type;
  Stream : Type → Type;
  encode_bool :: Encodable bool;
  encode_int32 :: Encodable int32_t;
  encode_uint64 :: Encodable uint64_t;
  encode_float :: Encodable float;
  encode_double :: Encodable double;
  encode_string :: Encodable string;
  encode_ProcedureCall :: Encodable schema_ProcedureCall;
  encode_Object :: ∀ name, Encodable (Object name);
  encode_tuple2 :: ∀ A B, Encodable A → Encodable B → Encodable (tuple2 A B);
  encode_tuple3 :: ∀ A B C,
    Encodable A → Encodable B → Encodable C → Encodable (tuple3 A B C);
  encode_tuple4 :: ∀ A B C D,
    Encodable A → Encodable B → Encodable C → Encodable D →
    Encodable (tuple4 A B C D);
  encode_vector :: ∀ T, Encodable T → Encodable (list T);
  encode_set :: ∀ T `{Countable T}, Encodable T → Encodable (gset T);
  encode_map :: ∀ K V `{Countable K},
    Encodable K → Encodable V → Encodable (gmap K V);
  decode_bool :: Decodable bool;
  decode_int32 :: Decodable int32_t;
  decode_float :: Decodable float;
  decode_double :: Decodable double;
  decode_string :: Decodable string;
  decode_Stream :: Decodable schema_Stream;
  decode_Services :: Decodable schema_Services;
  decode_Status :: Decodable schema_Status;
  decode_Event :: Decodable Event;
  decode_Object :: ∀ name, Decodable (Object name);
  decode_tuple2 :: ∀ A B, Decodable A → Decodable B → Decodable (tuple2 A B);
  decode_tuple3 :: ∀ A B C,
    Decodable A → Decodable B → Decodable C → Decodable (tuple3 A B C);
  decode_tuple4 :: ∀ A B C D,
    Decodable A → Decodable B → Decodable C → Decodable D →
    Decodable (tuple4 A B C D);
  decode_vector :: ∀ T, Decodable T → Decodable (list T);
}.

(** *** Programs over the client *)

Section Programs.
Context {RT : Runtime}.

(** What a proxy does: it returns, throws, or calls a member of its
    client ([invoke], [build_call], [add_exception_thrower]) or the
    constructor of [krpc::Stream<T>], and goes on with the result.  The
    call is made through the pointer the proxy holds, as it is: no proxy
    tests its client for [nullptr]. *)
Inductive Prog (A : Type) : Type :=
| Ret (a : A)
| Throw (e : exception)
| Invoke (c : Client_ptr) (service procedure : string) (args : list bytes)
         (k : bytes → Prog A)
| Build_call (c : Client_ptr) (service procedure : string)
             (args : list bytes) (k : schema_ProcedureCall → Prog A)
| Stream_ctor (T : Type) (c : Client_ptr) (call : schema_ProcedureCall)
              (k : Stream T → Prog A)
| Add_exception_thrower (c : Client_ptr) (service name : string)
                        (f : thrower) (k : unit → Prog A).

Fixpoint Prog_bind_ {A B : Type} (f : A → Prog B) (p : Prog A) : Prog B :=
  match p with
  | Ret _ a => f a
  | Throw _ e => Throw B e
  | Invoke _ c s n args k => Invoke B c s n args (λ x, Prog_bind_ f (k x))
  | Build_call _ c s n args k =>
      Build_call B c s n args (λ x, Prog_bind_ f (k x))
  | Stream_ctor _ T c call k =>
      Stream_ctor B T c call (λ x, Prog_bind_ f (k x))
  | Add_exception_thrower _ c s n g k =>
      Add_exception_thrower B c s n g (λ x, Prog_bind_ f (k x))
  end.
End Programs.

Arguments Ret {RT A} a.
Arguments Throw {RT A} e.
Arguments Invoke {RT A} c service procedure args k.
Arguments Build_call {RT A} c service procedure args k.
Arguments Stream_ctor {RT A} T c call k.
Arguments Add_exception_thrower {RT A} c service name f k.

#[global] Instance Prog_ret {RT : Runtime} : MRet Prog := @Ret RT.
#[global] Instance Prog_bind {RT : Runtime} : MBind Prog := @Prog_bind_ RT.
#[global] Instance Prog_throw {RT : Runtime} : MThrow exception Prog :=
  @Throw RT.

Section Client.
Context {RT : Runtime}.

(** [std::vector<std::string> _args] and [_args.push_back(x)]. *)
Definition push_back (v : list bytes) (x : bytes) : list bytes := v ++ [x].

(** Modelled from the spec: [invoke] and [build_call] are called with two
    arguments by the proxies of procedures without parameters; the third
    argument of [krpc/client.hpp] then is the empty sequence of encoded
    arguments. *)
Definition no_args : list bytes := [].

(** [client->invoke(service, procedure, args)] *)
Definition Client_invoke (c : Client_ptr) (service procedure : string)
    (args : list bytes) : Prog bytes :=
  Invoke c service procedure args Ret.

(** [client->build_call(service, procedure, args)] *)
Definition Client_build_call (c : Client_ptr) (service procedure : string)
    (args : list bytes) : Prog schema_ProcedureCall :=
  Build_call c service procedure args Ret.

(** [client->add_exception_thrower(service, name, f)] *)
Definition Client_add_exception_thrower (c : Client_ptr)
    (service name : string) (f : thrower) : Prog unit :=
  Add_exception_thrower c service name f Ret.

(** [::krpc::Stream<T>(client, call)] *)
Definition Stream_ (T : Type) (c : Client_ptr) (call : schema_ProcedureCall)
    : Prog (Stream T) :=
  Stream_ctor T c call Ret.

(** A call of [decoder::decode(_result, _data, client)] inside a proxy:
    the decoded value, or the exception of the decoder. *)
Definition decoder_decode {T : Type} `{!Decodable T} (data : bytes)
    (c : Client_ptr) : Prog T :=
  match decode data c with Ok v => Ret v | Err e => Throw e end.
End Client.

(** *** Running a program against a client *)

(** The calls a program has made, in order. *)
Inductive event {RT : Runtime} : Type :=
| Invoked (c : Client_ptr) (service procedure : string) (args : list bytes)
| Built (c : Client_ptr) (service procedure : string) (args : list bytes)
| Streamed (c : Client_ptr) (call : schema_ProcedureCall)
| Registered (c : Client_ptr) (service name : string) (f : thrower).

(** A client runtime over a state [W]: what each member answers, and the
    state it leaves.  Nothing is assumed of it. *)
Record Handlers {RT : Runtime} (W : Type) : Type := {
  on_invoke :
    Client_ptr → string → string → list bytes → W → Result bytes * W;
  on_build_call :
    Client_ptr → string → string → list bytes → W →
    Result schema_ProcedureCall * W;
  on_stream :
    ∀ T, Client_ptr → schema_ProcedureCall → W → Result (Stream T) * W;
  on_add_exception_thrower :
    Client_ptr → string → string → thrower → W → Result unit * W;
}.
Arguments on_invoke {RT W} _.
Arguments on_build_call {RT W} _.
Arguments on_stream {RT W} _.
Arguments on_add_exception_thrower {RT W} _.

Section Run.
Context {RT : Runtime} {W : Type} (h : Handlers W).

(** An exception of the client leaves the proxy: no proxy has a handler. *)
Definition resume {X A : Type} (ev : event) (r : Result X * W)
    (k : X → W → Result A * W * list event) : Result A * W * list event :=
  match r with
  | (Ok x, w) => let '(a, w', t) := k x w in (a, w', ev :: t)
  | (Err e, w) => (Err e, w, [ev])
  end.

Fixpoint run {A : Type} (p : Prog A) (w : W) : Result A * W * list event :=
  match p with
  | Ret a => (Ok a, w, [])
  | Throw e => (Err e, w, [])
  | Invoke c s n args k =>
      resume (Invoked c s n args) (on_invoke h c s n args w)
             (λ x, run (k x))
  | Build_call c s n args k =>
      resume (Built c s n args) (on_build_call h c s n args w)
             (λ x, run (k x))
  | Stream_ctor T c call k =>
      resume (Streamed c call) (on_stream h T c call w) (λ x, run (k x))
  | Add_exception_thrower c s n f k =>
      resume (Registered c s n f) (on_add_exception_thrower h c s n f w)
             (λ x, run (k x))
  end.

Definition result_of {A : Type} (o : Result A * W * list event) : Result A :=
  o.1.1.
Definition state_of {A : Type} (o : Result A * W * list event) : W := o.1.2.
Definition trace_of {A : Type} (o : Result A * W * list event)
    : list event := o.2.
End Run.

Definition is_Invoked {RT : Runtime} (ev : event) : bool :=
  match ev with Invoked _ _ _ _ => true | _ => false end.

(** *** Scoped enumerations *)

(** [enum struct E { ... }]: the underlying type is [int], and every value
    of the underlying type is a value of [E]; the enumerators name some of
    them. *)
Record enum_struct (E : string) : Type := Enum { underlying : int32_t }.
Arguments Enum E _ : assert.
Arguments underlying {E} _.

(** [static_cast<int32_t>(value)] and [static_cast<E>(x)]. *)
Definition static_cast_int32 {E : string} (value : enum_struct E) : int32_t :=
  underlying value.
Definition static_cast_enum (E : string) (x : int32_t) : enum_struct E :=
  Enum E x.

(** *** The proxy operations *)

(** How a proxy method reaches its client, and what it sends of itself:
    a member of a service proxy calls through [this->_client]; a member of
    a remote-object class calls through [this->_client] and sends
    [encode( *this)] before its parameters; a static member of a
    remote-object class calls through its [Client&] parameter. *)
Inductive Receiver : Type → Type :=
| Service_method {S : Type} `{!HasClient S} : Receiver S
| Object_method (name : string) : Receiver (Object name)
| Static_method : Receiver Client.

Section Operations.
Context {RT : Runtime}.

Definition client_of {This : Type} (how : Receiver This)
    : This → Client_ptr :=
  match how in Receiver T return T → Client_ptr with
  | Service_method => λ this, _client this
  | Object_method name => λ this, _client this
  | Static_method => λ c, address_of c
  end.

Definition receiver_args {This : Type} (how : Receiver This)
    : This → list bytes :=
  match how in Receiver T return T → list bytes with
  | Service_method => λ _, []
  | Object_method name => λ this, [encode this]
  | Static_method => λ _, []
  end.

(** A remote procedure as the proxies offer it: the method itself, its
    [_stream] variant when the procedure returns a value, and its [_call]
    variant.  [This] is the receiver, [Args] the tuple of the declared
    parameters other than the [Client&] of a static member, and [params]
    their encodings in the order of the declaration. *)
Inductive Operation : Type :=
| Void_op (name : string) {This Args : Type} (how : Receiver This)
    (params : Args → list bytes)
    (plain : This → Args → Prog unit)
    (call : This → Args → Prog schema_ProcedureCall)
| Value_op (name : string) {This Args Ret : Type} `{!Decodable Ret}
    (how : Receiver This) (params : Args → list bytes)
    (plain : This → Args → Prog Ret)
    (stream : This → Args → Prog (Stream Ret))
    (call : This → Args → Prog schema_ProcedureCall).

Definition op_name (op : Operation) : string :=
  match op with
  | Void_op name _ _ _ _ => name
  | Value_op name _ _ _ _ _ => name
  end.
End Operations.
(** ** Classes of the [SpaceCenter] service *)

(** Modelled from the spec: the remote-object classes of
    [krpc/services/space_center.hpp], which the proxies name as types of
    parameters and results; a remote object is a connection and a 64-bit
    identifier. *)
Module SpaceCenter.
Definition CelestialBody : Type := Object "SpaceCenter::CelestialBody".
Definition Part : Type := Object "SpaceCenter::Part".
Definition ReferenceFrame : Type := Object "SpaceCenter::ReferenceFrame".
Definition Vessel : Type := Object "SpaceCenter::Vessel".
End SpaceCenter.

(** ** Service [KRPC] (krpc.hpp) *)

Module KRPC.

(** [class KRPC : public Service], line 20 *)
Record t : Type := Make { base : Service }.
#[global] Instance t_HasClient : HasClient t :=
  λ this, Service_client (base this).

(** Class forward declarations; each class is declared as
    [class C : public krpc::Object<C>]. *)
Definition Expression : Type := Object "KRPC::Expression".
Definition Type_ : Type := Object "KRPC::Type".

(** [class ArgumentException : public ::krpc::RPCError], line 32 *)
Definition ArgumentException (msg : string) : exception :=
  derived "KRPC::ArgumentException" (RPCError msg).

(** [class ArgumentNullException : public ::krpc::RPCError], line 40 *)
Definition ArgumentNullException (msg : string) : exception :=
  derived "KRPC::ArgumentNullException" (RPCError msg).

(** [class ArgumentOutOfRangeException : public ::krpc::RPCError], line 48 *)
Definition ArgumentOutOfRangeException (msg : string) : exception :=
  derived "KRPC::ArgumentOutOfRangeException" (RPCError msg).

(** [class InvalidOperationException : public ::krpc::RPCError], line 57 *)
Definition InvalidOperationException (msg : string) : exception :=
  derived "KRPC::InvalidOperationException" (RPCError msg).

(** [enum struct GameScene], line 65 *)
Definition GameScene : Type := enum_struct "KRPC::GameScene".
Module GameScene.
Definition space_center : KRPC.GameScene :=
  static_cast_enum "KRPC::GameScene" 0%Z.
Definition flight : KRPC.GameScene :=
  static_cast_enum "KRPC::GameScene" 1%Z.
Definition tracking_station : KRPC.GameScene :=
  static_cast_enum "KRPC::GameScene" 2%Z.
Definition editor_vab : KRPC.GameScene :=
  static_cast_enum "KRPC::GameScene" 3%Z.
Definition editor_sph : KRPC.GameScene :=
  static_cast_enum "KRPC::GameScene" 4%Z.
Definition enumerators : list KRPC.GameScene :=
  [space_center; flight; tracking_station; editor_vab; editor_sph].
End GameScene.

Section Codecs.
Context {RT : Runtime}.

(** [encoder::encode(const services::KRPC::GameScene&)], line 816 *)
#[global] Instance encode_GameScene : Encodable GameScene :=
  λ value, encode (static_cast_int32 value).

(** [decoder::decode(services::KRPC::GameScene&, data, client)], line 824 *)
#[global] Instance decode_GameScene : Decodable GameScene := λ data client,
  x ← decode (T := int32_t) data client;
  mret (static_cast_enum "KRPC::GameScene" x).

End Codecs.

Section Methods.
Context {RT : Runtime}.

(** [KRPC::KRPC], line 834 *)
Definition KRPC (client : Client_ptr) : Prog t :=
  let this := Make (Service_ client) in
  Client_add_exception_thrower client
    "KRPC" "ArgumentException"
    (λ msg, mthrow (ArgumentException msg));;
  Client_add_exception_thrower client
    "KRPC" "ArgumentNullException"
    (λ msg, mthrow (ArgumentNullException msg));;
  Client_add_exception_thrower client
    "KRPC" "ArgumentOutOfRangeException"
    (λ msg, mthrow (ArgumentOutOfRangeException msg));;
  Client_add_exception_thrower client
    "KRPC" "InvalidOperationException"
    (λ msg, mthrow (InvalidOperationException msg));;
  mret this.

(** [KRPC::add_event], krpc.hpp line 850 *)
Definition add_event (this : t) (expression : KRPC.Expression) : Prog Event :=
  let _args : list bytes := [] in
  let _args := push_back _args (encode expression) in
  _data ← Client_invoke (_client this) "KRPC" "AddEvent" _args;
  _result ← decoder_decode (T := Event) _data (_client this);
  mret _result.

(** [KRPC::add_stream], krpc.hpp line 859 *)
Definition add_stream (this : t) (call : schema_ProcedureCall)
    (start : option bool) : Prog schema_Stream :=
  let start := default_arg true start in
  let _args : list bytes := [] in
  let _args := push_back _args (encode call) in
  let _args := push_back _args (encode start) in
  _data ← Client_invoke (_client this) "KRPC" "AddStream" _args;
  _result ← decoder_decode (T := schema_Stream) _data (_client this);
  mret _result.

(** [KRPC::get_client_id], krpc.hpp line 869 *)
Definition get_client_id (this : t) : Prog string :=
  _data ← Client_invoke (_client this) "KRPC" "GetClientID" no_args;
  _result ← decoder_decode (T := string) _data (_client this);
  mret _result.

(** [KRPC::get_client_name], krpc.hpp line 876 *)
Definition get_client_name (this : t) : Prog string :=
  _data ← Client_invoke (_client this) "KRPC" "GetClientName" no_args;
  _result ← decoder_decode (T := string) _data (_client this);
  mret _result.

(** [KRPC::get_services], krpc.hpp line 883 *)
Definition get_services (this : t) : Prog schema_Services :=
  _data ← Client_invoke (_client this) "KRPC" "GetServices" no_args;
  _result ← decoder_decode (T := schema_Services) _data (_client this);
  mret _result.

(** [KRPC::get_status], krpc.hpp line 890 *)
Definition get_status (this : t) : Prog schema_Status :=
  _data ← Client_invoke (_client this) "KRPC" "GetStatus" no_args;
  _result ← decoder_decode (T := schema_Status) _data (_client this);
  mret _result.

(** [KRPC::remove_stream], krpc.hpp line 897 *)
Definition remove_stream (this : t) (id : uint64_t) : Prog unit :=
  let _args : list bytes := [] in
  let _args := push_back _args (encode id) in
  Client_invoke (_client this) "KRPC" "RemoveStream" _args;;
  mret ().

(** [KRPC::set_stream_rate], krpc.hpp line 903 *)
Definition set_stream_rate (this : t) (id : uint64_t) (rate : float)
    : Prog unit :=
  let _args : list bytes := [] in
  let _args := push_back _args (encode id) in
  let _args := push_back _args (encode rate) in
  Client_invoke (_client this) "KRPC" "SetStreamRate" _args;;
  mret ().

(** [KRPC::start_stream], krpc.hpp line 910 *)
Definition start_stream (this : t) (id : uint64_t) : Prog unit :=
  let _args : list bytes := [] in
  let _args := push_back _args (encode id) in
  Client_invoke (_client this) "KRPC" "StartStream" _args;;
  mret ().

(** [KRPC::clients], krpc.hpp line 916 *)
Definition clients (this : t) : Prog (list (tuple3 string string string)) :=
  _data ← Client_invoke (_client this) "KRPC" "get_Clients" no_args;
  _result ← decoder_decode (T := list (tuple3 string string string)) _data
      (_client this);
  mret _result.

(** [KRPC::current_game_scene], krpc.hpp line 923 *)
Definition current_game_scene (this : t) : Prog KRPC.GameScene :=
  _data ← Client_invoke (_client this) "KRPC" "get_CurrentGameScene" no_args;
  _result ← decoder_decode (T := KRPC.GameScene) _data (_client this);
  mret _result.

(** [KRPC::paused], krpc.hpp line 930 *)
Definition paused (this : t) : Prog bool :=
  _data ← Client_invoke (_client this) "KRPC" "get_Paused" no_args;
  _result ← decoder_decode (T := bool) _data (_client this);
  mret _result.

(** [KRPC::set_paused], krpc.hpp line 937 *)
Definition set_paused (this : t) (value : bool) : Prog unit :=
  let _args : list bytes := [] in
  let _args := push_back _args (encode value) in
  Client_invoke (_client this) "KRPC" "set_Paused" _args;;
  mret ().

(** [KRPC::add_event_stream], krpc.hpp line 943 *)
Definition add_event_stream (this : t) (expression : KRPC.Expression)
    : Prog (Stream Event) :=
  let _args : list bytes := [] in
  let _args := push_back _args (encode expression) in
  _call ← Client_build_call (_client this) "KRPC" "AddEvent" _args;
  Stream_ Event (_client this) _call.

(** [KRPC::add_stream_stream], krpc.hpp line 949 *)
Definition add_stream_stream (this : t) (call : schema_ProcedureCall)
    (start : option bool) : Prog (Stream schema_Stream) :=
  let start := default_arg true start in
  let _args : list bytes := [] in
  let _args := push_back _args (encode call) in
  let _args := push_back _args (encode start) in
  _call ← Client_build_call (_client this) "KRPC" "AddStream" _args;
  Stream_ schema_Stream (_client this) _call.

(** [KRPC::get_client_id_stream], krpc.hpp line 956 *)
Definition get_client_id_stream (this : t) : Prog (Stream string) :=
  _call ← Client_build_call (_client this) "KRPC" "GetClientID" no_args;
  Stream_ string (_client this) _call.

(** [KRPC::get_client_name_stream], krpc.hpp line 960 *)
Definition get_client_name_stream (this : t) : Prog (Stream string) :=
  _call ← Client_build_call (_client this) "KRPC" "GetClientName" no_args;
  Stream_ string (_client this) _call.

(** [KRPC::get_services_stream], krpc.hpp line 964 *)
Definition get_services_stream (this : t) : Prog (Stream schema_Services) :=
  _call ← Client_build_call (_client this) "KRPC" "GetServices" no_args;
  Stream_ schema_Services (_client this) _call.

(** [KRPC::get_status_stream], krpc.hpp line 968 *)
Definition get_status_stream (this : t) : Prog (Stream schema_Status) :=
  _call ← Client_build_call (_client this) "KRPC" "GetStatus" no_args;
  Stream_ schema_Status (_client this) _call.

(** [KRPC::clients_stream], krpc.hpp line 972 *)
Definition clients_stream (this : t)
    : Prog (Stream (list (tuple3 string string string))) :=
  _call ← Client_build_call (_client this) "KRPC" "get_Clients" no_args;
  Stream_ (list (tuple3 string string string)) (_client this) _call.

(** [KRPC::current_game_scene_stream], krpc.hpp line 976 *)
Definition current_game_scene_stream (this : t)
    : Prog (Stream KRPC.GameScene) :=
  _call ← Client_build_call (_client this) "KRPC" "get_CurrentGameScene"
      no_args;
  Stream_ KRPC.GameScene (_client this) _call.

(** [KRPC::paused_stream], krpc.hpp line 980 *)
Definition paused_stream (this : t) : Prog (Stream bool) :=
  _call ← Client_build_call (_client this) "KRPC" "get_Paused" no_args;
  Stream_ bool (_client this) _call.

(** [KRPC::add_event_call], krpc.hpp line 984 *)
Definition add_event_call (this : t) (expression : KRPC.Expression)
    : Prog schema_ProcedureCall :=
  let _args : list bytes := [] in
  let _args := push_back _args (encode expression) in
  Client_build_call (_client this) "KRPC" "AddEvent" _args.

(** [KRPC::add_stream_call], krpc.hpp line 990 *)
Definition add_stream_call (this : t) (call : schema_ProcedureCall)
    (start : option bool) : Prog schema_ProcedureCall :=
  let start := default_arg true start in
  let _args : list bytes := [] in
  let _args := push_back _args (encode call) in
  let _args := push_back _args (encode start) in
  Client_build_call (_client this) "KRPC" "AddStream" _args.

(** [KRPC::get_client_id_call], krpc.hpp line 997 *)
Definition get_client_id_call (this : t) : Prog schema_ProcedureCall :=
  Client_build_call (_client this) "KRPC" "GetClientID" no_args.

(** [KRPC::get_client_name_call], krpc.hpp line 1001 *)
Definition get_client_name_call (this : t) : Prog schema_ProcedureCall :=
  Client_build_call (_client this) "KRPC" "GetClientName" no_args.

(** [KRPC::get_services_call], krpc.hpp line 1005 *)
Definition get_services_call (this : t) : Prog schema_ProcedureCall :=
  Client_build_call (_client this) "KRPC" "GetServices" no_args.

(** [KRPC::get_status_call], krpc.hpp line 1009 *)
Definition get_status_call (this : t) : Prog schema_ProcedureCall :=
  Client_build_call (_client this) "KRPC" "GetStatus" no_args.

(** [KRPC::remove_stream_call], krpc.hpp line 1013 *)
Definition remove_stream_call (this : t) (id : uint64_t)
    : Prog schema_ProcedureCall :=
  let _args : list bytes := [] in
  let _args := push_back _args (encode id) in
  Client_build_call (_client this) "KRPC" "RemoveStream" _args.

(** [KRPC::set_stream_rate_call], krpc.hpp line 1019 *)
Definition set_stream_rate_call (this : t) (id : uint64_t) (rate : float)
    : Prog schema_ProcedureCall :=
  let _args : list bytes := [] in
  let _args := push_back _args (encode id) in
  let _args := push_back _args (encode rate) in
  Client_build_call (_client this) "KRPC" "SetStreamRate" _args.

(** [KRPC::start_stream_call], krpc.hpp line 1026 *)
Definition start_stream_call (this : t) (id : uint64_t)
    : Prog schema_ProcedureCall :=
  let _args : list bytes := [] in
  let _args := push_back _args (encode id) in
  Client_build_call (_client this) "KRPC" "StartStream" _args.

(** [KRPC::clients_call], krpc.hpp line 1032 *)
Definition clients_call (this : t) : Prog schema_ProcedureCall :=
  Client_build_call (_client this) "KRPC" "get_Clients" no_args.

(** [KRPC::current_game_scene_call], krpc.hpp line 1036 *)
Definition current_game_scene_call (this : t) : Prog schema_ProcedureCall :=
  Client_build_call (_client this) "KRPC" "get_CurrentGameScene" no_args.

(** [KRPC::paused_call], krpc.hpp line 1040 *)
Definition paused_call (this : t) : Prog schema_ProcedureCall :=
  Client_build_call (_client this) "KRPC" "get_Paused" no_args.

(** [KRPC::set_paused_call], krpc.hpp line 1044 *)
Definition set_paused_call (this : t) (value : bool)
    : Prog schema_ProcedureCall :=
  let _args : list bytes := [] in
  let _args := push_back _args (encode value) in
  Client_build_call (_client this) "KRPC" "set_Paused" _args.

End Methods.

(** [class KRPC::Expression] *)
Module Expression.
Section Methods.
Context {RT : Runtime}.

(** [KRPC::Expression::Expression], line 1050; declared
    [explicit Expression(Client* client = nullptr, uint64_t id = 0)], line 205
        *)
Definition Expression (client : option Client_ptr) (id : option uint64_t)
    : KRPC.Expression :=
  let client := default_arg nullptr client in
  let id := default_arg 0%N id in
  Object_ "KRPC::Expression" client id.

(** [KRPC::Expression::add], krpc.hpp line 1053 *)
Definition add (_client : Client) (arg0 : KRPC.Expression)
    (arg1 : KRPC.Expression) : Prog KRPC.Expression :=
  let _args : list bytes := [] in
  let _args := push_back _args (encode arg0) in
  let _args := push_back _args (encode arg1) in
  _data ← Client_invoke (address_of _client) "KRPC" "Expression_static_Add"
      _args;
  _result ← decoder_decode (T := KRPC.Expression) _data (address_of _client);
  mret _result.

(** [KRPC::Expression::aggregate], krpc.hpp line 1063 *)
Definition aggregate (_client : Client) (arg : KRPC.Expression)
    (func : KRPC.Expression) : Prog KRPC.Expression :=
  let _args : list bytes := [] in
  let _args := push_back _args (encode arg) in
  let _args := push_back _args (encode func) in
  _data ← Client_invoke (address_of _client) "KRPC"
      "Expression_static_Aggregate" _args;
  _result ← decoder_decode (T := KRPC.Expression) _data (address_of _client);
  mret _result.

(** [KRPC::Expression::aggregate_with_seed], krpc.hpp line 1073 *)
Definition aggregate_with_seed (_client : Client) (arg : KRPC.Expression)
    (seed : KRPC.Expression) (func : KRPC.Expression)
    : Prog KRPC.Expression :=
  let _args : list bytes := [] in
  let _args := push_back _args (encode arg) in
  let _args := push_back _args (encode seed) in
  let _args := push_back _args (encode func) in
  _data ← Client_invoke (address_of _client) "KRPC"
      "Expression_static_AggregateWithSeed" _args;
  _result ← decoder_decode (T := KRPC.Expression) _data (address_of _client);
  mret _result.

(** [KRPC::Expression::all], krpc.hpp line 1084 *)
Definition all (_client : Client) (arg : KRPC.Expression)
    (predicate : KRPC.Expression) : Prog KRPC.Expression :=
  let _args : list bytes := [] in
  let _args := push_back _args (encode arg) in
  let _args := push_back _args (encode predicate) in
  _data ← Client_invoke (address_of _client) "KRPC" "Expression_static_All"
      _args;
  _result ← decoder_decode (T := KRPC.Expression) _data (address_of _client);
  mret _result.

(** [KRPC::Expression::and_], krpc.hpp line 1094 *)
Definition and_ (_client : Client) (arg0 : KRPC.Expression)
    (arg1 : KRPC.Expression) : Prog KRPC.Expression :=
  let _args : list bytes := [] in
  let _args := push_back _args (encode arg0) in
  let _args := push_back _args (encode arg1) in
  _data ← Client_invoke (address_of _client) "KRPC" "Expression_static_And"
      _args;
  _result ← decoder_decode (T := KRPC.Expression) _data (address_of _client);
  mret _result.

(** [KRPC::Expression::any], krpc.hpp line 1104 *)
Definition any (_client : Client) (arg : KRPC.Expression)
    (predicate : KRPC.Expression) : Prog KRPC.Expression :=
  let _args : list bytes := [] in
  let _args := push_back _args (encode arg) in
  let _args := push_back _args (encode predicate) in
  _data ← Client_invoke (address_of _client) "KRPC" "Expression_static_Any"
      _args;
  _result ← decoder_decode (T := KRPC.Expression) _data (address_of _client);
  mret _result.

(** [KRPC::Expression::average], krpc.hpp line 1114 *)
Definition average (_client : Client) (arg : KRPC.Expression)
    : Prog KRPC.Expression :=
  let _args : list bytes := [] in
  let _args := push_back _args (encode arg) in
  _data ← Client_invoke (address_of _client) "KRPC"
      "Expression_static_Average" _args;
  _result ← decoder_decode (T := KRPC.Expression) _data (address_of _client);
  mret _result.

(** [KRPC::Expression::call], krpc.hpp line 1123 *)
Definition call (_client : Client) (call : schema_ProcedureCall)
    : Prog KRPC.Expression :=
  let _args : list bytes := [] in
  let _args := push_back _args (encode call) in
  _data ← Client_invoke (address_of _client) "KRPC" "Expression_static_Call"
      _args;
  _result ← decoder_decode (T := KRPC.Expression) _data (address_of _client);
  mret _result.

(** [KRPC::Expression::cast], krpc.hpp line 1132 *)
Definition cast (_client : Client) (arg : KRPC.Expression) (type : KRPC.Type_)
    : Prog KRPC.Expression :=
  let _args : list bytes := [] in
  let _args := push_back _args (encode arg) in
  let _args := push_back _args (encode type) in
  _data ← Client_invoke (address_of _client) "KRPC" "Expression_static_Cast"
      _args;
  _result ← decoder_decode (T := KRPC.Expression) _data (address_of _client);
  mret _result.

(** [KRPC::Expression::concat], krpc.hpp line 1142 *)
Definition concat (_client : Client) (arg1 : KRPC.Expression)
    (arg2 : KRPC.Expression) : Prog KRPC.Expression :=
  let _args : list bytes := [] in
  let _args := push_back _args (encode arg1) in
  let _args := push_back _args (encode arg2) in
  _data ← Client_invoke (address_of _client) "KRPC" "Expression_static_Concat"
      _args;
  _result ← decoder_decode (T := KRPC.Expression) _data (address_of _client);
  mret _result.

(** [KRPC::Expression::constant_bool], krpc.hpp line 1152 *)
Definition constant_bool (_client : Client) (value : bool)
    : Prog KRPC.Expression :=
  let _args : list bytes := [] in
  let _args := push_back _args (encode value) in
  _data ← Client_invoke (address_of _client) "KRPC"
      "Expression_static_ConstantBool" _args;
  _result ← decoder_decode (T := KRPC.Expression) _data (address_of _client);
  mret _result.

(** [KRPC::Expression::constant_double], krpc.hpp line 1161 *)
Definition constant_double (_client : Client) (value : double)
    : Prog KRPC.Expression :=
  let _args : list bytes := [] in
  let _args := push_back _args (encode value) in
  _data ← Client_invoke (address_of _client) "KRPC"
      "Expression_static_ConstantDouble" _args;
  _result ← decoder_decode (T := KRPC.Expression) _data (address_of _client);
  mret _result.

(** [KRPC::Expression::constant_float], krpc.hpp line 1170 *)
Definition constant_float (_client : Client) (value : float)
    : Prog KRPC.Expression :=
  let _args : list bytes := [] in
  let _args := push_back _args (encode value) in
  _data ← Client_invoke (address_of _client) "KRPC"
      "Expression_static_ConstantFloat" _args;
  _result ← decoder_decode (T := KRPC.Expression) _data (address_of _client);
  mret _result.

(** [KRPC::Expression::constant_int], krpc.hpp line 1179 *)
Definition constant_int (_client : Client) (value : int32_t)
    : Prog KRPC.Expression :=
  let _args : list bytes := [] in
  let _args := push_back _args (encode value) in
  _data ← Client_invoke (address_of _client) "KRPC"
      "Expression_static_ConstantInt" _args;
  _result ← decoder_decode (T := KRPC.Expression) _data (address_of _client);
  mret _result.

(** [KRPC::Expression::constant_string], krpc.hpp line 1188 *)
Definition constant_string (_client : Client) (value : string)
    : Prog KRPC.Expression :=
  let _args : list bytes := [] in
  let _args := push_back _args (encode value) in
  _data ← Client_invoke (address_of _client) "KRPC"
      "Expression_static_ConstantString" _args;
  _result ← decoder_decode (T := KRPC.Expression) _data (address_of _client);
  mret _result.

(** [KRPC::Expression::contains], krpc.hpp line 1197 *)
Definition contains (_client : Client) (arg : KRPC.Expression)
    (value : KRPC.Expression) : Prog KRPC.Expression :=
  let _args : list bytes := [] in
  let _args := push_back _args (encode arg) in
  let _args := push_back _args (encode value) in
  _data ← Client_invoke (address_of _client) "KRPC"
      "Expression_static_Contains" _args;
  _result ← decoder_decode (T := KRPC.Expression) _data (address_of _client);
  mret _result.

(** [KRPC::Expression::count], krpc.hpp line 1207 *)
Definition count (_client : Client) (arg : KRPC.Expression)
    : Prog KRPC.Expression :=
  let _args : list bytes := [] in
  let _args := push_back _args (encode arg) in
  _data ← Client_invoke (address_of _client) "KRPC" "Expression_static_Count"
      _args;
  _result ← decoder_decode (T := KRPC.Expression) _data (address_of _client);
  mret _result.

(** [KRPC::Expression::create_dictionary], krpc.hpp line 1216 *)
Definition create_dictionary (_client : Client) (keys : list KRPC.Expression)
    (values : list KRPC.Expression) : Prog KRPC.Expression :=
  let _args : list bytes := [] in
  let _args := push_back _args (encode keys) in
  let _args := push_back _args (encode values) in
  _data ← Client_invoke (address_of _client) "KRPC"
      "Expression_static_CreateDictionary" _args;
  _result ← decoder_decode (T := KRPC.Expression) _data (address_of _client);
  mret _result.

(** [KRPC::Expression::create_list], krpc.hpp line 1226 *)
Definition create_list (_client : Client) (values : list KRPC.Expression)
    : Prog KRPC.Expression :=
  let _args : list bytes := [] in
  let _args := push_back _args (encode values) in
  _data ← Client_invoke (address_of _client) "KRPC"
      "Expression_static_CreateList" _args;
  _result ← decoder_decode (T := KRPC.Expression) _data (address_of _client);
  mret _result.

(** [KRPC::Expression::create_set], krpc.hpp line 1235 *)
Definition create_set (_client : Client) (values : gset KRPC.Expression)
    : Prog KRPC.Expression :=
  let _args : list bytes := [] in
  let _args := push_back _args (encode values) in
  _data ← Client_invoke (address_of _client) "KRPC"
      "Expression_static_CreateSet" _args;
  _result ← decoder_decode (T := KRPC.Expression) _data (address_of _client);
  mret _result.

(** [KRPC::Expression::create_tuple], krpc.hpp line 1244 *)
Definition create_tuple (_client : Client) (elements : list KRPC.Expression)
    : Prog KRPC.Expression :=
  let _args : list bytes := [] in
  let _args := push_back _args (encode elements) in
  _data ← Client_invoke (address_of _client) "KRPC"
      "Expression_static_CreateTuple" _args;
  _result ← decoder_decode (T := KRPC.Expression) _data (address_of _client);
  mret _result.

(** [KRPC::Expression::divide], krpc.hpp line 1253 *)
Definition divide (_client : Client) (arg0 : KRPC.Expression)
    (arg1 : KRPC.Expression) : Prog KRPC.Expression :=
  let _args : list bytes := [] in
  let _args := push_back _args (encode arg0) in
  let _args := push_back _args (encode arg1) in
  _data ← Client_invoke (address_of _client) "KRPC" "Expression_static_Divide"
      _args;
  _result ← decoder_decode (T := KRPC.Expression) _data (address_of _client);
  mret _result.

(** [KRPC::Expression::equal], krpc.hpp line 1263 *)
Definition equal (_client : Client) (arg0 : KRPC.Expression)
    (arg1 : KRPC.Expression) : Prog KRPC.Expression :=
  let _args : list bytes := [] in
  let _args := push_back _args (encode arg0) in
  let _args := push_back _args (encode arg1) in
  _data ← Client_invoke (address_of _client) "KRPC" "Expression_static_Equal"
      _args;
  _result ← decoder_decode (T := KRPC.Expression) _data (address_of _client);
  mret _result.

(** [KRPC::Expression::exclusive_or], krpc.hpp line 1273 *)
Definition exclusive_or (_client : Client) (arg0 : KRPC.Expression)
    (arg1 : KRPC.Expression) : Prog KRPC.Expression :=
  let _args : list bytes := [] in
  let _args := push_back _args (encode arg0) in
  let _args := push_back _args (encode arg1) in
  _data ← Client_invoke (address_of _client) "KRPC"
      "Expression_static_ExclusiveOr" _args;
  _result ← decoder_decode (T := KRPC.Expression) _data (address_of _client);
  mret _result.

(** [KRPC::Expression::function], krpc.hpp line 1283 *)
Definition function (_client : Client) (parameters : list KRPC.Expression)
    (body : KRPC.Expression) : Prog KRPC.Expression :=
  let _args : list bytes := [] in
  let _args := push_back _args (encode parameters) in
  let _args := push_back _args (encode body) in
  _data ← Client_invoke (address_of _client) "KRPC"
      "Expression_static_Function" _args;
  _result ← decoder_decode (T := KRPC.Expression) _data (address_of _client);
  mret _result.

(** [KRPC::Expression::get], krpc.hpp line 1293 *)
Definition get (_client : Client) (arg : KRPC.Expression)
    (index : KRPC.Expression) : Prog KRPC.Expression :=
  let _args : list bytes := [] in
  let _args := push_back _args (encode arg) in
  let _args := push_back _args (encode index) in
  _data ← Client_invoke (address_of _client) "KRPC" "Expression_static_Get"
      _args;
  _result ← decoder_decode (T := KRPC.Expression) _data (address_of _client);
  mret _result.

(** [KRPC::Expression::greater_than], krpc.hpp line 1303 *)
Definition greater_than (_client : Client) (arg0 : KRPC.Expression)
    (arg1 : KRPC.Expression) : Prog KRPC.Expression :=
  let _args : list bytes := [] in
  let _args := push_back _args (encode arg0) in
  let _args := push_back _args (encode arg1) in
  _data ← Client_invoke (address_of _client) "KRPC"
      "Expression_static_GreaterThan" _args;
  _result ← decoder_decode (T := KRPC.Expression) _data (address_of _client);
  mret _result.

(** [KRPC::Expression::greater_than_or_equal], krpc.hpp line 1313 *)
Definition greater_than_or_equal (_client : Client) (arg0 : KRPC.Expression)
    (arg1 : KRPC.Expression) : Prog KRPC.Expression :=
  let _args : list bytes := [] in
  let _args := push_back _args (encode arg0) in
  let _args := push_back _args (encode arg1) in
  _data ← Client_invoke (address_of _client) "KRPC"
      "Expression_static_GreaterThanOrEqual" _args;
  _result ← decoder_decode (T := KRPC.Expression) _data (address_of _client);
  mret _result.

(** [KRPC::Expression::invoke], krpc.hpp line 1323 *)
Definition invoke (_client : Client) (function : KRPC.Expression)
    (args : gmap string KRPC.Expression) : Prog KRPC.Expression :=
  let _args : list bytes := [] in
  let _args := push_back _args (encode function) in
  let _args := push_back _args (encode args) in
  _data ← Client_invoke (address_of _client) "KRPC" "Expression_static_Invoke"
      _args;
  _result ← decoder_decode (T := KRPC.Expression) _data (address_of _client);
  mret _result.

(** [KRPC::Expression::left_shift], krpc.hpp line 1333 *)
Definition left_shift (_client : Client) (arg0 : KRPC.Expression)
    (arg1 : KRPC.Expression) : Prog KRPC.Expression :=
  let _args : list bytes := [] in
  let _args := push_back _args (encode arg0) in
  let _args := push_back _args (encode arg1) in
  _data ← Client_invoke (address_of _client) "KRPC"
      "Expression_static_LeftShift" _args;
  _result ← decoder_decode (T := KRPC.Expression) _data (address_of _client);
  mret _result.

(** [KRPC::Expression::less_than], krpc.hpp line 1343 *)
Definition less_than (_client : Client) (arg0 : KRPC.Expression)
    (arg1 : KRPC.Expression) : Prog KRPC.Expression :=
  let _args : list bytes := [] in
  let _args := push_back _args (encode arg0) in
  let _args := push_back _args (encode arg1) in
  _data ← Client_invoke (address_of _client) "KRPC"
      "Expression_static_LessThan" _args;
  _result ← decoder_decode (T := KRPC.Expression) _data (address_of _client);
  mret _result.

(** [KRPC::Expression::less_than_or_equal], krpc.hpp line 1353 *)
Definition less_than_or_equal (_client : Client) (arg0 : KRPC.Expression)
    (arg1 : KRPC.Expression) : Prog KRPC.Expression :=
  let _args : list bytes := [] in
  let _args := push_back _args (encode arg0) in
  let _args := push_back _args (encode arg1) in
  _data ← Client_invoke (address_of _client) "KRPC"
      "Expression_static_LessThanOrEqual" _args;
  _result ← decoder_decode (T := KRPC.Expression) _data (address_of _client);
  mret _result.

(** [KRPC::Expression::max], krpc.hpp line 1363 *)
Definition max (_client : Client) (arg : KRPC.Expression)
    : Prog KRPC.Expression :=
  let _args : list bytes := [] in
  let _args := push_back _args (encode arg) in
  _data ← Client_invoke (address_of _client) "KRPC" "Expression_static_Max"
      _args;
  _result ← decoder_decode (T := KRPC.Expression) _data (address_of _client);
  mret _result.

(** [KRPC::Expression::min], krpc.hpp line 1372 *)
Definition min (_client : Client) (arg : KRPC.Expression)
    : Prog KRPC.Expression :=
  let _args : list bytes := [] in
  let _args := push_back _args (encode arg) in
  _data ← Client_invoke (address_of _client) "KRPC" "Expression_static_Min"
      _args;
  _result ← decoder_decode (T := KRPC.Expression) _data (address_of _client);
  mret _result.

(** [KRPC::Expression::modulo], krpc.hpp line 1381 *)
Definition modulo (_client : Client) (arg0 : KRPC.Expression)
    (arg1 : KRPC.Expression) : Prog KRPC.Expression :=
  let _args : list bytes := [] in
  let _args := push_back _args (encode arg0) in
  let _args := push_back _args (encode arg1) in
  _data ← Client_invoke (address_of _client) "KRPC" "Expression_static_Modulo"
      _args;
  _result ← decoder_decode (T := KRPC.Expression) _data (address_of _client);
  mret _result.

(** [KRPC::Expression::multiply], krpc.hpp line 1391 *)
Definition multiply (_client : Client) (arg0 : KRPC.Expression)
    (arg1 : KRPC.Expression) : Prog KRPC.Expression :=
  let _args : list bytes := [] in
  let _args := push_back _args (encode arg0) in
  let _args := push_back _args (encode arg1) in
  _data ← Client_invoke (address_of _client) "KRPC"
      "Expression_static_Multiply" _args;
  _result ← decoder_decode (T := KRPC.Expression) _data (address_of _client);
  mret _result.

(** [KRPC::Expression::not_], krpc.hpp line 1401 *)
Definition not_ (_client : Client) (arg : KRPC.Expression)
    : Prog KRPC.Expression :=
  let _args : list bytes := [] in
  let _args := push_back _args (encode arg) in
  _data ← Client_invoke (address_of _client) "KRPC" "Expression_static_Not"
      _args;
  _result ← decoder_decode (T := KRPC.Expression) _data (address_of _client);
  mret _result.

(** [KRPC::Expression::not_equal], krpc.hpp line 1410 *)
Definition not_equal (_client : Client) (arg0 : KRPC.Expression)
    (arg1 : KRPC.Expression) : Prog KRPC.Expression :=
  let _args : list bytes := [] in
  let _args := push_back _args (encode arg0) in
  let _args := push_back _args (encode arg1) in
  _data ← Client_invoke (address_of _client) "KRPC"
      "Expression_static_NotEqual" _args;
  _result ← decoder_decode (T := KRPC.Expression) _data (address_of _client);
  mret _result.

(** [KRPC::Expression::or_], krpc.hpp line 1420 *)
Definition or_ (_client : Client) (arg0 : KRPC.Expression)
    (arg1 : KRPC.Expression) : Prog KRPC.Expression :=
  let _args : list bytes := [] in
  let _args := push_back _args (encode arg0) in
  let _args := push_back _args (encode arg1) in
  _data ← Client_invoke (address_of _client) "KRPC" "Expression_static_Or"
      _args;
  _result ← decoder_decode (T := KRPC.Expression) _data (address_of _client);
  mret _result.

(** [KRPC::Expression::order_by], krpc.hpp line 1430 *)
Definition order_by (_client : Client) (arg : KRPC.Expression)
    (key : KRPC.Expression) : Prog KRPC.Expression :=
  let _args : list bytes := [] in
  let _args := push_back _args (encode arg) in
  let _args := push_back _args (encode key) in
  _data ← Client_invoke (address_of _client) "KRPC"
      "Expression_static_OrderBy" _args;
  _result ← decoder_decode (T := KRPC.Expression) _data (address_of _client);
  mret _result.

(** [KRPC::Expression::parameter], krpc.hpp line 1440 *)
Definition parameter (_client : Client) (name : string) (type : KRPC.Type_)
    : Prog KRPC.Expression :=
  let _args : list bytes := [] in
  let _args := push_back _args (encode name) in
  let _args := push_back _args (encode type) in
  _data ← Client_invoke (address_of _client) "KRPC"
      "Expression_static_Parameter" _args;
  _result ← decoder_decode (T := KRPC.Expression) _data (address_of _client);
  mret _result.

(** [KRPC::Expression::power], krpc.hpp line 1450 *)
Definition power (_client : Client) (arg0 : KRPC.Expression)
    (arg1 : KRPC.Expression) : Prog KRPC.Expression :=
  let _args : list bytes := [] in
  let _args := push_back _args (encode arg0) in
  let _args := push_back _args (encode arg1) in
  _data ← Client_invoke (address_of _client) "KRPC" "Expression_static_Power"
      _args;
  _result ← decoder_decode (T := KRPC.Expression) _data (address_of _client);
  mret _result.

(** [KRPC::Expression::right_shift], krpc.hpp line 1460 *)
Definition right_shift (_client : Client) (arg0 : KRPC.Expression)
    (arg1 : KRPC.Expression) : Prog KRPC.Expression :=
  let _args : list bytes := [] in
  let _args := push_back _args (encode arg0) in
  let _args := push_back _args (encode arg1) in
  _data ← Client_invoke (address_of _client) "KRPC"
      "Expression_static_RightShift" _args;
  _result ← decoder_decode (T := KRPC.Expression) _data (address_of _client);
  mret _result.

(** [KRPC::Expression::select], krpc.hpp line 1470 *)
Definition select (_client : Client) (arg : KRPC.Expression)
    (func : KRPC.Expression) : Prog KRPC.Expression :=
  let _args : list bytes := [] in
  let _args := push_back _args (encode arg) in
  let _args := push_back _args (encode func) in
  _data ← Client_invoke (address_of _client) "KRPC" "Expression_static_Select"
      _args;
  _result ← decoder_decode (T := KRPC.Expression) _data (address_of _client);
  mret _result.

(** [KRPC::Expression::subtract], krpc.hpp line 1480 *)
Definition subtract (_client : Client) (arg0 : KRPC.Expression)
    (arg1 : KRPC.Expression) : Prog KRPC.Expression :=
  let _args : list bytes := [] in
  let _args := push_back _args (encode arg0) in
  let _args := push_back _args (encode arg1) in
  _data ← Client_invoke (address_of _client) "KRPC"
      "Expression_static_Subtract" _args;
  _result ← decoder_decode (T := KRPC.Expression) _data (address_of _client);
  mret _result.

(** [KRPC::Expression::sum], krpc.hpp line 1490 *)
Definition sum (_client : Client) (arg : KRPC.Expression)
    : Prog KRPC.Expression :=
  let _args : list bytes := [] in
  let _args := push_back _args (encode arg) in
  _data ← Client_invoke (address_of _client) "KRPC" "Expression_static_Sum"
      _args;
  _result ← decoder_decode (T := KRPC.Expression) _data (address_of _client);
  mret _result.

(** [KRPC::Expression::to_list], krpc.hpp line 1499 *)
Definition to_list (_client : Client) (arg : KRPC.Expression)
    : Prog KRPC.Expression :=
  let _args : list bytes := [] in
  let _args := push_back _args (encode arg) in
  _data ← Client_invoke (address_of _client) "KRPC" "Expression_static_ToList"
      _args;
  _result ← decoder_decode (T := KRPC.Expression) _data (address_of _client);
  mret _result.

(** [KRPC::Expression::to_set], krpc.hpp line 1508 *)
Definition to_set (_client : Client) (arg : KRPC.Expression)
    : Prog KRPC.Expression :=
  let _args : list bytes := [] in
  let _args := push_back _args (encode arg) in
  _data ← Client_invoke (address_of _client) "KRPC" "Expression_static_ToSet"
      _args;
  _result ← decoder_decode (T := KRPC.Expression) _data (address_of _client);
  mret _result.

(** [KRPC::Expression::where], krpc.hpp line 1517 *)
Definition where_ (_client : Client) (arg : KRPC.Expression)
    (func : KRPC.Expression) : Prog KRPC.Expression :=
  let _args : list bytes := [] in
  let _args := push_back _args (encode arg) in
  let _args := push_back _args (encode func) in
  _data ← Client_invoke (address_of _client) "KRPC" "Expression_static_Where"
      _args;
  _result ← decoder_decode (T := KRPC.Expression) _data (address_of _client);
  mret _result.

(** [KRPC::Expression::add_stream], krpc.hpp line 1527 *)
Definition add_stream (_client : Client) (arg0 : KRPC.Expression)
    (arg1 : KRPC.Expression) : Prog (Stream KRPC.Expression) :=
  let _args : list bytes := [] in
  let _args := push_back _args (encode arg0) in
  let _args := push_back _args (encode arg1) in
  _call ← Client_build_call (address_of _client) "KRPC"
      "Expression_static_Add" _args;
  Stream_ KRPC.Expression (address_of _client) _call.

(** [KRPC::Expression::aggregate_stream], krpc.hpp line 1534 *)
Definition aggregate_stream (_client : Client) (arg : KRPC.Expression)
    (func : KRPC.Expression) : Prog (Stream KRPC.Expression) :=
  let _args : list bytes := [] in
  let _args := push_back _args (encode arg) in
  let _args := push_back _args (encode func) in
  _call ← Client_build_call (address_of _client) "KRPC"
      "Expression_static_Aggregate" _args;
  Stream_ KRPC.Expression (address_of _client) _call.

(** [KRPC::Expression::aggregate_with_seed_stream], krpc.hpp line 1541 *)
Definition aggregate_with_seed_stream (_client : Client)
    (arg : KRPC.Expression) (seed : KRPC.Expression) (func : KRPC.Expression)
    : Prog (Stream KRPC.Expression) :=
  let _args : list bytes := [] in
  let _args := push_back _args (encode arg) in
  let _args := push_back _args (encode seed) in
  let _args := push_back _args (encode func) in
  _call ← Client_build_call (address_of _client) "KRPC"
      "Expression_static_AggregateWithSeed" _args;
  Stream_ KRPC.Expression (address_of _client) _call.

(** [KRPC::Expression::all_stream], krpc.hpp line 1549 *)
Definition all_stream (_client : Client) (arg : KRPC.Expression)
    (predicate : KRPC.Expression) : Prog (Stream KRPC.Expression) :=
  let _args : list bytes := [] in
  let _args := push_back _args (encode arg) in
  let _args := push_back _args (encode predicate) in
  _call ← Client_build_call (address_of _client) "KRPC"
      "Expression_static_All" _args;
  Stream_ KRPC.Expression (address_of _client) _call.

(** [KRPC::Expression::and__stream], krpc.hpp line 1556 *)
Definition and__stream (_client : Client) (arg0 : KRPC.Expression)
    (arg1 : KRPC.Expression) : Prog (Stream KRPC.Expression) :=
  let _args : list bytes := [] in
  let _args := push_back _args (encode arg0) in
  let _args := push_back _args (encode arg1) in
  _call ← Client_build_call (address_of _client) "KRPC"
      "Expression_static_And" _args;
  Stream_ KRPC.Expression (address_of _client) _call.

(** [KRPC::Expression::any_stream], krpc.hpp line 1563 *)
Definition any_stream (_client : Client) (arg : KRPC.Expression)
    (predicate : KRPC.Expression) : Prog (Stream KRPC.Expression) :=
  let _args : list bytes := [] in
  let _args := push_back _args (encode arg) in
  let _args := push_back _args (encode predicate) in
  _call ← Client_build_call (address_of _client) "KRPC"
      "Expression_static_Any" _args;
  Stream_ KRPC.Expression (address_of _client) _call.

(** [KRPC::Expression::average_stream], krpc.hpp line 1570 *)
Definition average_stream (_client : Client) (arg : KRPC.Expression)
    : Prog (Stream KRPC.Expression) :=
  let _args : list bytes := [] in
  let _args := push_back _args (encode arg) in
  _call ← Client_build_call (address_of _client) "KRPC"
      "Expression_static_Average" _args;
  Stream_ KRPC.Expression (address_of _client) _call.

(** [KRPC::Expression::call_stream], krpc.hpp line 1576 *)
Definition call_stream (_client : Client) (call : schema_ProcedureCall)
    : Prog (Stream KRPC.Expression) :=
  let _args : list bytes := [] in
  let _args := push_back _args (encode call) in
  _call ← Client_build_call (address_of _client) "KRPC"
      "Expression_static_Call" _args;
  Stream_ KRPC.Expression (address_of _client) _call.

(** [KRPC::Expression::cast_stream], krpc.hpp line 1582 *)
Definition cast_stream (_client : Client) (arg : KRPC.Expression)
    (type : KRPC.Type_) : Prog (Stream KRPC.Expression) :=
  let _args : list bytes := [] in
  let _args := push_back _args (encode arg) in
  let _args := push_back _args (encode type) in
  _call ← Client_build_call (address_of _client) "KRPC"
      "Expression_static_Cast" _args;
  Stream_ KRPC.Expression (address_of _client) _call.

(** [KRPC::Expression::concat_stream], krpc.hpp line 1589 *)
Definition concat_stream (_client : Client) (arg1 : KRPC.Expression)
    (arg2 : KRPC.Expression) : Prog (Stream KRPC.Expression) :=
  let _args : list bytes := [] in
  let _args := push_back _args (encode arg1) in
  let _args := push_back _args (encode arg2) in
  _call ← Client_build_call (address_of _client) "KRPC"
      "Expression_static_Concat" _args;
  Stream_ KRPC.Expression (address_of _client) _call.

(** [KRPC::Expression::constant_bool_stream], krpc.hpp line 1596 *)
Definition constant_bool_stream (_client : Client) (value : bool)
    : Prog (Stream KRPC.Expression) :=
  let _args : list bytes := [] in
  let _args := push_back _args (encode value) in
  _call ← Client_build_call (address_of _client) "KRPC"
      "Expression_static_ConstantBool" _args;
  Stream_ KRPC.Expression (address_of _client) _call.

(** [KRPC::Expression::constant_double_stream], krpc.hpp line 1602 *)
Definition constant_double_stream (_client : Client) (value : double)
    : Prog (Stream KRPC.Expression) :=
  let _args : list bytes := [] in
  let _args := push_back _args (encode value) in
  _call ← Client_build_call (address_of _client) "KRPC"
      "Expression_static_ConstantDouble" _args;
  Stream_ KRPC.Expression (address_of _client) _call.

(** [KRPC::Expression::constant_float_stream], krpc.hpp line 1608 *)
Definition constant_float_stream (_client : Client) (value : float)
    : Prog (Stream KRPC.Expression) :=
  let _args : list bytes := [] in
  let _args := push_back _args (encode value) in
  _call ← Client_build_call (address_of _client) "KRPC"
      "Expression_static_ConstantFloat" _args;
  Stream_ KRPC.Expression (address_of _client) _call.

(** [KRPC::Expression::constant_int_stream], krpc.hpp line 1614 *)
Definition constant_int_stream (_client : Client) (value : int32_t)
    : Prog (Stream KRPC.Expression) :=
  let _args : list bytes := [] in
  let _args := push_back _args (encode value) in
  _call ← Client_build_call (address_of _client) "KRPC"
      "Expression_static_ConstantInt" _args;
  Stream_ KRPC.Expression (address_of _client) _call.

(** [KRPC::Expression::constant_string_stream], krpc.hpp line 1620 *)
Definition constant_string_stream (_client : Client) (value : string)
    : Prog (Stream KRPC.Expression) :=
  let _args : list bytes := [] in
  let _args := push_back _args (encode value) in
  _call ← Client_build_call (address_of _client) "KRPC"
      "Expression_static_ConstantString" _args;
  Stream_ KRPC.Expression (address_of _client) _call.

(** [KRPC::Expression::contains_stream], krpc.hpp line 1626 *)
Definition contains_stream (_client : Client) (arg : KRPC.Expression)
    (value : KRPC.Expression) : Prog (Stream KRPC.Expression) :=
  let _args : list bytes := [] in
  let _args := push_back _args (encode arg) in
  let _args := push_back _args (encode value) in
  _call ← Client_build_call (address_of _client) "KRPC"
      "Expression_static_Contains" _args;
  Stream_ KRPC.Expression (address_of _client) _call.

(** [KRPC::Expression::count_stream], krpc.hpp line 1633 *)
Definition count_stream (_client : Client) (arg : KRPC.Expression)
    : Prog (Stream KRPC.Expression) :=
  let _args : list bytes := [] in
  let _args := push_back _args (encode arg) in
  _call ← Client_build_call (address_of _client) "KRPC"
      "Expression_static_Count" _args;
  Stream_ KRPC.Expression (address_of _client) _call.

(** [KRPC::Expression::create_dictionary_stream], krpc.hpp line 1639 *)
Definition create_dictionary_stream (_client : Client)
    (keys : list KRPC.Expression) (values : list KRPC.Expression)
    : Prog (Stream KRPC.Expression) :=
  let _args : list bytes := [] in
  let _args := push_back _args (encode keys) in
  let _args := push_back _args (encode values) in
  _call ← Client_build_call (address_of _client) "KRPC"
      "Expression_static_CreateDictionary" _args;
  Stream_ KRPC.Expression (address_of _client) _call.

(** [KRPC::Expression::create_list_stream], krpc.hpp line 1646 *)
Definition create_list_stream (_client : Client)
    (values : list KRPC.Expression) : Prog (Stream KRPC.Expression) :=
  let _args : list bytes := [] in
  let _args := push_back _args (encode values) in
  _call ← Client_build_call (address_of _client) "KRPC"
      "Expression_static_CreateList" _args;
  Stream_ KRPC.Expression (address_of _client) _call.

(** [KRPC::Expression::create_set_stream], krpc.hpp line 1652 *)
Definition create_set_stream (_client : Client)
    (values : gset KRPC.Expression) : Prog (Stream KRPC.Expression) :=
  let _args : list bytes := [] in
  let _args := push_back _args (encode values) in
  _call ← Client_build_call (address_of _client) "KRPC"
      "Expression_static_CreateSet" _args;
  Stream_ KRPC.Expression (address_of _client) _call.

(** [KRPC::Expression::create_tuple_stream], krpc.hpp line 1658 *)
Definition create_tuple_stream (_client : Client)
    (elements : list KRPC.Expression) : Prog (Stream KRPC.Expression) :=
  let _args : list bytes := [] in
  let _args := push_back _args (encode elements) in
  _call ← Client_build_call (address_of _client) "KRPC"
      "Expression_static_CreateTuple" _args;
  Stream_ KRPC.Expression (address_of _client) _call.

(** [KRPC::Expression::divide_stream], krpc.hpp line 1664 *)
Definition divide_stream (_client : Client) (arg0 : KRPC.Expression)
    (arg1 : KRPC.Expression) : Prog (Stream KRPC.Expression) :=
  let _args : list bytes := [] in
  let _args := push_back _args (encode arg0) in
  let _args := push_back _args (encode arg1) in
  _call ← Client_build_call (address_of _client) "KRPC"
      "Expression_static_Divide" _args;
  Stream_ KRPC.Expression (address_of _client) _call.

(** [KRPC::Expression::equal_stream], krpc.hpp line 1671 *)
Definition equal_stream (_client : Client) (arg0 : KRPC.Expression)
    (arg1 : KRPC.Expression) : Prog (Stream KRPC.Expression) :=
  let _args : list bytes := [] in
  let _args := push_back _args (encode arg0) in
  let _args := push_back _args (encode arg1) in
  _call ← Client_build_call (address_of _client) "KRPC"
      "Expression_static_Equal" _args;
  Stream_ KRPC.Expression (address_of _client) _call.

(** [KRPC::Expression::exclusive_or_stream], krpc.hpp line 1678 *)
Definition exclusive_or_stream (_client : Client) (arg0 : KRPC.Expression)
    (arg1 : KRPC.Expression) : Prog (Stream KRPC.Expression) :=
  let _args : list bytes := [] in
  let _args := push_back _args (encode arg0) in
  let _args := push_back _args (encode arg1) in
  _call ← Client_build_call (address_of _client) "KRPC"
      "Expression_static_ExclusiveOr" _args;
  Stream_ KRPC.Expression (address_of _client) _call.

(** [KRPC::Expression::function_stream], krpc.hpp line 1685 *)
Definition function_stream (_client : Client)
    (parameters : list KRPC.Expression) (body : KRPC.Expression)
    : Prog (Stream KRPC.Expression) :=
  let _args : list bytes := [] in
  let _args := push_back _args (encode parameters) in
  let _args := push_back _args (encode body) in
  _call ← Client_build_call (address_of _client) "KRPC"
      "Expression_static_Function" _args;
  Stream_ KRPC.Expression (address_of _client) _call.

(** [KRPC::Expression::get_stream], krpc.hpp line 1692 *)
Definition get_stream (_client : Client) (arg : KRPC.Expression)
    (index : KRPC.Expression) : Prog (Stream KRPC.Expression) :=
  let _args : list bytes := [] in
  let _args := push_back _args (encode arg) in
  let _args := push_back _args (encode index) in
  _call ← Client_build_call (address_of _client) "KRPC"
      "Expression_static_Get" _args;
  Stream_ KRPC.Expression (address_of _client) _call.

(** [KRPC::Expression::greater_than_stream], krpc.hpp line 1699 *)
Definition greater_than_stream (_client : Client) (arg0 : KRPC.Expression)
    (arg1 : KRPC.Expression) : Prog (Stream KRPC.Expression) :=
  let _args : list bytes := [] in
  let _args := push_back _args (encode arg0) in
  let _args := push_back _args (encode arg1) in
  _call ← Client_build_call (address_of _client) "KRPC"
      "Expression_static_GreaterThan" _args;
  Stream_ KRPC.Expression (address_of _client) _call.

(** [KRPC::Expression::greater_than_or_equal_stream], krpc.hpp line 1706 *)
Definition greater_than_or_equal_stream (_client : Client)
    (arg0 : KRPC.Expression) (arg1 : KRPC.Expression)
    : Prog (Stream KRPC.Expression) :=
  let _args : list bytes := [] in
  let _args := push_back _args (encode arg0) in
  let _args := push_back _args (encode arg1) in
  _call ← Client_build_call (address_of _client) "KRPC"
      "Expression_static_GreaterThanOrEqual" _args;
  Stream_ KRPC.Expression (address_of _client) _call.

(** [KRPC::Expression::invoke_stream], krpc.hpp line 1713 *)
Definition invoke_stream (_client : Client) (function : KRPC.Expression)
    (args : gmap string KRPC.Expression) : Prog (Stream KRPC.Expression) :=
  let _args : list bytes := [] in
  let _args := push_back _args (encode function) in
  let _args := push_back _args (encode args) in
  _call ← Client_build_call (address_of _client) "KRPC"
      "Expression_static_Invoke" _args;
  Stream_ KRPC.Expression (address_of _client) _call.

(** [KRPC::Expression::left_shift_stream], krpc.hpp line 1720 *)
Definition left_shift_stream (_client : Client) (arg0 : KRPC.Expression)
    (arg1 : KRPC.Expression) : Prog (Stream KRPC.Expression) :=
  let _args : list bytes := [] in
  let _args := push_back _args (encode arg0) in
  let _args := push_back _args (encode arg1) in
  _call ← Client_build_call (address_of _client) "KRPC"
      "Expression_static_LeftShift" _args;
  Stream_ KRPC.Expression (address_of _client) _call.

(** [KRPC::Expression::less_than_stream], krpc.hpp line 1727 *)
Definition less_than_stream (_client : Client) (arg0 : KRPC.Expression)
    (arg1 : KRPC.Expression) : Prog (Stream KRPC.Expression) :=
  let _args : list bytes := [] in
  let _args := push_back _args (encode arg0) in
  let _args := push_back _args (encode arg1) in
  _call ← Client_build_call (address_of _client) "KRPC"
      "Expression_static_LessThan" _args;
  Stream_ KRPC.Expression (address_of _client) _call.

(** [KRPC::Expression::less_than_or_equal_stream], krpc.hpp line 1734 *)
Definition less_than_or_equal_stream (_client : Client)
    (arg0 : KRPC.Expression) (arg1 : KRPC.Expression)
    : Prog (Stream KRPC.Expression) :=
  let _args : list bytes := [] in
  let _args := push_back _args (encode arg0) in
  let _args := push_back _args (encode arg1) in
  _call ← Client_build_call (address_of _client) "KRPC"
      "Expression_static_LessThanOrEqual" _args;
  Stream_ KRPC.Expression (address_of _client) _call.

(** [KRPC::Expression::max_stream], krpc.hpp line 1741 *)
Definition max_stream (_client : Client) (arg : KRPC.Expression)
    : Prog (Stream KRPC.Expression) :=
  let _args : list bytes := [] in
  let _args := push_back _args (encode arg) in
  _call ← Client_build_call (address_of _client) "KRPC"
      "Expression_static_Max" _args;
  Stream_ KRPC.Expression (address_of _client) _call.

(** [KRPC::Expression::min_stream], krpc.hpp line 1747 *)
Definition min_stream (_client : Client) (arg : KRPC.Expression)
    : Prog (Stream KRPC.Expression) :=
  let _args : list bytes := [] in
  let _args := push_back _args (encode arg) in
  _call ← Client_build_call (address_of _client) "KRPC"
      "Expression_static_Min" _args;
  Stream_ KRPC.Expression (address_of _client) _call.

(** [KRPC::Expression::modulo_stream], krpc.hpp line 1753 *)
Definition modulo_stream (_client : Client) (arg0 : KRPC.Expression)
    (arg1 : KRPC.Expression) : Prog (Stream KRPC.Expression) :=
  let _args : list bytes := [] in
  let _args := push_back _args (encode arg0) in
  let _args := push_back _args (encode arg1) in
  _call ← Client_build_call (address_of _client) "KRPC"
      "Expression_static_Modulo" _args;
  Stream_ KRPC.Expression (address_of _client) _call.

(** [KRPC::Expression::multiply_stream], krpc.hpp line 1760 *)
Definition multiply_stream (_client : Client) (arg0 : KRPC.Expression)
    (arg1 : KRPC.Expression) : Prog (Stream KRPC.Expression) :=
  let _args : list bytes := [] in
  let _args := push_back _args (encode arg0) in
  let _args := push_back _args (encode arg1) in
  _call ← Client_build_call (address_of _client) "KRPC"
      "Expression_static_Multiply" _args;
  Stream_ KRPC.Expression (address_of _client) _call.

(** [KRPC::Expression::not__stream], krpc.hpp line 1767 *)
Definition not__stream (_client : Client) (arg : KRPC.Expression)
    : Prog (Stream KRPC.Expression) :=
  let _args : list bytes := [] in
  let _args := push_back _args (encode arg) in
  _call ← Client_build_call (address_of _client) "KRPC"
      "Expression_static_Not" _args;
  Stream_ KRPC.Expression (address_of _client) _call.

(** [KRPC::Expression::not_equal_stream], krpc.hpp line 1773 *)
Definition not_equal_stream (_client : Client) (arg0 : KRPC.Expression)
    (arg1 : KRPC.Expression) : Prog (Stream KRPC.Expression) :=
  let _args : list bytes := [] in
  let _args := push_back _args (encode arg0) in
  let _args := push_back _args (encode arg1) in
  _call ← Client_build_call (address_of _client) "KRPC"
      "Expression_static_NotEqual" _args;
  Stream_ KRPC.Expression (address_of _client) _call.

(** [KRPC::Expression::or__stream], krpc.hpp line 1780 *)
Definition or__stream (_client : Client) (arg0 : KRPC.Expression)
    (arg1 : KRPC.Expression) : Prog (Stream KRPC.Expression) :=
  let _args : list bytes := [] in
  let _args := push_back _args (encode arg0) in
  let _args := push_back _args (encode arg1) in
  _call ← Client_build_call (address_of _client) "KRPC" "Expression_static_Or"
      _args;
  Stream_ KRPC.Expression (address_of _client) _call.

(** [KRPC::Expression::order_by_stream], krpc.hpp line 1787 *)
Definition order_by_stream (_client : Client) (arg : KRPC.Expression)
    (key : KRPC.Expression) : Prog (Stream KRPC.Expression) :=
  let _args : list bytes := [] in
  let _args := push_back _args (encode arg) in
  let _args := push_back _args (encode key) in
  _call ← Client_build_call (address_of _client) "KRPC"
      "Expression_static_OrderBy" _args;
  Stream_ KRPC.Expression (address_of _client) _call.

(** [KRPC::Expression::parameter_stream], krpc.hpp line 1794 *)
Definition parameter_stream (_client : Client) (name : string)
    (type : KRPC.Type_) : Prog (Stream KRPC.Expression) :=
  let _args : list bytes := [] in
  let _args := push_back _args (encode name) in
  let _args := push_back _args (encode type) in
  _call ← Client_build_call (address_of _client) "KRPC"
      "Expression_static_Parameter" _args;
  Stream_ KRPC.Expression (address_of _client) _call.

(** [KRPC::Expression::power_stream], krpc.hpp line 1801 *)
Definition power_stream (_client : Client) (arg0 : KRPC.Expression)
    (arg1 : KRPC.Expression) : Prog (Stream KRPC.Expression) :=
  let _args : list bytes := [] in
  let _args := push_back _args (encode arg0) in
  let _args := push_back _args (encode arg1) in
  _call ← Client_build_call (address_of _client) "KRPC"
      "Expression_static_Power" _args;
  Stream_ KRPC.Expression (address_of _client) _call.

(** [KRPC::Expression::right_shift_stream], krpc.hpp line 1808 *)
Definition right_shift_stream (_client : Client) (arg0 : KRPC.Expression)
    (arg1 : KRPC.Expression) : Prog (Stream KRPC.Expression) :=
  let _args : list bytes := [] in
  let _args := push_back _args (encode arg0) in
  let _args := push_back _args (encode arg1) in
  _call ← Client_build_call (address_of _client) "KRPC"
      "Expression_static_RightShift" _args;
  Stream_ KRPC.Expression (address_of _client) _call.

(** [KRPC::Expression::select_stream], krpc.hpp line 1815 *)
Definition select_stream (_client : Client) (arg : KRPC.Expression)
    (func : KRPC.Expression) : Prog (Stream KRPC.Expression) :=
  let _args : list bytes := [] in
  let _args := push_back _args (encode arg) in
  let _args := push_back _args (encode func) in
  _call ← Client_build_call (address_of _client) "KRPC"
      "Expression_static_Select" _args;
  Stream_ KRPC.Expression (address_of _client) _call.

(** [KRPC::Expression::subtract_stream], krpc.hpp line 1822 *)
Definition subtract_stream (_client : Client) (arg0 : KRPC.Expression)
    (arg1 : KRPC.Expression) : Prog (Stream KRPC.Expression) :=
  let _args : list bytes := [] in
  let _args := push_back _args (encode arg0) in
  let _args := push_back _args (encode arg1) in
  _call ← Client_build_call (address_of _client) "KRPC"
      "Expression_static_Subtract" _args;
  Stream_ KRPC.Expression (address_of _client) _call.

(** [KRPC::Expression::sum_stream], krpc.hpp line 1829 *)
Definition sum_stream (_client : Client) (arg : KRPC.Expression)
    : Prog (Stream KRPC.Expression) :=
  let _args : list bytes := [] in
  let _args := push_back _args (encode arg) in
  _call ← Client_build_call (address_of _client) "KRPC"
      "Expression_static_Sum" _args;
  Stream_ KRPC.Expression (address_of _client) _call.

(** [KRPC::Expression::to_list_stream], krpc.hpp line 1835 *)
Definition to_list_stream (_client : Client) (arg : KRPC.Expression)
    : Prog (Stream KRPC.Expression) :=
  let _args : list bytes := [] in
  let _args := push_back _args (encode arg) in
  _call ← Client_build_call (address_of _client) "KRPC"
      "Expression_static_ToList" _args;
  Stream_ KRPC.Expression (address_of _client) _call.

(** [KRPC::Expression::to_set_stream], krpc.hpp line 1841 *)
Definition to_set_stream (_client : Client) (arg : KRPC.Expression)
    : Prog (Stream KRPC.Expression) :=
  let _args : list bytes := [] in
  let _args := push_back _args (encode arg) in
  _call ← Client_build_call (address_of _client) "KRPC"
      "Expression_static_ToSet" _args;
  Stream_ KRPC.Expression (address_of _client) _call.

(** [KRPC::Expression::where_stream], krpc.hpp line 1847 *)
Definition where_stream (_client : Client) (arg : KRPC.Expression)
    (func : KRPC.Expression) : Prog (Stream KRPC.Expression) :=
  let _args : list bytes := [] in
  let _args := push_back _args (encode arg) in
  let _args := push_back _args (encode func) in
  _call ← Client_build_call (address_of _client) "KRPC"
      "Expression_static_Where" _args;
  Stream_ KRPC.Expression (address_of _client) _call.

(** [KRPC::Expression::add_call], krpc.hpp line 1854 *)
Definition add_call (_client : Client) (arg0 : KRPC.Expression)
    (arg1 : KRPC.Expression) : Prog schema_ProcedureCall :=
  let _args : list bytes := [] in
  let _args := push_back _args (encode arg0) in
  let _args := push_back _args (encode arg1) in
  Client_build_call (address_of _client) "KRPC" "Expression_static_Add" _args.

(** [KRPC::Expression::aggregate_call], krpc.hpp line 1861 *)
Definition aggregate_call (_client : Client) (arg : KRPC.Expression)
    (func : KRPC.Expression) : Prog schema_ProcedureCall :=
  let _args : list bytes := [] in
  let _args := push_back _args (encode arg) in
  let _args := push_back _args (encode func) in
  Client_build_call (address_of _client) "KRPC" "Expression_static_Aggregate"
      _args.

(** [KRPC::Expression::aggregate_with_seed_call], krpc.hpp line 1868 *)
Definition aggregate_with_seed_call (_client : Client) (arg : KRPC.Expression)
    (seed : KRPC.Expression) (func : KRPC.Expression)
    : Prog schema_ProcedureCall :=
  let _args : list bytes := [] in
  let _args := push_back _args (encode arg) in
  let _args := push_back _args (encode seed) in
  let _args := push_back _args (encode func) in
  Client_build_call (address_of _client) "KRPC"
      "Expression_static_AggregateWithSeed" _args.

(** [KRPC::Expression::all_call], krpc.hpp line 1876 *)
Definition all_call (_client : Client) (arg : KRPC.Expression)
    (predicate : KRPC.Expression) : Prog schema_ProcedureCall :=
  let _args : list bytes := [] in
  let _args := push_back _args (encode arg) in
  let _args := push_back _args (encode predicate) in
  Client_build_call (address_of _client) "KRPC" "Expression_static_All" _args.

(** [KRPC::Expression::and__call], krpc.hpp line 1883 *)
Definition and__call (_client : Client) (arg0 : KRPC.Expression)
    (arg1 : KRPC.Expression) : Prog schema_ProcedureCall :=
  let _args : list bytes := [] in
  let _args := push_back _args (encode arg0) in
  let _args := push_back _args (encode arg1) in
  Client_build_call (address_of _client) "KRPC" "Expression_static_And" _args.

(** [KRPC::Expression::any_call], krpc.hpp line 1890 *)
Definition any_call (_client : Client) (arg : KRPC.Expression)
    (predicate : KRPC.Expression) : Prog schema_ProcedureCall :=
  let _args : list bytes := [] in
  let _args := push_back _args (encode arg) in
  let _args := push_back _args (encode predicate) in
  Client_build_call (address_of _client) "KRPC" "Expression_static_Any" _args.

(** [KRPC::Expression::average_call], krpc.hpp line 1897 *)
Definition average_call (_client : Client) (arg : KRPC.Expression)
    : Prog schema_ProcedureCall :=
  let _args : list bytes := [] in
  let _args := push_back _args (encode arg) in
  Client_build_call (address_of _client) "KRPC" "Expression_static_Average"
      _args.

(** [KRPC::Expression::call_call], krpc.hpp line 1903 *)
Definition call_call (_client : Client) (call : schema_ProcedureCall)
    : Prog schema_ProcedureCall :=
  let _args : list bytes := [] in
  let _args := push_back _args (encode call) in
  Client_build_call (address_of _client) "KRPC" "Expression_static_Call"
      _args.

(** [KRPC::Expression::cast_call], krpc.hpp line 1909 *)
Definition cast_call (_client : Client) (arg : KRPC.Expression)
    (type : KRPC.Type_) : Prog schema_ProcedureCall :=
  let _args : list bytes := [] in
  let _args := push_back _args (encode arg) in
  let _args := push_back _args (encode type) in
  Client_build_call (address_of _client) "KRPC" "Expression_static_Cast"
      _args.

(** [KRPC::Expression::concat_call], krpc.hpp line 1916 *)
Definition concat_call (_client : Client) (arg1 : KRPC.Expression)
    (arg2 : KRPC.Expression) : Prog schema_ProcedureCall :=
  let _args : list bytes := [] in
  let _args := push_back _args (encode arg1) in
  let _args := push_back _args (encode arg2) in
  Client_build_call (address_of _client) "KRPC" "Expression_static_Concat"
      _args.

(** [KRPC::Expression::constant_bool_call], krpc.hpp line 1923 *)
Definition constant_bool_call (_client : Client) (value : bool)
    : Prog schema_ProcedureCall :=
  let _args : list bytes := [] in
  let _args := push_back _args (encode value) in
  Client_build_call (address_of _client) "KRPC"
      "Expression_static_ConstantBool" _args.

(** [KRPC::Expression::constant_double_call], krpc.hpp line 1929 *)
Definition constant_double_call (_client : Client) (value : double)
    : Prog schema_ProcedureCall :=
  let _args : list bytes := [] in
  let _args := push_back _args (encode value) in
  Client_build_call (address_of _client) "KRPC"
      "Expression_static_ConstantDouble" _args.

(** [KRPC::Expression::constant_float_call], krpc.hpp line 1935 *)
Definition constant_float_call (_client : Client) (value : float)
    : Prog schema_ProcedureCall :=
  let _args : list bytes := [] in
  let _args := push_back _args (encode value) in
  Client_build_call (address_of _client) "KRPC"
      "Expression_static_ConstantFloat" _args.

(** [KRPC::Expression::constant_int_call], krpc.hpp line 1941 *)
Definition constant_int_call (_client : Client) (value : int32_t)
    : Prog schema_ProcedureCall :=
  let _args : list bytes := [] in
  let _args := push_back _args (encode value) in
  Client_build_call (address_of _client) "KRPC"
      "Expression_static_ConstantInt" _args.

(** [KRPC::Expression::constant_string_call], krpc.hpp line 1947 *)
Definition constant_string_call (_client : Client) (value : string)
    : Prog schema_ProcedureCall :=
  let _args : list bytes := [] in
  let _args := push_back _args (encode value) in
  Client_build_call (address_of _client) "KRPC"
      "Expression_static_ConstantString" _args.

(** [KRPC::Expression::contains_call], krpc.hpp line 1953 *)
Definition contains_call (_client : Client) (arg : KRPC.Expression)
    (value : KRPC.Expression) : Prog schema_ProcedureCall :=
  let _args : list bytes := [] in
  let _args := push_back _args (encode arg) in
  let _args := push_back _args (encode value) in
  Client_build_call (address_of _client) "KRPC" "Expression_static_Contains"
      _args.

(** [KRPC::Expression::count_call], krpc.hpp line 1960 *)
Definition count_call (_client : Client) (arg : KRPC.Expression)
    : Prog schema_ProcedureCall :=
  let _args : list bytes := [] in
  let _args := push_back _args (encode arg) in
  Client_build_call (address_of _client) "KRPC" "Expression_static_Count"
      _args.

(** [KRPC::Expression::create_dictionary_call], krpc.hpp line 1966 *)
Definition create_dictionary_call (_client : Client)
    (keys : list KRPC.Expression) (values : list KRPC.Expression)
    : Prog schema_ProcedureCall :=
  let _args : list bytes := [] in
  let _args := push_back _args (encode keys) in
  let _args := push_back _args (encode values) in
  Client_build_call (address_of _client) "KRPC"
      "Expression_static_CreateDictionary" _args.

(** [KRPC::Expression::create_list_call], krpc.hpp line 1973 *)
Definition create_list_call (_client : Client) (values : list KRPC.Expression)
    : Prog schema_ProcedureCall :=
  let _args : list bytes := [] in
  let _args := push_back _args (encode values) in
  Client_build_call (address_of _client) "KRPC" "Expression_static_CreateList"
      _args.

(** [KRPC::Expression::create_set_call], krpc.hpp line 1979 *)
Definition create_set_call (_client : Client) (values : gset KRPC.Expression)
    : Prog schema_ProcedureCall :=
  let _args : list bytes := [] in
  let _args := push_back _args (encode values) in
  Client_build_call (address_of _client) "KRPC" "Expression_static_CreateSet"
      _args.

(** [KRPC::Expression::create_tuple_call], krpc.hpp line 1985 *)
Definition create_tuple_call (_client : Client)
    (elements : list KRPC.Expression) : Prog schema_ProcedureCall :=
  let _args : list bytes := [] in
  let _args := push_back _args (encode elements) in
  Client_build_call (address_of _client) "KRPC"
      "Expression_static_CreateTuple" _args.

(** [KRPC::Expression::divide_call], krpc.hpp line 1991 *)
Definition divide_call (_client : Client) (arg0 : KRPC.Expression)
    (arg1 : KRPC.Expression) : Prog schema_ProcedureCall :=
  let _args : list bytes := [] in
  let _args := push_back _args (encode arg0) in
  let _args := push_back _args (encode arg1) in
  Client_build_call (address_of _client) "KRPC" "Expression_static_Divide"
      _args.

(** [KRPC::Expression::equal_call], krpc.hpp line 1998 *)
Definition equal_call (_client : Client) (arg0 : KRPC.Expression)
    (arg1 : KRPC.Expression) : Prog schema_ProcedureCall :=
  let _args : list bytes := [] in
  let _args := push_back _args (encode arg0) in
  let _args := push_back _args (encode arg1) in
  Client_build_call (address_of _client) "KRPC" "Expression_static_Equal"
      _args.

(** [KRPC::Expression::exclusive_or_call], krpc.hpp line 2005 *)
Definition exclusive_or_call (_client : Client) (arg0 : KRPC.Expression)
    (arg1 : KRPC.Expression) : Prog schema_ProcedureCall :=
  let _args : list bytes := [] in
  let _args := push_back _args (encode arg0) in
  let _args := push_back _args (encode arg1) in
  Client_build_call (address_of _client) "KRPC"
      "Expression_static_ExclusiveOr" _args.

(** [KRPC::Expression::function_call], krpc.hpp line 2012 *)
Definition function_call (_client : Client)
    (parameters : list KRPC.Expression) (body : KRPC.Expression)
    : Prog schema_ProcedureCall :=
  let _args : list bytes := [] in
  let _args := push_back _args (encode parameters) in
  let _args := push_back _args (encode body) in
  Client_build_call (address_of _client) "KRPC" "Expression_static_Function"
      _args.

(** [KRPC::Expression::get_call], krpc.hpp line 2019 *)
Definition get_call (_client : Client) (arg : KRPC.Expression)
    (index : KRPC.Expression) : Prog schema_ProcedureCall :=
  let _args : list bytes := [] in
  let _args := push_back _args (encode arg) in
  let _args := push_back _args (encode index) in
  Client_build_call (address_of _client) "KRPC" "Expression_static_Get" _args.

(** [KRPC::Expression::greater_than_call], krpc.hpp line 2026 *)
Definition greater_than_call (_client : Client) (arg0 : KRPC.Expression)
    (arg1 : KRPC.Expression) : Prog schema_ProcedureCall :=
  let _args : list bytes := [] in
  let _args := push_back _args (encode arg0) in
  let _args := push_back _args (encode arg1) in
  Client_build_call (address_of _client) "KRPC"
      "Expression_static_GreaterThan" _args.

(** [KRPC::Expression::greater_than_or_equal_call], krpc.hpp line 2033 *)
Definition greater_than_or_equal_call (_client : Client)
    (arg0 : KRPC.Expression) (arg1 : KRPC.Expression)
    : Prog schema_ProcedureCall :=
  let _args : list bytes := [] in
  let _args := push_back _args (encode arg0) in
  let _args := push_back _args (encode arg1) in
  Client_build_call (address_of _client) "KRPC"
      "Expression_static_GreaterThanOrEqual" _args.

(** [KRPC::Expression::invoke_call], krpc.hpp line 2040 *)
Definition invoke_call (_client : Client) (function : KRPC.Expression)
    (args : gmap string KRPC.Expression) : Prog schema_ProcedureCall :=
  let _args : list bytes := [] in
  let _args := push_back _args (encode function) in
  let _args := push_back _args (encode args) in
  Client_build_call (address_of _client) "KRPC" "Expression_static_Invoke"
      _args.

(** [KRPC::Expression::left_shift_call], krpc.hpp line 2047 *)
Definition left_shift_call (_client : Client) (arg0 : KRPC.Expression)
    (arg1 : KRPC.Expression) : Prog schema_ProcedureCall :=
  let _args : list bytes := [] in
  let _args := push_back _args (encode arg0) in
  let _args := push_back _args (encode arg1) in
  Client_build_call (address_of _client) "KRPC" "Expression_static_LeftShift"
      _args.

(** [KRPC::Expression::less_than_call], krpc.hpp line 2054 *)
Definition less_than_call (_client : Client) (arg0 : KRPC.Expression)
    (arg1 : KRPC.Expression) : Prog schema_ProcedureCall :=
  let _args : list bytes := [] in
  let _args := push_back _args (encode arg0) in
  let _args := push_back _args (encode arg1) in
  Client_build_call (address_of _client) "KRPC" "Expression_static_LessThan"
      _args.

(** [KRPC::Expression::less_than_or_equal_call], krpc.hpp line 2061 *)
Definition less_than_or_equal_call (_client : Client) (arg0 : KRPC.Expression)
    (arg1 : KRPC.Expression) : Prog schema_ProcedureCall :=
  let _args : list bytes := [] in
  let _args := push_back _args (encode arg0) in
  let _args := push_back _args (encode arg1) in
  Client_build_call (address_of _client) "KRPC"
      "Expression_static_LessThanOrEqual" _args.

(** [KRPC::Expression::max_call], krpc.hpp line 2068 *)
Definition max_call (_client : Client) (arg : KRPC.Expression)
    : Prog schema_ProcedureCall :=
  let _args : list bytes := [] in
  let _args := push_back _args (encode arg) in
  Client_build_call (address_of _client) "KRPC" "Expression_static_Max" _args.

(** [KRPC::Expression::min_call], krpc.hpp line 2074 *)
Definition min_call (_client : Client) (arg : KRPC.Expression)
    : Prog schema_ProcedureCall :=
  let _args : list bytes := [] in
  let _args := push_back _args (encode arg) in
  Client_build_call (address_of _client) "KRPC" "Expression_static_Min" _args.

(** [KRPC::Expression::modulo_call], krpc.hpp line 2080 *)
Definition modulo_call (_client : Client) (arg0 : KRPC.Expression)
    (arg1 : KRPC.Expression) : Prog schema_ProcedureCall :=
  let _args : list bytes := [] in
  let _args := push_back _args (encode arg0) in
  let _args := push_back _args (encode arg1) in
  Client_build_call (address_of _client) "KRPC" "Expression_static_Modulo"
      _args.

(** [KRPC::Expression::multiply_call], krpc.hpp line 2087 *)
Definition multiply_call (_client : Client) (arg0 : KRPC.Expression)
    (arg1 : KRPC.Expression) : Prog schema_ProcedureCall :=
  let _args : list bytes := [] in
  let _args := push_back _args (encode arg0) in
  let _args := push_back _args (encode arg1) in
  Client_build_call (address_of _client) "KRPC" "Expression_static_Multiply"
      _args.

(** [KRPC::Expression::not__call], krpc.hpp line 2094 *)
Definition not__call (_client : Client) (arg : KRPC.Expression)
    : Prog schema_ProcedureCall :=
  let _args : list bytes := [] in
  let _args := push_back _args (encode arg) in
  Client_build_call (address_of _client) "KRPC" "Expression_static_Not" _args.

(** [KRPC::Expression::not_equal_call], krpc.hpp line 2100 *)
Definition not_equal_call (_client : Client) (arg0 : KRPC.Expression)
    (arg1 : KRPC.Expression) : Prog schema_ProcedureCall :=
  let _args : list bytes := [] in
  let _args := push_back _args (encode arg0) in
  let _args := push_back _args (encode arg1) in
  Client_build_call (address_of _client) "KRPC" "Expression_static_NotEqual"
      _args.

(** [KRPC::Expression::or__call], krpc.hpp line 2107 *)
Definition or__call (_client : Client) (arg0 : KRPC.Expression)
    (arg1 : KRPC.Expression) : Prog schema_ProcedureCall :=
  let _args : list bytes := [] in
  let _args := push_back _args (encode arg0) in
  let _args := push_back _args (encode arg1) in
  Client_build_call (address_of _client) "KRPC" "Expression_static_Or" _args.

(** [KRPC::Expression::order_by_call], krpc.hpp line 2114 *)
Definition order_by_call (_client : Client) (arg : KRPC.Expression)
    (key : KRPC.Expression) : Prog schema_ProcedureCall :=
  let _args : list bytes := [] in
  let _args := push_back _args (encode arg) in
  let _args := push_back _args (encode key) in
  Client_build_call (address_of _client) "KRPC" "Expression_static_OrderBy"
      _args.

(** [KRPC::Expression::parameter_call], krpc.hpp line 2121 *)
Definition parameter_call (_client : Client) (name : string)
    (type : KRPC.Type_) : Prog schema_ProcedureCall :=
  let _args : list bytes := [] in
  let _args := push_back _args (encode name) in
  let _args := push_back _args (encode type) in
  Client_build_call (address_of _client) "KRPC" "Expression_static_Parameter"
      _args.

(** [KRPC::Expression::power_call], krpc.hpp line 2128 *)
Definition power_call (_client : Client) (arg0 : KRPC.Expression)
    (arg1 : KRPC.Expression) : Prog schema_ProcedureCall :=
  let _args : list bytes := [] in
  let _args := push_back _args (encode arg0) in
  let _args := push_back _args (encode arg1) in
  Client_build_call (address_of _client) "KRPC" "Expression_static_Power"
      _args.

(** [KRPC::Expression::right_shift_call], krpc.hpp line 2135 *)
Definition right_shift_call (_client : Client) (arg0 : KRPC.Expression)
    (arg1 : KRPC.Expression) : Prog schema_ProcedureCall :=
  let _args : list bytes := [] in
  let _args := push_back _args (encode arg0) in
  let _args := push_back _args (encode arg1) in
  Client_build_call (address_of _client) "KRPC" "Expression_static_RightShift"
      _args.

(** [KRPC::Expression::select_call], krpc.hpp line 2142 *)
Definition select_call (_client : Client) (arg : KRPC.Expression)
    (func : KRPC.Expression) : Prog schema_ProcedureCall :=
  let _args : list bytes := [] in
  let _args := push_back _args (encode arg) in
  let _args := push_back _args (encode func) in
  Client_build_call (address_of _client) "KRPC" "Expression_static_Select"
      _args.

(** [KRPC::Expression::subtract_call], krpc.hpp line 2149 *)
Definition subtract_call (_client : Client) (arg0 : KRPC.Expression)
    (arg1 : KRPC.Expression) : Prog schema_ProcedureCall :=
  let _args : list bytes := [] in
  let _args := push_back _args (encode arg0) in
  let _args := push_back _args (encode arg1) in
  Client_build_call (address_of _client) "KRPC" "Expression_static_Subtract"
      _args.

(** [KRPC::Expression::sum_call], krpc.hpp line 2156 *)
Definition sum_call (_client : Client) (arg : KRPC.Expression)
    : Prog schema_ProcedureCall :=
  let _args : list bytes := [] in
  let _args := push_back _args (encode arg) in
  Client_build_call (address_of _client) "KRPC" "Expression_static_Sum" _args.

(** [KRPC::Expression::to_list_call], krpc.hpp line 2162 *)
Definition to_list_call (_client : Client) (arg : KRPC.Expression)
    : Prog schema_ProcedureCall :=
  let _args : list bytes := [] in
  let _args := push_back _args (encode arg) in
  Client_build_call (address_of _client) "KRPC" "Expression_static_ToList"
      _args.

(** [KRPC::Expression::to_set_call], krpc.hpp line 2168 *)
Definition to_set_call (_client : Client) (arg : KRPC.Expression)
    : Prog schema_ProcedureCall :=
  let _args : list bytes := [] in
  let _args := push_back _args (encode arg) in
  Client_build_call (address_of _client) "KRPC" "Expression_static_ToSet"
      _args.

(** [KRPC::Expression::where_call], krpc.hpp line 2174 *)
Definition where_call (_client : Client) (arg : KRPC.Expression)
    (func : KRPC.Expression) : Prog schema_ProcedureCall :=
  let _args : list bytes := [] in
  let _args := push_back _args (encode arg) in
  let _args := push_back _args (encode func) in
  Client_build_call (address_of _client) "KRPC" "Expression_static_Where"
      _args.

End Methods.

End Expression.

(** [class KRPC::Type] *)
Module Type_.
Section Methods.
Context {RT : Runtime}.

(** [KRPC::Type::Type], line 2181; declared
    [explicit Type(Client* client = nullptr, uint64_t id = 0)], line 763 *)
Definition Type_ (client : option Client_ptr) (id : option uint64_t)
    : KRPC.Type_ :=
  let client := default_arg nullptr client in
  let id := default_arg 0%N id in
  Object_ "KRPC::Type" client id.

(** [KRPC::Type::bool_], krpc.hpp line 2184 *)
Definition bool_ (_client : Client) : Prog KRPC.Type_ :=
  _data ← Client_invoke (address_of _client) "KRPC" "Type_static_Bool"
      no_args;
  _result ← decoder_decode (T := KRPC.Type_) _data (address_of _client);
  mret _result.

(** [KRPC::Type::double_], krpc.hpp line 2191 *)
Definition double_ (_client : Client) : Prog KRPC.Type_ :=
  _data ← Client_invoke (address_of _client) "KRPC" "Type_static_Double"
      no_args;
  _result ← decoder_decode (T := KRPC.Type_) _data (address_of _client);
  mret _result.

(** [KRPC::Type::float_], krpc.hpp line 2198 *)
Definition float_ (_client : Client) : Prog KRPC.Type_ :=
  _data ← Client_invoke (address_of _client) "KRPC" "Type_static_Float"
      no_args;
  _result ← decoder_decode (T := KRPC.Type_) _data (address_of _client);
  mret _result.

(** [KRPC::Type::int_], krpc.hpp line 2205 *)
Definition int_ (_client : Client) : Prog KRPC.Type_ :=
  _data ← Client_invoke (address_of _client) "KRPC" "Type_static_Int" no_args;
  _result ← decoder_decode (T := KRPC.Type_) _data (address_of _client);
  mret _result.

(** [KRPC::Type::string], krpc.hpp line 2212 *)
Definition string_ (_client : Client) : Prog KRPC.Type_ :=
  _data ← Client_invoke (address_of _client) "KRPC" "Type_static_String"
      no_args;
  _result ← decoder_decode (T := KRPC.Type_) _data (address_of _client);
  mret _result.

(** [KRPC::Type::bool__stream], krpc.hpp line 2219 *)
Definition bool__stream (_client : Client) : Prog (Stream KRPC.Type_) :=
  _call ← Client_build_call (address_of _client) "KRPC" "Type_static_Bool"
      no_args;
  Stream_ KRPC.Type_ (address_of _client) _call.

(** [KRPC::Type::double__stream], krpc.hpp line 2223 *)
Definition double__stream (_client : Client) : Prog (Stream KRPC.Type_) :=
  _call ← Client_build_call (address_of _client) "KRPC" "Type_static_Double"
      no_args;
  Stream_ KRPC.Type_ (address_of _client) _call.

(** [KRPC::Type::float__stream], krpc.hpp line 2227 *)
Definition float__stream (_client : Client) : Prog (Stream KRPC.Type_) :=
  _call ← Client_build_call (address_of _client) "KRPC" "Type_static_Float"
      no_args;
  Stream_ KRPC.Type_ (address_of _client) _call.

(** [KRPC::Type::int__stream], krpc.hpp line 2231 *)
Definition int__stream (_client : Client) : Prog (Stream KRPC.Type_) :=
  _call ← Client_build_call (address_of _client) "KRPC" "Type_static_Int"
      no_args;
  Stream_ KRPC.Type_ (address_of _client) _call.

(** [KRPC::Type::string_stream], krpc.hpp line 2235 *)
Definition string_stream (_client : Client) : Prog (Stream KRPC.Type_) :=
  _call ← Client_build_call (address_of _client) "KRPC" "Type_static_String"
      no_args;
  Stream_ KRPC.Type_ (address_of _client) _call.

(** [KRPC::Type::bool__call], krpc.hpp line 2239 *)
Definition bool__call (_client : Client) : Prog schema_ProcedureCall :=
  Client_build_call (address_of _client) "KRPC" "Type_static_Bool" no_args.

(** [KRPC::Type::double__call], krpc.hpp line 2243 *)
Definition double__call (_client : Client) : Prog schema_ProcedureCall :=
  Client_build_call (address_of _client) "KRPC" "Type_static_Double" no_args.

(** [KRPC::Type::float__call], krpc.hpp line 2247 *)
Definition float__call (_client : Client) : Prog schema_ProcedureCall :=
  Client_build_call (address_of _client) "KRPC" "Type_static_Float" no_args.

(** [KRPC::Type::int__call], krpc.hpp line 2251 *)
Definition int__call (_client : Client) : Prog schema_ProcedureCall :=
  Client_build_call (address_of _client) "KRPC" "Type_static_Int" no_args.

(** [KRPC::Type::string_call], krpc.hpp line 2255 *)
Definition string_call (_client : Client) : Prog schema_ProcedureCall :=
  Client_build_call (address_of _client) "KRPC" "Type_static_String" no_args.

End Methods.

End Type_.

Section Table.
Context {RT : Runtime}.

(** The remote procedures of the service, in the order of the sources. *)
Definition operations : list Operation := [
  Value_op "KRPC::add_event" Service_method
    (Args := KRPC.Expression)
    (λ expression, [encode expression])
    (λ this expression, add_event this expression)
    (λ this expression, add_event_stream this expression)
    (λ this expression, add_event_call this expression);
  Value_op "KRPC::add_stream" Service_method
    (Args := schema_ProcedureCall * option bool)
    (λ '(call, start), [encode call; encode (default_arg true start)])
    (λ this '(call, start), add_stream this call start)
    (λ this '(call, start), add_stream_stream this call start)
    (λ this '(call, start), add_stream_call this call start);
  Value_op "KRPC::get_client_id" Service_method
    (Args := unit)
    (λ _, [])
    (λ this _, get_client_id this)
    (λ this _, get_client_id_stream this)
    (λ this _, get_client_id_call this);
  Value_op "KRPC::get_client_name" Service_method
    (Args := unit)
    (λ _, [])
    (λ this _, get_client_name this)
    (λ this _, get_client_name_stream this)
    (λ this _, get_client_name_call this);
  Value_op "KRPC::get_services" Service_method
    (Args := unit)
    (λ _, [])
    (λ this _, get_services this)
    (λ this _, get_services_stream this)
    (λ this _, get_services_call this);
  Value_op "KRPC::get_status" Service_method
    (Args := unit)
    (λ _, [])
    (λ this _, get_status this)
    (λ this _, get_status_stream this)
    (λ this _, get_status_call this);
  Void_op "KRPC::remove_stream" Service_method
    (Args := uint64_t)
    (λ id, [encode id])
    (λ this id, remove_stream this id)
    (λ this id, remove_stream_call this id);
  Void_op "KRPC::set_stream_rate" Service_method
    (Args := uint64_t * float)
    (λ '(id, rate), [encode id; encode rate])
    (λ this '(id, rate), set_stream_rate this id rate)
    (λ this '(id, rate), set_stream_rate_call this id rate);
  Void_op "KRPC::start_stream" Service_method
    (Args := uint64_t)
    (λ id, [encode id])
    (λ this id, start_stream this id)
    (λ this id, start_stream_call this id);
  Value_op "KRPC::clients" Service_method
    (Args := unit)
    (λ _, [])
    (λ this _, clients this)
    (λ this _, clients_stream this)
    (λ this _, clients_call this);
  Value_op "KRPC::current_game_scene" Service_method
    (Args := unit)
    (λ _, [])
    (λ this _, current_game_scene this)
    (λ this _, current_game_scene_stream this)
    (λ this _, current_game_scene_call this);
  Value_op "KRPC::paused" Service_method
    (Args := unit)
    (λ _, [])
    (λ this _, paused this)
    (λ this _, paused_stream this)
    (λ this _, paused_call this);
  Void_op "KRPC::set_paused" Service_method
    (Args := bool)
    (λ value, [encode value])
    (λ this value, set_paused this value)
    (λ this value, set_paused_call this value);
  Value_op "KRPC::Expression::add" Static_method
    (Args := KRPC.Expression * KRPC.Expression)
    (λ '(arg0, arg1), [encode arg0; encode arg1])
    (λ _client '(arg0, arg1), Expression.add _client arg0 arg1)
    (λ _client '(arg0, arg1), Expression.add_stream _client arg0 arg1)
    (λ _client '(arg0, arg1), Expression.add_call _client arg0 arg1);
  Value_op "KRPC::Expression::aggregate" Static_method
    (Args := KRPC.Expression * KRPC.Expression)
    (λ '(arg, func), [encode arg; encode func])
    (λ _client '(arg, func), Expression.aggregate _client arg func)
    (λ _client '(arg, func), Expression.aggregate_stream _client arg func)
    (λ _client '(arg, func), Expression.aggregate_call _client arg func);
  Value_op "KRPC::Expression::aggregate_with_seed" Static_method
    (Args := KRPC.Expression * KRPC.Expression * KRPC.Expression)
    (λ '(arg, seed, func), [encode arg; encode seed; encode func])
    (λ _client '(arg, seed, func),
       Expression.aggregate_with_seed _client arg seed func)
    (λ _client '(arg, seed, func),
       Expression.aggregate_with_seed_stream _client arg seed func)
    (λ _client '(arg, seed, func),
       Expression.aggregate_with_seed_call _client arg seed func);
  Value_op "KRPC::Expression::all" Static_method
    (Args := KRPC.Expression * KRPC.Expression)
    (λ '(arg, predicate), [encode arg; encode predicate])
    (λ _client '(arg, predicate), Expression.all _client arg predicate)
    (λ _client '(arg, predicate), Expression.all_stream _client arg predicate)
    (λ _client '(arg, predicate), Expression.all_call _client arg predicate);
  Value_op "KRPC::Expression::and_" Static_method
    (Args := KRPC.Expression * KRPC.Expression)
    (λ '(arg0, arg1), [encode arg0; encode arg1])
    (λ _client '(arg0, arg1), Expression.and_ _client arg0 arg1)
    (λ _client '(arg0, arg1), Expression.and__stream _client arg0 arg1)
    (λ _client '(arg0, arg1), Expression.and__call _client arg0 arg1);
  Value_op "KRPC::Expression::any" Static_method
    (Args := KRPC.Expression * KRPC.Expression)
    (λ '(arg, predicate), [encode arg; encode predicate])
    (λ _client '(arg, predicate), Expression.any _client arg predicate)
    (λ _client '(arg, predicate), Expression.any_stream _client arg predicate)
    (λ _client '(arg, predicate), Expression.any_call _client arg predicate);
  Value_op "KRPC::Expression::average" Static_method
    (Args := KRPC.Expression)
    (λ arg, [encode arg])
    (λ _client arg, Expression.average _client arg)
    (λ _client arg, Expression.average_stream _client arg)
    (λ _client arg, Expression.average_call _client arg);
  Value_op "KRPC::Expression::call" Static_method
    (Args := schema_ProcedureCall)
    (λ call, [encode call])
    (λ _client call, Expression.call _client call)
    (λ _client call, Expression.call_stream _client call)
    (λ _client call, Expression.call_call _client call);
  Value_op "KRPC::Expression::cast" Static_method
    (Args := KRPC.Expression * KRPC.Type_)
    (λ '(arg, type), [encode arg; encode type])
    (λ _client '(arg, type), Expression.cast _client arg type)
    (λ _client '(arg, type), Expression.cast_stream _client arg type)
    (λ _client '(arg, type), Expression.cast_call _client arg type);
  Value_op "KRPC::Expression::concat" Static_method
    (Args := KRPC.Expression * KRPC.Expression)
    (λ '(arg1, arg2), [encode arg1; encode arg2])
    (λ _client '(arg1, arg2), Expression.concat _client arg1 arg2)
    (λ _client '(arg1, arg2), Expression.concat_stream _client arg1 arg2)
    (λ _client '(arg1, arg2), Expression.concat_call _client arg1 arg2);
  Value_op "KRPC::Expression::constant_bool" Static_method
    (Args := bool)
    (λ value, [encode value])
    (λ _client value, Expression.constant_bool _client value)
    (λ _client value, Expression.constant_bool_stream _client value)
    (λ _client value, Expression.constant_bool_call _client value);
  Value_op "KRPC::Expression::constant_double" Static_method
    (Args := double)
    (λ value, [encode value])
    (λ _client value, Expression.constant_double _client value)
    (λ _client value, Expression.constant_double_stream _client value)
    (λ _client value, Expression.constant_double_call _client value);
  Value_op "KRPC::Expression::constant_float" Static_method
    (Args := float)
    (λ value, [encode value])
    (λ _client value, Expression.constant_float _client value)
    (λ _client value, Expression.constant_float_stream _client value)
    (λ _client value, Expression.constant_float_call _client value);
  Value_op "KRPC::Expression::constant_int" Static_method
    (Args := int32_t)
    (λ value, [encode value])
    (λ _client value, Expression.constant_int _client value)
    (λ _client value, Expression.constant_int_stream _client value)
    (λ _client value, Expression.constant_int_call _client value);
  Value_op "KRPC::Expression::constant_string" Static_method
    (Args := string)
    (λ value, [encode value])
    (λ _client value, Expression.constant_string _client value)
    (λ _client value, Expression.constant_string_stream _client value)
    (λ _client value, Expression.constant_string_call _client value);
  Value_op "KRPC::Expression::contains" Static_method
    (Args := KRPC.Expression * KRPC.Expression)
    (λ '(arg, value), [encode arg; encode value])
    (λ _client '(arg, value), Expression.contains _client arg value)
    (λ _client '(arg, value), Expression.contains_stream _client arg value)
    (λ _client '(arg, value), Expression.contains_call _client arg value);
  Value_op "KRPC::Expression::count" Static_method
    (Args := KRPC.Expression)
    (λ arg, [encode arg])
    (λ _client arg, Expression.count _client arg)
    (λ _client arg, Expression.count_stream _client arg)
    (λ _client arg, Expression.count_call _client arg);
  Value_op "KRPC::Expression::create_dictionary" Static_method
    (Args := (list KRPC.Expression) * (list KRPC.Expression))
    (λ '(keys, values), [encode keys; encode values])
    (λ _client '(keys, values),
       Expression.create_dictionary _client keys values)
    (λ _client '(keys, values),
       Expression.create_dictionary_stream _client keys values)
    (λ _client '(keys, values),
       Expression.create_dictionary_call _client keys values);
  Value_op "KRPC::Expression::create_list" Static_method
    (Args := (list KRPC.Expression))
    (λ values, [encode values])
    (λ _client values, Expression.create_list _client values)
    (λ _client values, Expression.create_list_stream _client values)
    (λ _client values, Expression.create_list_call _client values);
  Value_op "KRPC::Expression::create_set" Static_method
    (Args := (gset KRPC.Expression))
    (λ values, [encode values])
    (λ _client values, Expression.create_set _client values)
    (λ _client values, Expression.create_set_stream _client values)
    (λ _client values, Expression.create_set_call _client values);
  Value_op "KRPC::Expression::create_tuple" Static_method
    (Args := (list KRPC.Expression))
    (λ elements, [encode elements])
    (λ _client elements, Expression.create_tuple _client elements)
    (λ _client elements, Expression.create_tuple_stream _client elements)
    (λ _client elements, Expression.create_tuple_call _client elements);
  Value_op "KRPC::Expression::divide" Static_method
    (Args := KRPC.Expression * KRPC.Expression)
    (λ '(arg0, arg1), [encode arg0; encode arg1])
    (λ _client '(arg0, arg1), Expression.divide _client arg0 arg1)
    (λ _client '(arg0, arg1), Expression.divide_stream _client arg0 arg1)
    (λ _client '(arg0, arg1), Expression.divide_call _client arg0 arg1);
  Value_op "KRPC::Expression::equal" Static_method
    (Args := KRPC.Expression * KRPC.Expression)
    (λ '(arg0, arg1), [encode arg0; encode arg1])
    (λ _client '(arg0, arg1), Expression.equal _client arg0 arg1)
    (λ _client '(arg0, arg1), Expression.equal_stream _client arg0 arg1)
    (λ _client '(arg0, arg1), Expression.equal_call _client arg0 arg1);
  Value_op "KRPC::Expression::exclusive_or" Static_method
    (Args := KRPC.Expression * KRPC.Expression)
    (λ '(arg0, arg1), [encode arg0; encode arg1])
    (λ _client '(arg0, arg1), Expression.exclusive_or _client arg0 arg1)
    (λ _client '(arg0, arg1),
       Expression.exclusive_or_stream _client arg0 arg1)
    (λ _client '(arg0, arg1), Expression.exclusive_or_call _client arg0 arg1);
  Value_op "KRPC::Expression::function" Static_method
    (Args := (list KRPC.Expression) * KRPC.Expression)
    (λ '(parameters, body), [encode parameters; encode body])
    (λ _client '(parameters, body),
       Expression.function _client parameters body)
    (λ _client '(parameters, body),
       Expression.function_stream _client parameters body)
    (λ _client '(parameters, body),
       Expression.function_call _client parameters body);
  Value_op "KRPC::Expression::get" Static_method
    (Args := KRPC.Expression * KRPC.Expression)
    (λ '(arg, index), [encode arg; encode index])
    (λ _client '(arg, index), Expression.get _client arg index)
    (λ _client '(arg, index), Expression.get_stream _client arg index)
    (λ _client '(arg, index), Expression.get_call _client arg index);
  Value_op "KRPC::Expression::greater_than" Static_method
    (Args := KRPC.Expression * KRPC.Expression)
    (λ '(arg0, arg1), [encode arg0; encode arg1])
    (λ _client '(arg0, arg1), Expression.greater_than _client arg0 arg1)
    (λ _client '(arg0, arg1),
       Expression.greater_than_stream _client arg0 arg1)
    (λ _client '(arg0, arg1), Expression.greater_than_call _client arg0 arg1);
  Value_op "KRPC::Expression::greater_than_or_equal" Static_method
    (Args := KRPC.Expression * KRPC.Expression)
    (λ '(arg0, arg1), [encode arg0; encode arg1])
    (λ _client '(arg0, arg1),
       Expression.greater_than_or_equal _client arg0 arg1)
    (λ _client '(arg0, arg1),
       Expression.greater_than_or_equal_stream _client arg0 arg1)
    (λ _client '(arg0, arg1),
       Expression.greater_than_or_equal_call _client arg0 arg1);
  Value_op "KRPC::Expression::invoke" Static_method
    (Args := KRPC.Expression * (gmap string KRPC.Expression))
    (λ '(function, args), [encode function; encode args])
    (λ _client '(function, args), Expression.invoke _client function args)
    (λ _client '(function, args),
       Expression.invoke_stream _client function args)
    (λ _client '(function, args),
       Expression.invoke_call _client function args);
  Value_op "KRPC::Expression::left_shift" Static_method
    (Args := KRPC.Expression * KRPC.Expression)
    (λ '(arg0, arg1), [encode arg0; encode arg1])
    (λ _client '(arg0, arg1), Expression.left_shift _client arg0 arg1)
    (λ _client '(arg0, arg1), Expression.left_shift_stream _client arg0 arg1)
    (λ _client '(arg0, arg1), Expression.left_shift_call _client arg0 arg1);
  Value_op "KRPC::Expression::less_than" Static_method
    (Args := KRPC.Expression * KRPC.Expression)
    (λ '(arg0, arg1), [encode arg0; encode arg1])
    (λ _client '(arg0, arg1), Expression.less_than _client arg0 arg1)
    (λ _client '(arg0, arg1), Expression.less_than_stream _client arg0 arg1)
    (λ _client '(arg0, arg1), Expression.less_than_call _client arg0 arg1);
  Value_op "KRPC::Expression::less_than_or_equal" Static_method
    (Args := KRPC.Expression * KRPC.Expression)
    (λ '(arg0, arg1), [encode arg0; encode arg1])
    (λ _client '(arg0, arg1), Expression.less_than_or_equal _client arg0 arg1)
    (λ _client '(arg0, arg1),
       Expression.less_than_or_equal_stream _client arg0 arg1)
    (λ _client '(arg0, arg1),
       Expression.less_than_or_equal_call _client arg0 arg1);
  Value_op "KRPC::Expression::max" Static_method
    (Args := KRPC.Expression)
    (λ arg, [encode arg])
    (λ _client arg, Expression.max _client arg)
    (λ _client arg, Expression.max_stream _client arg)
    (λ _client arg, Expression.max_call _client arg);
  Value_op "KRPC::Expression::min" Static_method
    (Args := KRPC.Expression)
    (λ arg, [encode arg])
    (λ _client arg, Expression.min _client arg)
    (λ _client arg, Expression.min_stream _client arg)
    (λ _client arg, Expression.min_call _client arg);
  Value_op "KRPC::Expression::modulo" Static_method
    (Args := KRPC.Expression * KRPC.Expression)
    (λ '(arg0, arg1), [encode arg0; encode arg1])
    (λ _client '(arg0, arg1), Expression.modulo _client arg0 arg1)
    (λ _client '(arg0, arg1), Expression.modulo_stream _client arg0 arg1)
    (λ _client '(arg0, arg1), Expression.modulo_call _client arg0 arg1);
  Value_op "KRPC::Expression::multiply" Static_method
    (Args := KRPC.Expression * KRPC.Expression)
    (λ '(arg0, arg1), [encode arg0; encode arg1])
    (λ _client '(arg0, arg1), Expression.multiply _client arg0 arg1)
    (λ _client '(arg0, arg1), Expression.multiply_stream _client arg0 arg1)
    (λ _client '(arg0, arg1), Expression.multiply_call _client arg0 arg1);
  Value_op "KRPC::Expression::not_" Static_method
    (Args := KRPC.Expression)
    (λ arg, [encode arg])
    (λ _client arg, Expression.not_ _client arg)
    (λ _client arg, Expression.not__stream _client arg)
    (λ _client arg, Expression.not__call _client arg);
  Value_op "KRPC::Expression::not_equal" Static_method
    (Args := KRPC.Expression * KRPC.Expression)
    (λ '(arg0, arg1), [encode arg0; encode arg1])
    (λ _client '(arg0, arg1), Expression.not_equal _client arg0 arg1)
    (λ _client '(arg0, arg1), Expression.not_equal_stream _client arg0 arg1)
    (λ _client '(arg0, arg1), Expression.not_equal_call _client arg0 arg1);
  Value_op "KRPC::Expression::or_" Static_method
    (Args := KRPC.Expression * KRPC.Expression)
    (λ '(arg0, arg1), [encode arg0; encode arg1])
    (λ _client '(arg0, arg1), Expression.or_ _client arg0 arg1)
    (λ _client '(arg0, arg1), Expression.or__stream _client arg0 arg1)
    (λ _client '(arg0, arg1), Expression.or__call _client arg0 arg1);
  Value_op "KRPC::Expression::order_by" Static_method
    (Args := KRPC.Expression * KRPC.Expression)
    (λ '(arg, key), [encode arg; encode key])
    (λ _client '(arg, key), Expression.order_by _client arg key)
    (λ _client '(arg, key), Expression.order_by_stream _client arg key)
    (λ _client '(arg, key), Expression.order_by_call _client arg key);
  Value_op "KRPC::Expression::parameter" Static_method
    (Args := string * KRPC.Type_)
    (λ '(name, type), [encode name; encode type])
    (λ _client '(name, type), Expression.parameter _client name type)
    (λ _client '(name, type), Expression.parameter_stream _client name type)
    (λ _client '(name, type), Expression.parameter_call _client name type);
  Value_op "KRPC::Expression::power" Static_method
    (Args := KRPC.Expression * KRPC.Expression)
    (λ '(arg0, arg1), [encode arg0; encode arg1])
    (λ _client '(arg0, arg1), Expression.power _client arg0 arg1)
    (λ _client '(arg0, arg1), Expression.power_stream _client arg0 arg1)
    (λ _client '(arg0, arg1), Expression.power_call _client arg0 arg1);
  Value_op "KRPC::Expression::right_shift" Static_method
    (Args := KRPC.Expression * KRPC.Expression)
    (λ '(arg0, arg1), [encode arg0; encode arg1])
    (λ _client '(arg0, arg1), Expression.right_shift _client arg0 arg1)
    (λ _client '(arg0, arg1), Expression.right_shift_stream _client arg0 arg1)
    (λ _client '(arg0, arg1), Expression.right_shift_call _client arg0 arg1);
  Value_op "KRPC::Expression::select" Static_method
    (Args := KRPC.Expression * KRPC.Expression)
    (λ '(arg, func), [encode arg; encode func])
    (λ _client '(arg, func), Expression.select _client arg func)
    (λ _client '(arg, func), Expression.select_stream _client arg func)
    (λ _client '(arg, func), Expression.select_call _client arg func);
  Value_op "KRPC::Expression::subtract" Static_method
    (Args := KRPC.Expression * KRPC.Expression)
    (λ '(arg0, arg1), [encode arg0; encode arg1])
    (λ _client '(arg0, arg1), Expression.subtract _client arg0 arg1)
    (λ _client '(arg0, arg1), Expression.subtract_stream _client arg0 arg1)
    (λ _client '(arg0, arg1), Expression.subtract_call _client arg0 arg1);
  Value_op "KRPC::Expression::sum" Static_method
    (Args := KRPC.Expression)
    (λ arg, [encode arg])
    (λ _client arg, Expression.sum _client arg)
    (λ _client arg, Expression.sum_stream _client arg)
    (λ _client arg, Expression.sum_call _client arg);
  Value_op "KRPC::Expression::to_list" Static_method
    (Args := KRPC.Expression)
    (λ arg, [encode arg])
    (λ _client arg, Expression.to_list _client arg)
    (λ _client arg, Expression.to_list_stream _client arg)
    (λ _client arg, Expression.to_list_call _client arg);
  Value_op "KRPC::Expression::to_set" Static_method
    (Args := KRPC.Expression)
    (λ arg, [encode arg])
    (λ _client arg, Expression.to_set _client arg)
    (λ _client arg, Expression.to_set_stream _client arg)
    (λ _client arg, Expression.to_set_call _client arg);
  Value_op "KRPC::Expression::where" Static_method
    (Args := KRPC.Expression * KRPC.Expression)
    (λ '(arg, func), [encode arg; encode func])
    (λ _client '(arg, func), Expression.where_ _client arg func)
    (λ _client '(arg, func), Expression.where_stream _client arg func)
    (λ _client '(arg, func), Expression.where_call _client arg func);
  Value_op "KRPC::Type::bool_" Static_method
    (Args := unit)
    (λ _, [])
    (λ _client _, Type_.bool_ _client)
    (λ _client _, Type_.bool__stream _client)
    (λ _client _, Type_.bool__call _client);
  Value_op "KRPC::Type::double_" Static_method
    (Args := unit)
    (λ _, [])
    (λ _client _, Type_.double_ _client)
    (λ _client _, Type_.double__stream _client)
    (λ _client _, Type_.double__call _client);
  Value_op "KRPC::Type::float_" Static_method
    (Args := unit)
    (λ _, [])
    (λ _client _, Type_.float_ _client)
    (λ _client _, Type_.float__stream _client)
    (λ _client _, Type_.float__call _client);
  Value_op "KRPC::Type::int_" Static_method
    (Args := unit)
    (λ _, [])
    (λ _client _, Type_.int_ _client)
    (λ _client _, Type_.int__stream _client)
    (λ _client _, Type_.int__call _client);
  Value_op "KRPC::Type::string" Static_method
    (Args := unit)
    (λ _, [])
    (λ _client _, Type_.string_ _client)
    (λ _client _, Type_.string_stream _client)
    (λ _client _, Type_.string_call _client)
].

End Table.

End KRPC.

(** ** Service [UI] (part_000) *)

Module UI.

(** [class UI : public Service], line 20 *)
Record t : Type := Make { base : Service }.
#[global] Instance t_HasClient : HasClient t :=
  λ this, Service_client (base this).

(** Class forward declarations; each class is declared as
    [class C : public krpc::Object<C>]. *)
Definition Button : Type := Object "UI::Button".
Definition Canvas : Type := Object "UI::Canvas".
Definition InputField : Type := Object "UI::InputField".
Definition Panel : Type := Object "UI::Panel".
Definition RectTransform : Type := Object "UI::RectTransform".
Definition Text : Type := Object "UI::Text".

(** [enum struct FontStyle], line 35 *)
Definition FontStyle : Type := enum_struct "UI::FontStyle".
Module FontStyle.
Definition normal : UI.FontStyle :=
  static_cast_enum "UI::FontStyle" 0%Z.
Definition bold : UI.FontStyle :=
  static_cast_enum "UI::FontStyle" 1%Z.
Definition italic : UI.FontStyle :=
  static_cast_enum "UI::FontStyle" 2%Z.
Definition bold_and_italic : UI.FontStyle :=
  static_cast_enum "UI::FontStyle" 3%Z.
Definition enumerators : list UI.FontStyle :=
  [normal; bold; italic; bold_and_italic].
End FontStyle.

(** [enum struct MessagePosition], line 57 *)
Definition MessagePosition : Type := enum_struct "UI::MessagePosition".
Module MessagePosition.
Definition bottom_center : UI.MessagePosition :=
  static_cast_enum "UI::MessagePosition" 0%Z.
Definition top_center : UI.MessagePosition :=
  static_cast_enum "UI::MessagePosition" 1%Z.
Definition top_left : UI.MessagePosition :=
  static_cast_enum "UI::MessagePosition" 2%Z.
Definition top_right : UI.MessagePosition :=
  static_cast_enum "UI::MessagePosition" 3%Z.
Definition enumerators : list UI.MessagePosition :=
  [bottom_center; top_center; top_left; top_right].
End MessagePosition.

(** [enum struct TextAlignment], line 79 *)
Definition TextAlignment : Type := enum_struct "UI::TextAlignment".
Module TextAlignment.
Definition left : UI.TextAlignment :=
  static_cast_enum "UI::TextAlignment" 0%Z.
Definition right : UI.TextAlignment :=
  static_cast_enum "UI::TextAlignment" 1%Z.
Definition center : UI.TextAlignment :=
  static_cast_enum "UI::TextAlignment" 2%Z.
Definition enumerators : list UI.TextAlignment :=
  [left; right; center].
End TextAlignment.

(** [enum struct TextAnchor], line 97 *)
Definition TextAnchor : Type := enum_struct "UI::TextAnchor".
Module TextAnchor.
Definition lower_center : UI.TextAnchor :=
  static_cast_enum "UI::TextAnchor" 0%Z.
Definition lower_left : UI.TextAnchor :=
  static_cast_enum "UI::TextAnchor" 1%Z.
Definition lower_right : UI.TextAnchor :=
  static_cast_enum "UI::TextAnchor" 2%Z.
Definition middle_center : UI.TextAnchor :=
  static_cast_enum "UI::TextAnchor" 3%Z.
Definition middle_left : UI.TextAnchor :=
  static_cast_enum "UI::TextAnchor" 4%Z.
Definition middle_right : UI.TextAnchor :=
  static_cast_enum "UI::TextAnchor" 5%Z.
Definition upper_center : UI.TextAnchor :=
  static_cast_enum "UI::TextAnchor" 6%Z.
Definition upper_left : UI.TextAnchor :=
  static_cast_enum "UI::TextAnchor" 7%Z.
Definition upper_right : UI.TextAnchor :=
  static_cast_enum "UI::TextAnchor" 8%Z.
Definition enumerators : list UI.TextAnchor :=
  [lower_center; lower_left; lower_right; middle_center; middle_left;
   middle_right; upper_center; upper_left; upper_right].
End TextAnchor.

Section Codecs.
Context {RT : Runtime}.

(** [encoder::encode(const services::UI::FontStyle&)], line 845 *)
#[global] Instance encode_FontStyle : Encodable FontStyle :=
  λ value, encode (static_cast_int32 value).

(** [encoder::encode(const services::UI::MessagePosition&)], line 849 *)
#[global] Instance encode_MessagePosition : Encodable MessagePosition :=
  λ value, encode (static_cast_int32 value).

(** [encoder::encode(const services::UI::TextAlignment&)], line 853 *)
#[global] Instance encode_TextAlignment : Encodable TextAlignment :=
  λ value, encode (static_cast_int32 value).

(** [encoder::encode(const services::UI::TextAnchor&)], line 857 *)
#[global] Instance encode_TextAnchor : Encodable TextAnchor :=
  λ value, encode (static_cast_int32 value).

(** [decoder::decode(services::UI::FontStyle&, data, client)], line 865 *)
#[global] Instance decode_FontStyle : Decodable FontStyle := λ data client,
  x ← decode (T := int32_t) data client;
  mret (static_cast_enum "UI::FontStyle" x).

(** [decoder::decode(services::UI::MessagePosition&, data, client)],
    line 871 *)
#[global] Instance decode_MessagePosition : Decodable MessagePosition := λ
    data client,
  x ← decode (T := int32_t) data client;
  mret (static_cast_enum "UI::MessagePosition" x).

(** [decoder::decode(services::UI::TextAlignment&, data, client)], line 877 *)
#[global] Instance decode_TextAlignment : Decodable TextAlignment := λ data
    client,
  x ← decode (T := int32_t) data client;
  mret (static_cast_enum "UI::TextAlignment" x).

(** [decoder::decode(services::UI::TextAnchor&, data, client)], line 883 *)
#[global] Instance decode_TextAnchor : Decodable TextAnchor := λ data client,
  x ← decode (T := int32_t) data client;
  mret (static_cast_enum "UI::TextAnchor" x).

End Codecs.

Section Methods.
Context {RT : Runtime}.

(** [UI::UI], line 893 *)
Definition UI (client : Client_ptr) : Prog t :=
  let this := Make (Service_ client) in
  mret this.

(** [UI::add_canvas], part_000 line 897 *)
Definition add_canvas (this : t) : Prog UI.Canvas :=
  _data ← Client_invoke (_client this) "UI" "AddCanvas" no_args;
  _result ← decoder_decode (T := UI.Canvas) _data (_client this);
  mret _result.

(** [UI::clear], part_000 line 904 *)
Definition clear (this : t) (client_only : option bool) : Prog unit :=
  let client_only := default_arg false client_only in
  let _args : list bytes := [] in
  let _args := push_back _args (encode client_only) in
  Client_invoke (_client this) "UI" "Clear" _args;;
  mret ().

(** [UI::message], part_000 line 910 *)
Definition message (this : t) (content : string) (duration : option float)
    (position : option UI.MessagePosition)
    (color : option (tuple3 double double double)) (size : option float)
    : Prog unit :=
  let duration := default_arg (double_to_float (double_literal "1.0"))
      duration in
  let position := default_arg (static_cast_enum "UI::MessagePosition" 1%Z)
      position in
  let color := default_arg (Tuple3 (double_literal "1.0") (double_literal
      "0.92") (double_literal "0.016")) color in
  let size := default_arg (double_to_float (double_literal "20.0")) size in
  let _args : list bytes := [] in
  let _args := push_back _args (encode content) in
  let _args := push_back _args (encode duration) in
  let _args := push_back _args (encode position) in
  let _args := push_back _args (encode color) in
  let _args := push_back _args (encode size) in
  Client_invoke (_client this) "UI" "Message" _args;;
  mret ().

(** [UI::stock_canvas], part_000 line 920 *)
Definition stock_canvas (this : t) : Prog UI.Canvas :=
  _data ← Client_invoke (_client this) "UI" "get_StockCanvas" no_args;
  _result ← decoder_decode (T := UI.Canvas) _data (_client this);
  mret _result.

(** [UI::add_canvas_stream], part_000 line 927 *)
Definition add_canvas_stream (this : t) : Prog (Stream UI.Canvas) :=
  _call ← Client_build_call (_client this) "UI" "AddCanvas" no_args;
  Stream_ UI.Canvas (_client this) _call.

(** [UI::stock_canvas_stream], part_000 line 931 *)
Definition stock_canvas_stream (this : t) : Prog (Stream UI.Canvas) :=
  _call ← Client_build_call (_client this) "UI" "get_StockCanvas" no_args;
  Stream_ UI.Canvas (_client this) _call.

(** [UI::add_canvas_call], part_000 line 935 *)
Definition add_canvas_call (this : t) : Prog schema_ProcedureCall :=
  Client_build_call (_client this) "UI" "AddCanvas" no_args.

(** [UI::clear_call], part_000 line 939 *)
Definition clear_call (this : t) (client_only : option bool)
    : Prog schema_ProcedureCall :=
  let client_only := default_arg false client_only in
  let _args : list bytes := [] in
  let _args := push_back _args (encode client_only) in
  Client_build_call (_client this) "UI" "Clear" _args.

(** [UI::message_call], part_000 line 945 *)
Definition message_call (this : t) (content : string)
    (duration : option float) (position : option UI.MessagePosition)
    (color : option (tuple3 double double double)) (size : option float)
    : Prog schema_ProcedureCall :=
  let duration := default_arg (double_to_float (double_literal "1.0"))
      duration in
  let position := default_arg (static_cast_enum "UI::MessagePosition" 1%Z)
      position in
  let color := default_arg (Tuple3 (double_literal "1.0") (double_literal
      "0.92") (double_literal "0.016")) color in
  let size := default_arg (double_to_float (double_literal "20.0")) size in
  let _args : list bytes := [] in
  let _args := push_back _args (encode content) in
  let _args := push_back _args (encode duration) in
  let _args := push_back _args (encode position) in
  let _args := push_back _args (encode color) in
  let _args := push_back _args (encode size) in
  Client_build_call (_client this) "UI" "Message" _args.

(** [UI::stock_canvas_call], part_000 line 955 *)
Definition stock_canvas_call (this : t) : Prog schema_ProcedureCall :=
  Client_build_call (_client this) "UI" "get_StockCanvas" no_args.

End Methods.

(** [class UI::Button] *)
Module Button.
Section Methods.
Context {RT : Runtime}.

(** [UI::Button::Button], line 959; declared
    [explicit Button(Client* client = nullptr, uint64_t id = 0)], line 183 *)
Definition Button (client : option Client_ptr) (id : option uint64_t)
    : UI.Button :=
  let client := default_arg nullptr client in
  let id := default_arg 0%N id in
  Object_ "UI::Button" client id.

(** [UI::Button::remove], part_000 line 962 *)
Definition remove (this : UI.Button) : Prog unit :=
  let _args : list bytes := [] in
  let _args := push_back _args (encode this) in
  Client_invoke (_client this) "UI" "Button_Remove" _args;;
  mret ().

(** [UI::Button::clicked], part_000 line 968 *)
Definition clicked (this : UI.Button) : Prog bool :=
  let _args : list bytes := [] in
  let _args := push_back _args (encode this) in
  _data ← Client_invoke (_client this) "UI" "Button_get_Clicked" _args;
  _result ← decoder_decode (T := bool) _data (_client this);
  mret _result.

(** [UI::Button::set_clicked], part_000 line 977 *)
Definition set_clicked (this : UI.Button) (value : bool) : Prog unit :=
  let _args : list bytes := [] in
  let _args := push_back _args (encode this) in
  let _args := push_back _args (encode value) in
  Client_invoke (_client this) "UI" "Button_set_Clicked" _args;;
  mret ().

(** [UI::Button::rect_transform], part_000 line 984 *)
Definition rect_transform (this : UI.Button) : Prog UI.RectTransform :=
  let _args : list bytes := [] in
  let _args := push_back _args (encode this) in
  _data ← Client_invoke (_client this) "UI" "Button_get_RectTransform" _args;
  _result ← decoder_decode (T := UI.RectTransform) _data (_client this);
  mret _result.

(** [UI::Button::text], part_000 line 993 *)
Definition text (this : UI.Button) : Prog UI.Text :=
  let _args : list bytes := [] in
  let _args := push_back _args (encode this) in
  _data ← Client_invoke (_client this) "UI" "Button_get_Text" _args;
  _result ← decoder_decode (T := UI.Text) _data (_client this);
  mret _result.

(** [UI::Button::visible], part_000 line 1002 *)
Definition visible (this : UI.Button) : Prog bool :=
  let _args : list bytes := [] in
  let _args := push_back _args (encode this) in
  _data ← Client_invoke (_client this) "UI" "Button_get_Visible" _args;
  _result ← decoder_decode (T := bool) _data (_client this);
  mret _result.

(** [UI::Button::set_visible], part_000 line 1011 *)
Definition set_visible (this : UI.Button) (value : bool) : Prog unit :=
  let _args : list bytes := [] in
  let _args := push_back _args (encode this) in
  let _args := push_back _args (encode value) in
  Client_invoke (_client this) "UI" "Button_set_Visible" _args;;
  mret ().

(** [UI::Button::clicked_stream], part_000 line 1018 *)
Definition clicked_stream (this : UI.Button) : Prog (Stream bool) :=
  let _args : list bytes := [] in
  let _args := push_back _args (encode this) in
  _call ← Client_build_call (_client this) "UI" "Button_get_Clicked" _args;
  Stream_ bool (_client this) _call.

(** [UI::Button::rect_transform_stream], part_000 line 1024 *)
Definition rect_transform_stream (this : UI.Button)
    : Prog (Stream UI.RectTransform) :=
  let _args : list bytes := [] in
  let _args := push_back _args (encode this) in
  _call ← Client_build_call (_client this) "UI" "Button_get_RectTransform"
      _args;
  Stream_ UI.RectTransform (_client this) _call.

(** [UI::Button::text_stream], part_000 line 1030 *)
Definition text_stream (this : UI.Button) : Prog (Stream UI.Text) :=
  let _args : list bytes := [] in
  let _args := push_back _args (encode this) in
  _call ← Client_build_call (_client this) "UI" "Button_get_Text" _args;
  Stream_ UI.Text (_client this) _call.

(** [UI::Button::visible_stream], part_000 line 1036 *)
Definition visible_stream (this : UI.Button) : Prog (Stream bool) :=
  let _args : list bytes := [] in
  let _args := push_back _args (encode this) in
  _call ← Client_build_call (_client this) "UI" "Button_get_Visible" _args;
  Stream_ bool (_client this) _call.

(** [UI::Button::remove_call], part_000 line 1042 *)
Definition remove_call (this : UI.Button) : Prog schema_ProcedureCall :=
  let _args : list bytes := [] in
  let _args := push_back _args (encode this) in
  Client_build_call (_client this) "UI" "Button_Remove" _args.

(** [UI::Button::clicked_call], part_000 line 1048 *)
Definition clicked_call (this : UI.Button) : Prog schema_ProcedureCall :=
  let _args : list bytes := [] in
  let _args := push_back _args (encode this) in
  Client_build_call (_client this) "UI" "Button_get_Clicked" _args.

(** [UI::Button::set_clicked_call], part_000 line 1054 *)
Definition set_clicked_call (this : UI.Button) (value : bool)
    : Prog schema_ProcedureCall :=
  let _args : list bytes := [] in
  let _args := push_back _args (encode this) in
  let _args := push_back _args (encode value) in
  Client_build_call (_client this) "UI" "Button_set_Clicked" _args.

(** [UI::Button::rect_transform_call], part_000 line 1061 *)
Definition rect_transform_call (this : UI.Button)
    : Prog schema_ProcedureCall :=
  let _args : list bytes := [] in
  let _args := push_back _args (encode this) in
  Client_build_call (_client this) "UI" "Button_get_RectTransform" _args.

(** [UI::Button::text_call], part_000 line 1067 *)
Definition text_call (this : UI.Button) : Prog schema_ProcedureCall :=
  let _args : list bytes := [] in
  let _args := push_back _args (encode this) in
  Client_build_call (_client this) "UI" "Button_get_Text" _args.

(** [UI::Button::visible_call], part_000 line 1073 *)
Definition visible_call (this : UI.Button) : Prog schema_ProcedureCall :=
  let _args : list bytes := [] in
  let _args := push_back _args (encode this) in
  Client_build_call (_client this) "UI" "Button_get_Visible" _args.

(** [UI::Button::set_visible_call], part_000 line 1079 *)
Definition set_visible_call (this : UI.Button) (value : bool)
    : Prog schema_ProcedureCall :=
  let _args : list bytes := [] in
  let _args := push_back _args (encode this) in
  let _args := push_back _args (encode value) in
  Client_build_call (_client this) "UI" "Button_set_Visible" _args.

End Methods.

End Button.

(** [class UI::Canvas] *)
Module Canvas.
Section Methods.
Context {RT : Runtime}.

(** [UI::Canvas::Canvas], line 1086; declared
    [explicit Canvas(Client* client = nullptr, uint64_t id = 0)], line 254 *)
Definition Canvas (client : option Client_ptr) (id : option uint64_t)
    : UI.Canvas :=
  let client := default_arg nullptr client in
  let id := default_arg 0%N id in
  Object_ "UI::Canvas" client id.

(** [UI::Canvas::add_button], part_000 line 1089 *)
Definition add_button (this : UI.Canvas) (content : string)
    (visible : option bool) : Prog UI.Button :=
  let visible := default_arg true visible in
  let _args : list bytes := [] in
  let _args := push_back _args (encode this) in
  let _args := push_back _args (encode content) in
  let _args := push_back _args (encode visible) in
  _data ← Client_invoke (_client this) "UI" "Canvas_AddButton" _args;
  _result ← decoder_decode (T := UI.Button) _data (_client this);
  mret _result.

(** [UI::Canvas::add_input_field], part_000 line 1100 *)
Definition add_input_field (this : UI.Canvas) (visible : option bool)
    : Prog UI.InputField :=
  let visible := default_arg true visible in
  let _args : list bytes := [] in
  let _args := push_back _args (encode this) in
  let _args := push_back _args (encode visible) in
  _data ← Client_invoke (_client this) "UI" "Canvas_AddInputField" _args;
  _result ← decoder_decode (T := UI.InputField) _data (_client this);
  mret _result.

(** [UI::Canvas::add_panel], part_000 line 1110 *)
Definition add_panel (this : UI.Canvas) (visible : option bool)
    : Prog UI.Panel :=
  let visible := default_arg true visible in
  let _args : list bytes := [] in
  let _args := push_back _args (encode this) in
  let _args := push_back _args (encode visible) in
  _data ← Client_invoke (_client this) "UI" "Canvas_AddPanel" _args;
  _result ← decoder_decode (T := UI.Panel) _data (_client this);
  mret _result.

(** [UI::Canvas::add_text], part_000 line 1120 *)
Definition add_text (this : UI.Canvas) (content : string)
    (visible : option bool) : Prog UI.Text :=
  let visible := default_arg true visible in
  let _args : list bytes := [] in
  let _args := push_back _args (encode this) in
  let _args := push_back _args (encode content) in
  let _args := push_back _args (encode visible) in
  _data ← Client_invoke (_client this) "UI" "Canvas_AddText" _args;
  _result ← decoder_decode (T := UI.Text) _data (_client this);
  mret _result.

(** [UI::Canvas::remove], part_000 line 1131 *)
Definition remove (this : UI.Canvas) : Prog unit :=
  let _args : list bytes := [] in
  let _args := push_back _args (encode this) in
  Client_invoke (_client this) "UI" "Canvas_Remove" _args;;
  mret ().

(** [UI::Canvas::rect_transform], part_000 line 1137 *)
Definition rect_transform (this : UI.Canvas) : Prog UI.RectTransform :=
  let _args : list bytes := [] in
  let _args := push_back _args (encode this) in
  _data ← Client_invoke (_client this) "UI" "Canvas_get_RectTransform" _args;
  _result ← decoder_decode (T := UI.RectTransform) _data (_client this);
  mret _result.

(** [UI::Canvas::visible], part_000 line 1146 *)
Definition visible (this : UI.Canvas) : Prog bool :=
  let _args : list bytes := [] in
  let _args := push_back _args (encode this) in
  _data ← Client_invoke (_client this) "UI" "Canvas_get_Visible" _args;
  _result ← decoder_decode (T := bool) _data (_client this);
  mret _result.

(** [UI::Canvas::set_visible], part_000 line 1155 *)
Definition set_visible (this : UI.Canvas) (value : bool) : Prog unit :=
  let _args : list bytes := [] in
  let _args := push_back _args (encode this) in
  let _args := push_back _args (encode value) in
  Client_invoke (_client this) "UI" "Canvas_set_Visible" _args;;
  mret ().

(** [UI::Canvas::add_button_stream], part_000 line 1162 *)
Definition add_button_stream (this : UI.Canvas) (content : string)
    (visible : option bool) : Prog (Stream UI.Button) :=
  let visible := default_arg true visible in
  let _args : list bytes := [] in
  let _args := push_back _args (encode this) in
  let _args := push_back _args (encode content) in
  let _args := push_back _args (encode visible) in
  _call ← Client_build_call (_client this) "UI" "Canvas_AddButton" _args;
  Stream_ UI.Button (_client this) _call.

(** [UI::Canvas::add_input_field_stream], part_000 line 1170 *)
Definition add_input_field_stream (this : UI.Canvas) (visible : option bool)
    : Prog (Stream UI.InputField) :=
  let visible := default_arg true visible in
  let _args : list bytes := [] in
  let _args := push_back _args (encode this) in
  let _args := push_back _args (encode visible) in
  _call ← Client_build_call (_client this) "UI" "Canvas_AddInputField" _args;
  Stream_ UI.InputField (_client this) _call.

(** [UI::Canvas::add_panel_stream], part_000 line 1177 *)
Definition add_panel_stream (this : UI.Canvas) (visible : option bool)
    : Prog (Stream UI.Panel) :=
  let visible := default_arg true visible in
  let _args : list bytes := [] in
  let _args := push_back _args (encode this) in
  let _args := push_back _args (encode visible) in
  _call ← Client_build_call (_client this) "UI" "Canvas_AddPanel" _args;
  Stream_ UI.Panel (_client this) _call.

(** [UI::Canvas::add_text_stream], part_000 line 1184 *)
Definition add_text_stream (this : UI.Canvas) (content : string)
    (visible : option bool) : Prog (Stream UI.Text) :=
  let visible := default_arg true visible in
  let _args : list bytes := [] in
  let _args := push_back _args (encode this) in
  let _args := push_back _args (encode content) in
  let _args := push_back _args (encode visible) in
  _call ← Client_build_call (_client this) "UI" "Canvas_AddText" _args;
  Stream_ UI.Text (_client this) _call.

(** [UI::Canvas::rect_transform_stream], part_000 line 1192 *)
Definition rect_transform_stream (this : UI.Canvas)
    : Prog (Stream UI.RectTransform) :=
  let _args : list bytes := [] in
  let _args := push_back _args (encode this) in
  _call ← Client_build_call (_client this) "UI" "Canvas_get_RectTransform"
      _args;
  Stream_ UI.RectTransform (_client this) _call.

(** [UI::Canvas::visible_stream], part_000 line 1198 *)
Definition visible_stream (this : UI.Canvas) : Prog (Stream bool) :=
  let _args : list bytes := [] in
  let _args := push_back _args (encode this) in
  _call ← Client_build_call (_client this) "UI" "Canvas_get_Visible" _args;
  Stream_ bool (_client this) _call.

(** [UI::Canvas::add_button_call], part_000 line 1204 *)
Definition add_button_call (this : UI.Canvas) (content : string)
    (visible : option bool) : Prog schema_ProcedureCall :=
  let visible := default_arg true visible in
  let _args : list bytes := [] in
  let _args := push_back _args (encode this) in
  let _args := push_back _args (encode content) in
  let _args := push_back _args (encode visible) in
  Client_build_call (_client this) "UI" "Canvas_AddButton" _args.

(** [UI::Canvas::add_input_field_call], part_000 line 1212 *)
Definition add_input_field_call (this : UI.Canvas) (visible : option bool)
    : Prog schema_ProcedureCall :=
  let visible := default_arg true visible in
  let _args : list bytes := [] in
  let _args := push_back _args (encode this) in
  let _args := push_back _args (encode visible) in
  Client_build_call (_client this) "UI" "Canvas_AddInputField" _args.

(** [UI::Canvas::add_panel_call], part_000 line 1219 *)
Definition add_panel_call (this : UI.Canvas) (visible : option bool)
    : Prog schema_ProcedureCall :=
  let visible := default_arg true visible in
  let _args : list bytes := [] in
  let _args := push_back _args (encode this) in
  let _args := push_back _args (encode visible) in
  Client_build_call (_client this) "UI" "Canvas_AddPanel" _args.

(** [UI::Canvas::add_text_call], part_000 line 1226 *)
Definition add_text_call (this : UI.Canvas) (content : string)
    (visible : option bool) : Prog schema_ProcedureCall :=
  let visible := default_arg true visible in
  let _args : list bytes := [] in
  let _args := push_back _args (encode this) in
  let _args := push_back _args (encode content) in
  let _args := push_back _args (encode visible) in
  Client_build_call (_client this) "UI" "Canvas_AddText" _args.

(** [UI::Canvas::remove_call], part_000 line 1234 *)
Definition remove_call (this : UI.Canvas) : Prog schema_ProcedureCall :=
  let _args : list bytes := [] in
  let _args := push_back _args (encode this) in
  Client_build_call (_client this) "UI" "Canvas_Remove" _args.

(** [UI::Canvas::rect_transform_call], part_000 line 1240 *)
Definition rect_transform_call (this : UI.Canvas)
    : Prog schema_ProcedureCall :=
  let _args : list bytes := [] in
  let _args := push_back _args (encode this) in
  Client_build_call (_client this) "UI" "Canvas_get_RectTransform" _args.

(** [UI::Canvas::visible_call], part_000 line 1246 *)
Definition visible_call (this : UI.Canvas) : Prog schema_ProcedureCall :=
  let _args : list bytes := [] in
  let _args := push_back _args (encode this) in
  Client_build_call (_client this) "UI" "Canvas_get_Visible" _args.

(** [UI::Canvas::set_visible_call], part_000 line 1252 *)
Definition set_visible_call (this : UI.Canvas) (value : bool)
    : Prog schema_ProcedureCall :=
  let _args : list bytes := [] in
  let _args := push_back _args (encode this) in
  let _args := push_back _args (encode value) in
  Client_build_call (_client this) "UI" "Canvas_set_Visible" _args.

End Methods.

End Canvas.

(** [class UI::InputField] *)
Module InputField.
Section Methods.
Context {RT : Runtime}.

(** [UI::InputField::InputField], line 1259; declared
    [explicit InputField(Client* client = nullptr, uint64_t id = 0)], line 336
        *)
Definition InputField (client : option Client_ptr) (id : option uint64_t)
    : UI.InputField :=
  let client := default_arg nullptr client in
  let id := default_arg 0%N id in
  Object_ "UI::InputField" client id.

(** [UI::InputField::remove], part_000 line 1262 *)
Definition remove (this : UI.InputField) : Prog unit :=
  let _args : list bytes := [] in
  let _args := push_back _args (encode this) in
  Client_invoke (_client this) "UI" "InputField_Remove" _args;;
  mret ().

(** [UI::InputField::changed], part_000 line 1268 *)
Definition changed (this : UI.InputField) : Prog bool :=
  let _args : list bytes := [] in
  let _args := push_back _args (encode this) in
  _data ← Client_invoke (_client this) "UI" "InputField_get_Changed" _args;
  _result ← decoder_decode (T := bool) _data (_client this);
  mret _result.

(** [UI::InputField::set_changed], part_000 line 1277 *)
Definition set_changed (this : UI.InputField) (value : bool) : Prog unit :=
  let _args : list bytes := [] in
  let _args := push_back _args (encode this) in
  let _args := push_back _args (encode value) in
  Client_invoke (_client this) "UI" "InputField_set_Changed" _args;;
  mret ().

(** [UI::InputField::rect_transform], part_000 line 1284 *)
Definition rect_transform (this : UI.InputField) : Prog UI.RectTransform :=
  let _args : list bytes := [] in
  let _args := push_back _args (encode this) in
  _data ← Client_invoke (_client this) "UI" "InputField_get_RectTransform"
      _args;
  _result ← decoder_decode (T := UI.RectTransform) _data (_client this);
  mret _result.

(** [UI::InputField::text], part_000 line 1293 *)
Definition text (this : UI.InputField) : Prog UI.Text :=
  let _args : list bytes := [] in
  let _args := push_back _args (encode this) in
  _data ← Client_invoke (_client this) "UI" "InputField_get_Text" _args;
  _result ← decoder_decode (T := UI.Text) _data (_client this);
  mret _result.

(** [UI::InputField::value], part_000 line 1302 *)
Definition value (this : UI.InputField) : Prog string :=
  let _args : list bytes := [] in
  let _args := push_back _args (encode this) in
  _data ← Client_invoke (_client this) "UI" "InputField_get_Value" _args;
  _result ← decoder_decode (T := string) _data (_client this);
  mret _result.

(** [UI::InputField::set_value], part_000 line 1311 *)
Definition set_value (this : UI.InputField) (value : string) : Prog unit :=
  let _args : list bytes := [] in
  let _args := push_back _args (encode this) in
  let _args := push_back _args (encode value) in
  Client_invoke (_client this) "UI" "InputField_set_Value" _args;;
  mret ().

(** [UI::InputField::visible], part_000 line 1318 *)
Definition visible (this : UI.InputField) : Prog bool :=
  let _args : list bytes := [] in
  let _args := push_back _args (encode this) in
  _data ← Client_invoke (_client this) "UI" "InputField_get_Visible" _args;
  _result ← decoder_decode (T := bool) _data (_client this);
  mret _result.

(** [UI::InputField::set_visible], part_000 line 1327 *)
Definition set_visible (this : UI.InputField) (value : bool) : Prog unit :=
  let _args : list bytes := [] in
  let _args := push_back _args (encode this) in
  let _args := push_back _args (encode value) in
  Client_invoke (_client this) "UI" "InputField_set_Visible" _args;;
  mret ().

(** [UI::InputField::changed_stream], part_000 line 1334 *)
Definition changed_stream (this : UI.InputField) : Prog (Stream bool) :=
  let _args : list bytes := [] in
  let _args := push_back _args (encode this) in
  _call ← Client_build_call (_client this) "UI" "InputField_get_Changed"
      _args;
  Stream_ bool (_client this) _call.

(** [UI::InputField::rect_transform_stream], part_000 line 1340 *)
Definition rect_transform_stream (this : UI.InputField)
    : Prog (Stream UI.RectTransform) :=
  let _args : list bytes := [] in
  let _args := push_back _args (encode this) in
  _call ← Client_build_call (_client this) "UI" "InputField_get_RectTransform"
      _args;
  Stream_ UI.RectTransform (_client this) _call.

(** [UI::InputField::text_stream], part_000 line 1346 *)
Definition text_stream (this : UI.InputField) : Prog (Stream UI.Text) :=
  let _args : list bytes := [] in
  let _args := push_back _args (encode this) in
  _call ← Client_build_call (_client this) "UI" "InputField_get_Text" _args;
  Stream_ UI.Text (_client this) _call.

(** [UI::InputField::value_stream], part_000 line 1352 *)
Definition value_stream (this : UI.InputField) : Prog (Stream string) :=
  let _args : list bytes := [] in
  let _args := push_back _args (encode this) in
  _call ← Client_build_call (_client this) "UI" "InputField_get_Value" _args;
  Stream_ string (_client this) _call.

(** [UI::InputField::visible_stream], part_000 line 1358 *)
Definition visible_stream (this : UI.InputField) : Prog (Stream bool) :=
  let _args : list bytes := [] in
  let _args := push_back _args (encode this) in
  _call ← Client_build_call (_client this) "UI" "InputField_get_Visible"
      _args;
  Stream_ bool (_client this) _call.

(** [UI::InputField::remove_call], part_000 line 1364 *)
Definition remove_call (this : UI.InputField) : Prog schema_ProcedureCall :=
  let _args : list bytes := [] in
  let _args := push_back _args (encode this) in
  Client_build_call (_client this) "UI" "InputField_Remove" _args.

(** [UI::InputField::changed_call], part_000 line 1370 *)
Definition changed_call (this : UI.InputField) : Prog schema_ProcedureCall :=
  let _args : list bytes := [] in
  let _args := push_back _args (encode this) in
  Client_build_call (_client this) "UI" "InputField_get_Changed" _args.

(** [UI::InputField::set_changed_call], part_000 line 1376 *)
Definition set_changed_call (this : UI.InputField) (value : bool)
    : Prog schema_ProcedureCall :=
  let _args : list bytes := [] in
  let _args := push_back _args (encode this) in
  let _args := push_back _args (encode value) in
  Client_build_call (_client this) "UI" "InputField_set_Changed" _args.

(** [UI::InputField::rect_transform_call], part_000 line 1383 *)
Definition rect_transform_call (this : UI.InputField)
    : Prog schema_ProcedureCall :=
  let _args : list bytes := [] in
  let _args := push_back _args (encode this) in
  Client_build_call (_client this) "UI" "InputField_get_RectTransform" _args.

(** [UI::InputField::text_call], part_000 line 1389 *)
Definition text_call (this : UI.InputField) : Prog schema_ProcedureCall :=
  let _args : list bytes := [] in
  let _args := push_back _args (encode this) in
  Client_build_call (_client this) "UI" "InputField_get_Text" _args.

(** [UI::InputField::value_call], part_000 line 1395 *)
Definition value_call (this : UI.InputField) : Prog schema_ProcedureCall :=
  let _args : list bytes := [] in
  let _args := push_back _args (encode this) in
  Client_build_call (_client this) "UI" "InputField_get_Value" _args.

(** [UI::InputField::set_value_call], part_000 line 1401 *)
Definition set_value_call (this : UI.InputField) (value : string)
    : Prog schema_ProcedureCall :=
  let _args : list bytes := [] in
  let _args := push_back _args (encode this) in
  let _args := push_back _args (encode value) in
  Client_build_call (_client this) "UI" "InputField_set_Value" _args.

(** [UI::InputField::visible_call], part_000 line 1408 *)
Definition visible_call (this : UI.InputField) : Prog schema_ProcedureCall :=
  let _args : list bytes := [] in
  let _args := push_back _args (encode this) in
  Client_build_call (_client this) "UI" "InputField_get_Visible" _args.

(** [UI::InputField::set_visible_call], part_000 line 1414 *)
Definition set_visible_call (this : UI.InputField) (value : bool)
    : Prog schema_ProcedureCall :=
  let _args : list bytes := [] in
  let _args := push_back _args (encode this) in
  let _args := push_back _args (encode value) in
  Client_build_call (_client this) "UI" "InputField_set_Visible" _args.

End Methods.

End InputField.

(** [class UI::Panel] *)
Module Panel.
Section Methods.
Context {RT : Runtime}.

(** [UI::Panel::Panel], line 1421; declared
    [explicit Panel(Client* client = nullptr, uint64_t id = 0)], line 426 *)
Definition Panel (client : option Client_ptr) (id : option uint64_t)
    : UI.Panel :=
  let client := default_arg nullptr client in
  let id := default_arg 0%N id in
  Object_ "UI::Panel" client id.

(** [UI::Panel::add_button], part_000 line 1424 *)
Definition add_button (this : UI.Panel) (content : string)
    (visible : option bool) : Prog UI.Button :=
  let visible := default_arg true visible in
  let _args : list bytes := [] in
  let _args := push_back _args (encode this) in
  let _args := push_back _args (encode content) in
  let _args := push_back _args (encode visible) in
  _data ← Client_invoke (_client this) "UI" "Panel_AddButton" _args;
  _result ← decoder_decode (T := UI.Button) _data (_client this);
  mret _result.

(** [UI::Panel::add_input_field], part_000 line 1435 *)
Definition add_input_field (this : UI.Panel) (visible : option bool)
    : Prog UI.InputField :=
  let visible := default_arg true visible in
  let _args : list bytes := [] in
  let _args := push_back _args (encode this) in
  let _args := push_back _args (encode visible) in
  _data ← Client_invoke (_client this) "UI" "Panel_AddInputField" _args;
  _result ← decoder_decode (T := UI.InputField) _data (_client this);
  mret _result.

(** [UI::Panel::add_panel], part_000 line 1445 *)
Definition add_panel (this : UI.Panel) (visible : option bool)
    : Prog UI.Panel :=
  let visible := default_arg true visible in
  let _args : list bytes := [] in
  let _args := push_back _args (encode this) in
  let _args := push_back _args (encode visible) in
  _data ← Client_invoke (_client this) "UI" "Panel_AddPanel" _args;
  _result ← decoder_decode (T := UI.Panel) _data (_client this);
  mret _result.

(** [UI::Panel::add_text], part_000 line 1455 *)
Definition add_text (this : UI.Panel) (content : string)
    (visible : option bool) : Prog UI.Text :=
  let visible := default_arg true visible in
  let _args : list bytes := [] in
  let _args := push_back _args (encode this) in
  let _args := push_back _args (encode content) in
  let _args := push_back _args (encode visible) in
  _data ← Client_invoke (_client this) "UI" "Panel_AddText" _args;
  _result ← decoder_decode (T := UI.Text) _data (_client this);
  mret _result.

(** [UI::Panel::remove], part_000 line 1466 *)
Definition remove (this : UI.Panel) : Prog unit :=
  let _args : list bytes := [] in
  let _args := push_back _args (encode this) in
  Client_invoke (_client this) "UI" "Panel_Remove" _args;;
  mret ().

(** [UI::Panel::rect_transform], part_000 line 1472 *)
Definition rect_transform (this : UI.Panel) : Prog UI.RectTransform :=
  let _args : list bytes := [] in
  let _args := push_back _args (encode this) in
  _data ← Client_invoke (_client this) "UI" "Panel_get_RectTransform" _args;
  _result ← decoder_decode (T := UI.RectTransform) _data (_client this);
  mret _result.

(** [UI::Panel::visible], part_000 line 1481 *)
Definition visible (this : UI.Panel) : Prog bool :=
  let _args : list bytes := [] in
  let _args := push_back _args (encode this) in
  _data ← Client_invoke (_client this) "UI" "Panel_get_Visible" _args;
  _result ← decoder_decode (T := bool) _data (_client this);
  mret _result.

(** [UI::Panel::set_visible], part_000 line 1490 *)
Definition set_visible (this : UI.Panel) (value : bool) : Prog unit :=
  let _args : list bytes := [] in
  let _args := push_back _args (encode this) in
  let _args := push_back _args (encode value) in
  Client_invoke (_client this) "UI" "Panel_set_Visible" _args;;
  mret ().

(** [UI::Panel::add_button_stream], part_000 line 1497 *)
Definition add_button_stream (this : UI.Panel) (content : string)
    (visible : option bool) : Prog (Stream UI.Button) :=
  let visible := default_arg true visible in
  let _args : list bytes := [] in
  let _args := push_back _args (encode this) in
  let _args := push_back _args (encode content) in
  let _args := push_back _args (encode visible) in
  _call ← Client_build_call (_client this) "UI" "Panel_AddButton" _args;
  Stream_ UI.Button (_client this) _call.

(** [UI::Panel::add_input_field_stream], part_000 line 1505 *)
Definition add_input_field_stream (this : UI.Panel) (visible : option bool)
    : Prog (Stream UI.InputField) :=
  let visible := default_arg true visible in
  let _args : list bytes := [] in
  let _args := push_back _args (encode this) in
  let _args := push_back _args (encode visible) in
  _call ← Client_build_call (_client this) "UI" "Panel_AddInputField" _args;
  Stream_ UI.InputField (_client this) _call.

(** [UI::Panel::add_panel_stream], part_000 line 1512 *)
Definition add_panel_stream (this : UI.Panel) (visible : option bool)
    : Prog (Stream UI.Panel) :=
  let visible := default_arg true visible in
  let _args : list bytes := [] in
  let _args := push_back _args (encode this) in
  let _args := push_back _args (encode visible) in
  _call ← Client_build_call (_client this) "UI" "Panel_AddPanel" _args;
  Stream_ UI.Panel (_client this) _call.

(** [UI::Panel::add_text_stream], part_000 line 1519 *)
Definition add_text_stream (this : UI.Panel) (content : string)
    (visible : option bool) : Prog (Stream UI.Text) :=
  let visible := default_arg true visible in
  let _args : list bytes := [] in
  let _args := push_back _args (encode this) in
  let _args := push_back _args (encode content) in
  let _args := push_back _args (encode visible) in
  _call ← Client_build_call (_client this) "UI" "Panel_AddText" _args;
  Stream_ UI.Text (_client this) _call.

(** [UI::Panel::rect_transform_stream], part_000 line 1527 *)
Definition rect_transform_stream (this : UI.Panel)
    : Prog (Stream UI.RectTransform) :=
  let _args : list bytes := [] in
  let _args := push_back _args (encode this) in
  _call ← Client_build_call (_client this) "UI" "Panel_get_RectTransform"
      _args;
  Stream_ UI.RectTransform (_client this) _call.

(** [UI::Panel::visible_stream], part_000 line 1533 *)
Definition visible_stream (this : UI.Panel) : Prog (Stream bool) :=
  let _args : list bytes := [] in
  let _args := push_back _args (encode this) in
  _call ← Client_build_call (_client this) "UI" "Panel_get_Visible" _args;
  Stream_ bool (_client this) _call.

(** [UI::Panel::add_button_call], part_000 line 1539 *)
Definition add_button_call (this : UI.Panel) (content : string)
    (visible : option bool) : Prog schema_ProcedureCall :=
  let visible := default_arg true visible in
  let _args : list bytes := [] in
  let _args := push_back _args (encode this) in
  let _args := push_back _args (encode content) in
  let _args := push_back _args (encode visible) in
  Client_build_call (_client this) "UI" "Panel_AddButton" _args.

(** [UI::Panel::add_input_field_call], part_000 line 1547 *)
Definition add_input_field_call (this : UI.Panel) (visible : option bool)
    : Prog schema_ProcedureCall :=
  let visible := default_arg true visible in
  let _args : list bytes := [] in
  let _args := push_back _args (encode this) in
  let _args := push_back _args (encode visible) in
  Client_build_call (_client this) "UI" "Panel_AddInputField" _args.

(** [UI::Panel::add_panel_call], part_000 line 1554 *)
Definition add_panel_call (this : UI.Panel) (visible : option bool)
    : Prog schema_ProcedureCall :=
  let visible := default_arg true visible in
  let _args : list bytes := [] in
  let _args := push_back _args (encode this) in
  let _args := push_back _args (encode visible) in
  Client_build_call (_client this) "UI" "Panel_AddPanel" _args.

(** [UI::Panel::add_text_call], part_000 line 1561 *)
Definition add_text_call (this : UI.Panel) (content : string)
    (visible : option bool) : Prog schema_ProcedureCall :=
  let visible := default_arg true visible in
  let _args : list bytes := [] in
  let _args := push_back _args (encode this) in
  let _args := push_back _args (encode content) in
  let _args := push_back _args (encode visible) in
  Client_build_call (_client this) "UI" "Panel_AddText" _args.

(** [UI::Panel::remove_call], part_000 line 1569 *)
Definition remove_call (this : UI.Panel) : Prog schema_ProcedureCall :=
  let _args : list bytes := [] in
  let _args := push_back _args (encode this) in
  Client_build_call (_client this) "UI" "Panel_Remove" _args.

(** [UI::Panel::rect_transform_call], part_000 line 1575 *)
Definition rect_transform_call (this : UI.Panel)
    : Prog schema_ProcedureCall :=
  let _args : list bytes := [] in
  let _args := push_back _args (encode this) in
  Client_build_call (_client this) "UI" "Panel_get_RectTransform" _args.

(** [UI::Panel::visible_call], part_000 line 1581 *)
Definition visible_call (this : UI.Panel) : Prog schema_ProcedureCall :=
  let _args : list bytes := [] in
  let _args := push_back _args (encode this) in
  Client_build_call (_client this) "UI" "Panel_get_Visible" _args.

(** [UI::Panel::set_visible_call], part_000 line 1587 *)
Definition set_visible_call (this : UI.Panel) (value : bool)
    : Prog schema_ProcedureCall :=
  let _args : list bytes := [] in
  let _args := push_back _args (encode this) in
  let _args := push_back _args (encode value) in
  Client_build_call (_client this) "UI" "Panel_set_Visible" _args.

End Methods.

End Panel.

(** [class UI::RectTransform] *)
Module RectTransform.
Section Methods.
Context {RT : Runtime}.

(** [UI::RectTransform::RectTransform], line 1594; declared
    [explicit RectTransform(Client* client = nullptr, uint64_t id = 0)], line
        509 *)
Definition RectTransform (client : option Client_ptr) (id : option uint64_t)
    : UI.RectTransform :=
  let client := default_arg nullptr client in
  let id := default_arg 0%N id in
  Object_ "UI::RectTransform" client id.

(** [UI::RectTransform::set_anchor], part_000 line 1597 *)
Definition set_anchor (this : UI.RectTransform) (value : tuple2 double double)
    : Prog unit :=
  let _args : list bytes := [] in
  let _args := push_back _args (encode this) in
  let _args := push_back _args (encode value) in
  Client_invoke (_client this) "UI" "RectTransform_set_Anchor" _args;;
  mret ().

(** [UI::RectTransform::anchor_max], part_000 line 1604 *)
Definition anchor_max (this : UI.RectTransform)
    : Prog (tuple2 double double) :=
  let _args : list bytes := [] in
  let _args := push_back _args (encode this) in
  _data ← Client_invoke (_client this) "UI" "RectTransform_get_AnchorMax"
      _args;
  _result ← decoder_decode (T := tuple2 double double) _data (_client this);
  mret _result.

(** [UI::RectTransform::set_anchor_max], part_000 line 1613 *)
Definition set_anchor_max (this : UI.RectTransform)
    (value : tuple2 double double) : Prog unit :=
  let _args : list bytes := [] in
  let _args := push_back _args (encode this) in
  let _args := push_back _args (encode value) in
  Client_invoke (_client this) "UI" "RectTransform_set_AnchorMax" _args;;
  mret ().

(** [UI::RectTransform::anchor_min], part_000 line 1620 *)
Definition anchor_min (this : UI.RectTransform)
    : Prog (tuple2 double double) :=
  let _args : list bytes := [] in
  let _args := push_back _args (encode this) in
  _data ← Client_invoke (_client this) "UI" "RectTransform_get_AnchorMin"
      _args;
  _result ← decoder_decode (T := tuple2 double double) _data (_client this);
  mret _result.

(** [UI::RectTransform::set_anchor_min], part_000 line 1629 *)
Definition set_anchor_min (this : UI.RectTransform)
    (value : tuple2 double double) : Prog unit :=
  let _args : list bytes := [] in
  let _args := push_back _args (encode this) in
  let _args := push_back _args (encode value) in
  Client_invoke (_client this) "UI" "RectTransform_set_AnchorMin" _args;;
  mret ().

(** [UI::RectTransform::local_position], part_000 line 1636 *)
Definition local_position (this : UI.RectTransform)
    : Prog (tuple3 double double double) :=
  let _args : list bytes := [] in
  let _args := push_back _args (encode this) in
  _data ← Client_invoke (_client this) "UI" "RectTransform_get_LocalPosition"
      _args;
  _result ← decoder_decode (T := tuple3 double double double) _data (_client
      this);
  mret _result.

(** [UI::RectTransform::set_local_position], part_000 line 1645 *)
Definition set_local_position (this : UI.RectTransform)
    (value : tuple3 double double double) : Prog unit :=
  let _args : list bytes := [] in
  let _args := push_back _args (encode this) in
  let _args := push_back _args (encode value) in
  Client_invoke (_client this) "UI" "RectTransform_set_LocalPosition" _args;;
  mret ().

(** [UI::RectTransform::lower_left], part_000 line 1652 *)
Definition lower_left (this : UI.RectTransform)
    : Prog (tuple2 double double) :=
  let _args : list bytes := [] in
  let _args := push_back _args (encode this) in
  _data ← Client_invoke (_client this) "UI" "RectTransform_get_LowerLeft"
      _args;
  _result ← decoder_decode (T := tuple2 double double) _data (_client this);
  mret _result.

(** [UI::RectTransform::set_lower_left], part_000 line 1661 *)
Definition set_lower_left (this : UI.RectTransform)
    (value : tuple2 double double) : Prog unit :=
  let _args : list bytes := [] in
  let _args := push_back _args (encode this) in
  let _args := push_back _args (encode value) in
  Client_invoke (_client this) "UI" "RectTransform_set_LowerLeft" _args;;
  mret ().

(** [UI::RectTransform::pivot], part_000 line 1668 *)
Definition pivot (this : UI.RectTransform) : Prog (tuple2 double double) :=
  let _args : list bytes := [] in
  let _args := push_back _args (encode this) in
  _data ← Client_invoke (_client this) "UI" "RectTransform_get_Pivot" _args;
  _result ← decoder_decode (T := tuple2 double double) _data (_client this);
  mret _result.

(** [UI::RectTransform::set_pivot], part_000 line 1677 *)
Definition set_pivot (this : UI.RectTransform) (value : tuple2 double double)
    : Prog unit :=
  let _args : list bytes := [] in
  let _args := push_back _args (encode this) in
  let _args := push_back _args (encode value) in
  Client_invoke (_client this) "UI" "RectTransform_set_Pivot" _args;;
  mret ().

(** [UI::RectTransform::position], part_000 line 1684 *)
Definition position (this : UI.RectTransform) : Prog (tuple2 double double) :=
  let _args : list bytes := [] in
  let _args := push_back _args (encode this) in
  _data ← Client_invoke (_client this) "UI" "RectTransform_get_Position"
      _args;
  _result ← decoder_decode (T := tuple2 double double) _data (_client this);
  mret _result.

(** [UI::RectTransform::set_position], part_000 line 1693 *)
Definition set_position (this : UI.RectTransform)
    (value : tuple2 double double) : Prog unit :=
  let _args : list bytes := [] in
  let _args := push_back _args (encode this) in
  let _args := push_back _args (encode value) in
  Client_invoke (_client this) "UI" "RectTransform_set_Position" _args;;
  mret ().

(** [UI::RectTransform::rotation], part_000 line 1700 *)
Definition rotation (this : UI.RectTransform)
    : Prog (tuple4 double double double double) :=
  let _args : list bytes := [] in
  let _args := push_back _args (encode this) in
  _data ← Client_invoke (_client this) "UI" "RectTransform_get_Rotation"
      _args;
  _result ← decoder_decode (T := tuple4 double double double double) _data
      (_client this);
  mret _result.

(** [UI::RectTransform::set_rotation], part_000 line 1709 *)
Definition set_rotation (this : UI.RectTransform)
    (value : tuple4 double double double double) : Prog unit :=
  let _args : list bytes := [] in
  let _args := push_back _args (encode this) in
  let _args := push_back _args (encode value) in
  Client_invoke (_client this) "UI" "RectTransform_set_Rotation" _args;;
  mret ().

(** [UI::RectTransform::scale], part_000 line 1716 *)
Definition scale (this : UI.RectTransform)
    : Prog (tuple3 double double double) :=
  let _args : list bytes := [] in
  let _args := push_back _args (encode this) in
  _data ← Client_invoke (_client this) "UI" "RectTransform_get_Scale" _args;
  _result ← decoder_decode (T := tuple3 double double double) _data (_client
      this);
  mret _result.

(** [UI::RectTransform::set_scale], part_000 line 1725 *)
Definition set_scale (this : UI.RectTransform)
    (value : tuple3 double double double) : Prog unit :=
  let _args : list bytes := [] in
  let _args := push_back _args (encode this) in
  let _args := push_back _args (encode value) in
  Client_invoke (_client this) "UI" "RectTransform_set_Scale" _args;;
  mret ().

(** [UI::RectTransform::size], part_000 line 1732 *)
Definition size (this : UI.RectTransform) : Prog (tuple2 double double) :=
  let _args : list bytes := [] in
  let _args := push_back _args (encode this) in
  _data ← Client_invoke (_client this) "UI" "RectTransform_get_Size" _args;
  _result ← decoder_decode (T := tuple2 double double) _data (_client this);
  mret _result.

(** [UI::RectTransform::set_size], part_000 line 1741 *)
Definition set_size (this : UI.RectTransform) (value : tuple2 double double)
    : Prog unit :=
  let _args : list bytes := [] in
  let _args := push_back _args (encode this) in
  let _args := push_back _args (encode value) in
  Client_invoke (_client this) "UI" "RectTransform_set_Size" _args;;
  mret ().

(** [UI::RectTransform::upper_right], part_000 line 1748 *)
Definition upper_right (this : UI.RectTransform)
    : Prog (tuple2 double double) :=
  let _args : list bytes := [] in
  let _args := push_back _args (encode this) in
  _data ← Client_invoke (_client this) "UI" "RectTransform_get_UpperRight"
      _args;
  _result ← decoder_decode (T := tuple2 double double) _data (_client this);
  mret _result.

(** [UI::RectTransform::set_upper_right], part_000 line 1757 *)
Definition set_upper_right (this : UI.RectTransform)
    (value : tuple2 double double) : Prog unit :=
  let _args : list bytes := [] in
  let _args := push_back _args (encode this) in
  let _args := push_back _args (encode value) in
  Client_invoke (_client this) "UI" "RectTransform_set_UpperRight" _args;;
  mret ().

(** [UI::RectTransform::anchor_max_stream], part_000 line 1764 *)
Definition anchor_max_stream (this : UI.RectTransform)
    : Prog (Stream (tuple2 double double)) :=
  let _args : list bytes := [] in
  let _args := push_back _args (encode this) in
  _call ← Client_build_call (_client this) "UI" "RectTransform_get_AnchorMax"
      _args;
  Stream_ (tuple2 double double) (_client this) _call.

(** [UI::RectTransform::anchor_min_stream], part_000 line 1770 *)
Definition anchor_min_stream (this : UI.RectTransform)
    : Prog (Stream (tuple2 double double)) :=
  let _args : list bytes := [] in
  let _args := push_back _args (encode this) in
  _call ← Client_build_call (_client this) "UI" "RectTransform_get_AnchorMin"
      _args;
  Stream_ (tuple2 double double) (_client this) _call.

(** [UI::RectTransform::local_position_stream], part_000 line 1776 *)
Definition local_position_stream (this : UI.RectTransform)
    : Prog (Stream (tuple3 double double double)) :=
  let _args : list bytes := [] in
  let _args := push_back _args (encode this) in
  _call ← Client_build_call (_client this) "UI"
      "RectTransform_get_LocalPosition" _args;
  Stream_ (tuple3 double double double) (_client this) _call.

(** [UI::RectTransform::lower_left_stream], part_000 line 1782 *)
Definition lower_left_stream (this : UI.RectTransform)
    : Prog (Stream (tuple2 double double)) :=
  let _args : list bytes := [] in
  let _args := push_back _args (encode this) in
  _call ← Client_build_call (_client this) "UI" "RectTransform_get_LowerLeft"
      _args;
  Stream_ (tuple2 double double) (_client this) _call.

(** [UI::RectTransform::pivot_stream], part_000 line 1788 *)
Definition pivot_stream (this : UI.RectTransform)
    : Prog (Stream (tuple2 double double)) :=
  let _args : list bytes := [] in
  let _args := push_back _args (encode this) in
  _call ← Client_build_call (_client this) "UI" "RectTransform_get_Pivot"
      _args;
  Stream_ (tuple2 double double) (_client this) _call.

(** [UI::RectTransform::position_stream], part_000 line 1794 *)
Definition position_stream (this : UI.RectTransform)
    : Prog (Stream (tuple2 double double)) :=
  let _args : list bytes := [] in
  let _args := push_back _args (encode this) in
  _call ← Client_build_call (_client this) "UI" "RectTransform_get_Position"
      _args;
  Stream_ (tuple2 double double) (_client this) _call.

(** [UI::RectTransform::rotation_stream], part_000 line 1800 *)
Definition rotation_stream (this : UI.RectTransform)
    : Prog (Stream (tuple4 double double double double)) :=
  let _args : list bytes := [] in
  let _args := push_back _args (encode this) in
  _call ← Client_build_call (_client this) "UI" "RectTransform_get_Rotation"
      _args;
  Stream_ (tuple4 double double double double) (_client this) _call.

(** [UI::RectTransform::scale_stream], part_000 line 1806 *)
Definition scale_stream (this : UI.RectTransform)
    : Prog (Stream (tuple3 double double double)) :=
  let _args : list bytes := [] in
  let _args := push_back _args (encode this) in
  _call ← Client_build_call (_client this) "UI" "RectTransform_get_Scale"
      _args;
  Stream_ (tuple3 double double double) (_client this) _call.

(** [UI::RectTransform::size_stream], part_000 line 1812 *)
Definition size_stream (this : UI.RectTransform)
    : Prog (Stream (tuple2 double double)) :=
  let _args : list bytes := [] in
  let _args := push_back _args (encode this) in
  _call ← Client_build_call (_client this) "UI" "RectTransform_get_Size"
      _args;
  Stream_ (tuple2 double double) (_client this) _call.

(** [UI::RectTransform::upper_right_stream], part_000 line 1818 *)
Definition upper_right_stream (this : UI.RectTransform)
    : Prog (Stream (tuple2 double double)) :=
  let _args : list bytes := [] in
  let _args := push_back _args (encode this) in
  _call ← Client_build_call (_client this) "UI" "RectTransform_get_UpperRight"
      _args;
  Stream_ (tuple2 double double) (_client this) _call.

(** [UI::RectTransform::set_anchor_call], part_000 line 1824 *)
Definition set_anchor_call (this : UI.RectTransform)
    (value : tuple2 double double) : Prog schema_ProcedureCall :=
  let _args : list bytes := [] in
  let _args := push_back _args (encode this) in
  let _args := push_back _args (encode value) in
  Client_build_call (_client this) "UI" "RectTransform_set_Anchor" _args.

(** [UI::RectTransform::anchor_max_call], part_000 line 1831 *)
Definition anchor_max_call (this : UI.RectTransform)
    : Prog schema_ProcedureCall :=
  let _args : list bytes := [] in
  let _args := push_back _args (encode this) in
  Client_build_call (_client this) "UI" "RectTransform_get_AnchorMax" _args.

(** [UI::RectTransform::set_anchor_max_call], part_000 line 1837 *)
Definition set_anchor_max_call (this : UI.RectTransform)
    (value : tuple2 double double) : Prog schema_ProcedureCall :=
  let _args : list bytes := [] in
  let _args := push_back _args (encode this) in
  let _args := push_back _args (encode value) in
  Client_build_call (_client this) "UI" "RectTransform_set_AnchorMax" _args.

(** [UI::RectTransform::anchor_min_call], part_000 line 1844 *)
Definition anchor_min_call (this : UI.RectTransform)
    : Prog schema_ProcedureCall :=
  let _args : list bytes := [] in
  let _args := push_back _args (encode this) in
  Client_build_call (_client this) "UI" "RectTransform_get_AnchorMin" _args.

(** [UI::RectTransform::set_anchor_min_call], part_000 line 1850 *)
Definition set_anchor_min_call (this : UI.RectTransform)
    (value : tuple2 double double) : Prog schema_ProcedureCall :=
  let _args : list bytes := [] in
  let _args := push_back _args (encode this) in
  let _args := push_back _args (encode value) in
  Client_build_call (_client this) "UI" "RectTransform_set_AnchorMin" _args.

(** [UI::RectTransform::local_position_call], part_000 line 1857 *)
Definition local_position_call (this : UI.RectTransform)
    : Prog schema_ProcedureCall :=
  let _args : list bytes := [] in
  let _args := push_back _args (encode this) in
  Client_build_call (_client this) "UI" "RectTransform_get_LocalPosition"
      _args.

(** [UI::RectTransform::set_local_position_call], part_000 line 1863 *)
Definition set_local_position_call (this : UI.RectTransform)
    (value : tuple3 double double double) : Prog schema_ProcedureCall :=
  let _args : list bytes := [] in
  let _args := push_back _args (encode this) in
  let _args := push_back _args (encode value) in
  Client_build_call (_client this) "UI" "RectTransform_set_LocalPosition"
      _args.

(** [UI::RectTransform::lower_left_call], part_000 line 1870 *)
Definition lower_left_call (this : UI.RectTransform)
    : Prog schema_ProcedureCall :=
  let _args : list bytes := [] in
  let _args := push_back _args (encode this) in
  Client_build_call (_client this) "UI" "RectTransform_get_LowerLeft" _args.

(** [UI::RectTransform::set_lower_left_call], part_000 line 1876 *)
Definition set_lower_left_call (this : UI.RectTransform)
    (value : tuple2 double double) : Prog schema_ProcedureCall :=
  let _args : list bytes := [] in
  let _args := push_back _args (encode this) in
  let _args := push_back _args (encode value) in
  Client_build_call (_client this) "UI" "RectTransform_set_LowerLeft" _args.

(** [UI::RectTransform::pivot_call], part_000 line 1883 *)
Definition pivot_call (this : UI.RectTransform) : Prog schema_ProcedureCall :=
  let _args : list bytes := [] in
  let _args := push_back _args (encode this) in
  Client_build_call (_client this) "UI" "RectTransform_get_Pivot" _args.

(** [UI::RectTransform::set_pivot_call], part_000 line 1889 *)
Definition set_pivot_call (this : UI.RectTransform)
    (value : tuple2 double double) : Prog schema_ProcedureCall :=
  let _args : list bytes := [] in
  let _args := push_back _args (encode this) in
  let _args := push_back _args (encode value) in
  Client_build_call (_client this) "UI" "RectTransform_set_Pivot" _args.

(** [UI::RectTransform::position_call], part_000 line 1896 *)
Definition position_call (this : UI.RectTransform)
    : Prog schema_ProcedureCall :=
  let _args : list bytes := [] in
  let _args := push_back _args (encode this) in
  Client_build_call (_client this) "UI" "RectTransform_get_Position" _args.

(** [UI::RectTransform::set_position_call], part_000 line 1902 *)
Definition set_position_call (this : UI.RectTransform)
    (value : tuple2 double double) : Prog schema_ProcedureCall :=
  let _args : list bytes := [] in
  let _args := push_back _args (encode this) in
  let _args := push_back _args (encode value) in
  Client_build_call (_client this) "UI" "RectTransform_set_Position" _args.

(** [UI::RectTransform::rotation_call], part_000 line 1909 *)
Definition rotation_call (this : UI.RectTransform)
    : Prog schema_ProcedureCall :=
  let _args : list bytes := [] in
  let _args := push_back _args (encode this) in
  Client_build_call (_client this) "UI" "RectTransform_get_Rotation" _args.

(** [UI::RectTransform::set_rotation_call], part_000 line 1915 *)
Definition set_rotation_call (this : UI.RectTransform)
    (value : tuple4 double double double double)
    : Prog schema_ProcedureCall :=
  let _args : list bytes := [] in
  let _args := push_back _args (encode this) in
  let _args := push_back _args (encode value) in
  Client_build_call (_client this) "UI" "RectTransform_set_Rotation" _args.

(** [UI::RectTransform::scale_call], part_000 line 1922 *)
Definition scale_call (this : UI.RectTransform) : Prog schema_ProcedureCall :=
  let _args : list bytes := [] in
  let _args := push_back _args (encode this) in
  Client_build_call (_client this) "UI" "RectTransform_get_Scale" _args.

(** [UI::RectTransform::set_scale_call], part_000 line 1928 *)
Definition set_scale_call (this : UI.RectTransform)
    (value : tuple3 double double double) : Prog schema_ProcedureCall :=
  let _args : list bytes := [] in
  let _args := push_back _args (encode this) in
  let _args := push_back _args (encode value) in
  Client_build_call (_client this) "UI" "RectTransform_set_Scale" _args.

(** [UI::RectTransform::size_call], part_000 line 1935 *)
Definition size_call (this : UI.RectTransform) : Prog schema_ProcedureCall :=
  let _args : list bytes := [] in
  let _args := push_back _args (encode this) in
  Client_build_call (_client this) "UI" "RectTransform_get_Size" _args.

(** [UI::RectTransform::set_size_call], part_000 line 1941 *)
Definition set_size_call (this : UI.RectTransform)
    (value : tuple2 double double) : Prog schema_ProcedureCall :=
  let _args : list bytes := [] in
  let _args := push_back _args (encode this) in
  let _args := push_back _args (encode value) in
  Client_build_call (_client this) "UI" "RectTransform_set_Size" _args.

(** [UI::RectTransform::upper_right_call], part_000 line 1948 *)
Definition upper_right_call (this : UI.RectTransform)
    : Prog schema_ProcedureCall :=
  let _args : list bytes := [] in
  let _args := push_back _args (encode this) in
  Client_build_call (_client this) "UI" "RectTransform_get_UpperRight" _args.

(** [UI::RectTransform::set_upper_right_call], part_000 line 1954 *)
Definition set_upper_right_call (this : UI.RectTransform)
    (value : tuple2 double double) : Prog schema_ProcedureCall :=
  let _args : list bytes := [] in
  let _args := push_back _args (encode this) in
  let _args := push_back _args (encode value) in
  Client_build_call (_client this) "UI" "RectTransform_set_UpperRight" _args.

End Methods.

End RectTransform.

(** [class UI::Text] *)
Module Text.
Section Methods.
Context {RT : Runtime}.

(** [UI::Text::Text], line 1961; declared
    [explicit Text(Client* client = nullptr, uint64_t id = 0)], line 684 *)
Definition Text (client : option Client_ptr) (id : option uint64_t)
    : UI.Text :=
  let client := default_arg nullptr client in
  let id := default_arg 0%N id in
  Object_ "UI::Text" client id.

(** [UI::Text::remove], part_000 line 1964 *)
Definition remove (this : UI.Text) : Prog unit :=
  let _args : list bytes := [] in
  let _args := push_back _args (encode this) in
  Client_invoke (_client this) "UI" "Text_Remove" _args;;
  mret ().

(** [UI::Text::alignment], part_000 line 1970 *)
Definition alignment (this : UI.Text) : Prog UI.TextAnchor :=
  let _args : list bytes := [] in
  let _args := push_back _args (encode this) in
  _data ← Client_invoke (_client this) "UI" "Text_get_Alignment" _args;
  _result ← decoder_decode (T := UI.TextAnchor) _data (_client this);
  mret _result.

(** [UI::Text::set_alignment], part_000 line 1979 *)
Definition set_alignment (this : UI.Text) (value : UI.TextAnchor)
    : Prog unit :=
  let _args : list bytes := [] in
  let _args := push_back _args (encode this) in
  let _args := push_back _args (encode value) in
  Client_invoke (_client this) "UI" "Text_set_Alignment" _args;;
  mret ().

(** [UI::Text::available_fonts], part_000 line 1986 *)
Definition available_fonts (this : UI.Text) : Prog (list string) :=
  let _args : list bytes := [] in
  let _args := push_back _args (encode this) in
  _data ← Client_invoke (_client this) "UI" "Text_get_AvailableFonts" _args;
  _result ← decoder_decode (T := list string) _data (_client this);
  mret _result.

(** [UI::Text::color], part_000 line 1995 *)
Definition color (this : UI.Text) : Prog (tuple3 double double double) :=
  let _args : list bytes := [] in
  let _args := push_back _args (encode this) in
  _data ← Client_invoke (_client this) "UI" "Text_get_Color" _args;
  _result ← decoder_decode (T := tuple3 double double double) _data (_client
      this);
  mret _result.

(** [UI::Text::set_color], part_000 line 2004 *)
Definition set_color (this : UI.Text) (value : tuple3 double double double)
    : Prog unit :=
  let _args : list bytes := [] in
  let _args := push_back _args (encode this) in
  let _args := push_back _args (encode value) in
  Client_invoke (_client this) "UI" "Text_set_Color" _args;;
  mret ().

(** [UI::Text::content], part_000 line 2011 *)
Definition content (this : UI.Text) : Prog string :=
  let _args : list bytes := [] in
  let _args := push_back _args (encode this) in
  _data ← Client_invoke (_client this) "UI" "Text_get_Content" _args;
  _result ← decoder_decode (T := string) _data (_client this);
  mret _result.

(** [UI::Text::set_content], part_000 line 2020 *)
Definition set_content (this : UI.Text) (value : string) : Prog unit :=
  let _args : list bytes := [] in
  let _args := push_back _args (encode this) in
  let _args := push_back _args (encode value) in
  Client_invoke (_client this) "UI" "Text_set_Content" _args;;
  mret ().

(** [UI::Text::font], part_000 line 2027 *)
Definition font (this : UI.Text) : Prog string :=
  let _args : list bytes := [] in
  let _args := push_back _args (encode this) in
  _data ← Client_invoke (_client this) "UI" "Text_get_Font" _args;
  _result ← decoder_decode (T := string) _data (_client this);
  mret _result.

(** [UI::Text::set_font], part_000 line 2036 *)
Definition set_font (this : UI.Text) (value : string) : Prog unit :=
  let _args : list bytes := [] in
  let _args := push_back _args (encode this) in
  let _args := push_back _args (encode value) in
  Client_invoke (_client this) "UI" "Text_set_Font" _args;;
  mret ().

(** [UI::Text::line_spacing], part_000 line 2043 *)
Definition line_spacing (this : UI.Text) : Prog float :=
  let _args : list bytes := [] in
  let _args := push_back _args (encode this) in
  _data ← Client_invoke (_client this) "UI" "Text_get_LineSpacing" _args;
  _result ← decoder_decode (T := float) _data (_client this);
  mret _result.

(** [UI::Text::set_line_spacing], part_000 line 2052 *)
Definition set_line_spacing (this : UI.Text) (value : float) : Prog unit :=
  let _args : list bytes := [] in
  let _args := push_back _args (encode this) in
  let _args := push_back _args (encode value) in
  Client_invoke (_client this) "UI" "Text_set_LineSpacing" _args;;
  mret ().

(** [UI::Text::rect_transform], part_000 line 2059 *)
Definition rect_transform (this : UI.Text) : Prog UI.RectTransform :=
  let _args : list bytes := [] in
  let _args := push_back _args (encode this) in
  _data ← Client_invoke (_client this) "UI" "Text_get_RectTransform" _args;
  _result ← decoder_decode (T := UI.RectTransform) _data (_client this);
  mret _result.

(** [UI::Text::size], part_000 line 2068 *)
Definition size (this : UI.Text) : Prog int32_t :=
  let _args : list bytes := [] in
  let _args := push_back _args (encode this) in
  _data ← Client_invoke (_client this) "UI" "Text_get_Size" _args;
  _result ← decoder_decode (T := int32_t) _data (_client this);
  mret _result.

(** [UI::Text::set_size], part_000 line 2077 *)
Definition set_size (this : UI.Text) (value : int32_t) : Prog unit :=
  let _args : list bytes := [] in
  let _args := push_back _args (encode this) in
  let _args := push_back _args (encode value) in
  Client_invoke (_client this) "UI" "Text_set_Size" _args;;
  mret ().

(** [UI::Text::style], part_000 line 2084 *)
Definition style (this : UI.Text) : Prog UI.FontStyle :=
  let _args : list bytes := [] in
  let _args := push_back _args (encode this) in
  _data ← Client_invoke (_client this) "UI" "Text_get_Style" _args;
  _result ← decoder_decode (T := UI.FontStyle) _data (_client this);
  mret _result.

(** [UI::Text::set_style], part_000 line 2093 *)
Definition set_style (this : UI.Text) (value : UI.FontStyle) : Prog unit :=
  let _args : list bytes := [] in
  let _args := push_back _args (encode this) in
  let _args := push_back _args (encode value) in
  Client_invoke (_client this) "UI" "Text_set_Style" _args;;
  mret ().

(** [UI::Text::visible], part_000 line 2100 *)
Definition visible (this : UI.Text) : Prog bool :=
  let _args : list bytes := [] in
  let _args := push_back _args (encode this) in
  _data ← Client_invoke (_client this) "UI" "Text_get_Visible" _args;
  _result ← decoder_decode (T := bool) _data (_client this);
  mret _result.

(** [UI::Text::set_visible], part_000 line 2109 *)
Definition set_visible (this : UI.Text) (value : bool) : Prog unit :=
  let _args : list bytes := [] in
  let _args := push_back _args (encode this) in
  let _args := push_back _args (encode value) in
  Client_invoke (_client this) "UI" "Text_set_Visible" _args;;
  mret ().

(** [UI::Text::alignment_stream], part_000 line 2116 *)
Definition alignment_stream (this : UI.Text) : Prog (Stream UI.TextAnchor) :=
  let _args : list bytes := [] in
  let _args := push_back _args (encode this) in
  _call ← Client_build_call (_client this) "UI" "Text_get_Alignment" _args;
  Stream_ UI.TextAnchor (_client this) _call.

(** [UI::Text::available_fonts_stream], part_000 line 2122 *)
Definition available_fonts_stream (this : UI.Text)
    : Prog (Stream (list string)) :=
  let _args : list bytes := [] in
  let _args := push_back _args (encode this) in
  _call ← Client_build_call (_client this) "UI" "Text_get_AvailableFonts"
      _args;
  Stream_ (list string) (_client this) _call.

(** [UI::Text::color_stream], part_000 line 2128 *)
Definition color_stream (this : UI.Text)
    : Prog (Stream (tuple3 double double double)) :=
  let _args : list bytes := [] in
  let _args := push_back _args (encode this) in
  _call ← Client_build_call (_client this) "UI" "Text_get_Color" _args;
  Stream_ (tuple3 double double double) (_client this) _call.

(** [UI::Text::content_stream], part_000 line 2134 *)
Definition content_stream (this : UI.Text) : Prog (Stream string) :=
  let _args : list bytes := [] in
  let _args := push_back _args (encode this) in
  _call ← Client_build_call (_client this) "UI" "Text_get_Content" _args;
  Stream_ string (_client this) _call.

(** [UI::Text::font_stream], part_000 line 2140 *)
Definition font_stream (this : UI.Text) : Prog (Stream string) :=
  let _args : list bytes := [] in
  let _args := push_back _args (encode this) in
  _call ← Client_build_call (_client this) "UI" "Text_get_Font" _args;
  Stream_ string (_client this) _call.

(** [UI::Text::line_spacing_stream], part_000 line 2146 *)
Definition line_spacing_stream (this : UI.Text) : Prog (Stream float) :=
  let _args : list bytes := [] in
  let _args := push_back _args (encode this) in
  _call ← Client_build_call (_client this) "UI" "Text_get_LineSpacing" _args;
  Stream_ float (_client this) _call.

(** [UI::Text::rect_transform_stream], part_000 line 2152 *)
Definition rect_transform_stream (this : UI.Text)
    : Prog (Stream UI.RectTransform) :=
  let _args : list bytes := [] in
  let _args := push_back _args (encode this) in
  _call ← Client_build_call (_client this) "UI" "Text_get_RectTransform"
      _args;
  Stream_ UI.RectTransform (_client this) _call.

(** [UI::Text::size_stream], part_000 line 2158 *)
Definition size_stream (this : UI.Text) : Prog (Stream int32_t) :=
  let _args : list bytes := [] in
  let _args := push_back _args (encode this) in
  _call ← Client_build_call (_client this) "UI" "Text_get_Size" _args;
  Stream_ int32_t (_client this) _call.

(** [UI::Text::style_stream], part_000 line 2164 *)
Definition style_stream (this : UI.Text) : Prog (Stream UI.FontStyle) :=
  let _args : list bytes := [] in
  let _args := push_back _args (encode this) in
  _call ← Client_build_call (_client this) "UI" "Text_get_Style" _args;
  Stream_ UI.FontStyle (_client this) _call.

(** [UI::Text::visible_stream], part_000 line 2170 *)
Definition visible_stream (this : UI.Text) : Prog (Stream bool) :=
  let _args : list bytes := [] in
  let _args := push_back _args (encode this) in
  _call ← Client_build_call (_client this) "UI" "Text_get_Visible" _args;
  Stream_ bool (_client this) _call.

(** [UI::Text::remove_call], part_000 line 2176 *)
Definition remove_call (this : UI.Text) : Prog schema_ProcedureCall :=
  let _args : list bytes := [] in
  let _args := push_back _args (encode this) in
  Client_build_call (_client this) "UI" "Text_Remove" _args.

(** [UI::Text::alignment_call], part_000 line 2182 *)
Definition alignment_call (this : UI.Text) : Prog schema_ProcedureCall :=
  let _args : list bytes := [] in
  let _args := push_back _args (encode this) in
  Client_build_call (_client this) "UI" "Text_get_Alignment" _args.

(** [UI::Text::set_alignment_call], part_000 line 2188 *)
Definition set_alignment_call (this : UI.Text) (value : UI.TextAnchor)
    : Prog schema_ProcedureCall :=
  let _args : list bytes := [] in
  let _args := push_back _args (encode this) in
  let _args := push_back _args (encode value) in
  Client_build_call (_client this) "UI" "Text_set_Alignment" _args.

(** [UI::Text::available_fonts_call], part_000 line 2195 *)
Definition available_fonts_call (this : UI.Text)
    : Prog schema_ProcedureCall :=
  let _args : list bytes := [] in
  let _args := push_back _args (encode this) in
  Client_build_call (_client this) "UI" "Text_get_AvailableFonts" _args.

(** [UI::Text::color_call], part_000 line 2201 *)
Definition color_call (this : UI.Text) : Prog schema_ProcedureCall :=
  let _args : list bytes := [] in
  let _args := push_back _args (encode this) in
  Client_build_call (_client this) "UI" "Text_get_Color" _args.

(** [UI::Text::set_color_call], part_000 line 2207 *)
Definition set_color_call (this : UI.Text)
    (value : tuple3 double double double) : Prog schema_ProcedureCall :=
  let _args : list bytes := [] in
  let _args := push_back _args (encode this) in
  let _args := push_back _args (encode value) in
  Client_build_call (_client this) "UI" "Text_set_Color" _args.

(** [UI::Text::content_call], part_000 line 2214 *)
Definition content_call (this : UI.Text) : Prog schema_ProcedureCall :=
  let _args : list bytes := [] in
  let _args := push_back _args (encode this) in
  Client_build_call (_client this) "UI" "Text_get_Content" _args.

(** [UI::Text::set_content_call], part_000 line 2220 *)
Definition set_content_call (this : UI.Text) (value : string)
    : Prog schema_ProcedureCall :=
  let _args : list bytes := [] in
  let _args := push_back _args (encode this) in
  let _args := push_back _args (encode value) in
  Client_build_call (_client this) "UI" "Text_set_Content" _args.

(** [UI::Text::font_call], part_000 line 2227 *)
Definition font_call (this : UI.Text) : Prog schema_ProcedureCall :=
  let _args : list bytes := [] in
  let _args := push_back _args (encode this) in
  Client_build_call (_client this) "UI" "Text_get_Font" _args.

(** [UI::Text::set_font_call], part_000 line 2233 *)
Definition set_font_call (this : UI.Text) (value : string)
    : Prog schema_ProcedureCall :=
  let _args : list bytes := [] in
  let _args := push_back _args (encode this) in
  let _args := push_back _args (encode value) in
  Client_build_call (_client this) "UI" "Text_set_Font" _args.

(** [UI::Text::line_spacing_call], part_000 line 2240 *)
Definition line_spacing_call (this : UI.Text) : Prog schema_ProcedureCall :=
  let _args : list bytes := [] in
  let _args := push_back _args (encode this) in
  Client_build_call (_client this) "UI" "Text_get_LineSpacing" _args.

(** [UI::Text::set_line_spacing_call], part_000 line 2246 *)
Definition set_line_spacing_call (this : UI.Text) (value : float)
    : Prog schema_ProcedureCall :=
  let _args : list bytes := [] in
  let _args := push_back _args (encode this) in
  let _args := push_back _args (encode value) in
  Client_build_call (_client this) "UI" "Text_set_LineSpacing" _args.

(** [UI::Text::rect_transform_call], part_000 line 2253 *)
Definition rect_transform_call (this : UI.Text) : Prog schema_ProcedureCall :=
  let _args : list bytes := [] in
  let _args := push_back _args (encode this) in
  Client_build_call (_client this) "UI" "Text_get_RectTransform" _args.

(** [UI::Text::size_call], part_000 line 2259 *)
Definition size_call (this : UI.Text) : Prog schema_ProcedureCall :=
  let _args : list bytes := [] in
  let _args := push_back _args (encode this) in
  Client_build_call (_client this) "UI" "Text_get_Size" _args.

(** [UI::Text::set_size_call], part_000 line 2265 *)
Definition set_size_call (this : UI.Text) (value : int32_t)
    : Prog schema_ProcedureCall :=
  let _args : list bytes := [] in
  let _args := push_back _args (encode this) in
  let _args := push_back _args (encode value) in
  Client_build_call (_client this) "UI" "Text_set_Size" _args.

(** [UI::Text::style_call], part_000 line 2272 *)
Definition style_call (this : UI.Text) : Prog schema_ProcedureCall :=
  let _args : list bytes := [] in
  let _args := push_back _args (encode this) in
  Client_build_call (_client this) "UI" "Text_get_Style" _args.

(** [UI::Text::set_style_call], part_000 line 2278 *)
Definition set_style_call (this : UI.Text) (value : UI.FontStyle)
    : Prog schema_ProcedureCall :=
  let _args : list bytes := [] in
  let _args := push_back _args (encode this) in
  let _args := push_back _args (encode value) in
  Client_build_call (_client this) "UI" "Text_set_Style" _args.

(** [UI::Text::visible_call], part_000 line 2285 *)
Definition visible_call (this : UI.Text) : Prog schema_ProcedureCall :=
  let _args : list bytes := [] in
  let _args := push_back _args (encode this) in
  Client_build_call (_client this) "UI" "Text_get_Visible" _args.

(** [UI::Text::set_visible_call], part_000 line 2291 *)
Definition set_visible_call (this : UI.Text) (value : bool)
    : Prog schema_ProcedureCall :=
  let _args : list bytes := [] in
  let _args := push_back _args (encode this) in
  let _args := push_back _args (encode value) in
  Client_build_call (_client this) "UI" "Text_set_Visible" _args.

End Methods.

End Text.

Section Table.
Context {RT : Runtime}.

(** The remote procedures of the service, in the order of the sources. *)
Definition operations : list Operation := [
  Value_op "UI::add_canvas" Service_method
    (Args := unit)
    (λ _, [])
    (λ this _, add_canvas this)
    (λ this _, add_canvas_stream this)
    (λ this _, add_canvas_call this);
  Void_op "UI::clear" Service_method
    (Args := option bool)
    (λ client_only, [encode (default_arg false client_only)])
    (λ this client_only, clear this client_only)
    (λ this client_only, clear_call this client_only);
  Void_op "UI::message" Service_method
    (Args := string * option float * option UI.MessagePosition * option
        (tuple3 double double double) * option float)
    (λ '(content, duration, position, color, size),
       [encode content;
        encode (default_arg (double_to_float (double_literal "1.0"))
            duration);
        encode (default_arg (static_cast_enum "UI::MessagePosition" 1%Z)
            position);
        encode (default_arg (Tuple3 (double_literal "1.0") (double_literal
            "0.92") (double_literal "0.016")) color);
        encode (default_arg (double_to_float (double_literal "20.0")) size)])
    (λ this '(content, duration, position, color, size),
       message this content duration position color size)
    (λ this '(content, duration, position, color, size),
       message_call this content duration position color size);
  Value_op "UI::stock_canvas" Service_method
    (Args := unit)
    (λ _, [])
    (λ this _, stock_canvas this)
    (λ this _, stock_canvas_stream this)
    (λ this _, stock_canvas_call this);
  Void_op "UI::Button::remove" (Object_method "UI::Button")
    (Args := unit)
    (λ _, [])
    (λ this _, Button.remove this)
    (λ this _, Button.remove_call this);
  Value_op "UI::Button::clicked" (Object_method "UI::Button")
    (Args := unit)
    (λ _, [])
    (λ this _, Button.clicked this)
    (λ this _, Button.clicked_stream this)
    (λ this _, Button.clicked_call this);
  Void_op "UI::Button::set_clicked" (Object_method "UI::Button")
    (Args := bool)
    (λ value, [encode value])
    (λ this value, Button.set_clicked this value)
    (λ this value, Button.set_clicked_call this value);
  Value_op "UI::Button::rect_transform" (Object_method "UI::Button")
    (Args := unit)
    (λ _, [])
    (λ this _, Button.rect_transform this)
    (λ this _, Button.rect_transform_stream this)
    (λ this _, Button.rect_transform_call this);
  Value_op "UI::Button::text" (Object_method "UI::Button")
    (Args := unit)
    (λ _, [])
    (λ this _, Button.text this)
    (λ this _, Button.text_stream this)
    (λ this _, Button.text_call this);
  Value_op "UI::Button::visible" (Object_method "UI::Button")
    (Args := unit)
    (λ _, [])
    (λ this _, Button.visible this)
    (λ this _, Button.visible_stream this)
    (λ this _, Button.visible_call this);
  Void_op "UI::Button::set_visible" (Object_method "UI::Button")
    (Args := bool)
    (λ value, [encode value])
    (λ this value, Button.set_visible this value)
    (λ this value, Button.set_visible_call this value);
  Value_op "UI::Canvas::add_button" (Object_method "UI::Canvas")
    (Args := string * option bool)
    (λ '(content, visible),
       [encode content;
        encode (default_arg true visible)])
    (λ this '(content, visible), Canvas.add_button this content visible)
    (λ this '(content, visible),
       Canvas.add_button_stream this content visible)
    (λ this '(content, visible), Canvas.add_button_call this content visible);
  Value_op "UI::Canvas::add_input_field" (Object_method "UI::Canvas")
    (Args := option bool)
    (λ visible, [encode (default_arg true visible)])
    (λ this visible, Canvas.add_input_field this visible)
    (λ this visible, Canvas.add_input_field_stream this visible)
    (λ this visible, Canvas.add_input_field_call this visible);
  Value_op "UI::Canvas::add_panel" (Object_method "UI::Canvas")
    (Args := option bool)
    (λ visible, [encode (default_arg true visible)])
    (λ this visible, Canvas.add_panel this visible)
    (λ this visible, Canvas.add_panel_stream this visible)
    (λ this visible, Canvas.add_panel_call this visible);
  Value_op "UI::Canvas::add_text" (Object_method "UI::Canvas")
    (Args := string * option bool)
    (λ '(content, visible),
       [encode content;
        encode (default_arg true visible)])
    (λ this '(content, visible), Canvas.add_text this content visible)
    (λ this '(content, visible), Canvas.add_text_stream this content visible)
    (λ this '(content, visible), Canvas.add_text_call this content visible);
  Void_op "UI::Canvas::remove" (Object_method "UI::Canvas")
    (Args := unit)
    (λ _, [])
    (λ this _, Canvas.remove this)
    (λ this _, Canvas.remove_call this);
  Value_op "UI::Canvas::rect_transform" (Object_method "UI::Canvas")
    (Args := unit)
    (λ _, [])
    (λ this _, Canvas.rect_transform this)
    (λ this _, Canvas.rect_transform_stream this)
    (λ this _, Canvas.rect_transform_call this);
  Value_op "UI::Canvas::visible" (Object_method "UI::Canvas")
    (Args := unit)
    (λ _, [])
    (λ this _, Canvas.visible this)
    (λ this _, Canvas.visible_stream this)
    (λ this _, Canvas.visible_call this);
  Void_op "UI::Canvas::set_visible" (Object_method "UI::Canvas")
    (Args := bool)
    (λ value, [encode value])
    (λ this value, Canvas.set_visible this value)
    (λ this value, Canvas.set_visible_call this value);
  Void_op "UI::InputField::remove" (Object_method "UI::InputField")
    (Args := unit)
    (λ _, [])
    (λ this _, InputField.remove this)
    (λ this _, InputField.remove_call this);
  Value_op "UI::InputField::changed" (Object_method "UI::InputField")
    (Args := unit)
    (λ _, [])
    (λ this _, InputField.changed this)
    (λ this _, InputField.changed_stream this)
    (λ this _, InputField.changed_call this);
  Void_op "UI::InputField::set_changed" (Object_method "UI::InputField")
    (Args := bool)
    (λ value, [encode value])
    (λ this value, InputField.set_changed this value)
    (λ this value, InputField.set_changed_call this value);
  Value_op "UI::InputField::rect_transform" (Object_method "UI::InputField")
    (Args := unit)
    (λ _, [])
    (λ this _, InputField.rect_transform this)
    (λ this _, InputField.rect_transform_stream this)
    (λ this _, InputField.rect_transform_call this);
  Value_op "UI::InputField::text" (Object_method "UI::InputField")
    (Args := unit)
    (λ _, [])
    (λ this _, InputField.text this)
    (λ this _, InputField.text_stream this)
    (λ this _, InputField.text_call this);
  Value_op "UI::InputField::value" (Object_method "UI::InputField")
    (Args := unit)
    (λ _, [])
    (λ this _, InputField.value this)
    (λ this _, InputField.value_stream this)
    (λ this _, InputField.value_call this);
  Void_op "UI::InputField::set_value" (Object_method "UI::InputField")
    (Args := string)
    (λ value, [encode value])
    (λ this value, InputField.set_value this value)
    (λ this value, InputField.set_value_call this value);
  Value_op "UI::InputField::visible" (Object_method "UI::InputField")
    (Args := unit)
    (λ _, [])
    (λ this _, InputField.visible this)
    (λ this _, InputField.visible_stream this)
    (λ this _, InputField.visible_call this);
  Void_op "UI::InputField::set_visible" (Object_method "UI::InputField")
    (Args := bool)
    (λ value, [encode value])
    (λ this value, InputField.set_visible this value)
    (λ this value, InputField.set_visible_call this value);
  Value_op "UI::Panel::add_button" (Object_method "UI::Panel")
    (Args := string * option bool)
    (λ '(content, visible),
       [encode content;
        encode (default_arg true visible)])
    (λ this '(content, visible), Panel.add_button this content visible)
    (λ this '(content, visible), Panel.add_button_stream this content visible)
    (λ this '(content, visible), Panel.add_button_call this content visible);
  Value_op "UI::Panel::add_input_field" (Object_method "UI::Panel")
    (Args := option bool)
    (λ visible, [encode (default_arg true visible)])
    (λ this visible, Panel.add_input_field this visible)
    (λ this visible, Panel.add_input_field_stream this visible)
    (λ this visible, Panel.add_input_field_call this visible);
  Value_op "UI::Panel::add_panel" (Object_method "UI::Panel")
    (Args := option bool)
    (λ visible, [encode (default_arg true visible)])
    (λ this visible, Panel.add_panel this visible)
    (λ this visible, Panel.add_panel_stream this visible)
    (λ this visible, Panel.add_panel_call this visible);
  Value_op "UI::Panel::add_text" (Object_method "UI::Panel")
    (Args := string * option bool)
    (λ '(content, visible),
       [encode content;
        encode (default_arg true visible)])
    (λ this '(content, visible), Panel.add_text this content visible)
    (λ this '(content, visible), Panel.add_text_stream this content visible)
    (λ this '(content, visible), Panel.add_text_call this content visible);
  Void_op "UI::Panel::remove" (Object_method "UI::Panel")
    (Args := unit)
    (λ _, [])
    (λ this _, Panel.remove this)
    (λ this _, Panel.remove_call this);
  Value_op "UI::Panel::rect_transform" (Object_method "UI::Panel")
    (Args := unit)
    (λ _, [])
    (λ this _, Panel.rect_transform this)
    (λ this _, Panel.rect_transform_stream this)
    (λ this _, Panel.rect_transform_call this);
  Value_op "UI::Panel::visible" (Object_method "UI::Panel")
    (Args := unit)
    (λ _, [])
    (λ this _, Panel.visible this)
    (λ this _, Panel.visible_stream this)
    (λ this _, Panel.visible_call this);
  Void_op "UI::Panel::set_visible" (Object_method "UI::Panel")
    (Args := bool)
    (λ value, [encode value])
    (λ this value, Panel.set_visible this value)
    (λ this value, Panel.set_visible_call this value);
  Void_op "UI::RectTransform::set_anchor" (Object_method "UI::RectTransform")
    (Args := (tuple2 double double))
    (λ value, [encode value])
    (λ this value, RectTransform.set_anchor this value)
    (λ this value, RectTransform.set_anchor_call this value);
  Value_op "UI::RectTransform::anchor_max" (Object_method "UI::RectTransform")
    (Args := unit)
    (λ _, [])
    (λ this _, RectTransform.anchor_max this)
    (λ this _, RectTransform.anchor_max_stream this)
    (λ this _, RectTransform.anchor_max_call this);
  Void_op "UI::RectTransform::set_anchor_max" (Object_method
      "UI::RectTransform")
    (Args := (tuple2 double double))
    (λ value, [encode value])
    (λ this value, RectTransform.set_anchor_max this value)
    (λ this value, RectTransform.set_anchor_max_call this value);
  Value_op "UI::RectTransform::anchor_min" (Object_method "UI::RectTransform")
    (Args := unit)
    (λ _, [])
    (λ this _, RectTransform.anchor_min this)
    (λ this _, RectTransform.anchor_min_stream this)
    (λ this _, RectTransform.anchor_min_call this);
  Void_op "UI::RectTransform::set_anchor_min" (Object_method
      "UI::RectTransform")
    (Args := (tuple2 double double))
    (λ value, [encode value])
    (λ this value, RectTransform.set_anchor_min this value)
    (λ this value, RectTransform.set_anchor_min_call this value);
  Value_op "UI::RectTransform::local_position" (Object_method
      "UI::RectTransform")
    (Args := unit)
    (λ _, [])
    (λ this _, RectTransform.local_position this)
    (λ this _, RectTransform.local_position_stream this)
    (λ this _, RectTransform.local_position_call this);
  Void_op "UI::RectTransform::set_local_position" (Object_method
      "UI::RectTransform")
    (Args := (tuple3 double double double))
    (λ value, [encode value])
    (λ this value, RectTransform.set_local_position this value)
    (λ this value, RectTransform.set_local_position_call this value);
  Value_op "UI::RectTransform::lower_left" (Object_method "UI::RectTransform")
    (Args := unit)
    (λ _, [])
    (λ this _, RectTransform.lower_left this)
    (λ this _, RectTransform.lower_left_stream this)
    (λ this _, RectTransform.lower_left_call this);
  Void_op "UI::RectTransform::set_lower_left" (Object_method
      "UI::RectTransform")
    (Args := (tuple2 double double))
    (λ value, [encode value])
    (λ this value, RectTransform.set_lower_left this value)
    (λ this value, RectTransform.set_lower_left_call this value);
  Value_op "UI::RectTransform::pivot" (Object_method "UI::RectTransform")
    (Args := unit)
    (λ _, [])
    (λ this _, RectTransform.pivot this)
    (λ this _, RectTransform.pivot_stream this)
    (λ this _, RectTransform.pivot_call this);
  Void_op "UI::RectTransform::set_pivot" (Object_method "UI::RectTransform")
    (Args := (tuple2 double double))
    (λ value, [encode value])
    (λ this value, RectTransform.set_pivot this value)
    (λ this value, RectTransform.set_pivot_call this value);
  Value_op "UI::RectTransform::position" (Object_method "UI::RectTransform")
    (Args := unit)
    (λ _, [])
    (λ this _, RectTransform.position this)
    (λ this _, RectTransform.position_stream this)
    (λ this _, RectTransform.position_call this);
  Void_op "UI::RectTransform::set_position" (Object_method
      "UI::RectTransform")
    (Args := (tuple2 double double))
    (λ value, [encode value])
    (λ this value, RectTransform.set_position this value)
    (λ this value, RectTransform.set_position_call this value);
  Value_op "UI::RectTransform::rotation" (Object_method "UI::RectTransform")
    (Args := unit)
    (λ _, [])
    (λ this _, RectTransform.rotation this)
    (λ this _, RectTransform.rotation_stream this)
    (λ this _, RectTransform.rotation_call this);
  Void_op "UI::RectTransform::set_rotation" (Object_method
      "UI::RectTransform")
    (Args := (tuple4 double double double double))
    (λ value, [encode value])
    (λ this value, RectTransform.set_rotation this value)
    (λ this value, RectTransform.set_rotation_call this value);
  Value_op "UI::RectTransform::scale" (Object_method "UI::RectTransform")
    (Args := unit)
    (λ _, [])
    (λ this _, RectTransform.scale this)
    (λ this _, RectTransform.scale_stream this)
    (λ this _, RectTransform.scale_call this);
  Void_op "UI::RectTransform::set_scale" (Object_method "UI::RectTransform")
    (Args := (tuple3 double double double))
    (λ value, [encode value])
    (λ this value, RectTransform.set_scale this value)
    (λ this value, RectTransform.set_scale_call this value);
  Value_op "UI::RectTransform::size" (Object_method "UI::RectTransform")
    (Args := unit)
    (λ _, [])
    (λ this _, RectTransform.size this)
    (λ this _, RectTransform.size_stream this)
    (λ this _, RectTransform.size_call this);
  Void_op "UI::RectTransform::set_size" (Object_method "UI::RectTransform")
    (Args := (tuple2 double double))
    (λ value, [encode value])
    (λ this value, RectTransform.set_size this value)
    (λ this value, RectTransform.set_size_call this value);
  Value_op "UI::RectTransform::upper_right" (Object_method
      "UI::RectTransform")
    (Args := unit)
    (λ _, [])
    (λ this _, RectTransform.upper_right this)
    (λ this _, RectTransform.upper_right_stream this)
    (λ this _, RectTransform.upper_right_call this);
  Void_op "UI::RectTransform::set_upper_right" (Object_method
      "UI::RectTransform")
    (Args := (tuple2 double double))
    (λ value, [encode value])
    (λ this value, RectTransform.set_upper_right this value)
    (λ this value, RectTransform.set_upper_right_call this value);
  Void_op "UI::Text::remove" (Object_method "UI::Text")
    (Args := unit)
    (λ _, [])
    (λ this _, Text.remove this)
    (λ this _, Text.remove_call this);
  Value_op "UI::Text::alignment" (Object_method "UI::Text")
    (Args := unit)
    (λ _, [])
    (λ this _, Text.alignment this)
    (λ this _, Text.alignment_stream this)
    (λ this _, Text.alignment_call this);
  Void_op "UI::Text::set_alignment" (Object_method "UI::Text")
    (Args := UI.TextAnchor)
    (λ value, [encode value])
    (λ this value, Text.set_alignment this value)
    (λ this value, Text.set_alignment_call this value);
  Value_op "UI::Text::available_fonts" (Object_method "UI::Text")
    (Args := unit)
    (λ _, [])
    (λ this _, Text.available_fonts this)
    (λ this _, Text.available_fonts_stream this)
    (λ this _, Text.available_fonts_call this);
  Value_op "UI::Text::color" (Object_method "UI::Text")
    (Args := unit)
    (λ _, [])
    (λ this _, Text.color this)
    (λ this _, Text.color_stream this)
    (λ this _, Text.color_call this);
  Void_op "UI::Text::set_color" (Object_method "UI::Text")
    (Args := (tuple3 double double double))
    (λ value, [encode value])
    (λ this value, Text.set_color this value)
    (λ this value, Text.set_color_call this value);
  Value_op "UI::Text::content" (Object_method "UI::Text")
    (Args := unit)
    (λ _, [])
    (λ this _, Text.content this)
    (λ this _, Text.content_stream this)
    (λ this _, Text.content_call this);
  Void_op "UI::Text::set_content" (Object_method "UI::Text")
    (Args := string)
    (λ value, [encode value])
    (λ this value, Text.set_content this value)
    (λ this value, Text.set_content_call this value);
  Value_op "UI::Text::font" (Object_method "UI::Text")
    (Args := unit)
    (λ _, [])
    (λ this _, Text.font this)
    (λ this _, Text.font_stream this)
    (λ this _, Text.font_call this);
  Void_op "UI::Text::set_font" (Object_method "UI::Text")
    (Args := string)
    (λ value, [encode value])
    (λ this value, Text.set_font this value)
    (λ this value, Text.set_font_call this value);
  Value_op "UI::Text::line_spacing" (Object_method "UI::Text")
    (Args := unit)
    (λ _, [])
    (λ this _, Text.line_spacing this)
    (λ this _, Text.line_spacing_stream this)
    (λ this _, Text.line_spacing_call this);
  Void_op "UI::Text::set_line_spacing" (Object_method "UI::Text")
    (Args := float)
    (λ value, [encode value])
    (λ this value, Text.set_line_spacing this value)
    (λ this value, Text.set_line_spacing_call this value);
  Value_op "UI::Text::rect_transform" (Object_method "UI::Text")
    (Args := unit)
    (λ _, [])
    (λ this _, Text.rect_transform this)
    (λ this _, Text.rect_transform_stream this)
    (λ this _, Text.rect_transform_call this);
  Value_op "UI::Text::size" (Object_method "UI::Text")
    (Args := unit)
    (λ _, [])
    (λ this _, Text.size this)
    (λ this _, Text.size_stream this)
    (λ this _, Text.size_call this);
  Void_op "UI::Text::set_size" (Object_method "UI::Text")
    (Args := int32_t)
    (λ value, [encode value])
    (λ this value, Text.set_size this value)
    (λ this value, Text.set_size_call this value);
  Value_op "UI::Text::style" (Object_method "UI::Text")
    (Args := unit)
    (λ _, [])
    (λ this _, Text.style this)
    (λ this _, Text.style_stream this)
    (λ this _, Text.style_call this);
  Void_op "UI::Text::set_style" (Object_method "UI::Text")
    (Args := UI.FontStyle)
    (λ value, [encode value])
    (λ this value, Text.set_style this value)
    (λ this value, Text.set_style_call this value);
  Value_op "UI::Text::visible" (Object_method "UI::Text")
    (Args := unit)
    (λ _, [])
    (λ this _, Text.visible this)
    (λ this _, Text.visible_stream this)
    (λ this _, Text.visible_call this);
  Void_op "UI::Text::set_visible" (Object_method "UI::Text")
    (Args := bool)
    (λ value, [encode value])
    (λ this value, Text.set_visible this value)
    (λ this value, Text.set_visible_call this value)
].

End Table.

End UI.

(** ** Service [Drawing] (part_001) *)

Module Drawing.

(** [class Drawing : public Service], line 20 *)
Record t : Type := Make { base : Service }.
#[global] Instance t_HasClient : HasClient t :=
  λ this, Service_client (base this).

(** Class forward declarations; each class is declared as
    [class C : public krpc::Object<C>]. *)
Definition Line : Type := Object "Drawing::Line".
Definition Polygon : Type := Object "Drawing::Polygon".
Definition Text : Type := Object "Drawing::Text".

Section Methods.
Context {RT : Runtime}.

(** [Drawing::Drawing], line 586 *)
Definition Drawing (client : Client_ptr) : Prog t :=
  let this := Make (Service_ client) in
  mret this.

(** [Drawing::add_direction], part_001 line 590 *)
Definition add_direction (this : t) (direction : tuple3 double double double)
    (reference_frame : SpaceCenter.ReferenceFrame) (length : option float)
    (visible : option bool) : Prog Drawing.Line :=
  let length := default_arg (double_to_float (double_literal "10.0")) length
      in
  let visible := default_arg true visible in
  let _args : list bytes := [] in
  let _args := push_back _args (encode direction) in
  let _args := push_back _args (encode reference_frame) in
  let _args := push_back _args (encode length) in
  let _args := push_back _args (encode visible) in
  _data ← Client_invoke (_client this) "Drawing" "AddDirection" _args;
  _result ← decoder_decode (T := Drawing.Line) _data (_client this);
  mret _result.

(** [Drawing::add_line], part_001 line 602 *)
Definition add_line (this : t) (start : tuple3 double double double)
    (end_ : tuple3 double double double)
    (reference_frame : SpaceCenter.ReferenceFrame) (visible : option bool)
    : Prog Drawing.Line :=
  let visible := default_arg true visible in
  let _args : list bytes := [] in
  let _args := push_back _args (encode start) in
  let _args := push_back _args (encode end_) in
  let _args := push_back _args (encode reference_frame) in
  let _args := push_back _args (encode visible) in
  _data ← Client_invoke (_client this) "Drawing" "AddLine" _args;
  _result ← decoder_decode (T := Drawing.Line) _data (_client this);
  mret _result.

(** [Drawing::add_polygon], part_001 line 614 *)
Definition add_polygon (this : t)
    (vertices : list (tuple3 double double double))
    (reference_frame : SpaceCenter.ReferenceFrame) (visible : option bool)
    : Prog Drawing.Polygon :=
  let visible := default_arg true visible in
  let _args : list bytes := [] in
  let _args := push_back _args (encode vertices) in
  let _args := push_back _args (encode reference_frame) in
  let _args := push_back _args (encode visible) in
  _data ← Client_invoke (_client this) "Drawing" "AddPolygon" _args;
  _result ← decoder_decode (T := Drawing.Polygon) _data (_client this);
  mret _result.

(** [Drawing::add_text], part_001 line 625 *)
Definition add_text (this : t) (text : string)
    (reference_frame : SpaceCenter.ReferenceFrame)
    (position : tuple3 double double double)
    (rotation : tuple4 double double double double) (visible : option bool)
    : Prog Drawing.Text :=
  let visible := default_arg true visible in
  let _args : list bytes := [] in
  let _args := push_back _args (encode text) in
  let _args := push_back _args (encode reference_frame) in
  let _args := push_back _args (encode position) in
  let _args := push_back _args (encode rotation) in
  let _args := push_back _args (encode visible) in
  _data ← Client_invoke (_client this) "Drawing" "AddText" _args;
  _result ← decoder_decode (T := Drawing.Text) _data (_client this);
  mret _result.

(** [Drawing::clear], part_001 line 638 *)
Definition clear (this : t) (client_only : option bool) : Prog unit :=
  let client_only := default_arg false client_only in
  let _args : list bytes := [] in
  let _args := push_back _args (encode client_only) in
  Client_invoke (_client this) "Drawing" "Clear" _args;;
  mret ().

(** [Drawing::add_direction_stream], part_001 line 644 *)
Definition add_direction_stream (this : t)
    (direction : tuple3 double double double)
    (reference_frame : SpaceCenter.ReferenceFrame) (length : option float)
    (visible : option bool) : Prog (Stream Drawing.Line) :=
  let length := default_arg (double_to_float (double_literal "10.0")) length
      in
  let visible := default_arg true visible in
  let _args : list bytes := [] in
  let _args := push_back _args (encode direction) in
  let _args := push_back _args (encode reference_frame) in
  let _args := push_back _args (encode length) in
  let _args := push_back _args (encode visible) in
  _call ← Client_build_call (_client this) "Drawing" "AddDirection" _args;
  Stream_ Drawing.Line (_client this) _call.

(** [Drawing::add_line_stream], part_001 line 653 *)
Definition add_line_stream (this : t) (start : tuple3 double double double)
    (end_ : tuple3 double double double)
    (reference_frame : SpaceCenter.ReferenceFrame) (visible : option bool)
    : Prog (Stream Drawing.Line) :=
  let visible := default_arg true visible in
  let _args : list bytes := [] in
  let _args := push_back _args (encode start) in
  let _args := push_back _args (encode end_) in
  let _args := push_back _args (encode reference_frame) in
  let _args := push_back _args (encode visible) in
  _call ← Client_build_call (_client this) "Drawing" "AddLine" _args;
  Stream_ Drawing.Line (_client this) _call.

(** [Drawing::add_polygon_stream], part_001 line 662 *)
Definition add_polygon_stream (this : t)
    (vertices : list (tuple3 double double double))
    (reference_frame : SpaceCenter.ReferenceFrame) (visible : option bool)
    : Prog (Stream Drawing.Polygon) :=
  let visible := default_arg true visible in
  let _args : list bytes := [] in
  let _args := push_back _args (encode vertices) in
  let _args := push_back _args (encode reference_frame) in
  let _args := push_back _args (encode visible) in
  _call ← Client_build_call (_client this) "Drawing" "AddPolygon" _args;
  Stream_ Drawing.Polygon (_client this) _call.

(** [Drawing::add_text_stream], part_001 line 670 *)
Definition add_text_stream (this : t) (text : string)
    (reference_frame : SpaceCenter.ReferenceFrame)
    (position : tuple3 double double double)
    (rotation : tuple4 double double double double) (visible : option bool)
    : Prog (Stream Drawing.Text) :=
  let visible := default_arg true visible in
  let _args : list bytes := [] in
  let _args := push_back _args (encode text) in
  let _args := push_back _args (encode reference_frame) in
  let _args := push_back _args (encode position) in
  let _args := push_back _args (encode rotation) in
  let _args := push_back _args (encode visible) in
  _call ← Client_build_call (_client this) "Drawing" "AddText" _args;
  Stream_ Drawing.Text (_client this) _call.

(** [Drawing::add_direction_call], part_001 line 680 *)
Definition add_direction_call (this : t)
    (direction : tuple3 double double double)
    (reference_frame : SpaceCenter.ReferenceFrame) (length : option float)
    (visible : option bool) : Prog schema_ProcedureCall :=
  let length := default_arg (double_to_float (double_literal "10.0")) length
      in
  let visible := default_arg true visible in
  let _args : list bytes := [] in
  let _args := push_back _args (encode direction) in
  let _args := push_back _args (encode reference_frame) in
  let _args := push_back _args (encode length) in
  let _args := push_back _args (encode visible) in
  Client_build_call (_client this) "Drawing" "AddDirection" _args.

(** [Drawing::add_line_call], part_001 line 689 *)
Definition add_line_call (this : t) (start : tuple3 double double double)
    (end_ : tuple3 double double double)
    (reference_frame : SpaceCenter.ReferenceFrame) (visible : option bool)
    : Prog schema_ProcedureCall :=
  let visible := default_arg true visible in
  let _args : list bytes := [] in
  let _args := push_back _args (encode start) in
  let _args := push_back _args (encode end_) in
  let _args := push_back _args (encode reference_frame) in
  let _args := push_back _args (encode visible) in
  Client_build_call (_client this) "Drawing" "AddLine" _args.

(** [Drawing::add_polygon_call], part_001 line 698 *)
Definition add_polygon_call (this : t)
    (vertices : list (tuple3 double double double))
    (reference_frame : SpaceCenter.ReferenceFrame) (visible : option bool)
    : Prog schema_ProcedureCall :=
  let visible := default_arg true visible in
  let _args : list bytes := [] in
  let _args := push_back _args (encode vertices) in
  let _args := push_back _args (encode reference_frame) in
  let _args := push_back _args (encode visible) in
  Client_build_call (_client this) "Drawing" "AddPolygon" _args.

(** [Drawing::add_text_call], part_001 line 706 *)
Definition add_text_call (this : t) (text : string)
    (reference_frame : SpaceCenter.ReferenceFrame)
    (position : tuple3 double double double)
    (rotation : tuple4 double double double double) (visible : option bool)
    : Prog schema_ProcedureCall :=
  let visible := default_arg true visible in
  let _args : list bytes := [] in
  let _args := push_back _args (encode text) in
  let _args := push_back _args (encode reference_frame) in
  let _args := push_back _args (encode position) in
  let _args := push_back _args (encode rotation) in
  let _args := push_back _args (encode visible) in
  Client_build_call (_client this) "Drawing" "AddText" _args.

(** [Drawing::clear_call], part_001 line 716 *)
Definition clear_call (this : t) (client_only : option bool)
    : Prog schema_ProcedureCall :=
  let client_only := default_arg false client_only in
  let _args : list bytes := [] in
  let _args := push_back _args (encode client_only) in
  Client_build_call (_client this) "Drawing" "Clear" _args.

End Methods.

(** [class Drawing::Line] *)
Module Line.
Section Methods.
Context {RT : Runtime}.

(** [Drawing::Line::Line], line 722; declared
    [explicit Line(Client* client = nullptr, uint64_t id = 0)], line 94 *)
Definition Line (client : option Client_ptr) (id : option uint64_t)
    : Drawing.Line :=
  let client := default_arg nullptr client in
  let id := default_arg 0%N id in
  Object_ "Drawing::Line" client id.

(** [Drawing::Line::remove], part_001 line 725 *)
Definition remove (this : Drawing.Line) : Prog unit :=
  let _args : list bytes := [] in
  let _args := push_back _args (encode this) in
  Client_invoke (_client this) "Drawing" "Line_Remove" _args;;
  mret ().

(** [Drawing::Line::color], part_001 line 731 *)
Definition color (this : Drawing.Line) : Prog (tuple3 double double double) :=
  let _args : list bytes := [] in
  let _args := push_back _args (encode this) in
  _data ← Client_invoke (_client this) "Drawing" "Line_get_Color" _args;
  _result ← decoder_decode (T := tuple3 double double double) _data (_client
      this);
  mret _result.

(** [Drawing::Line::set_color], part_001 line 740 *)
Definition set_color (this : Drawing.Line)
    (value : tuple3 double double double) : Prog unit :=
  let _args : list bytes := [] in
  let _args := push_back _args (encode this) in
  let _args := push_back _args (encode value) in
  Client_invoke (_client this) "Drawing" "Line_set_Color" _args;;
  mret ().

(** [Drawing::Line::end], part_001 line 747 *)
Definition end_ (this : Drawing.Line) : Prog (tuple3 double double double) :=
  let _args : list bytes := [] in
  let _args := push_back _args (encode this) in
  _data ← Client_invoke (_client this) "Drawing" "Line_get_End" _args;
  _result ← decoder_decode (T := tuple3 double double double) _data (_client
      this);
  mret _result.

(** [Drawing::Line::set_end], part_001 line 756 *)
Definition set_end (this : Drawing.Line) (value : tuple3 double double double)
    : Prog unit :=
  let _args : list bytes := [] in
  let _args := push_back _args (encode this) in
  let _args := push_back _args (encode value) in
  Client_invoke (_client this) "Drawing" "Line_set_End" _args;;
  mret ().

(** [Drawing::Line::material], part_001 line 763 *)
Definition material (this : Drawing.Line) : Prog string :=
  let _args : list bytes := [] in
  let _args := push_back _args (encode this) in
  _data ← Client_invoke (_client this) "Drawing" "Line_get_Material" _args;
  _result ← decoder_decode (T := string) _data (_client this);
  mret _result.

(** [Drawing::Line::set_material], part_001 line 772 *)
Definition set_material (this : Drawing.Line) (value : string) : Prog unit :=
  let _args : list bytes := [] in
  let _args := push_back _args (encode this) in
  let _args := push_back _args (encode value) in
  Client_invoke (_client this) "Drawing" "Line_set_Material" _args;;
  mret ().

(** [Drawing::Line::reference_frame], part_001 line 779 *)
Definition reference_frame (this : Drawing.Line)
    : Prog SpaceCenter.ReferenceFrame :=
  let _args : list bytes := [] in
  let _args := push_back _args (encode this) in
  _data ← Client_invoke (_client this) "Drawing" "Line_get_ReferenceFrame"
      _args;
  _result ← decoder_decode (T := SpaceCenter.ReferenceFrame) _data (_client
      this);
  mret _result.

(** [Drawing::Line::set_reference_frame], part_001 line 788 *)
Definition set_reference_frame (this : Drawing.Line)
    (value : SpaceCenter.ReferenceFrame) : Prog unit :=
  let _args : list bytes := [] in
  let _args := push_back _args (encode this) in
  let _args := push_back _args (encode value) in
  Client_invoke (_client this) "Drawing" "Line_set_ReferenceFrame" _args;;
  mret ().

(** [Drawing::Line::start], part_001 line 795 *)
Definition start (this : Drawing.Line) : Prog (tuple3 double double double) :=
  let _args : list bytes := [] in
  let _args := push_back _args (encode this) in
  _data ← Client_invoke (_client this) "Drawing" "Line_get_Start" _args;
  _result ← decoder_decode (T := tuple3 double double double) _data (_client
      this);
  mret _result.

(** [Drawing::Line::set_start], part_001 line 804 *)
Definition set_start (this : Drawing.Line)
    (value : tuple3 double double double) : Prog unit :=
  let _args : list bytes := [] in
  let _args := push_back _args (encode this) in
  let _args := push_back _args (encode value) in
  Client_invoke (_client this) "Drawing" "Line_set_Start" _args;;
  mret ().

(** [Drawing::Line::thickness], part_001 line 811 *)
Definition thickness (this : Drawing.Line) : Prog float :=
  let _args : list bytes := [] in
  let _args := push_back _args (encode this) in
  _data ← Client_invoke (_client this) "Drawing" "Line_get_Thickness" _args;
  _result ← decoder_decode (T := float) _data (_client this);
  mret _result.

(** [Drawing::Line::set_thickness], part_001 line 820 *)
Definition set_thickness (this : Drawing.Line) (value : float) : Prog unit :=
  let _args : list bytes := [] in
  let _args := push_back _args (encode this) in
  let _args := push_back _args (encode value) in
  Client_invoke (_client this) "Drawing" "Line_set_Thickness" _args;;
  mret ().

(** [Drawing::Line::visible], part_001 line 827 *)
Definition visible (this : Drawing.Line) : Prog bool :=
  let _args : list bytes := [] in
  let _args := push_back _args (encode this) in
  _data ← Client_invoke (_client this) "Drawing" "Line_get_Visible" _args;
  _result ← decoder_decode (T := bool) _data (_client this);
  mret _result.

(** [Drawing::Line::set_visible], part_001 line 836 *)
Definition set_visible (this : Drawing.Line) (value : bool) : Prog unit :=
  let _args : list bytes := [] in
  let _args := push_back _args (encode this) in
  let _args := push_back _args (encode value) in
  Client_invoke (_client this) "Drawing" "Line_set_Visible" _args;;
  mret ().

(** [Drawing::Line::color_stream], part_001 line 843 *)
Definition color_stream (this : Drawing.Line)
    : Prog (Stream (tuple3 double double double)) :=
  let _args : list bytes := [] in
  let _args := push_back _args (encode this) in
  _call ← Client_build_call (_client this) "Drawing" "Line_get_Color" _args;
  Stream_ (tuple3 double double double) (_client this) _call.

(** [Drawing::Line::end_stream], part_001 line 849 *)
Definition end_stream (this : Drawing.Line)
    : Prog (Stream (tuple3 double double double)) :=
  let _args : list bytes := [] in
  let _args := push_back _args (encode this) in
  _call ← Client_build_call (_client this) "Drawing" "Line_get_End" _args;
  Stream_ (tuple3 double double double) (_client this) _call.

(** [Drawing::Line::material_stream], part_001 line 855 *)
Definition material_stream (this : Drawing.Line) : Prog (Stream string) :=
  let _args : list bytes := [] in
  let _args := push_back _args (encode this) in
  _call ← Client_build_call (_client this) "Drawing" "Line_get_Material"
      _args;
  Stream_ string (_client this) _call.

(** [Drawing::Line::reference_frame_stream], part_001 line 861 *)
Definition reference_frame_stream (this : Drawing.Line)
    : Prog (Stream SpaceCenter.ReferenceFrame) :=
  let _args : list bytes := [] in
  let _args := push_back _args (encode this) in
  _call ← Client_build_call (_client this) "Drawing" "Line_get_ReferenceFrame"
      _args;
  Stream_ SpaceCenter.ReferenceFrame (_client this) _call.

(** [Drawing::Line::start_stream], part_001 line 867 *)
Definition start_stream (this : Drawing.Line)
    : Prog (Stream (tuple3 double double double)) :=
  let _args : list bytes := [] in
  let _args := push_back _args (encode this) in
  _call ← Client_build_call (_client this) "Drawing" "Line_get_Start" _args;
  Stream_ (tuple3 double double double) (_client this) _call.

(** [Drawing::Line::thickness_stream], part_001 line 873 *)
Definition thickness_stream (this : Drawing.Line) : Prog (Stream float) :=
  let _args : list bytes := [] in
  let _args := push_back _args (encode this) in
  _call ← Client_build_call (_client this) "Drawing" "Line_get_Thickness"
      _args;
  Stream_ float (_client this) _call.

(** [Drawing::Line::visible_stream], part_001 line 879 *)
Definition visible_stream (this : Drawing.Line) : Prog (Stream bool) :=
  let _args : list bytes := [] in
  let _args := push_back _args (encode this) in
  _call ← Client_build_call (_client this) "Drawing" "Line_get_Visible" _args;
  Stream_ bool (_client this) _call.

(** [Drawing::Line::remove_call], part_001 line 885 *)
Definition remove_call (this : Drawing.Line) : Prog schema_ProcedureCall :=
  let _args : list bytes := [] in
  let _args := push_back _args (encode this) in
  Client_build_call (_client this) "Drawing" "Line_Remove" _args.

(** [Drawing::Line::color_call], part_001 line 891 *)
Definition color_call (this : Drawing.Line) : Prog schema_ProcedureCall :=
  let _args : list bytes := [] in
  let _args := push_back _args (encode this) in
  Client_build_call (_client this) "Drawing" "Line_get_Color" _args.

(** [Drawing::Line::set_color_call], part_001 line 897 *)
Definition set_color_call (this : Drawing.Line)
    (value : tuple3 double double double) : Prog schema_ProcedureCall :=
  let _args : list bytes := [] in
  let _args := push_back _args (encode this) in
  let _args := push_back _args (encode value) in
  Client_build_call (_client this) "Drawing" "Line_set_Color" _args.

(** [Drawing::Line::end_call], part_001 line 904 *)
Definition end_call (this : Drawing.Line) : Prog schema_ProcedureCall :=
  let _args : list bytes := [] in
  let _args := push_back _args (encode this) in
  Client_build_call (_client this) "Drawing" "Line_get_End" _args.

(** [Drawing::Line::set_end_call], part_001 line 910 *)
Definition set_end_call (this : Drawing.Line)
    (value : tuple3 double double double) : Prog schema_ProcedureCall :=
  let _args : list bytes := [] in
  let _args := push_back _args (encode this) in
  let _args := push_back _args (encode value) in
  Client_build_call (_client this) "Drawing" "Line_set_End" _args.

(** [Drawing::Line::material_call], part_001 line 917 *)
Definition material_call (this : Drawing.Line) : Prog schema_ProcedureCall :=
  let _args : list bytes := [] in
  let _args := push_back _args (encode this) in
  Client_build_call (_client this) "Drawing" "Line_get_Material" _args.

(** [Drawing::Line::set_material_call], part_001 line 923 *)
Definition set_material_call (this : Drawing.Line) (value : string)
    : Prog schema_ProcedureCall :=
  let _args : list bytes := [] in
  let _args := push_back _args (encode this) in
  let _args := push_back _args (encode value) in
  Client_build_call (_client this) "Drawing" "Line_set_Material" _args.

(** [Drawing::Line::reference_frame_call], part_001 line 930 *)
Definition reference_frame_call (this : Drawing.Line)
    : Prog schema_ProcedureCall :=
  let _args : list bytes := [] in
  let _args := push_back _args (encode this) in
  Client_build_call (_client this) "Drawing" "Line_get_ReferenceFrame" _args.

(** [Drawing::Line::set_reference_frame_call], part_001 line 936 *)
Definition set_reference_frame_call (this : Drawing.Line)
    (value : SpaceCenter.ReferenceFrame) : Prog schema_ProcedureCall :=
  let _args : list bytes := [] in
  let _args := push_back _args (encode this) in
  let _args := push_back _args (encode value) in
  Client_build_call (_client this) "Drawing" "Line_set_ReferenceFrame" _args.

(** [Drawing::Line::start_call], part_001 line 943 *)
Definition start_call (this : Drawing.Line) : Prog schema_ProcedureCall :=
  let _args : list bytes := [] in
  let _args := push_back _args (encode this) in
  Client_build_call (_client this) "Drawing" "Line_get_Start" _args.

(** [Drawing::Line::set_start_call], part_001 line 949 *)
Definition set_start_call (this : Drawing.Line)
    (value : tuple3 double double double) : Prog schema_ProcedureCall :=
  let _args : list bytes := [] in
  let _args := push_back _args (encode this) in
  let _args := push_back _args (encode value) in
  Client_build_call (_client this) "Drawing" "Line_set_Start" _args.

(** [Drawing::Line::thickness_call], part_001 line 956 *)
Definition thickness_call (this : Drawing.Line) : Prog schema_ProcedureCall :=
  let _args : list bytes := [] in
  let _args := push_back _args (encode this) in
  Client_build_call (_client this) "Drawing" "Line_get_Thickness" _args.

(** [Drawing::Line::set_thickness_call], part_001 line 962 *)
Definition set_thickness_call (this : Drawing.Line) (value : float)
    : Prog schema_ProcedureCall :=
  let _args : list bytes := [] in
  let _args := push_back _args (encode this) in
  let _args := push_back _args (encode value) in
  Client_build_call (_client this) "Drawing" "Line_set_Thickness" _args.

(** [Drawing::Line::visible_call], part_001 line 969 *)
Definition visible_call (this : Drawing.Line) : Prog schema_ProcedureCall :=
  let _args : list bytes := [] in
  let _args := push_back _args (encode this) in
  Client_build_call (_client this) "Drawing" "Line_get_Visible" _args.

(** [Drawing::Line::set_visible_call], part_001 line 975 *)
Definition set_visible_call (this : Drawing.Line) (value : bool)
    : Prog schema_ProcedureCall :=
  let _args : list bytes := [] in
  let _args := push_back _args (encode this) in
  let _args := push_back _args (encode value) in
  Client_build_call (_client this) "Drawing" "Line_set_Visible" _args.

End Methods.

End Line.

(** [class Drawing::Polygon] *)
Module Polygon.
Section Methods.
Context {RT : Runtime}.

(** [Drawing::Polygon::Polygon], line 982; declared
    [explicit Polygon(Client* client = nullptr, uint64_t id = 0)], line 223 *)
Definition Polygon (client : option Client_ptr) (id : option uint64_t)
    : Drawing.Polygon :=
  let client := default_arg nullptr client in
  let id := default_arg 0%N id in
  Object_ "Drawing::Polygon" client id.

(** [Drawing::Polygon::remove], part_001 line 985 *)
Definition remove (this : Drawing.Polygon) : Prog unit :=
  let _args : list bytes := [] in
  let _args := push_back _args (encode this) in
  Client_invoke (_client this) "Drawing" "Polygon_Remove" _args;;
  mret ().

(** [Drawing::Polygon::color], part_001 line 991 *)
Definition color (this : Drawing.Polygon)
    : Prog (tuple3 double double double) :=
  let _args : list bytes := [] in
  let _args := push_back _args (encode this) in
  _data ← Client_invoke (_client this) "Drawing" "Polygon_get_Color" _args;
  _result ← decoder_decode (T := tuple3 double double double) _data (_client
      this);
  mret _result.

(** [Drawing::Polygon::set_color], part_001 line 1000 *)
Definition set_color (this : Drawing.Polygon)
    (value : tuple3 double double double) : Prog unit :=
  let _args : list bytes := [] in
  let _args := push_back _args (encode this) in
  let _args := push_back _args (encode value) in
  Client_invoke (_client this) "Drawing" "Polygon_set_Color" _args;;
  mret ().

(** [Drawing::Polygon::material], part_001 line 1007 *)
Definition material (this : Drawing.Polygon) : Prog string :=
  let _args : list bytes := [] in
  let _args := push_back _args (encode this) in
  _data ← Client_invoke (_client this) "Drawing" "Polygon_get_Material" _args;
  _result ← decoder_decode (T := string) _data (_client this);
  mret _result.

(** [Drawing::Polygon::set_material], part_001 line 1016 *)
Definition set_material (this : Drawing.Polygon) (value : string)
    : Prog unit :=
  let _args : list bytes := [] in
  let _args := push_back _args (encode this) in
  let _args := push_back _args (encode value) in
  Client_invoke (_client this) "Drawing" "Polygon_set_Material" _args;;
  mret ().

(** [Drawing::Polygon::reference_frame], part_001 line 1023 *)
Definition reference_frame (this : Drawing.Polygon)
    : Prog SpaceCenter.ReferenceFrame :=
  let _args : list bytes := [] in
  let _args := push_back _args (encode this) in
  _data ← Client_invoke (_client this) "Drawing" "Polygon_get_ReferenceFrame"
      _args;
  _result ← decoder_decode (T := SpaceCenter.ReferenceFrame) _data (_client
      this);
  mret _result.

(** [Drawing::Polygon::set_reference_frame], part_001 line 1032 *)
Definition set_reference_frame (this : Drawing.Polygon)
    (value : SpaceCenter.ReferenceFrame) : Prog unit :=
  let _args : list bytes := [] in
  let _args := push_back _args (encode this) in
  let _args := push_back _args (encode value) in
  Client_invoke (_client this) "Drawing" "Polygon_set_ReferenceFrame" _args;;
  mret ().

(** [Drawing::Polygon::thickness], part_001 line 1039 *)
Definition thickness (this : Drawing.Polygon) : Prog float :=
  let _args : list bytes := [] in
  let _args := push_back _args (encode this) in
  _data ← Client_invoke (_client this) "Drawing" "Polygon_get_Thickness"
      _args;
  _result ← decoder_decode (T := float) _data (_client this);
  mret _result.

(** [Drawing::Polygon::set_thickness], part_001 line 1048 *)
Definition set_thickness (this : Drawing.Polygon) (value : float)
    : Prog unit :=
  let _args : list bytes := [] in
  let _args := push_back _args (encode this) in
  let _args := push_back _args (encode value) in
  Client_invoke (_client this) "Drawing" "Polygon_set_Thickness" _args;;
  mret ().

(** [Drawing::Polygon::vertices], part_001 line 1055 *)
Definition vertices (this : Drawing.Polygon)
    : Prog (list (tuple3 double double double)) :=
  let _args : list bytes := [] in
  let _args := push_back _args (encode this) in
  _data ← Client_invoke (_client this) "Drawing" "Polygon_get_Vertices" _args;
  _result ← decoder_decode (T := list (tuple3 double double double)) _data
      (_client this);
  mret _result.

(** [Drawing::Polygon::set_vertices], part_001 line 1064 *)
Definition set_vertices (this : Drawing.Polygon)
    (value : list (tuple3 double double double)) : Prog unit :=
  let _args : list bytes := [] in
  let _args := push_back _args (encode this) in
  let _args := push_back _args (encode value) in
  Client_invoke (_client this) "Drawing" "Polygon_set_Vertices" _args;;
  mret ().

(** [Drawing::Polygon::visible], part_001 line 1071 *)
Definition visible (this : Drawing.Polygon) : Prog bool :=
  let _args : list bytes := [] in
  let _args := push_back _args (encode this) in
  _data ← Client_invoke (_client this) "Drawing" "Polygon_get_Visible" _args;
  _result ← decoder_decode (T := bool) _data (_client this);
  mret _result.

(** [Drawing::Polygon::set_visible], part_001 line 1080 *)
Definition set_visible (this : Drawing.Polygon) (value : bool) : Prog unit :=
  let _args : list bytes := [] in
  let _args := push_back _args (encode this) in
  let _args := push_back _args (encode value) in
  Client_invoke (_client this) "Drawing" "Polygon_set_Visible" _args;;
  mret ().

(** [Drawing::Polygon::color_stream], part_001 line 1087 *)
Definition color_stream (this : Drawing.Polygon)
    : Prog (Stream (tuple3 double double double)) :=
  let _args : list bytes := [] in
  let _args := push_back _args (encode this) in
  _call ← Client_build_call (_client this) "Drawing" "Polygon_get_Color"
      _args;
  Stream_ (tuple3 double double double) (_client this) _call.

(** [Drawing::Polygon::material_stream], part_001 line 1093 *)
Definition material_stream (this : Drawing.Polygon) : Prog (Stream string) :=
  let _args : list bytes := [] in
  let _args := push_back _args (encode this) in
  _call ← Client_build_call (_client this) "Drawing" "Polygon_get_Material"
      _args;
  Stream_ string (_client this) _call.

(** [Drawing::Polygon::reference_frame_stream], part_001 line 1099 *)
Definition reference_frame_stream (this : Drawing.Polygon)
    : Prog (Stream SpaceCenter.ReferenceFrame) :=
  let _args : list bytes := [] in
  let _args := push_back _args (encode this) in
  _call ← Client_build_call (_client this) "Drawing"
      "Polygon_get_ReferenceFrame" _args;
  Stream_ SpaceCenter.ReferenceFrame (_client this) _call.

(** [Drawing::Polygon::thickness_stream], part_001 line 1105 *)
Definition thickness_stream (this : Drawing.Polygon) : Prog (Stream float) :=
  let _args : list bytes := [] in
  let _args := push_back _args (encode this) in
  _call ← Client_build_call (_client this) "Drawing" "Polygon_get_Thickness"
      _args;
  Stream_ float (_client this) _call.

(** [Drawing::Polygon::vertices_stream], part_001 line 1111 *)
Definition vertices_stream (this : Drawing.Polygon)
    : Prog (Stream (list (tuple3 double double double))) :=
  let _args : list bytes := [] in
  let _args := push_back _args (encode this) in
  _call ← Client_build_call (_client this) "Drawing" "Polygon_get_Vertices"
      _args;
  Stream_ (list (tuple3 double double double)) (_client this) _call.

(** [Drawing::Polygon::visible_stream], part_001 line 1117 *)
Definition visible_stream (this : Drawing.Polygon) : Prog (Stream bool) :=
  let _args : list bytes := [] in
  let _args := push_back _args (encode this) in
  _call ← Client_build_call (_client this) "Drawing" "Polygon_get_Visible"
      _args;
  Stream_ bool (_client this) _call.

(** [Drawing::Polygon::remove_call], part_001 line 1123 *)
Definition remove_call (this : Drawing.Polygon) : Prog schema_ProcedureCall :=
  let _args : list bytes := [] in
  let _args := push_back _args (encode this) in
  Client_build_call (_client this) "Drawing" "Polygon_Remove" _args.

(** [Drawing::Polygon::color_call], part_001 line 1129 *)
Definition color_call (this : Drawing.Polygon) : Prog schema_ProcedureCall :=
  let _args : list bytes := [] in
  let _args := push_back _args (encode this) in
  Client_build_call (_client this) "Drawing" "Polygon_get_Color" _args.

(** [Drawing::Polygon::set_color_call], part_001 line 1135 *)
Definition set_color_call (this : Drawing.Polygon)
    (value : tuple3 double double double) : Prog schema_ProcedureCall :=
  let _args : list bytes := [] in
  let _args := push_back _args (encode this) in
  let _args := push_back _args (encode value) in
  Client_build_call (_client this) "Drawing" "Polygon_set_Color" _args.

(** [Drawing::Polygon::material_call], part_001 line 1142 *)
Definition material_call (this : Drawing.Polygon)
    : Prog schema_ProcedureCall :=
  let _args : list bytes := [] in
  let _args := push_back _args (encode this) in
  Client_build_call (_client this) "Drawing" "Polygon_get_Material" _args.

(** [Drawing::Polygon::set_material_call], part_001 line 1148 *)
Definition set_material_call (this : Drawing.Polygon) (value : string)
    : Prog schema_ProcedureCall :=
  let _args : list bytes := [] in
  let _args := push_back _args (encode this) in
  let _args := push_back _args (encode value) in
  Client_build_call (_client this) "Drawing" "Polygon_set_Material" _args.

(** [Drawing::Polygon::reference_frame_call], part_001 line 1155 *)
Definition reference_frame_call (this : Drawing.Polygon)
    : Prog schema_ProcedureCall :=
  let _args : list bytes := [] in
  let _args := push_back _args (encode this) in
  Client_build_call (_client this) "Drawing" "Polygon_get_ReferenceFrame"
      _args.

(** [Drawing::Polygon::set_reference_frame_call], part_001 line 1161 *)
Definition set_reference_frame_call (this : Drawing.Polygon)
    (value : SpaceCenter.ReferenceFrame) : Prog schema_ProcedureCall :=
  let _args : list bytes := [] in
  let _args := push_back _args (encode this) in
  let _args := push_back _args (encode value) in
  Client_build_call (_client this) "Drawing" "Polygon_set_ReferenceFrame"
      _args.

(** [Drawing::Polygon::thickness_call], part_001 line 1168 *)
Definition thickness_call (this : Drawing.Polygon)
    : Prog schema_ProcedureCall :=
  let _args : list bytes := [] in
  let _args := push_back _args (encode this) in
  Client_build_call (_client this) "Drawing" "Polygon_get_Thickness" _args.

(** [Drawing::Polygon::set_thickness_call], part_001 line 1174 *)
Definition set_thickness_call (this : Drawing.Polygon) (value : float)
    : Prog schema_ProcedureCall :=
  let _args : list bytes := [] in
  let _args := push_back _args (encode this) in
  let _args := push_back _args (encode value) in
  Client_build_call (_client this) "Drawing" "Polygon_set_Thickness" _args.

(** [Drawing::Polygon::vertices_call], part_001 line 1181 *)
Definition vertices_call (this : Drawing.Polygon)
    : Prog schema_ProcedureCall :=
  let _args : list bytes := [] in
  let _args := push_back _args (encode this) in
  Client_build_call (_client this) "Drawing" "Polygon_get_Vertices" _args.

(** [Drawing::Polygon::set_vertices_call], part_001 line 1187 *)
Definition set_vertices_call (this : Drawing.Polygon)
    (value : list (tuple3 double double double))
    : Prog schema_ProcedureCall :=
  let _args : list bytes := [] in
  let _args := push_back _args (encode this) in
  let _args := push_back _args (encode value) in
  Client_build_call (_client this) "Drawing" "Polygon_set_Vertices" _args.

(** [Drawing::Polygon::visible_call], part_001 line 1194 *)
Definition visible_call (this : Drawing.Polygon)
    : Prog schema_ProcedureCall :=
  let _args : list bytes := [] in
  let _args := push_back _args (encode this) in
  Client_build_call (_client this) "Drawing" "Polygon_get_Visible" _args.

(** [Drawing::Polygon::set_visible_call], part_001 line 1200 *)
Definition set_visible_call (this : Drawing.Polygon) (value : bool)
    : Prog schema_ProcedureCall :=
  let _args : list bytes := [] in
  let _args := push_back _args (encode this) in
  let _args := push_back _args (encode value) in
  Client_build_call (_client this) "Drawing" "Polygon_set_Visible" _args.

End Methods.

End Polygon.

(** [class Drawing::Text] *)
Module Text.
Section Methods.
Context {RT : Runtime}.

(** [Drawing::Text::Text], line 1207; declared
    [explicit Text(Client* client = nullptr, uint64_t id = 0)], line 336 *)
Definition Text (client : option Client_ptr) (id : option uint64_t)
    : Drawing.Text :=
  let client := default_arg nullptr client in
  let id := default_arg 0%N id in
  Object_ "Drawing::Text" client id.

(** [Drawing::Text::remove], part_001 line 1210 *)
Definition remove (this : Drawing.Text) : Prog unit :=
  let _args : list bytes := [] in
  let _args := push_back _args (encode this) in
  Client_invoke (_client this) "Drawing" "Text_Remove" _args;;
  mret ().

(** [Drawing::Text::alignment], part_001 line 1216 *)
Definition alignment (this : Drawing.Text) : Prog UI.TextAlignment :=
  let _args : list bytes := [] in
  let _args := push_back _args (encode this) in
  _data ← Client_invoke (_client this) "Drawing" "Text_get_Alignment" _args;
  _result ← decoder_decode (T := UI.TextAlignment) _data (_client this);
  mret _result.

(** [Drawing::Text::set_alignment], part_001 line 1225 *)
Definition set_alignment (this : Drawing.Text) (value : UI.TextAlignment)
    : Prog unit :=
  let _args : list bytes := [] in
  let _args := push_back _args (encode this) in
  let _args := push_back _args (encode value) in
  Client_invoke (_client this) "Drawing" "Text_set_Alignment" _args;;
  mret ().

(** [Drawing::Text::anchor], part_001 line 1232 *)
Definition anchor (this : Drawing.Text) : Prog UI.TextAnchor :=
  let _args : list bytes := [] in
  let _args := push_back _args (encode this) in
  _data ← Client_invoke (_client this) "Drawing" "Text_get_Anchor" _args;
  _result ← decoder_decode (T := UI.TextAnchor) _data (_client this);
  mret _result.

(** [Drawing::Text::set_anchor], part_001 line 1241 *)
Definition set_anchor (this : Drawing.Text) (value : UI.TextAnchor)
    : Prog unit :=
  let _args : list bytes := [] in
  let _args := push_back _args (encode this) in
  let _args := push_back _args (encode value) in
  Client_invoke (_client this) "Drawing" "Text_set_Anchor" _args;;
  mret ().

(** [Drawing::Text::character_size], part_001 line 1248 *)
Definition character_size (this : Drawing.Text) : Prog float :=
  let _args : list bytes := [] in
  let _args := push_back _args (encode this) in
  _data ← Client_invoke (_client this) "Drawing" "Text_get_CharacterSize"
      _args;
  _result ← decoder_decode (T := float) _data (_client this);
  mret _result.

(** [Drawing::Text::set_character_size], part_001 line 1257 *)
Definition set_character_size (this : Drawing.Text) (value : float)
    : Prog unit :=
  let _args : list bytes := [] in
  let _args := push_back _args (encode this) in
  let _args := push_back _args (encode value) in
  Client_invoke (_client this) "Drawing" "Text_set_CharacterSize" _args;;
  mret ().

(** [Drawing::Text::color], part_001 line 1264 *)
Definition color (this : Drawing.Text) : Prog (tuple3 double double double) :=
  let _args : list bytes := [] in
  let _args := push_back _args (encode this) in
  _data ← Client_invoke (_client this) "Drawing" "Text_get_Color" _args;
  _result ← decoder_decode (T := tuple3 double double double) _data (_client
      this);
  mret _result.

(** [Drawing::Text::set_color], part_001 line 1273 *)
Definition set_color (this : Drawing.Text)
    (value : tuple3 double double double) : Prog unit :=
  let _args : list bytes := [] in
  let _args := push_back _args (encode this) in
  let _args := push_back _args (encode value) in
  Client_invoke (_client this) "Drawing" "Text_set_Color" _args;;
  mret ().

(** [Drawing::Text::content], part_001 line 1280 *)
Definition content (this : Drawing.Text) : Prog string :=
  let _args : list bytes := [] in
  let _args := push_back _args (encode this) in
  _data ← Client_invoke (_client this) "Drawing" "Text_get_Content" _args;
  _result ← decoder_decode (T := string) _data (_client this);
  mret _result.

(** [Drawing::Text::set_content], part_001 line 1289 *)
Definition set_content (this : Drawing.Text) (value : string) : Prog unit :=
  let _args : list bytes := [] in
  let _args := push_back _args (encode this) in
  let _args := push_back _args (encode value) in
  Client_invoke (_client this) "Drawing" "Text_set_Content" _args;;
  mret ().

(** [Drawing::Text::font], part_001 line 1296 *)
Definition font (this : Drawing.Text) : Prog string :=
  let _args : list bytes := [] in
  let _args := push_back _args (encode this) in
  _data ← Client_invoke (_client this) "Drawing" "Text_get_Font" _args;
  _result ← decoder_decode (T := string) _data (_client this);
  mret _result.

(** [Drawing::Text::set_font], part_001 line 1305 *)
Definition set_font (this : Drawing.Text) (value : string) : Prog unit :=
  let _args : list bytes := [] in
  let _args := push_back _args (encode this) in
  let _args := push_back _args (encode value) in
  Client_invoke (_client this) "Drawing" "Text_set_Font" _args;;
  mret ().

(** [Drawing::Text::line_spacing], part_001 line 1312 *)
Definition line_spacing (this : Drawing.Text) : Prog float :=
  let _args : list bytes := [] in
  let _args := push_back _args (encode this) in
  _data ← Client_invoke (_client this) "Drawing" "Text_get_LineSpacing" _args;
  _result ← decoder_decode (T := float) _data (_client this);
  mret _result.

(** [Drawing::Text::set_line_spacing], part_001 line 1321 *)
Definition set_line_spacing (this : Drawing.Text) (value : float)
    : Prog unit :=
  let _args : list bytes := [] in
  let _args := push_back _args (encode this) in
  let _args := push_back _args (encode value) in
  Client_invoke (_client this) "Drawing" "Text_set_LineSpacing" _args;;
  mret ().

(** [Drawing::Text::material], part_001 line 1328 *)
Definition material (this : Drawing.Text) : Prog string :=
  let _args : list bytes := [] in
  let _args := push_back _args (encode this) in
  _data ← Client_invoke (_client this) "Drawing" "Text_get_Material" _args;
  _result ← decoder_decode (T := string) _data (_client this);
  mret _result.

(** [Drawing::Text::set_material], part_001 line 1337 *)
Definition set_material (this : Drawing.Text) (value : string) : Prog unit :=
  let _args : list bytes := [] in
  let _args := push_back _args (encode this) in
  let _args := push_back _args (encode value) in
  Client_invoke (_client this) "Drawing" "Text_set_Material" _args;;
  mret ().

(** [Drawing::Text::position], part_001 line 1344 *)
Definition position (this : Drawing.Text)
    : Prog (tuple3 double double double) :=
  let _args : list bytes := [] in
  let _args := push_back _args (encode this) in
  _data ← Client_invoke (_client this) "Drawing" "Text_get_Position" _args;
  _result ← decoder_decode (T := tuple3 double double double) _data (_client
      this);
  mret _result.

(** [Drawing::Text::set_position], part_001 line 1353 *)
Definition set_position (this : Drawing.Text)
    (value : tuple3 double double double) : Prog unit :=
  let _args : list bytes := [] in
  let _args := push_back _args (encode this) in
  let _args := push_back _args (encode value) in
  Client_invoke (_client this) "Drawing" "Text_set_Position" _args;;
  mret ().

(** [Drawing::Text::reference_frame], part_001 line 1360 *)
Definition reference_frame (this : Drawing.Text)
    : Prog SpaceCenter.ReferenceFrame :=
  let _args : list bytes := [] in
  let _args := push_back _args (encode this) in
  _data ← Client_invoke (_client this) "Drawing" "Text_get_ReferenceFrame"
      _args;
  _result ← decoder_decode (T := SpaceCenter.ReferenceFrame) _data (_client
      this);
  mret _result.

(** [Drawing::Text::set_reference_frame], part_001 line 1369 *)
Definition set_reference_frame (this : Drawing.Text)
    (value : SpaceCenter.ReferenceFrame) : Prog unit :=
  let _args : list bytes := [] in
  let _args := push_back _args (encode this) in
  let _args := push_back _args (encode value) in
  Client_invoke (_client this) "Drawing" "Text_set_ReferenceFrame" _args;;
  mret ().

(** [Drawing::Text::rotation], part_001 line 1376 *)
Definition rotation (this : Drawing.Text)
    : Prog (tuple4 double double double double) :=
  let _args : list bytes := [] in
  let _args := push_back _args (encode this) in
  _data ← Client_invoke (_client this) "Drawing" "Text_get_Rotation" _args;
  _result ← decoder_decode (T := tuple4 double double double double) _data
      (_client this);
  mret _result.

(** [Drawing::Text::set_rotation], part_001 line 1385 *)
Definition set_rotation (this : Drawing.Text)
    (value : tuple4 double double double double) : Prog unit :=
  let _args : list bytes := [] in
  let _args := push_back _args (encode this) in
  let _args := push_back _args (encode value) in
  Client_invoke (_client this) "Drawing" "Text_set_Rotation" _args;;
  mret ().

(** [Drawing::Text::size], part_001 line 1392 *)
Definition size (this : Drawing.Text) : Prog int32_t :=
  let _args : list bytes := [] in
  let _args := push_back _args (encode this) in
  _data ← Client_invoke (_client this) "Drawing" "Text_get_Size" _args;
  _result ← decoder_decode (T := int32_t) _data (_client this);
  mret _result.

(** [Drawing::Text::set_size], part_001 line 1401 *)
Definition set_size (this : Drawing.Text) (value : int32_t) : Prog unit :=
  let _args : list bytes := [] in
  let _args := push_back _args (encode this) in
  let _args := push_back _args (encode value) in
  Client_invoke (_client this) "Drawing" "Text_set_Size" _args;;
  mret ().

(** [Drawing::Text::style], part_001 line 1408 *)
Definition style (this : Drawing.Text) : Prog UI.FontStyle :=
  let _args : list bytes := [] in
  let _args := push_back _args (encode this) in
  _data ← Client_invoke (_client this) "Drawing" "Text_get_Style" _args;
  _result ← decoder_decode (T := UI.FontStyle) _data (_client this);
  mret _result.

(** [Drawing::Text::set_style], part_001 line 1417 *)
Definition set_style (this : Drawing.Text) (value : UI.FontStyle)
    : Prog unit :=
  let _args : list bytes := [] in
  let _args := push_back _args (encode this) in
  let _args := push_back _args (encode value) in
  Client_invoke (_client this) "Drawing" "Text_set_Style" _args;;
  mret ().

(** [Drawing::Text::visible], part_001 line 1424 *)
Definition visible (this : Drawing.Text) : Prog bool :=
  let _args : list bytes := [] in
  let _args := push_back _args (encode this) in
  _data ← Client_invoke (_client this) "Drawing" "Text_get_Visible" _args;
  _result ← decoder_decode (T := bool) _data (_client this);
  mret _result.

(** [Drawing::Text::set_visible], part_001 line 1433 *)
Definition set_visible (this : Drawing.Text) (value : bool) : Prog unit :=
  let _args : list bytes := [] in
  let _args := push_back _args (encode this) in
  let _args := push_back _args (encode value) in
  Client_invoke (_client this) "Drawing" "Text_set_Visible" _args;;
  mret ().

(** [Drawing::Text::available_fonts], part_001 line 1440 *)
Definition available_fonts (_client : Client) : Prog (list string) :=
  _data ← Client_invoke (address_of _client) "Drawing"
      "Text_static_AvailableFonts" no_args;
  _result ← decoder_decode (T := list string) _data (address_of _client);
  mret _result.

(** [Drawing::Text::alignment_stream], part_001 line 1447 *)
Definition alignment_stream (this : Drawing.Text)
    : Prog (Stream UI.TextAlignment) :=
  let _args : list bytes := [] in
  let _args := push_back _args (encode this) in
  _call ← Client_build_call (_client this) "Drawing" "Text_get_Alignment"
      _args;
  Stream_ UI.TextAlignment (_client this) _call.

(** [Drawing::Text::anchor_stream], part_001 line 1453 *)
Definition anchor_stream (this : Drawing.Text)
    : Prog (Stream UI.TextAnchor) :=
  let _args : list bytes := [] in
  let _args := push_back _args (encode this) in
  _call ← Client_build_call (_client this) "Drawing" "Text_get_Anchor" _args;
  Stream_ UI.TextAnchor (_client this) _call.

(** [Drawing::Text::character_size_stream], part_001 line 1459 *)
Definition character_size_stream (this : Drawing.Text)
    : Prog (Stream float) :=
  let _args : list bytes := [] in
  let _args := push_back _args (encode this) in
  _call ← Client_build_call (_client this) "Drawing" "Text_get_CharacterSize"
      _args;
  Stream_ float (_client this) _call.

(** [Drawing::Text::color_stream], part_001 line 1465 *)
Definition color_stream (this : Drawing.Text)
    : Prog (Stream (tuple3 double double double)) :=
  let _args : list bytes := [] in
  let _args := push_back _args (encode this) in
  _call ← Client_build_call (_client this) "Drawing" "Text_get_Color" _args;
  Stream_ (tuple3 double double double) (_client this) _call.

(** [Drawing::Text::content_stream], part_001 line 1471 *)
Definition content_stream (this : Drawing.Text) : Prog (Stream string) :=
  let _args : list bytes := [] in
  let _args := push_back _args (encode this) in
  _call ← Client_build_call (_client this) "Drawing" "Text_get_Content" _args;
  Stream_ string (_client this) _call.

(** [Drawing::Text::font_stream], part_001 line 1477 *)
Definition font_stream (this : Drawing.Text) : Prog (Stream string) :=
  let _args : list bytes := [] in
  let _args := push_back _args (encode this) in
  _call ← Client_build_call (_client this) "Drawing" "Text_get_Font" _args;
  Stream_ string (_client this) _call.

(** [Drawing::Text::line_spacing_stream], part_001 line 1483 *)
Definition line_spacing_stream (this : Drawing.Text) : Prog (Stream float) :=
  let _args : list bytes := [] in
  let _args := push_back _args (encode this) in
  _call ← Client_build_call (_client this) "Drawing" "Text_get_LineSpacing"
      _args;
  Stream_ float (_client this) _call.

(** [Drawing::Text::material_stream], part_001 line 1489 *)
Definition material_stream (this : Drawing.Text) : Prog (Stream string) :=
  let _args : list bytes := [] in
  let _args := push_back _args (encode this) in
  _call ← Client_build_call (_client this) "Drawing" "Text_get_Material"
      _args;
  Stream_ string (_client this) _call.

(** [Drawing::Text::position_stream], part_001 line 1495 *)
Definition position_stream (this : Drawing.Text)
    : Prog (Stream (tuple3 double double double)) :=
  let _args : list bytes := [] in
  let _args := push_back _args (encode this) in
  _call ← Client_build_call (_client this) "Drawing" "Text_get_Position"
      _args;
  Stream_ (tuple3 double double double) (_client this) _call.

(** [Drawing::Text::reference_frame_stream], part_001 line 1501 *)
Definition reference_frame_stream (this : Drawing.Text)
    : Prog (Stream SpaceCenter.ReferenceFrame) :=
  let _args : list bytes := [] in
  let _args := push_back _args (encode this) in
  _call ← Client_build_call (_client this) "Drawing" "Text_get_ReferenceFrame"
      _args;
  Stream_ SpaceCenter.ReferenceFrame (_client this) _call.

(** [Drawing::Text::rotation_stream], part_001 line 1507 *)
Definition rotation_stream (this : Drawing.Text)
    : Prog (Stream (tuple4 double double double double)) :=
  let _args : list bytes := [] in
  let _args := push_back _args (encode this) in
  _call ← Client_build_call (_client this) "Drawing" "Text_get_Rotation"
      _args;
  Stream_ (tuple4 double double double double) (_client this) _call.

(** [Drawing::Text::size_stream], part_001 line 1513 *)
Definition size_stream (this : Drawing.Text) : Prog (Stream int32_t) :=
  let _args : list bytes := [] in
  let _args := push_back _args (encode this) in
  _call ← Client_build_call (_client this) "Drawing" "Text_get_Size" _args;
  Stream_ int32_t (_client this) _call.

(** [Drawing::Text::style_stream], part_001 line 1519 *)
Definition style_stream (this : Drawing.Text) : Prog (Stream UI.FontStyle) :=
  let _args : list bytes := [] in
  let _args := push_back _args (encode this) in
  _call ← Client_build_call (_client this) "Drawing" "Text_get_Style" _args;
  Stream_ UI.FontStyle (_client this) _call.

(** [Drawing::Text::visible_stream], part_001 line 1525 *)
Definition visible_stream (this : Drawing.Text) : Prog (Stream bool) :=
  let _args : list bytes := [] in
  let _args := push_back _args (encode this) in
  _call ← Client_build_call (_client this) "Drawing" "Text_get_Visible" _args;
  Stream_ bool (_client this) _call.

(** [Drawing::Text::available_fonts_stream], part_001 line 1531 *)
Definition available_fonts_stream (_client : Client)
    : Prog (Stream (list string)) :=
  _call ← Client_build_call (address_of _client) "Drawing"
      "Text_static_AvailableFonts" no_args;
  Stream_ (list string) (address_of _client) _call.

(** [Drawing::Text::remove_call], part_001 line 1535 *)
Definition remove_call (this : Drawing.Text) : Prog schema_ProcedureCall :=
  let _args : list bytes := [] in
  let _args := push_back _args (encode this) in
  Client_build_call (_client this) "Drawing" "Text_Remove" _args.

(** [Drawing::Text::alignment_call], part_001 line 1541 *)
Definition alignment_call (this : Drawing.Text) : Prog schema_ProcedureCall :=
  let _args : list bytes := [] in
  let _args := push_back _args (encode this) in
  Client_build_call (_client this) "Drawing" "Text_get_Alignment" _args.

(** [Drawing::Text::set_alignment_call], part_001 line 1547 *)
Definition set_alignment_call (this : Drawing.Text) (value : UI.TextAlignment)
    : Prog schema_ProcedureCall :=
  let _args : list bytes := [] in
  let _args := push_back _args (encode this) in
  let _args := push_back _args (encode value) in
  Client_build_call (_client this) "Drawing" "Text_set_Alignment" _args.

(** [Drawing::Text::anchor_call], part_001 line 1554 *)
Definition anchor_call (this : Drawing.Text) : Prog schema_ProcedureCall :=
  let _args : list bytes := [] in
  let _args := push_back _args (encode this) in
  Client_build_call (_client this) "Drawing" "Text_get_Anchor" _args.

(** [Drawing::Text::set_anchor_call], part_001 line 1560 *)
Definition set_anchor_call (this : Drawing.Text) (value : UI.TextAnchor)
    : Prog schema_ProcedureCall :=
  let _args : list bytes := [] in
  let _args := push_back _args (encode this) in
  let _args := push_back _args (encode value) in
  Client_build_call (_client this) "Drawing" "Text_set_Anchor" _args.

(** [Drawing::Text::character_size_call], part_001 line 1567 *)
Definition character_size_call (this : Drawing.Text)
    : Prog schema_ProcedureCall :=
  let _args : list bytes := [] in
  let _args := push_back _args (encode this) in
  Client_build_call (_client this) "Drawing" "Text_get_CharacterSize" _args.

(** [Drawing::Text::set_character_size_call], part_001 line 1573 *)
Definition set_character_size_call (this : Drawing.Text) (value : float)
    : Prog schema_ProcedureCall :=
  let _args : list bytes := [] in
  let _args := push_back _args (encode this) in
  let _args := push_back _args (encode value) in
  Client_build_call (_client this) "Drawing" "Text_set_CharacterSize" _args.

(** [Drawing::Text::color_call], part_001 line 1580 *)
Definition color_call (this : Drawing.Text) : Prog schema_ProcedureCall :=
  let _args : list bytes := [] in
  let _args := push_back _args (encode this) in
  Client_build_call (_client this) "Drawing" "Text_get_Color" _args.

(** [Drawing::Text::set_color_call], part_001 line 1586 *)
Definition set_color_call (this : Drawing.Text)
    (value : tuple3 double double double) : Prog schema_ProcedureCall :=
  let _args : list bytes := [] in
  let _args := push_back _args (encode this) in
  let _args := push_back _args (encode value) in
  Client_build_call (_client this) "Drawing" "Text_set_Color" _args.

(** [Drawing::Text::content_call], part_001 line 1593 *)
Definition content_call (this : Drawing.Text) : Prog schema_ProcedureCall :=
  let _args : list bytes := [] in
  let _args := push_back _args (encode this) in
  Client_build_call (_client this) "Drawing" "Text_get_Content" _args.

(** [Drawing::Text::set_content_call], part_001 line 1599 *)
Definition set_content_call (this : Drawing.Text) (value : string)
    : Prog schema_ProcedureCall :=
  let _args : list bytes := [] in
  let _args := push_back _args (encode this) in
  let _args := push_back _args (encode value) in
  Client_build_call (_client this) "Drawing" "Text_set_Content" _args.

(** [Drawing::Text::font_call], part_001 line 1606 *)
Definition font_call (this : Drawing.Text) : Prog schema_ProcedureCall :=
  let _args : list bytes := [] in
  let _args := push_back _args (encode this) in
  Client_build_call (_client this) "Drawing" "Text_get_Font" _args.

(** [Drawing::Text::set_font_call], part_001 line 1612 *)
Definition set_font_call (this : Drawing.Text) (value : string)
    : Prog schema_ProcedureCall :=
  let _args : list bytes := [] in
  let _args := push_back _args (encode this) in
  let _args := push_back _args (encode value) in
  Client_build_call (_client this) "Drawing" "Text_set_Font" _args.

(** [Drawing::Text::line_spacing_call], part_001 line 1619 *)
Definition line_spacing_call (this : Drawing.Text)
    : Prog schema_ProcedureCall :=
  let _args : list bytes := [] in
  let _args := push_back _args (encode this) in
  Client_build_call (_client this) "Drawing" "Text_get_LineSpacing" _args.

(** [Drawing::Text::set_line_spacing_call], part_001 line 1625 *)
Definition set_line_spacing_call (this : Drawing.Text) (value : float)
    : Prog schema_ProcedureCall :=
  let _args : list bytes := [] in
  let _args := push_back _args (encode this) in
  let _args := push_back _args (encode value) in
  Client_build_call (_client this) "Drawing" "Text_set_LineSpacing" _args.

(** [Drawing::Text::material_call], part_001 line 1632 *)
Definition material_call (this : Drawing.Text) : Prog schema_ProcedureCall :=
  let _args : list bytes := [] in
  let _args := push_back _args (encode this) in
  Client_build_call (_client this) "Drawing" "Text_get_Material" _args.

(** [Drawing::Text::set_material_call], part_001 line 1638 *)
Definition set_material_call (this : Drawing.Text) (value : string)
    : Prog schema_ProcedureCall :=
  let _args : list bytes := [] in
  let _args := push_back _args (encode this) in
  let _args := push_back _args (encode value) in
  Client_build_call (_client this) "Drawing" "Text_set_Material" _args.

(** [Drawing::Text::position_call], part_001 line 1645 *)
Definition position_call (this : Drawing.Text) : Prog schema_ProcedureCall :=
  let _args : list bytes := [] in
  let _args := push_back _args (encode this) in
  Client_build_call (_client this) "Drawing" "Text_get_Position" _args.

(** [Drawing::Text::set_position_call], part_001 line 1651 *)
Definition set_position_call (this : Drawing.Text)
    (value : tuple3 double double double) : Prog schema_ProcedureCall :=
  let _args : list bytes := [] in
  let _args := push_back _args (encode this) in
  let _args := push_back _args (encode value) in
  Client_build_call (_client this) "Drawing" "Text_set_Position" _args.

(** [Drawing::Text::reference_frame_call], part_001 line 1658 *)
Definition reference_frame_call (this : Drawing.Text)
    : Prog schema_ProcedureCall :=
  let _args : list bytes := [] in
  let _args := push_back _args (encode this) in
  Client_build_call (_client this) "Drawing" "Text_get_ReferenceFrame" _args.

(** [Drawing::Text::set_reference_frame_call], part_001 line 1664 *)
Definition set_reference_frame_call (this : Drawing.Text)
    (value : SpaceCenter.ReferenceFrame) : Prog schema_ProcedureCall :=
  let _args : list bytes := [] in
  let _args := push_back _args (encode this) in
  let _args := push_back _args (encode value) in
  Client_build_call (_client this) "Drawing" "Text_set_ReferenceFrame" _args.

(** [Drawing::Text::rotation_call], part_001 line 1671 *)
Definition rotation_call (this : Drawing.Text) : Prog schema_ProcedureCall :=
  let _args : list bytes := [] in
  let _args := push_back _args (encode this) in
  Client_build_call (_client this) "Drawing" "Text_get_Rotation" _args.

(** [Drawing::Text::set_rotation_call], part_001 line 1677 *)
Definition set_rotation_call (this : Drawing.Text)
    (value : tuple4 double double double double)
    : Prog schema_ProcedureCall :=
  let _args : list bytes := [] in
  let _args := push_back _args (encode this) in
  let _args := push_back _args (encode value) in
  Client_build_call (_client this) "Drawing" "Text_set_Rotation" _args.

(** [Drawing::Text::size_call], part_001 line 1684 *)
Definition size_call (this : Drawing.Text) : Prog schema_ProcedureCall :=
  let _args : list bytes := [] in
  let _args := push_back _args (encode this) in
  Client_build_call (_client this) "Drawing" "Text_get_Size" _args.

(** [Drawing::Text::set_size_call], part_001 line 1690 *)
Definition set_size_call (this : Drawing.Text) (value : int32_t)
    : Prog schema_ProcedureCall :=
  let _args : list bytes := [] in
  let _args := push_back _args (encode this) in
  let _args := push_back _args (encode value) in
  Client_build_call (_client this) "Drawing" "Text_set_Size" _args.

(** [Drawing::Text::style_call], part_001 line 1697 *)
Definition style_call (this : Drawing.Text) : Prog schema_ProcedureCall :=
  let _args : list bytes := [] in
  let _args := push_back _args (encode this) in
  Client_build_call (_client this) "Drawing" "Text_get_Style" _args.

(** [Drawing::Text::set_style_call], part_001 line 1703 *)
Definition set_style_call (this : Drawing.Text) (value : UI.FontStyle)
    : Prog schema_ProcedureCall :=
  let _args : list bytes := [] in
  let _args := push_back _args (encode this) in
  let _args := push_back _args (encode value) in
  Client_build_call (_client this) "Drawing" "Text_set_Style" _args.

(** [Drawing::Text::visible_call], part_001 line 1710 *)
Definition visible_call (this : Drawing.Text) : Prog schema_ProcedureCall :=
  let _args : list bytes := [] in
  let _args := push_back _args (encode this) in
  Client_build_call (_client this) "Drawing" "Text_get_Visible" _args.

(** [Drawing::Text::set_visible_call], part_001 line 1716 *)
Definition set_visible_call (this : Drawing.Text) (value : bool)
    : Prog schema_ProcedureCall :=
  let _args : list bytes := [] in
  let _args := push_back _args (encode this) in
  let _args := push_back _args (encode value) in
  Client_build_call (_client this) "Drawing" "Text_set_Visible" _args.

(** [Drawing::Text::available_fonts_call], part_001 line 1723 *)
Definition available_fonts_call (_client : Client)
    : Prog schema_ProcedureCall :=
  Client_build_call (address_of _client) "Drawing"
      "Text_static_AvailableFonts" no_args.

End Methods.

End Text.

Section Table.
Context {RT : Runtime}.

(** The remote procedures of the service, in the order of the sources. *)
Definition operations : list Operation := [
  Value_op "Drawing::add_direction" Service_method
    (Args := (tuple3 double double double) * SpaceCenter.ReferenceFrame *
        option float * option bool)
    (λ '(direction, reference_frame, length, visible),
       [encode direction;
        encode reference_frame;
        encode (default_arg (double_to_float (double_literal "10.0")) length);
        encode (default_arg true visible)])
    (λ this '(direction, reference_frame, length, visible),
       add_direction this direction reference_frame length visible)
    (λ this '(direction, reference_frame, length, visible),
       add_direction_stream this direction reference_frame length visible)
    (λ this '(direction, reference_frame, length, visible),
       add_direction_call this direction reference_frame length visible);
  Value_op "Drawing::add_line" Service_method
    (Args := (tuple3 double double double) * (tuple3 double double double) *
        SpaceCenter.ReferenceFrame * option bool)
    (λ '(start, end_, reference_frame, visible),
       [encode start;
        encode end_;
        encode reference_frame;
        encode (default_arg true visible)])
    (λ this '(start, end_, reference_frame, visible),
       add_line this start end_ reference_frame visible)
    (λ this '(start, end_, reference_frame, visible),
       add_line_stream this start end_ reference_frame visible)
    (λ this '(start, end_, reference_frame, visible),
       add_line_call this start end_ reference_frame visible);
  Value_op "Drawing::add_polygon" Service_method
    (Args := (list (tuple3 double double double)) * SpaceCenter.ReferenceFrame
        * option bool)
    (λ '(vertices, reference_frame, visible),
       [encode vertices;
        encode reference_frame;
        encode (default_arg true visible)])
    (λ this '(vertices, reference_frame, visible),
       add_polygon this vertices reference_frame visible)
    (λ this '(vertices, reference_frame, visible),
       add_polygon_stream this vertices reference_frame visible)
    (λ this '(vertices, reference_frame, visible),
       add_polygon_call this vertices reference_frame visible);
  Value_op "Drawing::add_text" Service_method
    (Args := string * SpaceCenter.ReferenceFrame * (tuple3 double double
        double) * (tuple4 double double double double) * option bool)
    (λ '(text, reference_frame, position, rotation, visible),
       [encode text;
        encode reference_frame;
        encode position;
        encode rotation;
        encode (default_arg true visible)])
    (λ this '(text, reference_frame, position, rotation, visible),
       add_text this text reference_frame position rotation visible)
    (λ this '(text, reference_frame, position, rotation, visible),
       add_text_stream this text reference_frame position rotation visible)
    (λ this '(text, reference_frame, position, rotation, visible),
       add_text_call this text reference_frame position rotation visible);
  Void_op "Drawing::clear" Service_method
    (Args := option bool)
    (λ client_only, [encode (default_arg false client_only)])
    (λ this client_only, clear this client_only)
    (λ this client_only, clear_call this client_only);
  Void_op "Drawing::Line::remove" (Object_method "Drawing::Line")
    (Args := unit)
    (λ _, [])
    (λ this _, Line.remove this)
    (λ this _, Line.remove_call this);
  Value_op "Drawing::Line::color" (Object_method "Drawing::Line")
    (Args := unit)
    (λ _, [])
    (λ this _, Line.color this)
    (λ this _, Line.color_stream this)
    (λ this _, Line.color_call this);
  Void_op "Drawing::Line::set_color" (Object_method "Drawing::Line")
    (Args := (tuple3 double double double))
    (λ value, [encode value])
    (λ this value, Line.set_color this value)
    (λ this value, Line.set_color_call this value);
  Value_op "Drawing::Line::end" (Object_method "Drawing::Line")
    (Args := unit)
    (λ _, [])
    (λ this _, Line.end_ this)
    (λ this _, Line.end_stream this)
    (λ this _, Line.end_call this);
  Void_op "Drawing::Line::set_end" (Object_method "Drawing::Line")
    (Args := (tuple3 double double double))
    (λ value, [encode value])
    (λ this value, Line.set_end this value)
    (λ this value, Line.set_end_call this value);
  Value_op "Drawing::Line::material" (Object_method "Drawing::Line")
    (Args := unit)
    (λ _, [])
    (λ this _, Line.material this)
    (λ this _, Line.material_stream this)
    (λ this _, Line.material_call this);
  Void_op "Drawing::Line::set_material" (Object_method "Drawing::Line")
    (Args := string)
    (λ value, [encode value])
    (λ this value, Line.set_material this value)
    (λ this value, Line.set_material_call this value);
  Value_op "Drawing::Line::reference_frame" (Object_method "Drawing::Line")
    (Args := unit)
    (λ _, [])
    (λ this _, Line.reference_frame this)
    (λ this _, Line.reference_frame_stream this)
    (λ this _, Line.reference_frame_call this);
  Void_op "Drawing::Line::set_reference_frame" (Object_method "Drawing::Line")
    (Args := SpaceCenter.ReferenceFrame)
    (λ value, [encode value])
    (λ this value, Line.set_reference_frame this value)
    (λ this value, Line.set_reference_frame_call this value);
  Value_op "Drawing::Line::start" (Object_method "Drawing::Line")
    (Args := unit)
    (λ _, [])
    (λ this _, Line.start this)
    (λ this _, Line.start_stream this)
    (λ this _, Line.start_call this);
  Void_op "Drawing::Line::set_start" (Object_method "Drawing::Line")
    (Args := (tuple3 double double double))
    (λ value, [encode value])
    (λ this value, Line.set_start this value)
    (λ this value, Line.set_start_call this value);
  Value_op "Drawing::Line::thickness" (Object_method "Drawing::Line")
    (Args := unit)
    (λ _, [])
    (λ this _, Line.thickness this)
    (λ this _, Line.thickness_stream this)
    (λ this _, Line.thickness_call this);
  Void_op "Drawing::Line::set_thickness" (Object_method "Drawing::Line")
    (Args := float)
    (λ value, [encode value])
    (λ this value, Line.set_thickness this value)
    (λ this value, Line.set_thickness_call this value);
  Value_op "Drawing::Line::visible" (Object_method "Drawing::Line")
    (Args := unit)
    (λ _, [])
    (λ this _, Line.visible this)
    (λ this _, Line.visible_stream this)
    (λ this _, Line.visible_call this);
  Void_op "Drawing::Line::set_visible" (Object_method "Drawing::Line")
    (Args := bool)
    (λ value, [encode value])
    (λ this value, Line.set_visible this value)
    (λ this value, Line.set_visible_call this value);
  Void_op "Drawing::Polygon::remove" (Object_method "Drawing::Polygon")
    (Args := unit)
    (λ _, [])
    (λ this _, Polygon.remove this)
    (λ this _, Polygon.remove_call this);
  Value_op "Drawing::Polygon::color" (Object_method "Drawing::Polygon")
    (Args := unit)
    (λ _, [])
    (λ this _, Polygon.color this)
    (λ this _, Polygon.color_stream this)
    (λ this _, Polygon.color_call this);
  Void_op "Drawing::Polygon::set_color" (Object_method "Drawing::Polygon")
    (Args := (tuple3 double double double))
    (λ value, [encode value])
    (λ this value, Polygon.set_color this value)
    (λ this value, Polygon.set_color_call this value);
  Value_op "Drawing::Polygon::material" (Object_method "Drawing::Polygon")
    (Args := unit)
    (λ _, [])
    (λ this _, Polygon.material this)
    (λ this _, Polygon.material_stream this)
    (λ this _, Polygon.material_call this);
  Void_op "Drawing::Polygon::set_material" (Object_method "Drawing::Polygon")
    (Args := string)
    (λ value, [encode value])
    (λ this value, Polygon.set_material this value)
    (λ this value, Polygon.set_material_call this value);
  Value_op "Drawing::Polygon::reference_frame" (Object_method
      "Drawing::Polygon")
    (Args := unit)
    (λ _, [])
    (λ this _, Polygon.reference_frame this)
    (λ this _, Polygon.reference_frame_stream this)
    (λ this _, Polygon.reference_frame_call this);
  Void_op "Drawing::Polygon::set_reference_frame" (Object_method
      "Drawing::Polygon")
    (Args := SpaceCenter.ReferenceFrame)
    (λ value, [encode value])
    (λ this value, Polygon.set_reference_frame this value)
    (λ this value, Polygon.set_reference_frame_call this value);
  Value_op "Drawing::Polygon::thickness" (Object_method "Drawing::Polygon")
    (Args := unit)
    (λ _, [])
    (λ this _, Polygon.thickness this)
    (λ this _, Polygon.thickness_stream this)
    (λ this _, Polygon.thickness_call this);
  Void_op "Drawing::Polygon::set_thickness" (Object_method "Drawing::Polygon")
    (Args := float)
    (λ value, [encode value])
    (λ this value, Polygon.set_thickness this value)
    (λ this value, Polygon.set_thickness_call this value);
  Value_op "Drawing::Polygon::vertices" (Object_method "Drawing::Polygon")
    (Args := unit)
    (λ _, [])
    (λ this _, Polygon.vertices this)
    (λ this _, Polygon.vertices_stream this)
    (λ this _, Polygon.vertices_call this);
  Void_op "Drawing::Polygon::set_vertices" (Object_method "Drawing::Polygon")
    (Args := (list (tuple3 double double double)))
    (λ value, [encode value])
    (λ this value, Polygon.set_vertices this value)
    (λ this value, Polygon.set_vertices_call this value);
  Value_op "Drawing::Polygon::visible" (Object_method "Drawing::Polygon")
    (Args := unit)
    (λ _, [])
    (λ this _, Polygon.visible this)
    (λ this _, Polygon.visible_stream this)
    (λ this _, Polygon.visible_call this);
  Void_op "Drawing::Polygon::set_visible" (Object_method "Drawing::Polygon")
    (Args := bool)
    (λ value, [encode value])
    (λ this value, Polygon.set_visible this value)
    (λ this value, Polygon.set_visible_call this value);
  Void_op "Drawing::Text::remove" (Object_method "Drawing::Text")
    (Args := unit)
    (λ _, [])
    (λ this _, Text.remove this)
    (λ this _, Text.remove_call this);
  Value_op "Drawing::Text::alignment" (Object_method "Drawing::Text")
    (Args := unit)
    (λ _, [])
    (λ this _, Text.alignment this)
    (λ this _, Text.alignment_stream this)
    (λ this _, Text.alignment_call this);
  Void_op "Drawing::Text::set_alignment" (Object_method "Drawing::Text")
    (Args := UI.TextAlignment)
    (λ value, [encode value])
    (λ this value, Text.set_alignment this value)
    (λ this value, Text.set_alignment_call this value);
  Value_op "Drawing::Text::anchor" (Object_method "Drawing::Text")
    (Args := unit)
    (λ _, [])
    (λ this _, Text.anchor this)
    (λ this _, Text.anchor_stream this)
    (λ this _, Text.anchor_call this);
  Void_op "Drawing::Text::set_anchor" (Object_method "Drawing::Text")
    (Args := UI.TextAnchor)
    (λ value, [encode value])
    (λ this value, Text.set_anchor this value)
    (λ this value, Text.set_anchor_call this value);
  Value_op "Drawing::Text::character_size" (Object_method "Drawing::Text")
    (Args := unit)
    (λ _, [])
    (λ this _, Text.character_size this)
    (λ this _, Text.character_size_stream this)
    (λ this _, Text.character_size_call this);
  Void_op "Drawing::Text::set_character_size" (Object_method "Drawing::Text")
    (Args := float)
    (λ value, [encode value])
    (λ this value, Text.set_character_size this value)
    (λ this value, Text.set_character_size_call this value);
  Value_op "Drawing::Text::color" (Object_method "Drawing::Text")
    (Args := unit)
    (λ _, [])
    (λ this _, Text.color this)
    (λ this _, Text.color_stream this)
    (λ this _, Text.color_call this);
  Void_op "Drawing::Text::set_color" (Object_method "Drawing::Text")
    (Args := (tuple3 double double double))
    (λ value, [encode value])
    (λ this value, Text.set_color this value)
    (λ this value, Text.set_color_call this value);
  Value_op "Drawing::Text::content" (Object_method "Drawing::Text")
    (Args := unit)
    (λ _, [])
    (λ this _, Text.content this)
    (λ this _, Text.content_stream this)
    (λ this _, Text.content_call this);
  Void_op "Drawing::Text::set_content" (Object_method "Drawing::Text")
    (Args := string)
    (λ value, [encode value])
    (λ this value, Text.set_content this value)
    (λ this value, Text.set_content_call this value);
  Value_op "Drawing::Text::font" (Object_method "Drawing::Text")
    (Args := unit)
    (λ _, [])
    (λ this _, Text.font this)
    (λ this _, Text.font_stream this)
    (λ this _, Text.font_call this);
  Void_op "Drawing::Text::set_font" (Object_method "Drawing::Text")
    (Args := string)
    (λ value, [encode value])
    (λ this value, Text.set_font this value)
    (λ this value, Text.set_font_call this value);
  Value_op "Drawing::Text::line_spacing" (Object_method "Drawing::Text")
    (Args := unit)
    (λ _, [])
    (λ this _, Text.line_spacing this)
    (λ this _, Text.line_spacing_stream this)
    (λ this _, Text.line_spacing_call this);
  Void_op "Drawing::Text::set_line_spacing" (Object_method "Drawing::Text")
    (Args := float)
    (λ value, [encode value])
    (λ this value, Text.set_line_spacing this value)
    (λ this value, Text.set_line_spacing_call this value);
  Value_op "Drawing::Text::material" (Object_method "Drawing::Text")
    (Args := unit)
    (λ _, [])
    (λ this _, Text.material this)
    (λ this _, Text.material_stream this)
    (λ this _, Text.material_call this);
  Void_op "Drawing::Text::set_material" (Object_method "Drawing::Text")
    (Args := string)
    (λ value, [encode value])
    (λ this value, Text.set_material this value)
    (λ this value, Text.set_material_call this value);
  Value_op "Drawing::Text::position" (Object_method "Drawing::Text")
    (Args := unit)
    (λ _, [])
    (λ this _, Text.position this)
    (λ this _, Text.position_stream this)
    (λ this _, Text.position_call this);
  Void_op "Drawing::Text::set_position" (Object_method "Drawing::Text")
    (Args := (tuple3 double double double))
    (λ value, [encode value])
    (λ this value, Text.set_position this value)
    (λ this value, Text.set_position_call this value);
  Value_op "Drawing::Text::reference_frame" (Object_method "Drawing::Text")
    (Args := unit)
    (λ _, [])
    (λ this _, Text.reference_frame this)
    (λ this _, Text.reference_frame_stream this)
    (λ this _, Text.reference_frame_call this);
  Void_op "Drawing::Text::set_reference_frame" (Object_method "Drawing::Text")
    (Args := SpaceCenter.ReferenceFrame)
    (λ value, [encode value])
    (λ this value, Text.set_reference_frame this value)
    (λ this value, Text.set_reference_frame_call this value);
  Value_op "Drawing::Text::rotation" (Object_method "Drawing::Text")
    (Args := unit)
    (λ _, [])
    (λ this _, Text.rotation this)
    (λ this _, Text.rotation_stream this)
    (λ this _, Text.rotation_call this);
  Void_op "Drawing::Text::set_rotation" (Object_method "Drawing::Text")
    (Args := (tuple4 double double double double))
    (λ value, [encode value])
    (λ this value, Text.set_rotation this value)
    (λ this value, Text.set_rotation_call this value);
  Value_op "Drawing::Text::size" (Object_method "Drawing::Text")
    (Args := unit)
    (λ _, [])
    (λ this _, Text.size this)
    (λ this _, Text.size_stream this)
    (λ this _, Text.size_call this);
  Void_op "Drawing::Text::set_size" (Object_method "Drawing::Text")
    (Args := int32_t)
    (λ value, [encode value])
    (λ this value, Text.set_size this value)
    (λ this value, Text.set_size_call this value);
  Value_op "Drawing::Text::style" (Object_method "Drawing::Text")
    (Args := unit)
    (λ _, [])
    (λ this _, Text.style this)
    (λ this _, Text.style_stream this)
    (λ this _, Text.style_call this);
  Void_op "Drawing::Text::set_style" (Object_method "Drawing::Text")
    (Args := UI.FontStyle)
    (λ value, [encode value])
    (λ this value, Text.set_style this value)
    (λ this value, Text.set_style_call this value);
  Value_op "Drawing::Text::visible" (Object_method "Drawing::Text")
    (Args := unit)
    (λ _, [])
    (λ this _, Text.visible this)
    (λ this _, Text.visible_stream this)
    (λ this _, Text.visible_call this);
  Void_op "Drawing::Text::set_visible" (Object_method "Drawing::Text")
    (Args := bool)
    (λ value, [encode value])
    (λ this value, Text.set_visible this value)
    (λ this value, Text.set_visible_call this value);
  Value_op "Drawing::Text::available_fonts" Static_method
    (Args := unit)
    (λ _, [])
    (λ _client _, Text.available_fonts _client)
    (λ _client _, Text.available_fonts_stream _client)
    (λ _client _, Text.available_fonts_call _client)
].

End Table.

End Drawing.

(** ** Service [KerbalAlarmClock] (part_001) *)

Module KerbalAlarmClock.

(** [class KerbalAlarmClock : public Service], line 1748 *)
Record t : Type := Make { base : Service }.
#[global] Instance t_HasClient : HasClient t :=
  λ this, Service_client (base this).

(** Class forward declarations; each class is declared as
    [class C : public krpc::Object<C>]. *)
Definition Alarm : Type := Object "KerbalAlarmClock::Alarm".

(** [enum struct AlarmAction], line 1758 *)
Definition AlarmAction : Type := enum_struct "KerbalAlarmClock::AlarmAction".
Module AlarmAction.
Definition do_nothing : KerbalAlarmClock.AlarmAction :=
  static_cast_enum "KerbalAlarmClock::AlarmAction" 0%Z.
Definition do_nothing_delete_when_passed : KerbalAlarmClock.AlarmAction :=
  static_cast_enum "KerbalAlarmClock::AlarmAction" 1%Z.
Definition kill_warp : KerbalAlarmClock.AlarmAction :=
  static_cast_enum "KerbalAlarmClock::AlarmAction" 2%Z.
Definition kill_warp_only : KerbalAlarmClock.AlarmAction :=
  static_cast_enum "KerbalAlarmClock::AlarmAction" 3%Z.
Definition message_only : KerbalAlarmClock.AlarmAction :=
  static_cast_enum "KerbalAlarmClock::AlarmAction" 4%Z.
Definition pause_game : KerbalAlarmClock.AlarmAction :=
  static_cast_enum "KerbalAlarmClock::AlarmAction" 5%Z.
Definition enumerators : list KerbalAlarmClock.AlarmAction :=
  [do_nothing; do_nothing_delete_when_passed; kill_warp; kill_warp_only;
   message_only; pause_game].
End AlarmAction.

(** [enum struct AlarmType], line 1788 *)
Definition AlarmType : Type := enum_struct "KerbalAlarmClock::AlarmType".
Module AlarmType.
Definition raw : KerbalAlarmClock.AlarmType :=
  static_cast_enum "KerbalAlarmClock::AlarmType" 0%Z.
Definition maneuver : KerbalAlarmClock.AlarmType :=
  static_cast_enum "KerbalAlarmClock::AlarmType" 1%Z.
Definition maneuver_auto : KerbalAlarmClock.AlarmType :=
  static_cast_enum "KerbalAlarmClock::AlarmType" 2%Z.
Definition apoapsis : KerbalAlarmClock.AlarmType :=
  static_cast_enum "KerbalAlarmClock::AlarmType" 3%Z.
Definition periapsis : KerbalAlarmClock.AlarmType :=
  static_cast_enum "KerbalAlarmClock::AlarmType" 4%Z.
Definition ascending_node : KerbalAlarmClock.AlarmType :=
  static_cast_enum "KerbalAlarmClock::AlarmType" 5%Z.
Definition descending_node : KerbalAlarmClock.AlarmType :=
  static_cast_enum "KerbalAlarmClock::AlarmType" 6%Z.
Definition closest : KerbalAlarmClock.AlarmType :=
  static_cast_enum "KerbalAlarmClock::AlarmType" 7%Z.
Definition contract : KerbalAlarmClock.AlarmType :=
  static_cast_enum "KerbalAlarmClock::AlarmType" 8%Z.
Definition contract_auto : KerbalAlarmClock.AlarmType :=
  static_cast_enum "KerbalAlarmClock::AlarmType" 9%Z.
Definition crew : KerbalAlarmClock.AlarmType :=
  static_cast_enum "KerbalAlarmClock::AlarmType" 10%Z.
Definition distance : KerbalAlarmClock.AlarmType :=
  static_cast_enum "KerbalAlarmClock::AlarmType" 11%Z.
Definition earth_time : KerbalAlarmClock.AlarmType :=
  static_cast_enum "KerbalAlarmClock::AlarmType" 12%Z.
Definition launch_rendevous : KerbalAlarmClock.AlarmType :=
  static_cast_enum "KerbalAlarmClock::AlarmType" 13%Z.
Definition soi_change : KerbalAlarmClock.AlarmType :=
  static_cast_enum "KerbalAlarmClock::AlarmType" 14%Z.
Definition soi_change_auto : KerbalAlarmClock.AlarmType :=
  static_cast_enum "KerbalAlarmClock::AlarmType" 15%Z.
Definition transfer : KerbalAlarmClock.AlarmType :=
  static_cast_enum "KerbalAlarmClock::AlarmType" 16%Z.
Definition transfer_modelled : KerbalAlarmClock.AlarmType :=
  static_cast_enum "KerbalAlarmClock::AlarmType" 17%Z.
Definition enumerators : list KerbalAlarmClock.AlarmType :=
  [raw; maneuver; maneuver_auto; apoapsis; periapsis; ascending_node;
   descending_node; closest; contract; contract_auto; crew; distance;
   earth_time; launch_rendevous; soi_change; soi_change_auto; transfer;
   transfer_modelled].
End AlarmType.

Section Codecs.
Context {RT : Runtime}.

(** [encoder::encode(const services::KerbalAlarmClock::AlarmAction&)],
    line 2131 *)
#[global] Instance encode_AlarmAction : Encodable AlarmAction :=
  λ value, encode (static_cast_int32 value).

(** [encoder::encode(const services::KerbalAlarmClock::AlarmType&)],
    line 2135 *)
#[global] Instance encode_AlarmType : Encodable AlarmType :=
  λ value, encode (static_cast_int32 value).

(** [decoder::decode(services::KerbalAlarmClock::AlarmAction&, data, client)],
    line 2143 *)
#[global] Instance decode_AlarmAction : Decodable AlarmAction := λ data
    client,
  x ← decode (T := int32_t) data client;
  mret (static_cast_enum "KerbalAlarmClock::AlarmAction" x).

(** [decoder::decode(services::KerbalAlarmClock::AlarmType&, data, client)],
    line 2149 *)
#[global] Instance decode_AlarmType : Decodable AlarmType := λ data client,
  x ← decode (T := int32_t) data client;
  mret (static_cast_enum "KerbalAlarmClock::AlarmType" x).

End Codecs.

Section Methods.
Context {RT : Runtime}.

(** [KerbalAlarmClock::KerbalAlarmClock], line 2159 *)
Definition KerbalAlarmClock (client : Client_ptr) : Prog t :=
  let this := Make (Service_ client) in
  mret this.

(** [KerbalAlarmClock::alarm_with_name], part_001 line 2163 *)
Definition alarm_with_name (this : t) (name : string)
    : Prog KerbalAlarmClock.Alarm :=
  let _args : list bytes := [] in
  let _args := push_back _args (encode name) in
  _data ← Client_invoke (_client this) "KerbalAlarmClock" "AlarmWithName"
      _args;
  _result ← decoder_decode (T := KerbalAlarmClock.Alarm) _data (_client this);
  mret _result.

(** [KerbalAlarmClock::alarms_with_type], part_001 line 2172 *)
Definition alarms_with_type (this : t) (type : KerbalAlarmClock.AlarmType)
    : Prog (list KerbalAlarmClock.Alarm) :=
  let _args : list bytes := [] in
  let _args := push_back _args (encode type) in
  _data ← Client_invoke (_client this) "KerbalAlarmClock" "AlarmsWithType"
      _args;
  _result ← decoder_decode (T := list KerbalAlarmClock.Alarm) _data (_client
      this);
  mret _result.

(** [KerbalAlarmClock::create_alarm], part_001 line 2181 *)
Definition create_alarm (this : t) (type : KerbalAlarmClock.AlarmType)
    (name : string) (ut : double) : Prog KerbalAlarmClock.Alarm :=
  let _args : list bytes := [] in
  let _args := push_back _args (encode type) in
  let _args := push_back _args (encode name) in
  let _args := push_back _args (encode ut) in
  _data ← Client_invoke (_client this) "KerbalAlarmClock" "CreateAlarm" _args;
  _result ← decoder_decode (T := KerbalAlarmClock.Alarm) _data (_client this);
  mret _result.

(** [KerbalAlarmClock::alarms], part_001 line 2192 *)
Definition alarms (this : t) : Prog (list KerbalAlarmClock.Alarm) :=
  _data ← Client_invoke (_client this) "KerbalAlarmClock" "get_Alarms"
      no_args;
  _result ← decoder_decode (T := list KerbalAlarmClock.Alarm) _data (_client
      this);
  mret _result.

(** [KerbalAlarmClock::available], part_001 line 2199 *)
Definition available (this : t) : Prog bool :=
  _data ← Client_invoke (_client this) "KerbalAlarmClock" "get_Available"
      no_args;
  _result ← decoder_decode (T := bool) _data (_client this);
  mret _result.

(** [KerbalAlarmClock::alarm_with_name_stream], part_001 line 2206 *)
Definition alarm_with_name_stream (this : t) (name : string)
    : Prog (Stream KerbalAlarmClock.Alarm) :=
  let _args : list bytes := [] in
  let _args := push_back _args (encode name) in
  _call ← Client_build_call (_client this) "KerbalAlarmClock" "AlarmWithName"
      _args;
  Stream_ KerbalAlarmClock.Alarm (_client this) _call.

(** [KerbalAlarmClock::alarms_with_type_stream], part_001 line 2212 *)
Definition alarms_with_type_stream (this : t)
    (type : KerbalAlarmClock.AlarmType)
    : Prog (Stream (list KerbalAlarmClock.Alarm)) :=
  let _args : list bytes := [] in
  let _args := push_back _args (encode type) in
  _call ← Client_build_call (_client this) "KerbalAlarmClock" "AlarmsWithType"
      _args;
  Stream_ (list KerbalAlarmClock.Alarm) (_client this) _call.

(** [KerbalAlarmClock::create_alarm_stream], part_001 line 2218 *)
Definition create_alarm_stream (this : t) (type : KerbalAlarmClock.AlarmType)
    (name : string) (ut : double) : Prog (Stream KerbalAlarmClock.Alarm) :=
  let _args : list bytes := [] in
  let _args := push_back _args (encode type) in
  let _args := push_back _args (encode name) in
  let _args := push_back _args (encode ut) in
  _call ← Client_build_call (_client this) "KerbalAlarmClock" "CreateAlarm"
      _args;
  Stream_ KerbalAlarmClock.Alarm (_client this) _call.

(** [KerbalAlarmClock::alarms_stream], part_001 line 2226 *)
Definition alarms_stream (this : t)
    : Prog (Stream (list KerbalAlarmClock.Alarm)) :=
  _call ← Client_build_call (_client this) "KerbalAlarmClock" "get_Alarms"
      no_args;
  Stream_ (list KerbalAlarmClock.Alarm) (_client this) _call.

(** [KerbalAlarmClock::available_stream], part_001 line 2230 *)
Definition available_stream (this : t) : Prog (Stream bool) :=
  _call ← Client_build_call (_client this) "KerbalAlarmClock" "get_Available"
      no_args;
  Stream_ bool (_client this) _call.

(** [KerbalAlarmClock::alarm_with_name_call], part_001 line 2234 *)
Definition alarm_with_name_call (this : t) (name : string)
    : Prog schema_ProcedureCall :=
  let _args : list bytes := [] in
  let _args := push_back _args (encode name) in
  Client_build_call (_client this) "KerbalAlarmClock" "AlarmWithName" _args.

(** [KerbalAlarmClock::alarms_with_type_call], part_001 line 2240 *)
Definition alarms_with_type_call (this : t)
    (type : KerbalAlarmClock.AlarmType) : Prog schema_ProcedureCall :=
  let _args : list bytes := [] in
  let _args := push_back _args (encode type) in
  Client_build_call (_client this) "KerbalAlarmClock" "AlarmsWithType" _args.

(** [KerbalAlarmClock::create_alarm_call], part_001 line 2246 *)
Definition create_alarm_call (this : t) (type : KerbalAlarmClock.AlarmType)
    (name : string) (ut : double) : Prog schema_ProcedureCall :=
  let _args : list bytes := [] in
  let _args := push_back _args (encode type) in
  let _args := push_back _args (encode name) in
  let _args := push_back _args (encode ut) in
  Client_build_call (_client this) "KerbalAlarmClock" "CreateAlarm" _args.

(** [KerbalAlarmClock::alarms_call], part_001 line 2254 *)
Definition alarms_call (this : t) : Prog schema_ProcedureCall :=
  Client_build_call (_client this) "KerbalAlarmClock" "get_Alarms" no_args.

(** [KerbalAlarmClock::available_call], part_001 line 2258 *)
Definition available_call (this : t) : Prog schema_ProcedureCall :=
  Client_build_call (_client this) "KerbalAlarmClock" "get_Available" no_args.

End Methods.

(** [class KerbalAlarmClock::Alarm] *)
Module Alarm.
Section Methods.
Context {RT : Runtime}.

(** [KerbalAlarmClock::Alarm::Alarm], line 2262; declared
    [explicit Alarm(Client* client = nullptr, uint64_t id = 0)], line 1929 *)
Definition Alarm (client : option Client_ptr) (id : option uint64_t)
    : KerbalAlarmClock.Alarm :=
  let client := default_arg nullptr client in
  let id := default_arg 0%N id in
  Object_ "KerbalAlarmClock::Alarm" client id.

(** [KerbalAlarmClock::Alarm::remove], part_001 line 2265 *)
Definition remove (this : KerbalAlarmClock.Alarm) : Prog unit :=
  let _args : list bytes := [] in
  let _args := push_back _args (encode this) in
  Client_invoke (_client this) "KerbalAlarmClock" "Alarm_Remove" _args;;
  mret ().

(** [KerbalAlarmClock::Alarm::action], part_001 line 2271 *)
Definition action (this : KerbalAlarmClock.Alarm)
    : Prog KerbalAlarmClock.AlarmAction :=
  let _args : list bytes := [] in
  let _args := push_back _args (encode this) in
  _data ← Client_invoke (_client this) "KerbalAlarmClock" "Alarm_get_Action"
      _args;
  _result ← decoder_decode (T := KerbalAlarmClock.AlarmAction) _data (_client
      this);
  mret _result.

(** [KerbalAlarmClock::Alarm::set_action], part_001 line 2280 *)
Definition set_action (this : KerbalAlarmClock.Alarm)
    (value : KerbalAlarmClock.AlarmAction) : Prog unit :=
  let _args : list bytes := [] in
  let _args := push_back _args (encode this) in
  let _args := push_back _args (encode value) in
  Client_invoke (_client this) "KerbalAlarmClock" "Alarm_set_Action" _args;;
  mret ().

(** [KerbalAlarmClock::Alarm::id], part_001 line 2287 *)
Definition id (this : KerbalAlarmClock.Alarm) : Prog string :=
  let _args : list bytes := [] in
  let _args := push_back _args (encode this) in
  _data ← Client_invoke (_client this) "KerbalAlarmClock" "Alarm_get_ID"
      _args;
  _result ← decoder_decode (T := string) _data (_client this);
  mret _result.

(** [KerbalAlarmClock::Alarm::margin], part_001 line 2296 *)
Definition margin (this : KerbalAlarmClock.Alarm) : Prog double :=
  let _args : list bytes := [] in
  let _args := push_back _args (encode this) in
  _data ← Client_invoke (_client this) "KerbalAlarmClock" "Alarm_get_Margin"
      _args;
  _result ← decoder_decode (T := double) _data (_client this);
  mret _result.

(** [KerbalAlarmClock::Alarm::set_margin], part_001 line 2305 *)
Definition set_margin (this : KerbalAlarmClock.Alarm) (value : double)
    : Prog unit :=
  let _args : list bytes := [] in
  let _args := push_back _args (encode this) in
  let _args := push_back _args (encode value) in
  Client_invoke (_client this) "KerbalAlarmClock" "Alarm_set_Margin" _args;;
  mret ().

(** [KerbalAlarmClock::Alarm::name], part_001 line 2312 *)
Definition name (this : KerbalAlarmClock.Alarm) : Prog string :=
  let _args : list bytes := [] in
  let _args := push_back _args (encode this) in
  _data ← Client_invoke (_client this) "KerbalAlarmClock" "Alarm_get_Name"
      _args;
  _result ← decoder_decode (T := string) _data (_client this);
  mret _result.

(** [KerbalAlarmClock::Alarm::set_name], part_001 line 2321 *)
Definition set_name (this : KerbalAlarmClock.Alarm) (value : string)
    : Prog unit :=
  let _args : list bytes := [] in
  let _args := push_back _args (encode this) in
  let _args := push_back _args (encode value) in
  Client_invoke (_client this) "KerbalAlarmClock" "Alarm_set_Name" _args;;
  mret ().

(** [KerbalAlarmClock::Alarm::notes], part_001 line 2328 *)
Definition notes (this : KerbalAlarmClock.Alarm) : Prog string :=
  let _args : list bytes := [] in
  let _args := push_back _args (encode this) in
  _data ← Client_invoke (_client this) "KerbalAlarmClock" "Alarm_get_Notes"
      _args;
  _result ← decoder_decode (T := string) _data (_client this);
  mret _result.

(** [KerbalAlarmClock::Alarm::set_notes], part_001 line 2337 *)
Definition set_notes (this : KerbalAlarmClock.Alarm) (value : string)
    : Prog unit :=
  let _args : list bytes := [] in
  let _args := push_back _args (encode this) in
  let _args := push_back _args (encode value) in
  Client_invoke (_client this) "KerbalAlarmClock" "Alarm_set_Notes" _args;;
  mret ().

(** [KerbalAlarmClock::Alarm::remaining], part_001 line 2344 *)
Definition remaining (this : KerbalAlarmClock.Alarm) : Prog double :=
  let _args : list bytes := [] in
  let _args := push_back _args (encode this) in
  _data ← Client_invoke (_client this) "KerbalAlarmClock"
      "Alarm_get_Remaining" _args;
  _result ← decoder_decode (T := double) _data (_client this);
  mret _result.

(** [KerbalAlarmClock::Alarm::repeat], part_001 line 2353 *)
Definition repeat (this : KerbalAlarmClock.Alarm) : Prog bool :=
  let _args : list bytes := [] in
  let _args := push_back _args (encode this) in
  _data ← Client_invoke (_client this) "KerbalAlarmClock" "Alarm_get_Repeat"
      _args;
  _result ← decoder_decode (T := bool) _data (_client this);
  mret _result.

(** [KerbalAlarmClock::Alarm::set_repeat], part_001 line 2362 *)
Definition set_repeat (this : KerbalAlarmClock.Alarm) (value : bool)
    : Prog unit :=
  let _args : list bytes := [] in
  let _args := push_back _args (encode this) in
  let _args := push_back _args (encode value) in
  Client_invoke (_client this) "KerbalAlarmClock" "Alarm_set_Repeat" _args;;
  mret ().

(** [KerbalAlarmClock::Alarm::repeat_period], part_001 line 2369 *)
Definition repeat_period (this : KerbalAlarmClock.Alarm) : Prog double :=
  let _args : list bytes := [] in
  let _args := push_back _args (encode this) in
  _data ← Client_invoke (_client this) "KerbalAlarmClock"
      "Alarm_get_RepeatPeriod" _args;
  _result ← decoder_decode (T := double) _data (_client this);
  mret _result.

(** [KerbalAlarmClock::Alarm::set_repeat_period], part_001 line 2378 *)
Definition set_repeat_period (this : KerbalAlarmClock.Alarm) (value : double)
    : Prog unit :=
  let _args : list bytes := [] in
  let _args := push_back _args (encode this) in
  let _args := push_back _args (encode value) in
  Client_invoke (_client this) "KerbalAlarmClock" "Alarm_set_RepeatPeriod"
      _args;;
  mret ().

(** [KerbalAlarmClock::Alarm::time], part_001 line 2385 *)
Definition time (this : KerbalAlarmClock.Alarm) : Prog double :=
  let _args : list bytes := [] in
  let _args := push_back _args (encode this) in
  _data ← Client_invoke (_client this) "KerbalAlarmClock" "Alarm_get_Time"
      _args;
  _result ← decoder_decode (T := double) _data (_client this);
  mret _result.

(** [KerbalAlarmClock::Alarm::set_time], part_001 line 2394 *)
Definition set_time (this : KerbalAlarmClock.Alarm) (value : double)
    : Prog unit :=
  let _args : list bytes := [] in
  let _args := push_back _args (encode this) in
  let _args := push_back _args (encode value) in
  Client_invoke (_client this) "KerbalAlarmClock" "Alarm_set_Time" _args;;
  mret ().

(** [KerbalAlarmClock::Alarm::type], part_001 line 2401 *)
Definition type (this : KerbalAlarmClock.Alarm)
    : Prog KerbalAlarmClock.AlarmType :=
  let _args : list bytes := [] in
  let _args := push_back _args (encode this) in
  _data ← Client_invoke (_client this) "KerbalAlarmClock" "Alarm_get_Type"
      _args;
  _result ← decoder_decode (T := KerbalAlarmClock.AlarmType) _data (_client
      this);
  mret _result.

(** [KerbalAlarmClock::Alarm::vessel], part_001 line 2410 *)
Definition vessel (this : KerbalAlarmClock.Alarm) : Prog SpaceCenter.Vessel :=
  let _args : list bytes := [] in
  let _args := push_back _args (encode this) in
  _data ← Client_invoke (_client this) "KerbalAlarmClock" "Alarm_get_Vessel"
      _args;
  _result ← decoder_decode (T := SpaceCenter.Vessel) _data (_client this);
  mret _result.

(** [KerbalAlarmClock::Alarm::set_vessel], part_001 line 2419 *)
Definition set_vessel (this : KerbalAlarmClock.Alarm)
    (value : SpaceCenter.Vessel) : Prog unit :=
  let _args : list bytes := [] in
  let _args := push_back _args (encode this) in
  let _args := push_back _args (encode value) in
  Client_invoke (_client this) "KerbalAlarmClock" "Alarm_set_Vessel" _args;;
  mret ().

(** [KerbalAlarmClock::Alarm::xfer_origin_body], part_001 line 2426 *)
Definition xfer_origin_body (this : KerbalAlarmClock.Alarm)
    : Prog SpaceCenter.CelestialBody :=
  let _args : list bytes := [] in
  let _args := push_back _args (encode this) in
  _data ← Client_invoke (_client this) "KerbalAlarmClock"
      "Alarm_get_XferOriginBody" _args;
  _result ← decoder_decode (T := SpaceCenter.CelestialBody) _data (_client
      this);
  mret _result.

(** [KerbalAlarmClock::Alarm::set_xfer_origin_body], part_001 line 2435 *)
Definition set_xfer_origin_body (this : KerbalAlarmClock.Alarm)
    (value : SpaceCenter.CelestialBody) : Prog unit :=
  let _args : list bytes := [] in
  let _args := push_back _args (encode this) in
  let _args := push_back _args (encode value) in
  Client_invoke (_client this) "KerbalAlarmClock" "Alarm_set_XferOriginBody"
      _args;;
  mret ().

(** [KerbalAlarmClock::Alarm::xfer_target_body], part_001 line 2442 *)
Definition xfer_target_body (this : KerbalAlarmClock.Alarm)
    : Prog SpaceCenter.CelestialBody :=
  let _args : list bytes := [] in
  let _args := push_back _args (encode this) in
  _data ← Client_invoke (_client this) "KerbalAlarmClock"
      "Alarm_get_XferTargetBody" _args;
  _result ← decoder_decode (T := SpaceCenter.CelestialBody) _data (_client
      this);
  mret _result.

(** [KerbalAlarmClock::Alarm::set_xfer_target_body], part_001 line 2451 *)
Definition set_xfer_target_body (this : KerbalAlarmClock.Alarm)
    (value : SpaceCenter.CelestialBody) : Prog unit :=
  let _args : list bytes := [] in
  let _args := push_back _args (encode this) in
  let _args := push_back _args (encode value) in
  Client_invoke (_client this) "KerbalAlarmClock" "Alarm_set_XferTargetBody"
      _args;;
  mret ().

(** [KerbalAlarmClock::Alarm::action_stream], part_001 line 2458 *)
Definition action_stream (this : KerbalAlarmClock.Alarm)
    : Prog (Stream KerbalAlarmClock.AlarmAction) :=
  let _args : list bytes := [] in
  let _args := push_back _args (encode this) in
  _call ← Client_build_call (_client this) "KerbalAlarmClock"
      "Alarm_get_Action" _args;
  Stream_ KerbalAlarmClock.AlarmAction (_client this) _call.

(** [KerbalAlarmClock::Alarm::id_stream], part_001 line 2464 *)
Definition id_stream (this : KerbalAlarmClock.Alarm) : Prog (Stream string) :=
  let _args : list bytes := [] in
  let _args := push_back _args (encode this) in
  _call ← Client_build_call (_client this) "KerbalAlarmClock" "Alarm_get_ID"
      _args;
  Stream_ string (_client this) _call.

(** [KerbalAlarmClock::Alarm::margin_stream], part_001 line 2470 *)
Definition margin_stream (this : KerbalAlarmClock.Alarm)
    : Prog (Stream double) :=
  let _args : list bytes := [] in
  let _args := push_back _args (encode this) in
  _call ← Client_build_call (_client this) "KerbalAlarmClock"
      "Alarm_get_Margin" _args;
  Stream_ double (_client this) _call.

(** [KerbalAlarmClock::Alarm::name_stream], part_001 line 2476 *)
Definition name_stream (this : KerbalAlarmClock.Alarm)
    : Prog (Stream string) :=
  let _args : list bytes := [] in
  let _args := push_back _args (encode this) in
  _call ← Client_build_call (_client this) "KerbalAlarmClock" "Alarm_get_Name"
      _args;
  Stream_ string (_client this) _call.

(** [KerbalAlarmClock::Alarm::notes_stream], part_001 line 2482 *)
Definition notes_stream (this : KerbalAlarmClock.Alarm)
    : Prog (Stream string) :=
  let _args : list bytes := [] in
  let _args := push_back _args (encode this) in
  _call ← Client_build_call (_client this) "KerbalAlarmClock"
      "Alarm_get_Notes" _args;
  Stream_ string (_client this) _call.

(** [KerbalAlarmClock::Alarm::remaining_stream], part_001 line 2488 *)
Definition remaining_stream (this : KerbalAlarmClock.Alarm)
    : Prog (Stream double) :=
  let _args : list bytes := [] in
  let _args := push_back _args (encode this) in
  _call ← Client_build_call (_client this) "KerbalAlarmClock"
      "Alarm_get_Remaining" _args;
  Stream_ double (_client this) _call.

(** [KerbalAlarmClock::Alarm::repeat_stream], part_001 line 2494 *)
Definition repeat_stream (this : KerbalAlarmClock.Alarm)
    : Prog (Stream bool) :=
  let _args : list bytes := [] in
  let _args := push_back _args (encode this) in
  _call ← Client_build_call (_client this) "KerbalAlarmClock"
      "Alarm_get_Repeat" _args;
  Stream_ bool (_client this) _call.

(** [KerbalAlarmClock::Alarm::repeat_period_stream], part_001 line 2500 *)
Definition repeat_period_stream (this : KerbalAlarmClock.Alarm)
    : Prog (Stream double) :=
  let _args : list bytes := [] in
  let _args := push_back _args (encode this) in
  _call ← Client_build_call (_client this) "KerbalAlarmClock"
      "Alarm_get_RepeatPeriod" _args;
  Stream_ double (_client this) _call.

(** [KerbalAlarmClock::Alarm::time_stream], part_001 line 2506 *)
Definition time_stream (this : KerbalAlarmClock.Alarm)
    : Prog (Stream double) :=
  let _args : list bytes := [] in
  let _args := push_back _args (encode this) in
  _call ← Client_build_call (_client this) "KerbalAlarmClock" "Alarm_get_Time"
      _args;
  Stream_ double (_client this) _call.

(** [KerbalAlarmClock::Alarm::type_stream], part_001 line 2512 *)
Definition type_stream (this : KerbalAlarmClock.Alarm)
    : Prog (Stream KerbalAlarmClock.AlarmType) :=
  let _args : list bytes := [] in
  let _args := push_back _args (encode this) in
  _call ← Client_build_call (_client this) "KerbalAlarmClock" "Alarm_get_Type"
      _args;
  Stream_ KerbalAlarmClock.AlarmType (_client this) _call.

(** [KerbalAlarmClock::Alarm::vessel_stream], part_001 line 2518 *)
Definition vessel_stream (this : KerbalAlarmClock.Alarm)
    : Prog (Stream SpaceCenter.Vessel) :=
  let _args : list bytes := [] in
  let _args := push_back _args (encode this) in
  _call ← Client_build_call (_client this) "KerbalAlarmClock"
      "Alarm_get_Vessel" _args;
  Stream_ SpaceCenter.Vessel (_client this) _call.

(** [KerbalAlarmClock::Alarm::xfer_origin_body_stream], part_001 line 2524 *)
Definition xfer_origin_body_stream (this : KerbalAlarmClock.Alarm)
    : Prog (Stream SpaceCenter.CelestialBody) :=
  let _args : list bytes := [] in
  let _args := push_back _args (encode this) in
  _call ← Client_build_call (_client this) "KerbalAlarmClock"
      "Alarm_get_XferOriginBody" _args;
  Stream_ SpaceCenter.CelestialBody (_client this) _call.

(** [KerbalAlarmClock::Alarm::xfer_target_body_stream], part_001 line 2530 *)
Definition xfer_target_body_stream (this : KerbalAlarmClock.Alarm)
    : Prog (Stream SpaceCenter.CelestialBody) :=
  let _args : list bytes := [] in
  let _args := push_back _args (encode this) in
  _call ← Client_build_call (_client this) "KerbalAlarmClock"
      "Alarm_get_XferTargetBody" _args;
  Stream_ SpaceCenter.CelestialBody (_client this) _call.

(** [KerbalAlarmClock::Alarm::remove_call], part_001 line 2536 *)
Definition remove_call (this : KerbalAlarmClock.Alarm)
    : Prog schema_ProcedureCall :=
  let _args : list bytes := [] in
  let _args := push_back _args (encode this) in
  Client_build_call (_client this) "KerbalAlarmClock" "Alarm_Remove" _args.

(** [KerbalAlarmClock::Alarm::action_call], part_001 line 2542 *)
Definition action_call (this : KerbalAlarmClock.Alarm)
    : Prog schema_ProcedureCall :=
  let _args : list bytes := [] in
  let _args := push_back _args (encode this) in
  Client_build_call (_client this) "KerbalAlarmClock" "Alarm_get_Action"
      _args.

(** [KerbalAlarmClock::Alarm::set_action_call], part_001 line 2548 *)
Definition set_action_call (this : KerbalAlarmClock.Alarm)
    (value : KerbalAlarmClock.AlarmAction) : Prog schema_ProcedureCall :=
  let _args : list bytes := [] in
  let _args := push_back _args (encode this) in
  let _args := push_back _args (encode value) in
  Client_build_call (_client this) "KerbalAlarmClock" "Alarm_set_Action"
      _args.

(** [KerbalAlarmClock::Alarm::id_call], part_001 line 2555 *)
Definition id_call (this : KerbalAlarmClock.Alarm)
    : Prog schema_ProcedureCall :=
  let _args : list bytes := [] in
  let _args := push_back _args (encode this) in
  Client_build_call (_client this) "KerbalAlarmClock" "Alarm_get_ID" _args.

(** [KerbalAlarmClock::Alarm::margin_call], part_001 line 2561 *)
Definition margin_call (this : KerbalAlarmClock.Alarm)
    : Prog schema_ProcedureCall :=
  let _args : list bytes := [] in
  let _args := push_back _args (encode this) in
  Client_build_call (_client this) "KerbalAlarmClock" "Alarm_get_Margin"
      _args.

(** [KerbalAlarmClock::Alarm::set_margin_call], part_001 line 2567 *)
Definition set_margin_call (this : KerbalAlarmClock.Alarm) (value : double)
    : Prog schema_ProcedureCall :=
  let _args : list bytes := [] in
  let _args := push_back _args (encode this) in
  let _args := push_back _args (encode value) in
  Client_build_call (_client this) "KerbalAlarmClock" "Alarm_set_Margin"
      _args.

(** [KerbalAlarmClock::Alarm::name_call], part_001 line 2574 *)
Definition name_call (this : KerbalAlarmClock.Alarm)
    : Prog schema_ProcedureCall :=
  let _args : list bytes := [] in
  let _args := push_back _args (encode this) in
  Client_build_call (_client this) "KerbalAlarmClock" "Alarm_get_Name" _args.

(** [KerbalAlarmClock::Alarm::set_name_call], part_001 line 2580 *)
Definition set_name_call (this : KerbalAlarmClock.Alarm) (value : string)
    : Prog schema_ProcedureCall :=
  let _args : list bytes := [] in
  let _args := push_back _args (encode this) in
  let _args := push_back _args (encode value) in
  Client_build_call (_client this) "KerbalAlarmClock" "Alarm_set_Name" _args.

(** [KerbalAlarmClock::Alarm::notes_call], part_001 line 2587 *)
Definition notes_call (this : KerbalAlarmClock.Alarm)
    : Prog schema_ProcedureCall :=
  let _args : list bytes := [] in
  let _args := push_back _args (encode this) in
  Client_build_call (_client this) "KerbalAlarmClock" "Alarm_get_Notes" _args.

(** [KerbalAlarmClock::Alarm::set_notes_call], part_001 line 2593 *)
Definition set_notes_call (this : KerbalAlarmClock.Alarm) (value : string)
    : Prog schema_ProcedureCall :=
  let _args : list bytes := [] in
  let _args := push_back _args (encode this) in
  let _args := push_back _args (encode value) in
  Client_build_call (_client this) "KerbalAlarmClock" "Alarm_set_Notes" _args.

(** [KerbalAlarmClock::Alarm::remaining_call], part_001 line 2600 *)
Definition remaining_call (this : KerbalAlarmClock.Alarm)
    : Prog schema_ProcedureCall :=
  let _args : list bytes := [] in
  let _args := push_back _args (encode this) in
  Client_build_call (_client this) "KerbalAlarmClock" "Alarm_get_Remaining"
      _args.

(** [KerbalAlarmClock::Alarm::repeat_call], part_001 line 2606 *)
Definition repeat_call (this : KerbalAlarmClock.Alarm)
    : Prog schema_ProcedureCall :=
  let _args : list bytes := [] in
  let _args := push_back _args (encode this) in
  Client_build_call (_client this) "KerbalAlarmClock" "Alarm_get_Repeat"
      _args.

(** [KerbalAlarmClock::Alarm::set_repeat_call], part_001 line 2612 *)
Definition set_repeat_call (this : KerbalAlarmClock.Alarm) (value : bool)
    : Prog schema_ProcedureCall :=
  let _args : list bytes := [] in
  let _args := push_back _args (encode this) in
  let _args := push_back _args (encode value) in
  Client_build_call (_client this) "KerbalAlarmClock" "Alarm_set_Repeat"
      _args.

(** [KerbalAlarmClock::Alarm::repeat_period_call], part_001 line 2619 *)
Definition repeat_period_call (this : KerbalAlarmClock.Alarm)
    : Prog schema_ProcedureCall :=
  let _args : list bytes := [] in
  let _args := push_back _args (encode this) in
  Client_build_call (_client this) "KerbalAlarmClock" "Alarm_get_RepeatPeriod"
      _args.

(** [KerbalAlarmClock::Alarm::set_repeat_period_call], part_001 line 2625 *)
Definition set_repeat_period_call (this : KerbalAlarmClock.Alarm)
    (value : double) : Prog schema_ProcedureCall :=
  let _args : list bytes := [] in
  let _args := push_back _args (encode this) in
  let _args := push_back _args (encode value) in
  Client_build_call (_client this) "KerbalAlarmClock" "Alarm_set_RepeatPeriod"
      _args.

(** [KerbalAlarmClock::Alarm::time_call], part_001 line 2632 *)
Definition time_call (this : KerbalAlarmClock.Alarm)
    : Prog schema_ProcedureCall :=
  let _args : list bytes := [] in
  let _args := push_back _args (encode this) in
  Client_build_call (_client this) "KerbalAlarmClock" "Alarm_get_Time" _args.

(** [KerbalAlarmClock::Alarm::set_time_call], part_001 line 2638 *)
Definition set_time_call (this : KerbalAlarmClock.Alarm) (value : double)
    : Prog schema_ProcedureCall :=
  let _args : list bytes := [] in
  let _args := push_back _args (encode this) in
  let _args := push_back _args (encode value) in
  Client_build_call (_client this) "KerbalAlarmClock" "Alarm_set_Time" _args.

(** [KerbalAlarmClock::Alarm::type_call], part_001 line 2645 *)
Definition type_call (this : KerbalAlarmClock.Alarm)
    : Prog schema_ProcedureCall :=
  let _args : list bytes := [] in
  let _args := push_back _args (encode this) in
  Client_build_call (_client this) "KerbalAlarmClock" "Alarm_get_Type" _args.

(** [KerbalAlarmClock::Alarm::vessel_call], part_001 line 2651 *)
Definition vessel_call (this : KerbalAlarmClock.Alarm)
    : Prog schema_ProcedureCall :=
  let _args : list bytes := [] in
  let _args := push_back _args (encode this) in
  Client_build_call (_client this) "KerbalAlarmClock" "Alarm_get_Vessel"
      _args.

(** [KerbalAlarmClock::Alarm::set_vessel_call], part_001 line 2657 *)
Definition set_vessel_call (this : KerbalAlarmClock.Alarm)
    (value : SpaceCenter.Vessel) : Prog schema_ProcedureCall :=
  let _args : list bytes := [] in
  let _args := push_back _args (encode this) in
  let _args := push_back _args (encode value) in
  Client_build_call (_client this) "KerbalAlarmClock" "Alarm_set_Vessel"
      _args.

(** [KerbalAlarmClock::Alarm::xfer_origin_body_call], part_001 line 2664 *)
Definition xfer_origin_body_call (this : KerbalAlarmClock.Alarm)
    : Prog schema_ProcedureCall :=
  let _args : list bytes := [] in
  let _args := push_back _args (encode this) in
  Client_build_call (_client this) "KerbalAlarmClock"
      "Alarm_get_XferOriginBody" _args.

(** [KerbalAlarmClock::Alarm::set_xfer_origin_body_call],
    part_001 line 2670 *)
Definition set_xfer_origin_body_call (this : KerbalAlarmClock.Alarm)
    (value : SpaceCenter.CelestialBody) : Prog schema_ProcedureCall :=
  let _args : list bytes := [] in
  let _args := push_back _args (encode this) in
  let _args := push_back _args (encode value) in
  Client_build_call (_client this) "KerbalAlarmClock"
      "Alarm_set_XferOriginBody" _args.

(** [KerbalAlarmClock::Alarm::xfer_target_body_call], part_001 line 2677 *)
Definition xfer_target_body_call (this : KerbalAlarmClock.Alarm)
    : Prog schema_ProcedureCall :=
  let _args : list bytes := [] in
  let _args := push_back _args (encode this) in
  Client_build_call (_client this) "KerbalAlarmClock"
      "Alarm_get_XferTargetBody" _args.

(** [KerbalAlarmClock::Alarm::set_xfer_target_body_call],
    part_001 line 2683 *)
Definition set_xfer_target_body_call (this : KerbalAlarmClock.Alarm)
    (value : SpaceCenter.CelestialBody) : Prog schema_ProcedureCall :=
  let _args : list bytes := [] in
  let _args := push_back _args (encode this) in
  let _args := push_back _args (encode value) in
  Client_build_call (_client this) "KerbalAlarmClock"
      "Alarm_set_XferTargetBody" _args.

End Methods.

End Alarm.

Section Table.
Context {RT : Runtime}.

(** The remote procedures of the service, in the order of the sources. *)
Definition operations : list Operation := [
  Value_op "KerbalAlarmClock::alarm_with_name" Service_method
    (Args := string)
    (λ name, [encode name])
    (λ this name, alarm_with_name this name)
    (λ this name, alarm_with_name_stream this name)
    (λ this name, alarm_with_name_call this name);
  Value_op "KerbalAlarmClock::alarms_with_type" Service_method
    (Args := KerbalAlarmClock.AlarmType)
    (λ type, [encode type])
    (λ this type, alarms_with_type this type)
    (λ this type, alarms_with_type_stream this type)
    (λ this type, alarms_with_type_call this type);
  Value_op "KerbalAlarmClock::create_alarm" Service_method
    (Args := KerbalAlarmClock.AlarmType * string * double)
    (λ '(type, name, ut), [encode type; encode name; encode ut])
    (λ this '(type, name, ut), create_alarm this type name ut)
    (λ this '(type, name, ut), create_alarm_stream this type name ut)
    (λ this '(type, name, ut), create_alarm_call this type name ut);
  Value_op "KerbalAlarmClock::alarms" Service_method
    (Args := unit)
    (λ _, [])
    (λ this _, alarms this)
    (λ this _, alarms_stream this)
    (λ this _, alarms_call this);
  Value_op "KerbalAlarmClock::available" Service_method
    (Args := unit)
    (λ _, [])
    (λ this _, available this)
    (λ this _, available_stream this)
    (λ this _, available_call this);
  Void_op "KerbalAlarmClock::Alarm::remove" (Object_method
      "KerbalAlarmClock::Alarm")
    (Args := unit)
    (λ _, [])
    (λ this _, Alarm.remove this)
    (λ this _, Alarm.remove_call this);
  Value_op "KerbalAlarmClock::Alarm::action" (Object_method
      "KerbalAlarmClock::Alarm")
    (Args := unit)
    (λ _, [])
    (λ this _, Alarm.action this)
    (λ this _, Alarm.action_stream this)
    (λ this _, Alarm.action_call this);
  Void_op "KerbalAlarmClock::Alarm::set_action" (Object_method
      "KerbalAlarmClock::Alarm")
    (Args := KerbalAlarmClock.AlarmAction)
    (λ value, [encode value])
    (λ this value, Alarm.set_action this value)
    (λ this value, Alarm.set_action_call this value);
  Value_op "KerbalAlarmClock::Alarm::id" (Object_method
      "KerbalAlarmClock::Alarm")
    (Args := unit)
    (λ _, [])
    (λ this _, Alarm.id this)
    (λ this _, Alarm.id_stream this)
    (λ this _, Alarm.id_call this);
  Value_op "KerbalAlarmClock::Alarm::margin" (Object_method
      "KerbalAlarmClock::Alarm")
    (Args := unit)
    (λ _, [])
    (λ this _, Alarm.margin this)
    (λ this _, Alarm.margin_stream this)
    (λ this _, Alarm.margin_call this);
  Void_op "KerbalAlarmClock::Alarm::set_margin" (Object_method
      "KerbalAlarmClock::Alarm")
    (Args := double)
    (λ value, [encode value])
    (λ this value, Alarm.set_margin this value)
    (λ this value, Alarm.set_margin_call this value);
  Value_op "KerbalAlarmClock::Alarm::name" (Object_method
      "KerbalAlarmClock::Alarm")
    (Args := unit)
    (λ _, [])
    (λ this _, Alarm.name this)
    (λ this _, Alarm.name_stream this)
    (λ this _, Alarm.name_call this);
  Void_op "KerbalAlarmClock::Alarm::set_name" (Object_method
      "KerbalAlarmClock::Alarm")
    (Args := string)
    (λ value, [encode value])
    (λ this value, Alarm.set_name this value)
    (λ this value, Alarm.set_name_call this value);
  Value_op "KerbalAlarmClock::Alarm::notes" (Object_method
      "KerbalAlarmClock::Alarm")
    (Args := unit)
    (λ _, [])
    (λ this _, Alarm.notes this)
    (λ this _, Alarm.notes_stream this)
    (λ this _, Alarm.notes_call this);
  Void_op "KerbalAlarmClock::Alarm::set_notes" (Object_method
      "KerbalAlarmClock::Alarm")
    (Args := string)
    (λ value, [encode value])
    (λ this value, Alarm.set_notes this value)
    (λ this value, Alarm.set_notes_call this value);
  Value_op "KerbalAlarmClock::Alarm::remaining" (Object_method
      "KerbalAlarmClock::Alarm")
    (Args := unit)
    (λ _, [])
    (λ this _, Alarm.remaining this)
    (λ this _, Alarm.remaining_stream this)
    (λ this _, Alarm.remaining_call this);
  Value_op "KerbalAlarmClock::Alarm::repeat" (Object_method
      "KerbalAlarmClock::Alarm")
    (Args := unit)
    (λ _, [])
    (λ this _, Alarm.repeat this)
    (λ this _, Alarm.repeat_stream this)
    (λ this _, Alarm.repeat_call this);
  Void_op "KerbalAlarmClock::Alarm::set_repeat" (Object_method
      "KerbalAlarmClock::Alarm")
    (Args := bool)
    (λ value, [encode value])
    (λ this value, Alarm.set_repeat this value)
    (λ this value, Alarm.set_repeat_call this value);
  Value_op "KerbalAlarmClock::Alarm::repeat_period" (Object_method
      "KerbalAlarmClock::Alarm")
    (Args := unit)
    (λ _, [])
    (λ this _, Alarm.repeat_period this)
    (λ this _, Alarm.repeat_period_stream this)
    (λ this _, Alarm.repeat_period_call this);
  Void_op "KerbalAlarmClock::Alarm::set_repeat_period" (Object_method
      "KerbalAlarmClock::Alarm")
    (Args := double)
    (λ value, [encode value])
    (λ this value, Alarm.set_repeat_period this value)
    (λ this value, Alarm.set_repeat_period_call this value);
  Value_op "KerbalAlarmClock::Alarm::time" (Object_method
      "KerbalAlarmClock::Alarm")
    (Args := unit)
    (λ _, [])
    (λ this _, Alarm.time this)
    (λ this _, Alarm.time_stream this)
    (λ this _, Alarm.time_call this);
  Void_op "KerbalAlarmClock::Alarm::set_time" (Object_method
      "KerbalAlarmClock::Alarm")
    (Args := double)
    (λ value, [encode value])
    (λ this value, Alarm.set_time this value)
    (λ this value, Alarm.set_time_call this value);
  Value_op "KerbalAlarmClock::Alarm::type" (Object_method
      "KerbalAlarmClock::Alarm")
    (Args := unit)
    (λ _, [])
    (λ this _, Alarm.type this)
    (λ this _, Alarm.type_stream this)
    (λ this _, Alarm.type_call this);
  Value_op "KerbalAlarmClock::Alarm::vessel" (Object_method
      "KerbalAlarmClock::Alarm")
    (Args := unit)
    (λ _, [])
    (λ this _, Alarm.vessel this)
    (λ this _, Alarm.vessel_stream this)
    (λ this _, Alarm.vessel_call this);
  Void_op "KerbalAlarmClock::Alarm::set_vessel" (Object_method
      "KerbalAlarmClock::Alarm")
    (Args := SpaceCenter.Vessel)
    (λ value, [encode value])
    (λ this value, Alarm.set_vessel this value)
    (λ this value, Alarm.set_vessel_call this value);
  Value_op "KerbalAlarmClock::Alarm::xfer_origin_body" (Object_method
      "KerbalAlarmClock::Alarm")
    (Args := unit)
    (λ _, [])
    (λ this _, Alarm.xfer_origin_body this)
    (λ this _, Alarm.xfer_origin_body_stream this)
    (λ this _, Alarm.xfer_origin_body_call this);
  Void_op "KerbalAlarmClock::Alarm::set_xfer_origin_body" (Object_method
      "KerbalAlarmClock::Alarm")
    (Args := SpaceCenter.CelestialBody)
    (λ value, [encode value])
    (λ this value, Alarm.set_xfer_origin_body this value)
    (λ this value, Alarm.set_xfer_origin_body_call this value);
  Value_op "KerbalAlarmClock::Alarm::xfer_target_body" (Object_method
      "KerbalAlarmClock::Alarm")
    (Args := unit)
    (λ _, [])
    (λ this _, Alarm.xfer_target_body this)
    (λ this _, Alarm.xfer_target_body_stream this)
    (λ this _, Alarm.xfer_target_body_call this);
  Void_op "KerbalAlarmClock::Alarm::set_xfer_target_body" (Object_method
      "KerbalAlarmClock::Alarm")
    (Args := SpaceCenter.CelestialBody)
    (λ value, [encode value])
    (λ this value, Alarm.set_xfer_target_body this value)
    (λ this value, Alarm.set_xfer_target_body_call this value)
].

End Table.

End KerbalAlarmClock.

(** ** Service [RemoteTech] (part_002) *)

Module RemoteTech.

(** [class RemoteTech : public Service], line 20 *)
Record t : Type := Make { base : Service }.
#[global] Instance t_HasClient : HasClient t :=
  λ this, Service_client (base this).

(** Class forward declarations; each class is declared as
    [class C : public krpc::Object<C>]. *)
Definition Antenna : Type := Object "RemoteTech::Antenna".
Definition Comms : Type := Object "RemoteTech::Comms".

(** [enum struct Target], line 32 *)
Definition Target : Type := enum_struct "RemoteTech::Target".
Module Target.
Definition active_vessel : RemoteTech.Target :=
  static_cast_enum "RemoteTech::Target" 0%Z.
Definition celestial_body : RemoteTech.Target :=
  static_cast_enum "RemoteTech::Target" 1%Z.
Definition ground_station : RemoteTech.Target :=
  static_cast_enum "RemoteTech::Target" 2%Z.
Definition vessel : RemoteTech.Target :=
  static_cast_enum "RemoteTech::Target" 3%Z.
Definition none : RemoteTech.Target :=
  static_cast_enum "RemoteTech::Target" 4%Z.
Definition enumerators : list RemoteTech.Target :=
  [active_vessel; celestial_body; ground_station; vessel; none].
End Target.

Section Codecs.
Context {RT : Runtime}.

(** [encoder::encode(const services::RemoteTech::Target&)], line 282 *)
#[global] Instance encode_Target : Encodable Target :=
  λ value, encode (static_cast_int32 value).

(** [decoder::decode(services::RemoteTech::Target&, data, client)],
    line 290 *)
#[global] Instance decode_Target : Decodable Target := λ data client,
  x ← decode (T := int32_t) data client;
  mret (static_cast_enum "RemoteTech::Target" x).

End Codecs.

Section Methods.
Context {RT : Runtime}.

(** [RemoteTech::RemoteTech], line 300 *)
Definition RemoteTech (client : Client_ptr) : Prog t :=
  let this := Make (Service_ client) in
  mret this.

(** [RemoteTech::antenna], part_002 line 304 *)
Definition antenna (this : t) (part : SpaceCenter.Part)
    : Prog RemoteTech.Antenna :=
  let _args : list bytes := [] in
  let _args := push_back _args (encode part) in
  _data ← Client_invoke (_client this) "RemoteTech" "Antenna" _args;
  _result ← decoder_decode (T := RemoteTech.Antenna) _data (_client this);
  mret _result.

(** [RemoteTech::comms], part_002 line 313 *)
Definition comms (this : t) (vessel : SpaceCenter.Vessel)
    : Prog RemoteTech.Comms :=
  let _args : list bytes := [] in
  let _args := push_back _args (encode vessel) in
  _data ← Client_invoke (_client this) "RemoteTech" "Comms" _args;
  _result ← decoder_decode (T := RemoteTech.Comms) _data (_client this);
  mret _result.

(** [RemoteTech::available], part_002 line 322 *)
Definition available (this : t) : Prog bool :=
  _data ← Client_invoke (_client this) "RemoteTech" "get_Available" no_args;
  _result ← decoder_decode (T := bool) _data (_client this);
  mret _result.

(** [RemoteTech::ground_stations], part_002 line 329 *)
Definition ground_stations (this : t) : Prog (list string) :=
  _data ← Client_invoke (_client this) "RemoteTech" "get_GroundStations"
      no_args;
  _result ← decoder_decode (T := list string) _data (_client this);
  mret _result.

(** [RemoteTech::antenna_stream], part_002 line 336 *)
Definition antenna_stream (this : t) (part : SpaceCenter.Part)
    : Prog (Stream RemoteTech.Antenna) :=
  let _args : list bytes := [] in
  let _args := push_back _args (encode part) in
  _call ← Client_build_call (_client this) "RemoteTech" "Antenna" _args;
  Stream_ RemoteTech.Antenna (_client this) _call.

(** [RemoteTech::comms_stream], part_002 line 342 *)
Definition comms_stream (this : t) (vessel : SpaceCenter.Vessel)
    : Prog (Stream RemoteTech.Comms) :=
  let _args : list bytes := [] in
  let _args := push_back _args (encode vessel) in
  _call ← Client_build_call (_client this) "RemoteTech" "Comms" _args;
  Stream_ RemoteTech.Comms (_client this) _call.

(** [RemoteTech::available_stream], part_002 line 348 *)
Definition available_stream (this : t) : Prog (Stream bool) :=
  _call ← Client_build_call (_client this) "RemoteTech" "get_Available"
      no_args;
  Stream_ bool (_client this) _call.

(** [RemoteTech::ground_stations_stream], part_002 line 352 *)
Definition ground_stations_stream (this : t) : Prog (Stream (list string)) :=
  _call ← Client_build_call (_client this) "RemoteTech" "get_GroundStations"
      no_args;
  Stream_ (list string) (_client this) _call.

(** [RemoteTech::antenna_call], part_002 line 356 *)
Definition antenna_call (this : t) (part : SpaceCenter.Part)
    : Prog schema_ProcedureCall :=
  let _args : list bytes := [] in
  let _args := push_back _args (encode part) in
  Client_build_call (_client this) "RemoteTech" "Antenna" _args.

(** [RemoteTech::comms_call], part_002 line 362 *)
Definition comms_call (this : t) (vessel : SpaceCenter.Vessel)
    : Prog schema_ProcedureCall :=
  let _args : list bytes := [] in
  let _args := push_back _args (encode vessel) in
  Client_build_call (_client this) "RemoteTech" "Comms" _args.

(** [RemoteTech::available_call], part_002 line 368 *)
Definition available_call (this : t) : Prog schema_ProcedureCall :=
  Client_build_call (_client this) "RemoteTech" "get_Available" no_args.

(** [RemoteTech::ground_stations_call], part_002 line 372 *)
Definition ground_stations_call (this : t) : Prog schema_ProcedureCall :=
  Client_build_call (_client this) "RemoteTech" "get_GroundStations" no_args.

End Methods.

(** [class RemoteTech::Antenna] *)
Module Antenna.
Section Methods.
Context {RT : Runtime}.

(** [RemoteTech::Antenna::Antenna], line 376; declared
    [explicit Antenna(Client* client = nullptr, uint64_t id = 0)], line 96 *)
Definition Antenna (client : option Client_ptr) (id : option uint64_t)
    : RemoteTech.Antenna :=
  let client := default_arg nullptr client in
  let id := default_arg 0%N id in
  Object_ "RemoteTech::Antenna" client id.

(** [RemoteTech::Antenna::has_connection], part_002 line 379 *)
Definition has_connection (this : RemoteTech.Antenna) : Prog bool :=
  let _args : list bytes := [] in
  let _args := push_back _args (encode this) in
  _data ← Client_invoke (_client this) "RemoteTech"
      "Antenna_get_HasConnection" _args;
  _result ← decoder_decode (T := bool) _data (_client this);
  mret _result.

(** [RemoteTech::Antenna::part], part_002 line 388 *)
Definition part (this : RemoteTech.Antenna) : Prog SpaceCenter.Part :=
  let _args : list bytes := [] in
  let _args := push_back _args (encode this) in
  _data ← Client_invoke (_client this) "RemoteTech" "Antenna_get_Part" _args;
  _result ← decoder_decode (T := SpaceCenter.Part) _data (_client this);
  mret _result.

(** [RemoteTech::Antenna::target], part_002 line 397 *)
Definition target (this : RemoteTech.Antenna) : Prog RemoteTech.Target :=
  let _args : list bytes := [] in
  let _args := push_back _args (encode this) in
  _data ← Client_invoke (_client this) "RemoteTech" "Antenna_get_Target"
      _args;
  _result ← decoder_decode (T := RemoteTech.Target) _data (_client this);
  mret _result.

(** [RemoteTech::Antenna::set_target], part_002 line 406 *)
Definition set_target (this : RemoteTech.Antenna) (value : RemoteTech.Target)
    : Prog unit :=
  let _args : list bytes := [] in
  let _args := push_back _args (encode this) in
  let _args := push_back _args (encode value) in
  Client_invoke (_client this) "RemoteTech" "Antenna_set_Target" _args;;
  mret ().

(** [RemoteTech::Antenna::target_body], part_002 line 413 *)
Definition target_body (this : RemoteTech.Antenna)
    : Prog SpaceCenter.CelestialBody :=
  let _args : list bytes := [] in
  let _args := push_back _args (encode this) in
  _data ← Client_invoke (_client this) "RemoteTech" "Antenna_get_TargetBody"
      _args;
  _result ← decoder_decode (T := SpaceCenter.CelestialBody) _data (_client
      this);
  mret _result.

(** [RemoteTech::Antenna::set_target_body], part_002 line 422 *)
Definition set_target_body (this : RemoteTech.Antenna)
    (value : SpaceCenter.CelestialBody) : Prog unit :=
  let _args : list bytes := [] in
  let _args := push_back _args (encode this) in
  let _args := push_back _args (encode value) in
  Client_invoke (_client this) "RemoteTech" "Antenna_set_TargetBody" _args;;
  mret ().

(** [RemoteTech::Antenna::target_ground_station], part_002 line 429 *)
Definition target_ground_station (this : RemoteTech.Antenna) : Prog string :=
  let _args : list bytes := [] in
  let _args := push_back _args (encode this) in
  _data ← Client_invoke (_client this) "RemoteTech"
      "Antenna_get_TargetGroundStation" _args;
  _result ← decoder_decode (T := string) _data (_client this);
  mret _result.

(** [RemoteTech::Antenna::set_target_ground_station], part_002 line 438 *)
Definition set_target_ground_station (this : RemoteTech.Antenna)
    (value : string) : Prog unit :=
  let _args : list bytes := [] in
  let _args := push_back _args (encode this) in
  let _args := push_back _args (encode value) in
  Client_invoke (_client this) "RemoteTech" "Antenna_set_TargetGroundStation"
      _args;;
  mret ().

(** [RemoteTech::Antenna::target_vessel], part_002 line 445 *)
Definition target_vessel (this : RemoteTech.Antenna)
    : Prog SpaceCenter.Vessel :=
  let _args : list bytes := [] in
  let _args := push_back _args (encode this) in
  _data ← Client_invoke (_client this) "RemoteTech" "Antenna_get_TargetVessel"
      _args;
  _result ← decoder_decode (T := SpaceCenter.Vessel) _data (_client this);
  mret _result.

(** [RemoteTech::Antenna::set_target_vessel], part_002 line 454 *)
Definition set_target_vessel (this : RemoteTech.Antenna)
    (value : SpaceCenter.Vessel) : Prog unit :=
  let _args : list bytes := [] in
  let _args := push_back _args (encode this) in
  let _args := push_back _args (encode value) in
  Client_invoke (_client this) "RemoteTech" "Antenna_set_TargetVessel" _args;;
  mret ().

(** [RemoteTech::Antenna::has_connection_stream], part_002 line 461 *)
Definition has_connection_stream (this : RemoteTech.Antenna)
    : Prog (Stream bool) :=
  let _args : list bytes := [] in
  let _args := push_back _args (encode this) in
  _call ← Client_build_call (_client this) "RemoteTech"
      "Antenna_get_HasConnection" _args;
  Stream_ bool (_client this) _call.

(** [RemoteTech::Antenna::part_stream], part_002 line 467 *)
Definition part_stream (this : RemoteTech.Antenna)
    : Prog (Stream SpaceCenter.Part) :=
  let _args : list bytes := [] in
  let _args := push_back _args (encode this) in
  _call ← Client_build_call (_client this) "RemoteTech" "Antenna_get_Part"
      _args;
  Stream_ SpaceCenter.Part (_client this) _call.

(** [RemoteTech::Antenna::target_stream], part_002 line 473 *)
Definition target_stream (this : RemoteTech.Antenna)
    : Prog (Stream RemoteTech.Target) :=
  let _args : list bytes := [] in
  let _args := push_back _args (encode this) in
  _call ← Client_build_call (_client this) "RemoteTech" "Antenna_get_Target"
      _args;
  Stream_ RemoteTech.Target (_client this) _call.

(** [RemoteTech::Antenna::target_body_stream], part_002 line 479 *)
Definition target_body_stream (this : RemoteTech.Antenna)
    : Prog (Stream SpaceCenter.CelestialBody) :=
  let _args : list bytes := [] in
  let _args := push_back _args (encode this) in
  _call ← Client_build_call (_client this) "RemoteTech"
      "Antenna_get_TargetBody" _args;
  Stream_ SpaceCenter.CelestialBody (_client this) _call.

(** [RemoteTech::Antenna::target_ground_station_stream], part_002 line 485 *)
Definition target_ground_station_stream (this : RemoteTech.Antenna)
    : Prog (Stream string) :=
  let _args : list bytes := [] in
  let _args := push_back _args (encode this) in
  _call ← Client_build_call (_client this) "RemoteTech"
      "Antenna_get_TargetGroundStation" _args;
  Stream_ string (_client this) _call.

(** [RemoteTech::Antenna::target_vessel_stream], part_002 line 491 *)
Definition target_vessel_stream (this : RemoteTech.Antenna)
    : Prog (Stream SpaceCenter.Vessel) :=
  let _args : list bytes := [] in
  let _args := push_back _args (encode this) in
  _call ← Client_build_call (_client this) "RemoteTech"
      "Antenna_get_TargetVessel" _args;
  Stream_ SpaceCenter.Vessel (_client this) _call.

(** [RemoteTech::Antenna::has_connection_call], part_002 line 497 *)
Definition has_connection_call (this : RemoteTech.Antenna)
    : Prog schema_ProcedureCall :=
  let _args : list bytes := [] in
  let _args := push_back _args (encode this) in
  Client_build_call (_client this) "RemoteTech" "Antenna_get_HasConnection"
      _args.

(** [RemoteTech::Antenna::part_call], part_002 line 503 *)
Definition part_call (this : RemoteTech.Antenna)
    : Prog schema_ProcedureCall :=
  let _args : list bytes := [] in
  let _args := push_back _args (encode this) in
  Client_build_call (_client this) "RemoteTech" "Antenna_get_Part" _args.

(** [RemoteTech::Antenna::target_call], part_002 line 509 *)
Definition target_call (this : RemoteTech.Antenna)
    : Prog schema_ProcedureCall :=
  let _args : list bytes := [] in
  let _args := push_back _args (encode this) in
  Client_build_call (_client this) "RemoteTech" "Antenna_get_Target" _args.

(** [RemoteTech::Antenna::set_target_call], part_002 line 515 *)
Definition set_target_call (this : RemoteTech.Antenna)
    (value : RemoteTech.Target) : Prog schema_ProcedureCall :=
  let _args : list bytes := [] in
  let _args := push_back _args (encode this) in
  let _args := push_back _args (encode value) in
  Client_build_call (_client this) "RemoteTech" "Antenna_set_Target" _args.

(** [RemoteTech::Antenna::target_body_call], part_002 line 522 *)
Definition target_body_call (this : RemoteTech.Antenna)
    : Prog schema_ProcedureCall :=
  let _args : list bytes := [] in
  let _args := push_back _args (encode this) in
  Client_build_call (_client this) "RemoteTech" "Antenna_get_TargetBody"
      _args.

(** [RemoteTech::Antenna::set_target_body_call], part_002 line 528 *)
Definition set_target_body_call (this : RemoteTech.Antenna)
    (value : SpaceCenter.CelestialBody) : Prog schema_ProcedureCall :=
  let _args : list bytes := [] in
  let _args := push_back _args (encode this) in
  let _args := push_back _args (encode value) in
  Client_build_call (_client this) "RemoteTech" "Antenna_set_TargetBody"
      _args.

(** [RemoteTech::Antenna::target_ground_station_call], part_002 line 535 *)
Definition target_ground_station_call (this : RemoteTech.Antenna)
    : Prog schema_ProcedureCall :=
  let _args : list bytes := [] in
  let _args := push_back _args (encode this) in
  Client_build_call (_client this) "RemoteTech"
      "Antenna_get_TargetGroundStation" _args.

(** [RemoteTech::Antenna::set_target_ground_station_call],
    part_002 line 541 *)
Definition set_target_ground_station_call (this : RemoteTech.Antenna)
    (value : string) : Prog schema_ProcedureCall :=
  let _args : list bytes := [] in
  let _args := push_back _args (encode this) in
  let _args := push_back _args (encode value) in
  Client_build_call (_client this) "RemoteTech"
      "Antenna_set_TargetGroundStation" _args.

(** [RemoteTech::Antenna::target_vessel_call], part_002 line 548 *)
Definition target_vessel_call (this : RemoteTech.Antenna)
    : Prog schema_ProcedureCall :=
  let _args : list bytes := [] in
  let _args := push_back _args (encode this) in
  Client_build_call (_client this) "RemoteTech" "Antenna_get_TargetVessel"
      _args.

(** [RemoteTech::Antenna::set_target_vessel_call], part_002 line 554 *)
Definition set_target_vessel_call (this : RemoteTech.Antenna)
    (value : SpaceCenter.Vessel) : Prog schema_ProcedureCall :=
  let _args : list bytes := [] in
  let _args := push_back _args (encode this) in
  let _args := push_back _args (encode value) in
  Client_build_call (_client this) "RemoteTech" "Antenna_set_TargetVessel"
      _args.

End Methods.

End Antenna.

(** [class RemoteTech::Comms] *)
Module Comms.
Section Methods.
Context {RT : Runtime}.

(** [RemoteTech::Comms::Comms], line 561; declared
    [explicit Comms(Client* client = nullptr, uint64_t id = 0)], line 192 *)
Definition Comms (client : option Client_ptr) (id : option uint64_t)
    : RemoteTech.Comms :=
  let client := default_arg nullptr client in
  let id := default_arg 0%N id in
  Object_ "RemoteTech::Comms" client id.

(** [RemoteTech::Comms::signal_delay_to_vessel], part_002 line 564 *)
Definition signal_delay_to_vessel (this : RemoteTech.Comms)
    (other : SpaceCenter.Vessel) : Prog double :=
  let _args : list bytes := [] in
  let _args := push_back _args (encode this) in
  let _args := push_back _args (encode other) in
  _data ← Client_invoke (_client this) "RemoteTech"
      "Comms_SignalDelayToVessel" _args;
  _result ← decoder_decode (T := double) _data (_client this);
  mret _result.

(** [RemoteTech::Comms::antennas], part_002 line 574 *)
Definition antennas (this : RemoteTech.Comms)
    : Prog (list RemoteTech.Antenna) :=
  let _args : list bytes := [] in
  let _args := push_back _args (encode this) in
  _data ← Client_invoke (_client this) "RemoteTech" "Comms_get_Antennas"
      _args;
  _result ← decoder_decode (T := list RemoteTech.Antenna) _data (_client
      this);
  mret _result.

(** [RemoteTech::Comms::has_connection], part_002 line 583 *)
Definition has_connection (this : RemoteTech.Comms) : Prog bool :=
  let _args : list bytes := [] in
  let _args := push_back _args (encode this) in
  _data ← Client_invoke (_client this) "RemoteTech" "Comms_get_HasConnection"
      _args;
  _result ← decoder_decode (T := bool) _data (_client this);
  mret _result.

(** [RemoteTech::Comms::has_connection_to_ground_station],
    part_002 line 592 *)
Definition has_connection_to_ground_station (this : RemoteTech.Comms)
    : Prog bool :=
  let _args : list bytes := [] in
  let _args := push_back _args (encode this) in
  _data ← Client_invoke (_client this) "RemoteTech"
      "Comms_get_HasConnectionToGroundStation" _args;
  _result ← decoder_decode (T := bool) _data (_client this);
  mret _result.

(** [RemoteTech::Comms::has_flight_computer], part_002 line 601 *)
Definition has_flight_computer (this : RemoteTech.Comms) : Prog bool :=
  let _args : list bytes := [] in
  let _args := push_back _args (encode this) in
  _data ← Client_invoke (_client this) "RemoteTech"
      "Comms_get_HasFlightComputer" _args;
  _result ← decoder_decode (T := bool) _data (_client this);
  mret _result.

(** [RemoteTech::Comms::has_local_control], part_002 line 610 *)
Definition has_local_control (this : RemoteTech.Comms) : Prog bool :=
  let _args : list bytes := [] in
  let _args := push_back _args (encode this) in
  _data ← Client_invoke (_client this) "RemoteTech"
      "Comms_get_HasLocalControl" _args;
  _result ← decoder_decode (T := bool) _data (_client this);
  mret _result.

(** [RemoteTech::Comms::signal_delay], part_002 line 619 *)
Definition signal_delay (this : RemoteTech.Comms) : Prog double :=
  let _args : list bytes := [] in
  let _args := push_back _args (encode this) in
  _data ← Client_invoke (_client this) "RemoteTech" "Comms_get_SignalDelay"
      _args;
  _result ← decoder_decode (T := double) _data (_client this);
  mret _result.

(** [RemoteTech::Comms::signal_delay_to_ground_station], part_002 line 628 *)
Definition signal_delay_to_ground_station (this : RemoteTech.Comms)
    : Prog double :=
  let _args : list bytes := [] in
  let _args := push_back _args (encode this) in
  _data ← Client_invoke (_client this) "RemoteTech"
      "Comms_get_SignalDelayToGroundStation" _args;
  _result ← decoder_decode (T := double) _data (_client this);
  mret _result.

(** [RemoteTech::Comms::vessel], part_002 line 637 *)
Definition vessel (this : RemoteTech.Comms) : Prog SpaceCenter.Vessel :=
  let _args : list bytes := [] in
  let _args := push_back _args (encode this) in
  _data ← Client_invoke (_client this) "RemoteTech" "Comms_get_Vessel" _args;
  _result ← decoder_decode (T := SpaceCenter.Vessel) _data (_client this);
  mret _result.

(** [RemoteTech::Comms::signal_delay_to_vessel_stream], part_002 line 646 *)
Definition signal_delay_to_vessel_stream (this : RemoteTech.Comms)
    (other : SpaceCenter.Vessel) : Prog (Stream double) :=
  let _args : list bytes := [] in
  let _args := push_back _args (encode this) in
  let _args := push_back _args (encode other) in
  _call ← Client_build_call (_client this) "RemoteTech"
      "Comms_SignalDelayToVessel" _args;
  Stream_ double (_client this) _call.

(** [RemoteTech::Comms::antennas_stream], part_002 line 653 *)
Definition antennas_stream (this : RemoteTech.Comms)
    : Prog (Stream (list RemoteTech.Antenna)) :=
  let _args : list bytes := [] in
  let _args := push_back _args (encode this) in
  _call ← Client_build_call (_client this) "RemoteTech" "Comms_get_Antennas"
      _args;
  Stream_ (list RemoteTech.Antenna) (_client this) _call.

(** [RemoteTech::Comms::has_connection_stream], part_002 line 659 *)
Definition has_connection_stream (this : RemoteTech.Comms)
    : Prog (Stream bool) :=
  let _args : list bytes := [] in
  let _args := push_back _args (encode this) in
  _call ← Client_build_call (_client this) "RemoteTech"
      "Comms_get_HasConnection" _args;
  Stream_ bool (_client this) _call.

(** [RemoteTech::Comms::has_connection_to_ground_station_stream],
    part_002 line 665 *)
Definition has_connection_to_ground_station_stream (this : RemoteTech.Comms)
    : Prog (Stream bool) :=
  let _args : list bytes := [] in
  let _args := push_back _args (encode this) in
  _call ← Client_build_call (_client this) "RemoteTech"
      "Comms_get_HasConnectionToGroundStation" _args;
  Stream_ bool (_client this) _call.

(** [RemoteTech::Comms::has_flight_computer_stream], part_002 line 671 *)
Definition has_flight_computer_stream (this : RemoteTech.Comms)
    : Prog (Stream bool) :=
  let _args : list bytes := [] in
  let _args := push_back _args (encode this) in
  _call ← Client_build_call (_client this) "RemoteTech"
      "Comms_get_HasFlightComputer" _args;
  Stream_ bool (_client this) _call.

(** [RemoteTech::Comms::has_local_control_stream], part_002 line 677 *)
Definition has_local_control_stream (this : RemoteTech.Comms)
    : Prog (Stream bool) :=
  let _args : list bytes := [] in
  let _args := push_back _args (encode this) in
  _call ← Client_build_call (_client this) "RemoteTech"
      "Comms_get_HasLocalControl" _args;
  Stream_ bool (_client this) _call.

(** [RemoteTech::Comms::signal_delay_stream], part_002 line 683 *)
Definition signal_delay_stream (this : RemoteTech.Comms)
    : Prog (Stream double) :=
  let _args : list bytes := [] in
  let _args := push_back _args (encode this) in
  _call ← Client_build_call (_client this) "RemoteTech"
      "Comms_get_SignalDelay" _args;
  Stream_ double (_client this) _call.

(** [RemoteTech::Comms::signal_delay_to_ground_station_stream],
    part_002 line 689 *)
Definition signal_delay_to_ground_station_stream (this : RemoteTech.Comms)
    : Prog (Stream double) :=
  let _args : list bytes := [] in
  let _args := push_back _args (encode this) in
  _call ← Client_build_call (_client this) "RemoteTech"
      "Comms_get_SignalDelayToGroundStation" _args;
  Stream_ double (_client this) _call.

(** [RemoteTech::Comms::vessel_stream], part_002 line 695 *)
Definition vessel_stream (this : RemoteTech.Comms)
    : Prog (Stream SpaceCenter.Vessel) :=
  let _args : list bytes := [] in
  let _args := push_back _args (encode this) in
  _call ← Client_build_call (_client this) "RemoteTech" "Comms_get_Vessel"
      _args;
  Stream_ SpaceCenter.Vessel (_client this) _call.

(** [RemoteTech::Comms::signal_delay_to_vessel_call], part_002 line 701 *)
Definition signal_delay_to_vessel_call (this : RemoteTech.Comms)
    (other : SpaceCenter.Vessel) : Prog schema_ProcedureCall :=
  let _args : list bytes := [] in
  let _args := push_back _args (encode this) in
  let _args := push_back _args (encode other) in
  Client_build_call (_client this) "RemoteTech" "Comms_SignalDelayToVessel"
      _args.

(** [RemoteTech::Comms::antennas_call], part_002 line 708 *)
Definition antennas_call (this : RemoteTech.Comms)
    : Prog schema_ProcedureCall :=
  let _args : list bytes := [] in
  let _args := push_back _args (encode this) in
  Client_build_call (_client this) "RemoteTech" "Comms_get_Antennas" _args.

(** [RemoteTech::Comms::has_connection_call], part_002 line 714 *)
Definition has_connection_call (this : RemoteTech.Comms)
    : Prog schema_ProcedureCall :=
  let _args : list bytes := [] in
  let _args := push_back _args (encode this) in
  Client_build_call (_client this) "RemoteTech" "Comms_get_HasConnection"
      _args.

(** [RemoteTech::Comms::has_connection_to_ground_station_call],
    part_002 line 720 *)
Definition has_connection_to_ground_station_call (this : RemoteTech.Comms)
    : Prog schema_ProcedureCall :=
  let _args : list bytes := [] in
  let _args := push_back _args (encode this) in
  Client_build_call (_client this) "RemoteTech"
      "Comms_get_HasConnectionToGroundStation" _args.

(** [RemoteTech::Comms::has_flight_computer_call], part_002 line 726 *)
Definition has_flight_computer_call (this : RemoteTech.Comms)
    : Prog schema_ProcedureCall :=
  let _args : list bytes := [] in
  let _args := push_back _args (encode this) in
  Client_build_call (_client this) "RemoteTech" "Comms_get_HasFlightComputer"
      _args.

(** [RemoteTech::Comms::has_local_control_call], part_002 line 732 *)
Definition has_local_control_call (this : RemoteTech.Comms)
    : Prog schema_ProcedureCall :=
  let _args : list bytes := [] in
  let _args := push_back _args (encode this) in
  Client_build_call (_client this) "RemoteTech" "Comms_get_HasLocalControl"
      _args.

(** [RemoteTech::Comms::signal_delay_call], part_002 line 738 *)
Definition signal_delay_call (this : RemoteTech.Comms)
    : Prog schema_ProcedureCall :=
  let _args : list bytes := [] in
  let _args := push_back _args (encode this) in
  Client_build_call (_client this) "RemoteTech" "Comms_get_SignalDelay" _args.

(** [RemoteTech::Comms::signal_delay_to_ground_station_call],
    part_002 line 744 *)
Definition signal_delay_to_ground_station_call (this : RemoteTech.Comms)
    : Prog schema_ProcedureCall :=
  let _args : list bytes := [] in
  let _args := push_back _args (encode this) in
  Client_build_call (_client this) "RemoteTech"
      "Comms_get_SignalDelayToGroundStation" _args.

(** [RemoteTech::Comms::vessel_call], part_002 line 750 *)
Definition vessel_call (this : RemoteTech.Comms)
    : Prog schema_ProcedureCall :=
  let _args : list bytes := [] in
  let _args := push_back _args (encode this) in
  Client_build_call (_client this) "RemoteTech" "Comms_get_Vessel" _args.

End Methods.

End Comms.

Section Table.
Context {RT : Runtime}.

(** The remote procedures of the service, in the order of the sources. *)
Definition operations : list Operation := [
  Value_op "RemoteTech::antenna" Service_method
    (Args := SpaceCenter.Part)
    (λ part, [encode part])
    (λ this part, antenna this part)
    (λ this part, antenna_stream this part)
    (λ this part, antenna_call this part);
  Value_op "RemoteTech::comms" Service_method
    (Args := SpaceCenter.Vessel)
    (λ vessel, [encode vessel])
    (λ this vessel, comms this vessel)
    (λ this vessel, comms_stream this vessel)
    (λ this vessel, comms_call this vessel);
  Value_op "RemoteTech::available" Service_method
    (Args := unit)
    (λ _, [])
    (λ this _, available this)
    (λ this _, available_stream this)
    (λ this _, available_call this);
  Value_op "RemoteTech::ground_stations" Service_method
    (Args := unit)
    (λ _, [])
    (λ this _, ground_stations this)
    (λ this _, ground_stations_stream this)
    (λ this _, ground_stations_call this);
  Value_op "RemoteTech::Antenna::has_connection" (Object_method
      "RemoteTech::Antenna")
    (Args := unit)
    (λ _, [])
    (λ this _, Antenna.has_connection this)
    (λ this _, Antenna.has_connection_stream this)
    (λ this _, Antenna.has_connection_call this);
  Value_op "RemoteTech::Antenna::part" (Object_method "RemoteTech::Antenna")
    (Args := unit)
    (λ _, [])
    (λ this _, Antenna.part this)
    (λ this _, Antenna.part_stream this)
    (λ this _, Antenna.part_call this);
  Value_op "RemoteTech::Antenna::target" (Object_method "RemoteTech::Antenna")
    (Args := unit)
    (λ _, [])
    (λ this _, Antenna.target this)
    (λ this _, Antenna.target_stream this)
    (λ this _, Antenna.target_call this);
  Void_op "RemoteTech::Antenna::set_target" (Object_method
      "RemoteTech::Antenna")
    (Args := RemoteTech.Target)
    (λ value, [encode value])
    (λ this value, Antenna.set_target this value)
    (λ this value, Antenna.set_target_call this value);
  Value_op "RemoteTech::Antenna::target_body" (Object_method
      "RemoteTech::Antenna")
    (Args := unit)
    (λ _, [])
    (λ this _, Antenna.target_body this)
    (λ this _, Antenna.target_body_stream this)
    (λ this _, Antenna.target_body_call this);
  Void_op "RemoteTech::Antenna::set_target_body" (Object_method
      "RemoteTech::Antenna")
    (Args := SpaceCenter.CelestialBody)
    (λ value, [encode value])
    (λ this value, Antenna.set_target_body this value)
    (λ this value, Antenna.set_target_body_call this value);
  Value_op "RemoteTech::Antenna::target_ground_station" (Object_method
      "RemoteTech::Antenna")
    (Args := unit)
    (λ _, [])
    (λ this _, Antenna.target_ground_station this)
    (λ this _, Antenna.target_ground_station_stream this)
    (λ this _, Antenna.target_ground_station_call this);
  Void_op "RemoteTech::Antenna::set_target_ground_station" (Object_method
      "RemoteTech::Antenna")
    (Args := string)
    (λ value, [encode value])
    (λ this value, Antenna.set_target_ground_station this value)
    (λ this value, Antenna.set_target_ground_station_call this value);
  Value_op "RemoteTech::Antenna::target_vessel" (Object_method
      "RemoteTech::Antenna")
    (Args := unit)
    (λ _, [])
    (λ this _, Antenna.target_vessel this)
    (λ this _, Antenna.target_vessel_stream this)
    (λ this _, Antenna.target_vessel_call this);
  Void_op "RemoteTech::Antenna::set_target_vessel" (Object_method
      "RemoteTech::Antenna")
    (Args := SpaceCenter.Vessel)
    (λ value, [encode value])
    (λ this value, Antenna.set_target_vessel this value)
    (λ this value, Antenna.set_target_vessel_call this value);
  Value_op "RemoteTech::Comms::signal_delay_to_vessel" (Object_method
      "RemoteTech::Comms")
    (Args := SpaceCenter.Vessel)
    (λ other, [encode other])
    (λ this other, Comms.signal_delay_to_vessel this other)
    (λ this other, Comms.signal_delay_to_vessel_stream this other)
    (λ this other, Comms.signal_delay_to_vessel_call this other);
  Value_op "RemoteTech::Comms::antennas" (Object_method "RemoteTech::Comms")
    (Args := unit)
    (λ _, [])
    (λ this _, Comms.antennas this)
    (λ this _, Comms.antennas_stream this)
    (λ this _, Comms.antennas_call this);
  Value_op "RemoteTech::Comms::has_connection" (Object_method
      "RemoteTech::Comms")
    (Args := unit)
    (λ _, [])
    (λ this _, Comms.has_connection this)
    (λ this _, Comms.has_connection_stream this)
    (λ this _, Comms.has_connection_call this);
  Value_op "RemoteTech::Comms::has_connection_to_ground_station"
      (Object_method "RemoteTech::Comms")
    (Args := unit)
    (λ _, [])
    (λ this _, Comms.has_connection_to_ground_station this)
    (λ this _, Comms.has_connection_to_ground_station_stream this)
    (λ this _, Comms.has_connection_to_ground_station_call this);
  Value_op "RemoteTech::Comms::has_flight_computer" (Object_method
      "RemoteTech::Comms")
    (Args := unit)
    (λ _, [])
    (λ this _, Comms.has_flight_computer this)
    (λ this _, Comms.has_flight_computer_stream this)
    (λ this _, Comms.has_flight_computer_call this);
  Value_op "RemoteTech::Comms::has_local_control" (Object_method
      "RemoteTech::Comms")
    (Args := unit)
    (λ _, [])
    (λ this _, Comms.has_local_control this)
    (λ this _, Comms.has_local_control_stream this)
    (λ this _, Comms.has_local_control_call this);
  Value_op "RemoteTech::Comms::signal_delay" (Object_method
      "RemoteTech::Comms")
    (Args := unit)
    (λ _, [])
    (λ this _, Comms.signal_delay this)
    (λ this _, Comms.signal_delay_stream this)
    (λ this _, Comms.signal_delay_call this);
  Value_op "RemoteTech::Comms::signal_delay_to_ground_station" (Object_method
      "RemoteTech::Comms")
    (Args := unit)
    (λ _, [])
    (λ this _, Comms.signal_delay_to_ground_station this)
    (λ this _, Comms.signal_delay_to_ground_station_stream this)
    (λ this _, Comms.signal_delay_to_ground_station_call this);
  Value_op "RemoteTech::Comms::vessel" (Object_method "RemoteTech::Comms")
    (Args := unit)
    (λ _, [])
    (λ this _, Comms.vessel this)
    (λ this _, Comms.vessel_stream this)
    (λ this _, Comms.vessel_call this)
].

End Table.

End RemoteTech.

(** ** Service [InfernalRobotics] (infernal_robotics.hpp) *)

Module InfernalRobotics.

(** [class InfernalRobotics : public Service], line 20 *)
Record t : Type := Make { base : Service }.
#[global] Instance t_HasClient : HasClient t :=
  λ this, Service_client (base this).

(** Class forward declarations; each class is declared as
    [class C : public krpc::Object<C>]. *)
Definition Servo : Type := Object "InfernalRobotics::Servo".
Definition ServoGroup : Type := Object "InfernalRobotics::ServoGroup".

Section Methods.
Context {RT : Runtime}.

(** [InfernalRobotics::InfernalRobotics], line 506 *)
Definition InfernalRobotics (client : Client_ptr) : Prog t :=
  let this := Make (Service_ client) in
  mret this.

(** [InfernalRobotics::servo_group_with_name],
    infernal_robotics.hpp line 510 *)
Definition servo_group_with_name (this : t) (vessel : SpaceCenter.Vessel)
    (name : string) : Prog InfernalRobotics.ServoGroup :=
  let _args : list bytes := [] in
  let _args := push_back _args (encode vessel) in
  let _args := push_back _args (encode name) in
  _data ← Client_invoke (_client this) "InfernalRobotics" "ServoGroupWithName"
      _args;
  _result ← decoder_decode (T := InfernalRobotics.ServoGroup) _data (_client
      this);
  mret _result.

(** [InfernalRobotics::servo_groups], infernal_robotics.hpp line 520 *)
Definition servo_groups (this : t) (vessel : SpaceCenter.Vessel)
    : Prog (list InfernalRobotics.ServoGroup) :=
  let _args : list bytes := [] in
  let _args := push_back _args (encode vessel) in
  _data ← Client_invoke (_client this) "InfernalRobotics" "ServoGroups" _args;
  _result ← decoder_decode (T := list InfernalRobotics.ServoGroup) _data
      (_client this);
  mret _result.

(** [InfernalRobotics::servo_with_name], infernal_robotics.hpp line 529 *)
Definition servo_with_name (this : t) (vessel : SpaceCenter.Vessel)
    (name : string) : Prog InfernalRobotics.Servo :=
  let _args : list bytes := [] in
  let _args := push_back _args (encode vessel) in
  let _args := push_back _args (encode name) in
  _data ← Client_invoke (_client this) "InfernalRobotics" "ServoWithName"
      _args;
  _result ← decoder_decode (T := InfernalRobotics.Servo) _data (_client this);
  mret _result.

(** [InfernalRobotics::available], infernal_robotics.hpp line 539 *)
Definition available (this : t) : Prog bool :=
  _data ← Client_invoke (_client this) "InfernalRobotics" "get_Available"
      no_args;
  _result ← decoder_decode (T := bool) _data (_client this);
  mret _result.

(** [InfernalRobotics::ready], infernal_robotics.hpp line 546 *)
Definition ready (this : t) : Prog bool :=
  _data ← Client_invoke (_client this) "InfernalRobotics" "get_Ready" no_args;
  _result ← decoder_decode (T := bool) _data (_client this);
  mret _result.

(** [InfernalRobotics::servo_group_with_name_stream],
    infernal_robotics.hpp line 553 *)
Definition servo_group_with_name_stream (this : t)
    (vessel : SpaceCenter.Vessel) (name : string)
    : Prog (Stream InfernalRobotics.ServoGroup) :=
  let _args : list bytes := [] in
  let _args := push_back _args (encode vessel) in
  let _args := push_back _args (encode name) in
  _call ← Client_build_call (_client this) "InfernalRobotics"
      "ServoGroupWithName" _args;
  Stream_ InfernalRobotics.ServoGroup (_client this) _call.

(** [InfernalRobotics::servo_groups_stream], infernal_robotics.hpp line 560 *)
Definition servo_groups_stream (this : t) (vessel : SpaceCenter.Vessel)
    : Prog (Stream (list InfernalRobotics.ServoGroup)) :=
  let _args : list bytes := [] in
  let _args := push_back _args (encode vessel) in
  _call ← Client_build_call (_client this) "InfernalRobotics" "ServoGroups"
      _args;
  Stream_ (list InfernalRobotics.ServoGroup) (_client this) _call.

(** [InfernalRobotics::servo_with_name_stream],
    infernal_robotics.hpp line 566 *)
Definition servo_with_name_stream (this : t) (vessel : SpaceCenter.Vessel)
    (name : string) : Prog (Stream InfernalRobotics.Servo) :=
  let _args : list bytes := [] in
  let _args := push_back _args (encode vessel) in
  let _args := push_back _args (encode name) in
  _call ← Client_build_call (_client this) "InfernalRobotics" "ServoWithName"
      _args;
  Stream_ InfernalRobotics.Servo (_client this) _call.

(** [InfernalRobotics::available_stream], infernal_robotics.hpp line 573 *)
Definition available_stream (this : t) : Prog (Stream bool) :=
  _call ← Client_build_call (_client this) "InfernalRobotics" "get_Available"
      no_args;
  Stream_ bool (_client this) _call.

(** [InfernalRobotics::ready_stream], infernal_robotics.hpp line 577 *)
Definition ready_stream (this : t) : Prog (Stream bool) :=
  _call ← Client_build_call (_client this) "InfernalRobotics" "get_Ready"
      no_args;
  Stream_ bool (_client this) _call.

(** [InfernalRobotics::servo_group_with_name_call],
    infernal_robotics.hpp line 581 *)
Definition servo_group_with_name_call (this : t) (vessel : SpaceCenter.Vessel)
    (name : string) : Prog schema_ProcedureCall :=
  let _args : list bytes := [] in
  let _args := push_back _args (encode vessel) in
  let _args := push_back _args (encode name) in
  Client_build_call (_client this) "InfernalRobotics" "ServoGroupWithName"
      _args.

(** [InfernalRobotics::servo_groups_call], infernal_robotics.hpp line 588 *)
Definition servo_groups_call (this : t) (vessel : SpaceCenter.Vessel)
    : Prog schema_ProcedureCall :=
  let _args : list bytes := [] in
  let _args := push_back _args (encode vessel) in
  Client_build_call (_client this) "InfernalRobotics" "ServoGroups" _args.

(** [InfernalRobotics::servo_with_name_call],
    infernal_robotics.hpp line 594 *)
Definition servo_with_name_call (this : t) (vessel : SpaceCenter.Vessel)
    (name : string) : Prog schema_ProcedureCall :=
  let _args : list bytes := [] in
  let _args := push_back _args (encode vessel) in
  let _args := push_back _args (encode name) in
  Client_build_call (_client this) "InfernalRobotics" "ServoWithName" _args.

(** [InfernalRobotics::available_call], infernal_robotics.hpp line 601 *)
Definition available_call (this : t) : Prog schema_ProcedureCall :=
  Client_build_call (_client this) "InfernalRobotics" "get_Available" no_args.

(** [InfernalRobotics::ready_call], infernal_robotics.hpp line 605 *)
Definition ready_call (this : t) : Prog schema_ProcedureCall :=
  Client_build_call (_client this) "InfernalRobotics" "get_Ready" no_args.

End Methods.

(** [class InfernalRobotics::Servo] *)
Module Servo.
Section Methods.
Context {RT : Runtime}.

(** [InfernalRobotics::Servo::Servo], line 609; declared
    [explicit Servo(Client* client = nullptr, uint64_t id = 0)], line 87 *)
Definition Servo (client : option Client_ptr) (id : option uint64_t)
    : InfernalRobotics.Servo :=
  let client := default_arg nullptr client in
  let id := default_arg 0%N id in
  Object_ "InfernalRobotics::Servo" client id.

(** [InfernalRobotics::Servo::move_center], infernal_robotics.hpp line 612 *)
Definition move_center (this : InfernalRobotics.Servo) : Prog unit :=
  let _args : list bytes := [] in
  let _args := push_back _args (encode this) in
  Client_invoke (_client this) "InfernalRobotics" "Servo_MoveCenter" _args;;
  mret ().

(** [InfernalRobotics::Servo::move_left], infernal_robotics.hpp line 618 *)
Definition move_left (this : InfernalRobotics.Servo) : Prog unit :=
  let _args : list bytes := [] in
  let _args := push_back _args (encode this) in
  Client_invoke (_client this) "InfernalRobotics" "Servo_MoveLeft" _args;;
  mret ().

(** [InfernalRobotics::Servo::move_next_preset],
    infernal_robotics.hpp line 624 *)
Definition move_next_preset (this : InfernalRobotics.Servo) : Prog unit :=
  let _args : list bytes := [] in
  let _args := push_back _args (encode this) in
  Client_invoke (_client this) "InfernalRobotics" "Servo_MoveNextPreset"
      _args;;
  mret ().

(** [InfernalRobotics::Servo::move_prev_preset],
    infernal_robotics.hpp line 630 *)
Definition move_prev_preset (this : InfernalRobotics.Servo) : Prog unit :=
  let _args : list bytes := [] in
  let _args := push_back _args (encode this) in
  Client_invoke (_client this) "InfernalRobotics" "Servo_MovePrevPreset"
      _args;;
  mret ().

(** [InfernalRobotics::Servo::move_right], infernal_robotics.hpp line 636 *)
Definition move_right (this : InfernalRobotics.Servo) : Prog unit :=
  let _args : list bytes := [] in
  let _args := push_back _args (encode this) in
  Client_invoke (_client this) "InfernalRobotics" "Servo_MoveRight" _args;;
  mret ().

(** [InfernalRobotics::Servo::move_to], infernal_robotics.hpp line 642 *)
Definition move_to (this : InfernalRobotics.Servo) (position : float)
    (speed : float) : Prog unit :=
  let _args : list bytes := [] in
  let _args := push_back _args (encode this) in
  let _args := push_back _args (encode position) in
  let _args := push_back _args (encode speed) in
  Client_invoke (_client this) "InfernalRobotics" "Servo_MoveTo" _args;;
  mret ().

(** [InfernalRobotics::Servo::stop], infernal_robotics.hpp line 650 *)
Definition stop (this : InfernalRobotics.Servo) : Prog unit :=
  let _args : list bytes := [] in
  let _args := push_back _args (encode this) in
  Client_invoke (_client this) "InfernalRobotics" "Servo_Stop" _args;;
  mret ().

(** [InfernalRobotics::Servo::acceleration], infernal_robotics.hpp line 656 *)
Definition acceleration (this : InfernalRobotics.Servo) : Prog float :=
  let _args : list bytes := [] in
  let _args := push_back _args (encode this) in
  _data ← Client_invoke (_client this) "InfernalRobotics"
      "Servo_get_Acceleration" _args;
  _result ← decoder_decode (T := float) _data (_client this);
  mret _result.

(** [InfernalRobotics::Servo::set_acceleration],
    infernal_robotics.hpp line 665 *)
Definition set_acceleration (this : InfernalRobotics.Servo) (value : float)
    : Prog unit :=
  let _args : list bytes := [] in
  let _args := push_back _args (encode this) in
  let _args := push_back _args (encode value) in
  Client_invoke (_client this) "InfernalRobotics" "Servo_set_Acceleration"
      _args;;
  mret ().

(** [InfernalRobotics::Servo::config_speed], infernal_robotics.hpp line 672 *)
Definition config_speed (this : InfernalRobotics.Servo) : Prog float :=
  let _args : list bytes := [] in
  let _args := push_back _args (encode this) in
  _data ← Client_invoke (_client this) "InfernalRobotics"
      "Servo_get_ConfigSpeed" _args;
  _result ← decoder_decode (T := float) _data (_client this);
  mret _result.

(** [InfernalRobotics::Servo::current_speed],
    infernal_robotics.hpp line 681 *)
Definition current_speed (this : InfernalRobotics.Servo) : Prog float :=
  let _args : list bytes := [] in
  let _args := push_back _args (encode this) in
  _data ← Client_invoke (_client this) "InfernalRobotics"
      "Servo_get_CurrentSpeed" _args;
  _result ← decoder_decode (T := float) _data (_client this);
  mret _result.

(** [InfernalRobotics::Servo::set_current_speed],
    infernal_robotics.hpp line 690 *)
Definition set_current_speed (this : InfernalRobotics.Servo) (value : float)
    : Prog unit :=
  let _args : list bytes := [] in
  let _args := push_back _args (encode this) in
  let _args := push_back _args (encode value) in
  Client_invoke (_client this) "InfernalRobotics" "Servo_set_CurrentSpeed"
      _args;;
  mret ().

(** [InfernalRobotics::Servo::set_highlight],
    infernal_robotics.hpp line 697 *)
Definition set_highlight (this : InfernalRobotics.Servo) (value : bool)
    : Prog unit :=
  let _args : list bytes := [] in
  let _args := push_back _args (encode this) in
  let _args := push_back _args (encode value) in
  Client_invoke (_client this) "InfernalRobotics" "Servo_set_Highlight"
      _args;;
  mret ().

(** [InfernalRobotics::Servo::is_axis_inverted],
    infernal_robotics.hpp line 704 *)
Definition is_axis_inverted (this : InfernalRobotics.Servo) : Prog bool :=
  let _args : list bytes := [] in
  let _args := push_back _args (encode this) in
  _data ← Client_invoke (_client this) "InfernalRobotics"
      "Servo_get_IsAxisInverted" _args;
  _result ← decoder_decode (T := bool) _data (_client this);
  mret _result.

(** [InfernalRobotics::Servo::set_is_axis_inverted],
    infernal_robotics.hpp line 713 *)
Definition set_is_axis_inverted (this : InfernalRobotics.Servo) (value : bool)
    : Prog unit :=
  let _args : list bytes := [] in
  let _args := push_back _args (encode this) in
  let _args := push_back _args (encode value) in
  Client_invoke (_client this) "InfernalRobotics" "Servo_set_IsAxisInverted"
      _args;;
  mret ().

(** [InfernalRobotics::Servo::is_free_moving],
    infernal_robotics.hpp line 720 *)
Definition is_free_moving (this : InfernalRobotics.Servo) : Prog bool :=
  let _args : list bytes := [] in
  let _args := push_back _args (encode this) in
  _data ← Client_invoke (_client this) "InfernalRobotics"
      "Servo_get_IsFreeMoving" _args;
  _result ← decoder_decode (T := bool) _data (_client this);
  mret _result.

(** [InfernalRobotics::Servo::is_locked], infernal_robotics.hpp line 729 *)
Definition is_locked (this : InfernalRobotics.Servo) : Prog bool :=
  let _args : list bytes := [] in
  let _args := push_back _args (encode this) in
  _data ← Client_invoke (_client this) "InfernalRobotics" "Servo_get_IsLocked"
      _args;
  _result ← decoder_decode (T := bool) _data (_client this);
  mret _result.

(** [InfernalRobotics::Servo::set_is_locked],
    infernal_robotics.hpp line 738 *)
Definition set_is_locked (this : InfernalRobotics.Servo) (value : bool)
    : Prog unit :=
  let _args : list bytes := [] in
  let _args := push_back _args (encode this) in
  let _args := push_back _args (encode value) in
  Client_invoke (_client this) "InfernalRobotics" "Servo_set_IsLocked" _args;;
  mret ().

(** [InfernalRobotics::Servo::is_moving], infernal_robotics.hpp line 745 *)
Definition is_moving (this : InfernalRobotics.Servo) : Prog bool :=
  let _args : list bytes := [] in
  let _args := push_back _args (encode this) in
  _data ← Client_invoke (_client this) "InfernalRobotics" "Servo_get_IsMoving"
      _args;
  _result ← decoder_decode (T := bool) _data (_client this);
  mret _result.

(** [InfernalRobotics::Servo::max_config_position],
    infernal_robotics.hpp line 754 *)
Definition max_config_position (this : InfernalRobotics.Servo) : Prog float :=
  let _args : list bytes := [] in
  let _args := push_back _args (encode this) in
  _data ← Client_invoke (_client this) "InfernalRobotics"
      "Servo_get_MaxConfigPosition" _args;
  _result ← decoder_decode (T := float) _data (_client this);
  mret _result.

(** [InfernalRobotics::Servo::max_position], infernal_robotics.hpp line 763 *)
Definition max_position (this : InfernalRobotics.Servo) : Prog float :=
  let _args : list bytes := [] in
  let _args := push_back _args (encode this) in
  _data ← Client_invoke (_client this) "InfernalRobotics"
      "Servo_get_MaxPosition" _args;
  _result ← decoder_decode (T := float) _data (_client this);
  mret _result.

(** [InfernalRobotics::Servo::set_max_position],
    infernal_robotics.hpp line 772 *)
Definition set_max_position (this : InfernalRobotics.Servo) (value : float)
    : Prog unit :=
  let _args : list bytes := [] in
  let _args := push_back _args (encode this) in
  let _args := push_back _args (encode value) in
  Client_invoke (_client this) "InfernalRobotics" "Servo_set_MaxPosition"
      _args;;
  mret ().

(** [InfernalRobotics::Servo::min_config_position],
    infernal_robotics.hpp line 779 *)
Definition min_config_position (this : InfernalRobotics.Servo) : Prog float :=
  let _args : list bytes := [] in
  let _args := push_back _args (encode this) in
  _data ← Client_invoke (_client this) "InfernalRobotics"
      "Servo_get_MinConfigPosition" _args;
  _result ← decoder_decode (T := float) _data (_client this);
  mret _result.

(** [InfernalRobotics::Servo::min_position], infernal_robotics.hpp line 788 *)
Definition min_position (this : InfernalRobotics.Servo) : Prog float :=
  let _args : list bytes := [] in
  let _args := push_back _args (encode this) in
  _data ← Client_invoke (_client this) "InfernalRobotics"
      "Servo_get_MinPosition" _args;
  _result ← decoder_decode (T := float) _data (_client this);
  mret _result.

(** [InfernalRobotics::Servo::set_min_position],
    infernal_robotics.hpp line 797 *)
Definition set_min_position (this : InfernalRobotics.Servo) (value : float)
    : Prog unit :=
  let _args : list bytes := [] in
  let _args := push_back _args (encode this) in
  let _args := push_back _args (encode value) in
  Client_invoke (_client this) "InfernalRobotics" "Servo_set_MinPosition"
      _args;;
  mret ().

(** [InfernalRobotics::Servo::name], infernal_robotics.hpp line 804 *)
Definition name (this : InfernalRobotics.Servo) : Prog string :=
  let _args : list bytes := [] in
  let _args := push_back _args (encode this) in
  _data ← Client_invoke (_client this) "InfernalRobotics" "Servo_get_Name"
      _args;
  _result ← decoder_decode (T := string) _data (_client this);
  mret _result.

(** [InfernalRobotics::Servo::set_name], infernal_robotics.hpp line 813 *)
Definition set_name (this : InfernalRobotics.Servo) (value : string)
    : Prog unit :=
  let _args : list bytes := [] in
  let _args := push_back _args (encode this) in
  let _args := push_back _args (encode value) in
  Client_invoke (_client this) "InfernalRobotics" "Servo_set_Name" _args;;
  mret ().

(** [InfernalRobotics::Servo::part], infernal_robotics.hpp line 820 *)
Definition part (this : InfernalRobotics.Servo) : Prog SpaceCenter.Part :=
  let _args : list bytes := [] in
  let _args := push_back _args (encode this) in
  _data ← Client_invoke (_client this) "InfernalRobotics" "Servo_get_Part"
      _args;
  _result ← decoder_decode (T := SpaceCenter.Part) _data (_client this);
  mret _result.

(** [InfernalRobotics::Servo::position], infernal_robotics.hpp line 829 *)
Definition position (this : InfernalRobotics.Servo) : Prog float :=
  let _args : list bytes := [] in
  let _args := push_back _args (encode this) in
  _data ← Client_invoke (_client this) "InfernalRobotics" "Servo_get_Position"
      _args;
  _result ← decoder_decode (T := float) _data (_client this);
  mret _result.

(** [InfernalRobotics::Servo::speed], infernal_robotics.hpp line 838 *)
Definition speed (this : InfernalRobotics.Servo) : Prog float :=
  let _args : list bytes := [] in
  let _args := push_back _args (encode this) in
  _data ← Client_invoke (_client this) "InfernalRobotics" "Servo_get_Speed"
      _args;
  _result ← decoder_decode (T := float) _data (_client this);
  mret _result.

(** [InfernalRobotics::Servo::set_speed], infernal_robotics.hpp line 847 *)
Definition set_speed (this : InfernalRobotics.Servo) (value : float)
    : Prog unit :=
  let _args : list bytes := [] in
  let _args := push_back _args (encode this) in
  let _args := push_back _args (encode value) in
  Client_invoke (_client this) "InfernalRobotics" "Servo_set_Speed" _args;;
  mret ().

(** [InfernalRobotics::Servo::acceleration_stream],
    infernal_robotics.hpp line 854 *)
Definition acceleration_stream (this : InfernalRobotics.Servo)
    : Prog (Stream float) :=
  let _args : list bytes := [] in
  let _args := push_back _args (encode this) in
  _call ← Client_build_call (_client this) "InfernalRobotics"
      "Servo_get_Acceleration" _args;
  Stream_ float (_client this) _call.

(** [InfernalRobotics::Servo::config_speed_stream],
    infernal_robotics.hpp line 860 *)
Definition config_speed_stream (this : InfernalRobotics.Servo)
    : Prog (Stream float) :=
  let _args : list bytes := [] in
  let _args := push_back _args (encode this) in
  _call ← Client_build_call (_client this) "InfernalRobotics"
      "Servo_get_ConfigSpeed" _args;
  Stream_ float (_client this) _call.

(** [InfernalRobotics::Servo::current_speed_stream],
    infernal_robotics.hpp line 866 *)
Definition current_speed_stream (this : InfernalRobotics.Servo)
    : Prog (Stream float) :=
  let _args : list bytes := [] in
  let _args := push_back _args (encode this) in
  _call ← Client_build_call (_client this) "InfernalRobotics"
      "Servo_get_CurrentSpeed" _args;
  Stream_ float (_client this) _call.

(** [InfernalRobotics::Servo::is_axis_inverted_stream],
    infernal_robotics.hpp line 872 *)
Definition is_axis_inverted_stream (this : InfernalRobotics.Servo)
    : Prog (Stream bool) :=
  let _args : list bytes := [] in
  let _args := push_back _args (encode this) in
  _call ← Client_build_call (_client this) "InfernalRobotics"
      "Servo_get_IsAxisInverted" _args;
  Stream_ bool (_client this) _call.

(** [InfernalRobotics::Servo::is_free_moving_stream],
    infernal_robotics.hpp line 878 *)
Definition is_free_moving_stream (this : InfernalRobotics.Servo)
    : Prog (Stream bool) :=
  let _args : list bytes := [] in
  let _args := push_back _args (encode this) in
  _call ← Client_build_call (_client this) "InfernalRobotics"
      "Servo_get_IsFreeMoving" _args;
  Stream_ bool (_client this) _call.

(** [InfernalRobotics::Servo::is_locked_stream],
    infernal_robotics.hpp line 884 *)
Definition is_locked_stream (this : InfernalRobotics.Servo)
    : Prog (Stream bool) :=
  let _args : list bytes := [] in
  let _args := push_back _args (encode this) in
  _call ← Client_build_call (_client this) "InfernalRobotics"
      "Servo_get_IsLocked" _args;
  Stream_ bool (_client this) _call.

(** [InfernalRobotics::Servo::is_moving_stream],
    infernal_robotics.hpp line 890 *)
Definition is_moving_stream (this : InfernalRobotics.Servo)
    : Prog (Stream bool) :=
  let _args : list bytes := [] in
  let _args := push_back _args (encode this) in
  _call ← Client_build_call (_client this) "InfernalRobotics"
      "Servo_get_IsMoving" _args;
  Stream_ bool (_client this) _call.

(** [InfernalRobotics::Servo::max_config_position_stream],
    infernal_robotics.hpp line 896 *)
Definition max_config_position_stream (this : InfernalRobotics.Servo)
    : Prog (Stream float) :=
  let _args : list bytes := [] in
  let _args := push_back _args (encode this) in
  _call ← Client_build_call (_client this) "InfernalRobotics"
      "Servo_get_MaxConfigPosition" _args;
  Stream_ float (_client this) _call.

(** [InfernalRobotics::Servo::max_position_stream],
    infernal_robotics.hpp line 902 *)
Definition max_position_stream (this : InfernalRobotics.Servo)
    : Prog (Stream float) :=
  let _args : list bytes := [] in
  let _args := push_back _args (encode this) in
  _call ← Client_build_call (_client this) "InfernalRobotics"
      "Servo_get_MaxPosition" _args;
  Stream_ float (_client this) _call.

(** [InfernalRobotics::Servo::min_config_position_stream],
    infernal_robotics.hpp line 908 *)
Definition min_config_position_stream (this : InfernalRobotics.Servo)
    : Prog (Stream float) :=
  let _args : list bytes := [] in
  let _args := push_back _args (encode this) in
  _call ← Client_build_call (_client this) "InfernalRobotics"
      "Servo_get_MinConfigPosition" _args;
  Stream_ float (_client this) _call.

(** [InfernalRobotics::Servo::min_position_stream],
    infernal_robotics.hpp line 914 *)
Definition min_position_stream (this : InfernalRobotics.Servo)
    : Prog (Stream float) :=
  let _args : list bytes := [] in
  let _args := push_back _args (encode this) in
  _call ← Client_build_call (_client this) "InfernalRobotics"
      "Servo_get_MinPosition" _args;
  Stream_ float (_client this) _call.

(** [InfernalRobotics::Servo::name_stream], infernal_robotics.hpp line 920 *)
Definition name_stream (this : InfernalRobotics.Servo)
    : Prog (Stream string) :=
  let _args : list bytes := [] in
  let _args := push_back _args (encode this) in
  _call ← Client_build_call (_client this) "InfernalRobotics" "Servo_get_Name"
      _args;
  Stream_ string (_client this) _call.

(** [InfernalRobotics::Servo::part_stream], infernal_robotics.hpp line 926 *)
Definition part_stream (this : InfernalRobotics.Servo)
    : Prog (Stream SpaceCenter.Part) :=
  let _args : list bytes := [] in
  let _args := push_back _args (encode this) in
  _call ← Client_build_call (_client this) "InfernalRobotics" "Servo_get_Part"
      _args;
  Stream_ SpaceCenter.Part (_client this) _call.

(** [InfernalRobotics::Servo::position_stream],
    infernal_robotics.hpp line 932 *)
Definition position_stream (this : InfernalRobotics.Servo)
    : Prog (Stream float) :=
  let _args : list bytes := [] in
  let _args := push_back _args (encode this) in
  _call ← Client_build_call (_client this) "InfernalRobotics"
      "Servo_get_Position" _args;
  Stream_ float (_client this) _call.

(** [InfernalRobotics::Servo::speed_stream], infernal_robotics.hpp line 938 *)
Definition speed_stream (this : InfernalRobotics.Servo)
    : Prog (Stream float) :=
  let _args : list bytes := [] in
  let _args := push_back _args (encode this) in
  _call ← Client_build_call (_client this) "InfernalRobotics"
      "Servo_get_Speed" _args;
  Stream_ float (_client this) _call.

(** [InfernalRobotics::Servo::move_center_call],
    infernal_robotics.hpp line 944 *)
Definition move_center_call (this : InfernalRobotics.Servo)
    : Prog schema_ProcedureCall :=
  let _args : list bytes := [] in
  let _args := push_back _args (encode this) in
  Client_build_call (_client this) "InfernalRobotics" "Servo_MoveCenter"
      _args.

(** [InfernalRobotics::Servo::move_left_call],
    infernal_robotics.hpp line 950 *)
Definition move_left_call (this : InfernalRobotics.Servo)
    : Prog schema_ProcedureCall :=
  let _args : list bytes := [] in
  let _args := push_back _args (encode this) in
  Client_build_call (_client this) "InfernalRobotics" "Servo_MoveLeft" _args.

(** [InfernalRobotics::Servo::move_next_preset_call],
    infernal_robotics.hpp line 956 *)
Definition move_next_preset_call (this : InfernalRobotics.Servo)
    : Prog schema_ProcedureCall :=
  let _args : list bytes := [] in
  let _args := push_back _args (encode this) in
  Client_build_call (_client this) "InfernalRobotics" "Servo_MoveNextPreset"
      _args.

(** [InfernalRobotics::Servo::move_prev_preset_call],
    infernal_robotics.hpp line 962 *)
Definition move_prev_preset_call (this : InfernalRobotics.Servo)
    : Prog schema_ProcedureCall :=
  let _args : list bytes := [] in
  let _args := push_back _args (encode this) in
  Client_build_call (_client this) "InfernalRobotics" "Servo_MovePrevPreset"
      _args.

(** [InfernalRobotics::Servo::move_right_call],
    infernal_robotics.hpp line 968 *)
Definition move_right_call (this : InfernalRobotics.Servo)
    : Prog schema_ProcedureCall :=
  let _args : list bytes := [] in
  let _args := push_back _args (encode this) in
  Client_build_call (_client this) "InfernalRobotics" "Servo_MoveRight" _args.

(** [InfernalRobotics::Servo::move_to_call], infernal_robotics.hpp line 974 *)
Definition move_to_call (this : InfernalRobotics.Servo) (position : float)
    (speed : float) : Prog schema_ProcedureCall :=
  let _args : list bytes := [] in
  let _args := push_back _args (encode this) in
  let _args := push_back _args (encode position) in
  let _args := push_back _args (encode speed) in
  Client_build_call (_client this) "InfernalRobotics" "Servo_MoveTo" _args.

(** [InfernalRobotics::Servo::stop_call], infernal_robotics.hpp line 982 *)
Definition stop_call (this : InfernalRobotics.Servo)
    : Prog schema_ProcedureCall :=
  let _args : list bytes := [] in
  let _args := push_back _args (encode this) in
  Client_build_call (_client this) "InfernalRobotics" "Servo_Stop" _args.

(** [InfernalRobotics::Servo::acceleration_call],
    infernal_robotics.hpp line 988 *)
Definition acceleration_call (this : InfernalRobotics.Servo)
    : Prog schema_ProcedureCall :=
  let _args : list bytes := [] in
  let _args := push_back _args (encode this) in
  Client_build_call (_client this) "InfernalRobotics" "Servo_get_Acceleration"
      _args.

(** [InfernalRobotics::Servo::set_acceleration_call],
    infernal_robotics.hpp line 994 *)
Definition set_acceleration_call (this : InfernalRobotics.Servo)
    (value : float) : Prog schema_ProcedureCall :=
  let _args : list bytes := [] in
  let _args := push_back _args (encode this) in
  let _args := push_back _args (encode value) in
  Client_build_call (_client this) "InfernalRobotics" "Servo_set_Acceleration"
      _args.

(** [InfernalRobotics::Servo::config_speed_call],
    infernal_robotics.hpp line 1001 *)
Definition config_speed_call (this : InfernalRobotics.Servo)
    : Prog schema_ProcedureCall :=
  let _args : list bytes := [] in
  let _args := push_back _args (encode this) in
  Client_build_call (_client this) "InfernalRobotics" "Servo_get_ConfigSpeed"
      _args.

(** [InfernalRobotics::Servo::current_speed_call],
    infernal_robotics.hpp line 1007 *)
Definition current_speed_call (this : InfernalRobotics.Servo)
    : Prog schema_ProcedureCall :=
  let _args : list bytes := [] in
  let _args := push_back _args (encode this) in
  Client_build_call (_client this) "InfernalRobotics" "Servo_get_CurrentSpeed"
      _args.

(** [InfernalRobotics::Servo::set_current_speed_call],
    infernal_robotics.hpp line 1013 *)
Definition set_current_speed_call (this : InfernalRobotics.Servo)
    (value : float) : Prog schema_ProcedureCall :=
  let _args : list bytes := [] in
  let _args := push_back _args (encode this) in
  let _args := push_back _args (encode value) in
  Client_build_call (_client this) "InfernalRobotics" "Servo_set_CurrentSpeed"
      _args.

(** [InfernalRobotics::Servo::set_highlight_call],
    infernal_robotics.hpp line 1020 *)
Definition set_highlight_call (this : InfernalRobotics.Servo) (value : bool)
    : Prog schema_ProcedureCall :=
  let _args : list bytes := [] in
  let _args := push_back _args (encode this) in
  let _args := push_back _args (encode value) in
  Client_build_call (_client this) "InfernalRobotics" "Servo_set_Highlight"
      _args.

(** [InfernalRobotics::Servo::is_axis_inverted_call],
    infernal_robotics.hpp line 1027 *)
Definition is_axis_inverted_call (this : InfernalRobotics.Servo)
    : Prog schema_ProcedureCall :=
  let _args : list bytes := [] in
  let _args := push_back _args (encode this) in
  Client_build_call (_client this) "InfernalRobotics"
      "Servo_get_IsAxisInverted" _args.

(** [InfernalRobotics::Servo::set_is_axis_inverted_call],
    infernal_robotics.hpp line 1033 *)
Definition set_is_axis_inverted_call (this : InfernalRobotics.Servo)
    (value : bool) : Prog schema_ProcedureCall :=
  let _args : list bytes := [] in
  let _args := push_back _args (encode this) in
  let _args := push_back _args (encode value) in
  Client_build_call (_client this) "InfernalRobotics"
      "Servo_set_IsAxisInverted" _args.

(** [InfernalRobotics::Servo::is_free_moving_call],
    infernal_robotics.hpp line 1040 *)
Definition is_free_moving_call (this : InfernalRobotics.Servo)
    : Prog schema_ProcedureCall :=
  let _args : list bytes := [] in
  let _args := push_back _args (encode this) in
  Client_build_call (_client this) "InfernalRobotics" "Servo_get_IsFreeMoving"
      _args.

(** [InfernalRobotics::Servo::is_locked_call],
    infernal_robotics.hpp line 1046 *)
Definition is_locked_call (this : InfernalRobotics.Servo)
    : Prog schema_ProcedureCall :=
  let _args : list bytes := [] in
  let _args := push_back _args (encode this) in
  Client_build_call (_client this) "InfernalRobotics" "Servo_get_IsLocked"
      _args.

(** [InfernalRobotics::Servo::set_is_locked_call],
    infernal_robotics.hpp line 1052 *)
Definition set_is_locked_call (this : InfernalRobotics.Servo) (value : bool)
    : Prog schema_ProcedureCall :=
  let _args : list bytes := [] in
  let _args := push_back _args (encode this) in
  let _args := push_back _args (encode value) in
  Client_build_call (_client this) "InfernalRobotics" "Servo_set_IsLocked"
      _args.

(** [InfernalRobotics::Servo::is_moving_call],
    infernal_robotics.hpp line 1059 *)
Definition is_moving_call (this : InfernalRobotics.Servo)
    : Prog schema_ProcedureCall :=
  let _args : list bytes := [] in
  let _args := push_back _args (encode this) in
  Client_build_call (_client this) "InfernalRobotics" "Servo_get_IsMoving"
      _args.

(** [InfernalRobotics::Servo::max_config_position_call],
    infernal_robotics.hpp line 1065 *)
Definition max_config_position_call (this : InfernalRobotics.Servo)
    : Prog schema_ProcedureCall :=
  let _args : list bytes := [] in
  let _args := push_back _args (encode this) in
  Client_build_call (_client this) "InfernalRobotics"
      "Servo_get_MaxConfigPosition" _args.

(** [InfernalRobotics::Servo::max_position_call],
    infernal_robotics.hpp line 1071 *)
Definition max_position_call (this : InfernalRobotics.Servo)
    : Prog schema_ProcedureCall :=
  let _args : list bytes := [] in
  let _args := push_back _args (encode this) in
  Client_build_call (_client this) "InfernalRobotics" "Servo_get_MaxPosition"
      _args.

(** [InfernalRobotics::Servo::set_max_position_call],
    infernal_robotics.hpp line 1077 *)
Definition set_max_position_call (this : InfernalRobotics.Servo)
    (value : float) : Prog schema_ProcedureCall :=
  let _args : list bytes := [] in
  let _args := push_back _args (encode this) in
  let _args := push_back _args (encode value) in
  Client_build_call (_client this) "InfernalRobotics" "Servo_set_MaxPosition"
      _args.

(** [InfernalRobotics::Servo::min_config_position_call],
    infernal_robotics.hpp line 1084 *)
Definition min_config_position_call (this : InfernalRobotics.Servo)
    : Prog schema_ProcedureCall :=
  let _args : list bytes := [] in
  let _args := push_back _args (encode this) in
  Client_build_call (_client this) "InfernalRobotics"
      "Servo_get_MinConfigPosition" _args.

(** [InfernalRobotics::Servo::min_position_call],
    infernal_robotics.hpp line 1090 *)
Definition min_position_call (this : InfernalRobotics.Servo)
    : Prog schema_ProcedureCall :=
  let _args : list bytes := [] in
  let _args := push_back _args (encode this) in
  Client_build_call (_client this) "InfernalRobotics" "Servo_get_MinPosition"
      _args.

(** [InfernalRobotics::Servo::set_min_position_call],
    infernal_robotics.hpp line 1096 *)
Definition set_min_position_call (this : InfernalRobotics.Servo)
    (value : float) : Prog schema_ProcedureCall :=
  let _args : list bytes := [] in
  let _args := push_back _args (encode this) in
  let _args := push_back _args (encode value) in
  Client_build_call (_client this) "InfernalRobotics" "Servo_set_MinPosition"
      _args.

(** [InfernalRobotics::Servo::name_call], infernal_robotics.hpp line 1103 *)
Definition name_call (this : InfernalRobotics.Servo)
    : Prog schema_ProcedureCall :=
  let _args : list bytes := [] in
  let _args := push_back _args (encode this) in
  Client_build_call (_client this) "InfernalRobotics" "Servo_get_Name" _args.

(** [InfernalRobotics::Servo::set_name_call],
    infernal_robotics.hpp line 1109 *)
Definition set_name_call (this : InfernalRobotics.Servo) (value : string)
    : Prog schema_ProcedureCall :=
  let _args : list bytes := [] in
  let _args := push_back _args (encode this) in
  let _args := push_back _args (encode value) in
  Client_build_call (_client this) "InfernalRobotics" "Servo_set_Name" _args.

(** [InfernalRobotics::Servo::part_call], infernal_robotics.hpp line 1116 *)
Definition part_call (this : InfernalRobotics.Servo)
    : Prog schema_ProcedureCall :=
  let _args : list bytes := [] in
  let _args := push_back _args (encode this) in
  Client_build_call (_client this) "InfernalRobotics" "Servo_get_Part" _args.

(** [InfernalRobotics::Servo::position_call],
    infernal_robotics.hpp line 1122 *)
Definition position_call (this : InfernalRobotics.Servo)
    : Prog schema_ProcedureCall :=
  let _args : list bytes := [] in
  let _args := push_back _args (encode this) in
  Client_build_call (_client this) "InfernalRobotics" "Servo_get_Position"
      _args.

(** [InfernalRobotics::Servo::speed_call], infernal_robotics.hpp line 1128 *)
Definition speed_call (this : InfernalRobotics.Servo)
    : Prog schema_ProcedureCall :=
  let _args : list bytes := [] in
  let _args := push_back _args (encode this) in
  Client_build_call (_client this) "InfernalRobotics" "Servo_get_Speed" _args.

(** [InfernalRobotics::Servo::set_speed_call],
    infernal_robotics.hpp line 1134 *)
Definition set_speed_call (this : InfernalRobotics.Servo) (value : float)
    : Prog schema_ProcedureCall :=
  let _args : list bytes := [] in
  let _args := push_back _args (encode this) in
  let _args := push_back _args (encode value) in
  Client_build_call (_client this) "InfernalRobotics" "Servo_set_Speed" _args.

End Methods.

End Servo.

(** [class InfernalRobotics::ServoGroup] *)
Module ServoGroup.
Section Methods.
Context {RT : Runtime}.

(** [InfernalRobotics::ServoGroup::ServoGroup], line 1141; declared
    [explicit ServoGroup(Client* client = nullptr, uint64_t id = 0)], line 347
        *)
Definition ServoGroup (client : option Client_ptr) (id : option uint64_t)
    : InfernalRobotics.ServoGroup :=
  let client := default_arg nullptr client in
  let id := default_arg 0%N id in
  Object_ "InfernalRobotics::ServoGroup" client id.

(** [InfernalRobotics::ServoGroup::move_center],
    infernal_robotics.hpp line 1144 *)
Definition move_center (this : InfernalRobotics.ServoGroup) : Prog unit :=
  let _args : list bytes := [] in
  let _args := push_back _args (encode this) in
  Client_invoke (_client this) "InfernalRobotics" "ServoGroup_MoveCenter"
      _args;;
  mret ().

(** [InfernalRobotics::ServoGroup::move_left],
    infernal_robotics.hpp line 1150 *)
Definition move_left (this : InfernalRobotics.ServoGroup) : Prog unit :=
  let _args : list bytes := [] in
  let _args := push_back _args (encode this) in
  Client_invoke (_client this) "InfernalRobotics" "ServoGroup_MoveLeft"
      _args;;
  mret ().

(** [InfernalRobotics::ServoGroup::move_next_preset],
    infernal_robotics.hpp line 1156 *)
Definition move_next_preset (this : InfernalRobotics.ServoGroup)
    : Prog unit :=
  let _args : list bytes := [] in
  let _args := push_back _args (encode this) in
  Client_invoke (_client this) "InfernalRobotics" "ServoGroup_MoveNextPreset"
      _args;;
  mret ().

(** [InfernalRobotics::ServoGroup::move_prev_preset],
    infernal_robotics.hpp line 1162 *)
Definition move_prev_preset (this : InfernalRobotics.ServoGroup)
    : Prog unit :=
  let _args : list bytes := [] in
  let _args := push_back _args (encode this) in
  Client_invoke (_client this) "InfernalRobotics" "ServoGroup_MovePrevPreset"
      _args;;
  mret ().

(** [InfernalRobotics::ServoGroup::move_right],
    infernal_robotics.hpp line 1168 *)
Definition move_right (this : InfernalRobotics.ServoGroup) : Prog unit :=
  let _args : list bytes := [] in
  let _args := push_back _args (encode this) in
  Client_invoke (_client this) "InfernalRobotics" "ServoGroup_MoveRight"
      _args;;
  mret ().

(** [InfernalRobotics::ServoGroup::servo_with_name],
    infernal_robotics.hpp line 1174 *)
Definition servo_with_name (this : InfernalRobotics.ServoGroup)
    (name : string) : Prog InfernalRobotics.Servo :=
  let _args : list bytes := [] in
  let _args := push_back _args (encode this) in
  let _args := push_back _args (encode name) in
  _data ← Client_invoke (_client this) "InfernalRobotics"
      "ServoGroup_ServoWithName" _args;
  _result ← decoder_decode (T := InfernalRobotics.Servo) _data (_client this);
  mret _result.

(** [InfernalRobotics::ServoGroup::stop], infernal_robotics.hpp line 1184 *)
Definition stop (this : InfernalRobotics.ServoGroup) : Prog unit :=
  let _args : list bytes := [] in
  let _args := push_back _args (encode this) in
  Client_invoke (_client this) "InfernalRobotics" "ServoGroup_Stop" _args;;
  mret ().

(** [InfernalRobotics::ServoGroup::expanded],
    infernal_robotics.hpp line 1190 *)
Definition expanded (this : InfernalRobotics.ServoGroup) : Prog bool :=
  let _args : list bytes := [] in
  let _args := push_back _args (encode this) in
  _data ← Client_invoke (_client this) "InfernalRobotics"
      "ServoGroup_get_Expanded" _args;
  _result ← decoder_decode (T := bool) _data (_client this);
  mret _result.

(** [InfernalRobotics::ServoGroup::set_expanded],
    infernal_robotics.hpp line 1199 *)
Definition set_expanded (this : InfernalRobotics.ServoGroup) (value : bool)
    : Prog unit :=
  let _args : list bytes := [] in
  let _args := push_back _args (encode this) in
  let _args := push_back _args (encode value) in
  Client_invoke (_client this) "InfernalRobotics" "ServoGroup_set_Expanded"
      _args;;
  mret ().

(** [InfernalRobotics::ServoGroup::forward_key],
    infernal_robotics.hpp line 1206 *)
Definition forward_key (this : InfernalRobotics.ServoGroup) : Prog string :=
  let _args : list bytes := [] in
  let _args := push_back _args (encode this) in
  _data ← Client_invoke (_client this) "InfernalRobotics"
      "ServoGroup_get_ForwardKey" _args;
  _result ← decoder_decode (T := string) _data (_client this);
  mret _result.

(** [InfernalRobotics::ServoGroup::set_forward_key],
    infernal_robotics.hpp line 1215 *)
Definition set_forward_key (this : InfernalRobotics.ServoGroup)
    (value : string) : Prog unit :=
  let _args : list bytes := [] in
  let _args := push_back _args (encode this) in
  let _args := push_back _args (encode value) in
  Client_invoke (_client this) "InfernalRobotics" "ServoGroup_set_ForwardKey"
      _args;;
  mret ().

(** [InfernalRobotics::ServoGroup::name], infernal_robotics.hpp line 1222 *)
Definition name (this : InfernalRobotics.ServoGroup) : Prog string :=
  let _args : list bytes := [] in
  let _args := push_back _args (encode this) in
  _data ← Client_invoke (_client this) "InfernalRobotics"
      "ServoGroup_get_Name" _args;
  _result ← decoder_decode (T := string) _data (_client this);
  mret _result.

(** [InfernalRobotics::ServoGroup::set_name],
    infernal_robotics.hpp line 1231 *)
Definition set_name (this : InfernalRobotics.ServoGroup) (value : string)
    : Prog unit :=
  let _args : list bytes := [] in
  let _args := push_back _args (encode this) in
  let _args := push_back _args (encode value) in
  Client_invoke (_client this) "InfernalRobotics" "ServoGroup_set_Name"
      _args;;
  mret ().

(** [InfernalRobotics::ServoGroup::parts], infernal_robotics.hpp line 1238 *)
Definition parts (this : InfernalRobotics.ServoGroup)
    : Prog (list SpaceCenter.Part) :=
  let _args : list bytes := [] in
  let _args := push_back _args (encode this) in
  _data ← Client_invoke (_client this) "InfernalRobotics"
      "ServoGroup_get_Parts" _args;
  _result ← decoder_decode (T := list SpaceCenter.Part) _data (_client this);
  mret _result.

(** [InfernalRobotics::ServoGroup::reverse_key],
    infernal_robotics.hpp line 1247 *)
Definition reverse_key (this : InfernalRobotics.ServoGroup) : Prog string :=
  let _args : list bytes := [] in
  let _args := push_back _args (encode this) in
  _data ← Client_invoke (_client this) "InfernalRobotics"
      "ServoGroup_get_ReverseKey" _args;
  _result ← decoder_decode (T := string) _data (_client this);
  mret _result.

(** [InfernalRobotics::ServoGroup::set_reverse_key],
    infernal_robotics.hpp line 1256 *)
Definition set_reverse_key (this : InfernalRobotics.ServoGroup)
    (value : string) : Prog unit :=
  let _args : list bytes := [] in
  let _args := push_back _args (encode this) in
  let _args := push_back _args (encode value) in
  Client_invoke (_client this) "InfernalRobotics" "ServoGroup_set_ReverseKey"
      _args;;
  mret ().

(** [InfernalRobotics::ServoGroup::servos], infernal_robotics.hpp line 1263 *)
Definition servos (this : InfernalRobotics.ServoGroup)
    : Prog (list InfernalRobotics.Servo) :=
  let _args : list bytes := [] in
  let _args := push_back _args (encode this) in
  _data ← Client_invoke (_client this) "InfernalRobotics"
      "ServoGroup_get_Servos" _args;
  _result ← decoder_decode (T := list InfernalRobotics.Servo) _data (_client
      this);
  mret _result.

(** [InfernalRobotics::ServoGroup::speed], infernal_robotics.hpp line 1272 *)
Definition speed (this : InfernalRobotics.ServoGroup) : Prog float :=
  let _args : list bytes := [] in
  let _args := push_back _args (encode this) in
  _data ← Client_invoke (_client this) "InfernalRobotics"
      "ServoGroup_get_Speed" _args;
  _result ← decoder_decode (T := float) _data (_client this);
  mret _result.

(** [InfernalRobotics::ServoGroup::set_speed],
    infernal_robotics.hpp line 1281 *)
Definition set_speed (this : InfernalRobotics.ServoGroup) (value : float)
    : Prog unit :=
  let _args : list bytes := [] in
  let _args := push_back _args (encode this) in
  let _args := push_back _args (encode value) in
  Client_invoke (_client this) "InfernalRobotics" "ServoGroup_set_Speed"
      _args;;
  mret ().

(** [InfernalRobotics::ServoGroup::servo_with_name_stream],
    infernal_robotics.hpp line 1288 *)
Definition servo_with_name_stream (this : InfernalRobotics.ServoGroup)
    (name : string) : Prog (Stream InfernalRobotics.Servo) :=
  let _args : list bytes := [] in
  let _args := push_back _args (encode this) in
  let _args := push_back _args (encode name) in
  _call ← Client_build_call (_client this) "InfernalRobotics"
      "ServoGroup_ServoWithName" _args;
  Stream_ InfernalRobotics.Servo (_client this) _call.

(** [InfernalRobotics::ServoGroup::expanded_stream],
    infernal_robotics.hpp line 1295 *)
Definition expanded_stream (this : InfernalRobotics.ServoGroup)
    : Prog (Stream bool) :=
  let _args : list bytes := [] in
  let _args := push_back _args (encode this) in
  _call ← Client_build_call (_client this) "InfernalRobotics"
      "ServoGroup_get_Expanded" _args;
  Stream_ bool (_client this) _call.

(** [InfernalRobotics::ServoGroup::forward_key_stream],
    infernal_robotics.hpp line 1301 *)
Definition forward_key_stream (this : InfernalRobotics.ServoGroup)
    : Prog (Stream string) :=
  let _args : list bytes := [] in
  let _args := push_back _args (encode this) in
  _call ← Client_build_call (_client this) "InfernalRobotics"
      "ServoGroup_get_ForwardKey" _args;
  Stream_ string (_client this) _call.

(** [InfernalRobotics::ServoGroup::name_stream],
    infernal_robotics.hpp line 1307 *)
Definition name_stream (this : InfernalRobotics.ServoGroup)
    : Prog (Stream string) :=
  let _args : list bytes := [] in
  let _args := push_back _args (encode this) in
  _call ← Client_build_call (_client this) "InfernalRobotics"
      "ServoGroup_get_Name" _args;
  Stream_ string (_client this) _call.

(** [InfernalRobotics::ServoGroup::parts_stream],
    infernal_robotics.hpp line 1313 *)
Definition parts_stream (this : InfernalRobotics.ServoGroup)
    : Prog (Stream (list SpaceCenter.Part)) :=
  let _args : list bytes := [] in
  let _args := push_back _args (encode this) in
  _call ← Client_build_call (_client this) "InfernalRobotics"
      "ServoGroup_get_Parts" _args;
  Stream_ (list SpaceCenter.Part) (_client this) _call.

(** [InfernalRobotics::ServoGroup::reverse_key_stream],
    infernal_robotics.hpp line 1319 *)
Definition reverse_key_stream (this : InfernalRobotics.ServoGroup)
    : Prog (Stream string) :=
  let _args : list bytes := [] in
  let _args := push_back _args (encode this) in
  _call ← Client_build_call (_client this) "InfernalRobotics"
      "ServoGroup_get_ReverseKey" _args;
  Stream_ string (_client this) _call.

(** [InfernalRobotics::ServoGroup::servos_stream],
    infernal_robotics.hpp line 1325 *)
Definition servos_stream (this : InfernalRobotics.ServoGroup)
    : Prog (Stream (list InfernalRobotics.Servo)) :=
  let _args : list bytes := [] in
  let _args := push_back _args (encode this) in
  _call ← Client_build_call (_client this) "InfernalRobotics"
      "ServoGroup_get_Servos" _args;
  Stream_ (list InfernalRobotics.Servo) (_client this) _call.

(** [InfernalRobotics::ServoGroup::speed_stream],
    infernal_robotics.hpp line 1331 *)
Definition speed_stream (this : InfernalRobotics.ServoGroup)
    : Prog (Stream float) :=
  let _args : list bytes := [] in
  let _args := push_back _args (encode this) in
  _call ← Client_build_call (_client this) "InfernalRobotics"
      "ServoGroup_get_Speed" _args;
  Stream_ float (_client this) _call.

(** [InfernalRobotics::ServoGroup::move_center_call],
    infernal_robotics.hpp line 1337 *)
Definition move_center_call (this : InfernalRobotics.ServoGroup)
    : Prog schema_ProcedureCall :=
  let _args : list bytes := [] in
  let _args := push_back _args (encode this) in
  Client_build_call (_client this) "InfernalRobotics" "ServoGroup_MoveCenter"
      _args.

(** [InfernalRobotics::ServoGroup::move_left_call],
    infernal_robotics.hpp line 1343 *)
Definition move_left_call (this : InfernalRobotics.ServoGroup)
    : Prog schema_ProcedureCall :=
  let _args : list bytes := [] in
  let _args := push_back _args (encode this) in
  Client_build_call (_client this) "InfernalRobotics" "ServoGroup_MoveLeft"
      _args.

(** [InfernalRobotics::ServoGroup::move_next_preset_call],
    infernal_robotics.hpp line 1349 *)
Definition move_next_preset_call (this : InfernalRobotics.ServoGroup)
    : Prog schema_ProcedureCall :=
  let _args : list bytes := [] in
  let _args := push_back _args (encode this) in
  Client_build_call (_client this) "InfernalRobotics"
      "ServoGroup_MoveNextPreset" _args.

(** [InfernalRobotics::ServoGroup::move_prev_preset_call],
    infernal_robotics.hpp line 1355 *)
Definition move_prev_preset_call (this : InfernalRobotics.ServoGroup)
    : Prog schema_ProcedureCall :=
  let _args : list bytes := [] in
  let _args := push_back _args (encode this) in
  Client_build_call (_client this) "InfernalRobotics"
      "ServoGroup_MovePrevPreset" _args.

(** [InfernalRobotics::ServoGroup::move_right_call],
    infernal_robotics.hpp line 1361 *)
Definition move_right_call (this : InfernalRobotics.ServoGroup)
    : Prog schema_ProcedureCall :=
  let _args : list bytes := [] in
  let _args := push_back _args (encode this) in
  Client_build_call (_client this) "InfernalRobotics" "ServoGroup_MoveRight"
      _args.

(** [InfernalRobotics::ServoGroup::servo_with_name_call],
    infernal_robotics.hpp line 1367 *)
Definition servo_with_name_call (this : InfernalRobotics.ServoGroup)
    (name : string) : Prog schema_ProcedureCall :=
  let _args : list bytes := [] in
  let _args := push_back _args (encode this) in
  let _args := push_back _args (encode name) in
  Client_build_call (_client this) "InfernalRobotics"
      "ServoGroup_ServoWithName" _args.

(** [InfernalRobotics::ServoGroup::stop_call],
    infernal_robotics.hpp line 1374 *)
Definition stop_call (this : InfernalRobotics.ServoGroup)
    : Prog schema_ProcedureCall :=
  let _args : list bytes := [] in
  let _args := push_back _args (encode this) in
  Client_build_call (_client this) "InfernalRobotics" "ServoGroup_Stop" _args.

(** [InfernalRobotics::ServoGroup::expanded_call],
    infernal_robotics.hpp line 1380 *)
Definition expanded_call (this : InfernalRobotics.ServoGroup)
    : Prog schema_ProcedureCall :=
  let _args : list bytes := [] in
  let _args := push_back _args (encode this) in
  Client_build_call (_client this) "InfernalRobotics"
      "ServoGroup_get_Expanded" _args.

(** [InfernalRobotics::ServoGroup::set_expanded_call],
    infernal_robotics.hpp line 1386 *)
Definition set_expanded_call (this : InfernalRobotics.ServoGroup)
    (value : bool) : Prog schema_ProcedureCall :=
  let _args : list bytes := [] in
  let _args := push_back _args (encode this) in
  let _args := push_back _args (encode value) in
  Client_build_call (_client this) "InfernalRobotics"
      "ServoGroup_set_Expanded" _args.

(** [InfernalRobotics::ServoGroup::forward_key_call],
    infernal_robotics.hpp line 1393 *)
Definition forward_key_call (this : InfernalRobotics.ServoGroup)
    : Prog schema_ProcedureCall :=
  let _args : list bytes := [] in
  let _args := push_back _args (encode this) in
  Client_build_call (_client this) "InfernalRobotics"
      "ServoGroup_get_ForwardKey" _args.

(** [InfernalRobotics::ServoGroup::set_forward_key_call],
    infernal_robotics.hpp line 1399 *)
Definition set_forward_key_call (this : InfernalRobotics.ServoGroup)
    (value : string) : Prog schema_ProcedureCall :=
  let _args : list bytes := [] in
  let _args := push_back _args (encode this) in
  let _args := push_back _args (encode value) in
  Client_build_call (_client this) "InfernalRobotics"
      "ServoGroup_set_ForwardKey" _args.

(** [InfernalRobotics::ServoGroup::name_call],
    infernal_robotics.hpp line 1406 *)
Definition name_call (this : InfernalRobotics.ServoGroup)
    : Prog schema_ProcedureCall :=
  let _args : list bytes := [] in
  let _args := push_back _args (encode this) in
  Client_build_call (_client this) "InfernalRobotics" "ServoGroup_get_Name"
      _args.

(** [InfernalRobotics::ServoGroup::set_name_call],
    infernal_robotics.hpp line 1412 *)
Definition set_name_call (this : InfernalRobotics.ServoGroup) (value : string)
    : Prog schema_ProcedureCall :=
  let _args : list bytes := [] in
  let _args := push_back _args (encode this) in
  let _args := push_back _args (encode value) in
  Client_build_call (_client this) "InfernalRobotics" "ServoGroup_set_Name"
      _args.

(** [InfernalRobotics::ServoGroup::parts_call],
    infernal_robotics.hpp line 1419 *)
Definition parts_call (this : InfernalRobotics.ServoGroup)
    : Prog schema_ProcedureCall :=
  let _args : list bytes := [] in
  let _args := push_back _args (encode this) in
  Client_build_call (_client this) "InfernalRobotics" "ServoGroup_get_Parts"
      _args.

(** [InfernalRobotics::ServoGroup::reverse_key_call],
    infernal_robotics.hpp line 1425 *)
Definition reverse_key_call (this : InfernalRobotics.ServoGroup)
    : Prog schema_ProcedureCall :=
  let _args : list bytes := [] in
  let _args := push_back _args (encode this) in
  Client_build_call (_client this) "InfernalRobotics"
      "ServoGroup_get_ReverseKey" _args.

(** [InfernalRobotics::ServoGroup::set_reverse_key_call],
    infernal_robotics.hpp line 1431 *)
Definition set_reverse_key_call (this : InfernalRobotics.ServoGroup)
    (value : string) : Prog schema_ProcedureCall :=
  let _args : list bytes := [] in
  let _args := push_back _args (encode this) in
  let _args := push_back _args (encode value) in
  Client_build_call (_client this) "InfernalRobotics"
      "ServoGroup_set_ReverseKey" _args.

(** [InfernalRobotics::ServoGroup::servos_call],
    infernal_robotics.hpp line 1438 *)
Definition servos_call (this : InfernalRobotics.ServoGroup)
    : Prog schema_ProcedureCall :=
  let _args : list bytes := [] in
  let _args := push_back _args (encode this) in
  Client_build_call (_client this) "InfernalRobotics" "ServoGroup_get_Servos"
      _args.

(** [InfernalRobotics::ServoGroup::speed_call],
    infernal_robotics.hpp line 1444 *)
Definition speed_call (this : InfernalRobotics.ServoGroup)
    : Prog schema_ProcedureCall :=
  let _args : list bytes := [] in
  let _args := push_back _args (encode this) in
  Client_build_call (_client this) "InfernalRobotics" "ServoGroup_get_Speed"
      _args.

(** [InfernalRobotics::ServoGroup::set_speed_call],
    infernal_robotics.hpp line 1450 *)
Definition set_speed_call (this : InfernalRobotics.ServoGroup) (value : float)
    : Prog schema_ProcedureCall :=
  let _args : list bytes := [] in
  let _args := push_back _args (encode this) in
  let _args := push_back _args (encode value) in
  Client_build_call (_client this) "InfernalRobotics" "ServoGroup_set_Speed"
      _args.

End Methods.

End ServoGroup.

Section Table.
Context {RT : Runtime}.

(** The remote procedures of the service, in the order of the sources. *)
Definition operations : list Operation := [
  Value_op "InfernalRobotics::servo_group_with_name" Service_method
    (Args := SpaceCenter.Vessel * string)
    (λ '(vessel, name), [encode vessel; encode name])
    (λ this '(vessel, name), servo_group_with_name this vessel name)
    (λ this '(vessel, name), servo_group_with_name_stream this vessel name)
    (λ this '(vessel, name), servo_group_with_name_call this vessel name);
  Value_op "InfernalRobotics::servo_groups" Service_method
    (Args := SpaceCenter.Vessel)
    (λ vessel, [encode vessel])
    (λ this vessel, servo_groups this vessel)
    (λ this vessel, servo_groups_stream this vessel)
    (λ this vessel, servo_groups_call this vessel);
  Value_op "InfernalRobotics::servo_with_name" Service_method
    (Args := SpaceCenter.Vessel * string)
    (λ '(vessel, name), [encode vessel; encode name])
    (λ this '(vessel, name), servo_with_name this vessel name)
    (λ this '(vessel, name), servo_with_name_stream this vessel name)
    (λ this '(vessel, name), servo_with_name_call this vessel name);
  Value_op "InfernalRobotics::available" Service_method
    (Args := unit)
    (λ _, [])
    (λ this _, available this)
    (λ this _, available_stream this)
    (λ this _, available_call this);
  Value_op "InfernalRobotics::ready" Service_method
    (Args := unit)
    (λ _, [])
    (λ this _, ready this)
    (λ this _, ready_stream this)
    (λ this _, ready_call this);
  Void_op "InfernalRobotics::Servo::move_center" (Object_method
      "InfernalRobotics::Servo")
    (Args := unit)
    (λ _, [])
    (λ this _, Servo.move_center this)
    (λ this _, Servo.move_center_call this);
  Void_op "InfernalRobotics::Servo::move_left" (Object_method
      "InfernalRobotics::Servo")
    (Args := unit)
    (λ _, [])
    (λ this _, Servo.move_left this)
    (λ this _, Servo.move_left_call this);
  Void_op "InfernalRobotics::Servo::move_next_preset" (Object_method
      "InfernalRobotics::Servo")
    (Args := unit)
    (λ _, [])
    (λ this _, Servo.move_next_preset this)
    (λ this _, Servo.move_next_preset_call this);
  Void_op "InfernalRobotics::Servo::move_prev_preset" (Object_method
      "InfernalRobotics::Servo")
    (Args := unit)
    (λ _, [])
    (λ this _, Servo.move_prev_preset this)
    (λ this _, Servo.move_prev_preset_call this);
  Void_op "InfernalRobotics::Servo::move_right" (Object_method
      "InfernalRobotics::Servo")
    (Args := unit)
    (λ _, [])
    (λ this _, Servo.move_right this)
    (λ this _, Servo.move_right_call this);
  Void_op "InfernalRobotics::Servo::move_to" (Object_method
      "InfernalRobotics::Servo")
    (Args := float * float)
    (λ '(position, speed), [encode position; encode speed])
    (λ this '(position, speed), Servo.move_to this position speed)
    (λ this '(position, speed), Servo.move_to_call this position speed);
  Void_op "InfernalRobotics::Servo::stop" (Object_method
      "InfernalRobotics::Servo")
    (Args := unit)
    (λ _, [])
    (λ this _, Servo.stop this)
    (λ this _, Servo.stop_call this);
  Value_op "InfernalRobotics::Servo::acceleration" (Object_method
      "InfernalRobotics::Servo")
    (Args := unit)
    (λ _, [])
    (λ this _, Servo.acceleration this)
    (λ this _, Servo.acceleration_stream this)
    (λ this _, Servo.acceleration_call this);
  Void_op "InfernalRobotics::Servo::set_acceleration" (Object_method
      "InfernalRobotics::Servo")
    (Args := float)
    (λ value, [encode value])
    (λ this value, Servo.set_acceleration this value)
    (λ this value, Servo.set_acceleration_call this value);
  Value_op "InfernalRobotics::Servo::config_speed" (Object_method
      "InfernalRobotics::Servo")
    (Args := unit)
    (λ _, [])
    (λ this _, Servo.config_speed this)
    (λ this _, Servo.config_speed_stream this)
    (λ this _, Servo.config_speed_call this);
  Value_op "InfernalRobotics::Servo::current_speed" (Object_method
      "InfernalRobotics::Servo")
    (Args := unit)
    (λ _, [])
    (λ this _, Servo.current_speed this)
    (λ this _, Servo.current_speed_stream this)
    (λ this _, Servo.current_speed_call this);
  Void_op "InfernalRobotics::Servo::set_current_speed" (Object_method
      "InfernalRobotics::Servo")
    (Args := float)
    (λ value, [encode value])
    (λ this value, Servo.set_current_speed this value)
    (λ this value, Servo.set_current_speed_call this value);
  Void_op "InfernalRobotics::Servo::set_highlight" (Object_method
      "InfernalRobotics::Servo")
    (Args := bool)
    (λ value, [encode value])
    (λ this value, Servo.set_highlight this value)
    (λ this value, Servo.set_highlight_call this value);
  Value_op "InfernalRobotics::Servo::is_axis_inverted" (Object_method
      "InfernalRobotics::Servo")
    (Args := unit)
    (λ _, [])
    (λ this _, Servo.is_axis_inverted this)
    (λ this _, Servo.is_axis_inverted_stream this)
    (λ this _, Servo.is_axis_inverted_call this);
  Void_op "InfernalRobotics::Servo::set_is_axis_inverted" (Object_method
      "InfernalRobotics::Servo")
    (Args := bool)
    (λ value, [encode value])
    (λ this value, Servo.set_is_axis_inverted this value)
    (λ this value, Servo.set_is_axis_inverted_call this value);
  Value_op "InfernalRobotics::Servo::is_free_moving" (Object_method
      "InfernalRobotics::Servo")
    (Args := unit)
    (λ _, [])
    (λ this _, Servo.is_free_moving this)
    (λ this _, Servo.is_free_moving_stream this)
    (λ this _, Servo.is_free_moving_call this);
  Value_op "InfernalRobotics::Servo::is_locked" (Object_method
      "InfernalRobotics::Servo")
    (Args := unit)
    (λ _, [])
    (λ this _, Servo.is_locked this)
    (λ this _, Servo.is_locked_stream this)
    (λ this _, Servo.is_locked_call this);
  Void_op "InfernalRobotics::Servo::set_is_locked" (Object_method
      "InfernalRobotics::Servo")
    (Args := bool)
    (λ value, [encode value])
    (λ this value, Servo.set_is_locked this value)
    (λ this value, Servo.set_is_locked_call this value);
  Value_op "InfernalRobotics::Servo::is_moving" (Object_method
      "InfernalRobotics::Servo")
    (Args := unit)
    (λ _, [])
    (λ this _, Servo.is_moving this)
    (λ this _, Servo.is_moving_stream this)
    (λ this _, Servo.is_moving_call this);
  Value_op "InfernalRobotics::Servo::max_config_position" (Object_method
      "InfernalRobotics::Servo")
    (Args := unit)
    (λ _, [])
    (λ this _, Servo.max_config_position this)
    (λ this _, Servo.max_config_position_stream this)
    (λ this _, Servo.max_config_position_call this);
  Value_op "InfernalRobotics::Servo::max_position" (Object_method
      "InfernalRobotics::Servo")
    (Args := unit)
    (λ _, [])
    (λ this _, Servo.max_position this)
    (λ this _, Servo.max_position_stream this)
    (λ this _, Servo.max_position_call this);
  Void_op "InfernalRobotics::Servo::set_max_position" (Object_method
      "InfernalRobotics::Servo")
    (Args := float)
    (λ value, [encode value])
    (λ this value, Servo.set_max_position this value)
    (λ this value, Servo.set_max_position_call this value);
  Value_op "InfernalRobotics::Servo::min_config_position" (Object_method
      "InfernalRobotics::Servo")
    (Args := unit)
    (λ _, [])
    (λ this _, Servo.min_config_position this)
    (λ this _, Servo.min_config_position_stream this)
    (λ this _, Servo.min_config_position_call this);
  Value_op "InfernalRobotics::Servo::min_position" (Object_method
      "InfernalRobotics::Servo")
    (Args := unit)
    (λ _, [])
    (λ this _, Servo.min_position this)
    (λ this _, Servo.min_position_stream this)
    (λ this _, Servo.min_position_call this);
  Void_op "InfernalRobotics::Servo::set_min_position" (Object_method
      "InfernalRobotics::Servo")
    (Args := float)
    (λ value, [encode value])
    (λ this value, Servo.set_min_position this value)
    (λ this value, Servo.set_min_position_call this value);
  Value_op "InfernalRobotics::Servo::name" (Object_method
      "InfernalRobotics::Servo")
    (Args := unit)
    (λ _, [])
    (λ this _, Servo.name this)
    (λ this _, Servo.name_stream this)
    (λ this _, Servo.name_call this);
  Void_op "InfernalRobotics::Servo::set_name" (Object_method
      "InfernalRobotics::Servo")
    (Args := string)
    (λ value, [encode value])
    (λ this value, Servo.set_name this value)
    (λ this value, Servo.set_name_call this value);
  Value_op "InfernalRobotics::Servo::part" (Object_method
      "InfernalRobotics::Servo")
    (Args := unit)
    (λ _, [])
    (λ this _, Servo.part this)
    (λ this _, Servo.part_stream this)
    (λ this _, Servo.part_call this);
  Value_op "InfernalRobotics::Servo::position" (Object_method
      "InfernalRobotics::Servo")
    (Args := unit)
    (λ _, [])
    (λ this _, Servo.position this)
    (λ this _, Servo.position_stream this)
    (λ this _, Servo.position_call this);
  Value_op "InfernalRobotics::Servo::speed" (Object_method
      "InfernalRobotics::Servo")
    (Args := unit)
    (λ _, [])
    (λ this _, Servo.speed this)
    (λ this _, Servo.speed_stream this)
    (λ this _, Servo.speed_call this);
  Void_op "InfernalRobotics::Servo::set_speed" (Object_method
      "InfernalRobotics::Servo")
    (Args := float)
    (λ value, [encode value])
    (λ this value, Servo.set_speed this value)
    (λ this value, Servo.set_speed_call this value);
  Void_op "InfernalRobotics::ServoGroup::move_center" (Object_method
      "InfernalRobotics::ServoGroup")
    (Args := unit)
    (λ _, [])
    (λ this _, ServoGroup.move_center this)
    (λ this _, ServoGroup.move_center_call this);
  Void_op "InfernalRobotics::ServoGroup::move_left" (Object_method
      "InfernalRobotics::ServoGroup")
    (Args := unit)
    (λ _, [])
    (λ this _, ServoGroup.move_left this)
    (λ this _, ServoGroup.move_left_call this);
  Void_op "InfernalRobotics::ServoGroup::move_next_preset" (Object_method
      "InfernalRobotics::ServoGroup")
    (Args := unit)
    (λ _, [])
    (λ this _, ServoGroup.move_next_preset this)
    (λ this _, ServoGroup.move_next_preset_call this);
  Void_op "InfernalRobotics::ServoGroup::move_prev_preset" (Object_method
      "InfernalRobotics::ServoGroup")
    (Args := unit)
    (λ _, [])
    (λ this _, ServoGroup.move_prev_preset this)
    (λ this _, ServoGroup.move_prev_preset_call this);
  Void_op "InfernalRobotics::ServoGroup::move_right" (Object_method
      "InfernalRobotics::ServoGroup")
    (Args := unit)
    (λ _, [])
    (λ this _, ServoGroup.move_right this)
    (λ this _, ServoGroup.move_right_call this);
  Value_op "InfernalRobotics::ServoGroup::servo_with_name" (Object_method
      "InfernalRobotics::ServoGroup")
    (Args := string)
    (λ name, [encode name])
    (λ this name, ServoGroup.servo_with_name this name)
    (λ this name, ServoGroup.servo_with_name_stream this name)
    (λ this name, ServoGroup.servo_with_name_call this name);
  Void_op "InfernalRobotics::ServoGroup::stop" (Object_method
      "InfernalRobotics::ServoGroup")
    (Args := unit)
    (λ _, [])
    (λ this _, ServoGroup.stop this)
    (λ this _, ServoGroup.stop_call this);
  Value_op "InfernalRobotics::ServoGroup::expanded" (Object_method
      "InfernalRobotics::ServoGroup")
    (Args := unit)
    (λ _, [])
    (λ this _, ServoGroup.expanded this)
    (λ this _, ServoGroup.expanded_stream this)
    (λ this _, ServoGroup.expanded_call this);
  Void_op "InfernalRobotics::ServoGroup::set_expanded" (Object_method
      "InfernalRobotics::ServoGroup")
    (Args := bool)
    (λ value, [encode value])
    (λ this value, ServoGroup.set_expanded this value)
    (λ this value, ServoGroup.set_expanded_call this value);
  Value_op "InfernalRobotics::ServoGroup::forward_key" (Object_method
      "InfernalRobotics::ServoGroup")
    (Args := unit)
    (λ _, [])
    (λ this _, ServoGroup.forward_key this)
    (λ this _, ServoGroup.forward_key_stream this)
    (λ this _, ServoGroup.forward_key_call this);
  Void_op "InfernalRobotics::ServoGroup::set_forward_key" (Object_method
      "InfernalRobotics::ServoGroup")
    (Args := string)
    (λ value, [encode value])
    (λ this value, ServoGroup.set_forward_key this value)
    (λ this value, ServoGroup.set_forward_key_call this value);
  Value_op "InfernalRobotics::ServoGroup::name" (Object_method
      "InfernalRobotics::ServoGroup")
    (Args := unit)
    (λ _, [])
    (λ this _, ServoGroup.name this)
    (λ this _, ServoGroup.name_stream this)
    (λ this _, ServoGroup.name_call this);
  Void_op "InfernalRobotics::ServoGroup::set_name" (Object_method
      "InfernalRobotics::ServoGroup")
    (Args := string)
    (λ value, [encode value])
    (λ this value, ServoGroup.set_name this value)
    (λ this value, ServoGroup.set_name_call this value);
  Value_op "InfernalRobotics::ServoGroup::parts" (Object_method
      "InfernalRobotics::ServoGroup")
    (Args := unit)
    (λ _, [])
    (λ this _, ServoGroup.parts this)
    (λ this _, ServoGroup.parts_stream this)
    (λ this _, ServoGroup.parts_call this);
  Value_op "InfernalRobotics::ServoGroup::reverse_key" (Object_method
      "InfernalRobotics::ServoGroup")
    (Args := unit)
    (λ _, [])
    (λ this _, ServoGroup.reverse_key this)
    (λ this _, ServoGroup.reverse_key_stream this)
    (λ this _, ServoGroup.reverse_key_call this);
  Void_op "InfernalRobotics::ServoGroup::set_reverse_key" (Object_method
      "InfernalRobotics::ServoGroup")
    (Args := string)
    (λ value, [encode value])
    (λ this value, ServoGroup.set_reverse_key this value)
    (λ this value, ServoGroup.set_reverse_key_call this value);
  Value_op "InfernalRobotics::ServoGroup::servos" (Object_method
      "InfernalRobotics::ServoGroup")
    (Args := unit)
    (λ _, [])
    (λ this _, ServoGroup.servos this)
    (λ this _, ServoGroup.servos_stream this)
    (λ this _, ServoGroup.servos_call this);
  Value_op "InfernalRobotics::ServoGroup::speed" (Object_method
      "InfernalRobotics::ServoGroup")
    (Args := unit)
    (λ _, [])
    (λ this _, ServoGroup.speed this)
    (λ this _, ServoGroup.speed_stream this)
    (λ this _, ServoGroup.speed_call this);
  Void_op "InfernalRobotics::ServoGroup::set_speed" (Object_method
      "InfernalRobotics::ServoGroup")
    (Args := float)
    (λ value, [encode value])
    (λ this value, ServoGroup.set_speed this value)
    (λ this value, ServoGroup.set_speed_call this value)
].

End Table.

End InfernalRobotics.

(** ** All services *)

Section All_services.
Context {RT : Runtime}.

(** The remote procedures of the six services. *)
Definition operations : list Operation :=
  KRPC.operations ++ UI.operations ++ Drawing.operations ++
  KerbalAlarmClock.operations ++ RemoteTech.operations ++
  InfernalRobotics.operations.

Definition op_This (op : Operation) : Type :=
  match op with
  | @Void_op _ _ This _ _ _ _ _ => This
  | @Value_op _ _ This _ _ _ _ _ _ _ _ => This
  end.

Definition op_Args (op : Operation) : Type :=
  match op with
  | @Void_op _ _ _ Args _ _ _ _ => Args
  | @Value_op _ _ _ Args _ _ _ _ _ _ _ => Args
  end.

Definition op_how (op : Operation) : Receiver (op_This op) :=
  match op with
  | Void_op _ how _ _ _ => how
  | Value_op _ how _ _ _ _ => how
  end.

Definition op_params (op : Operation) : op_Args op → list bytes :=
  match op with
  | Void_op _ _ params _ _ => params
  | Value_op _ _ params _ _ _ => params
  end.

(** The [_call] variant of an operation. *)
Definition op_call (op : Operation)
    : op_This op → op_Args op → Prog schema_ProcedureCall :=
  match op with
  | Void_op _ _ _ _ call => call
  | Value_op _ _ _ _ _ call => call
  end.

Definition is_void (op : Operation) : bool :=
  match op with Void_op _ _ _ _ _ => true | Value_op _ _ _ _ _ _ => false end.

(** A program that makes no call: it returns or throws. *)
Definition final {A : Type} (p : Prog A) : Prop :=
  match p with Ret _ | Throw _ => True | _ => False end.

(** What every operation of the sources does.  With [c] the client of the
    receiver and [a] the encoding of the receiver, when it is a remote
    object, followed by the encodings of the parameters:
    - the method calls [invoke(service, procedure, a)] on [c]; a [void]
      method then returns, the others decode the answer with [c];
    - the [_stream] variant calls [build_call(service, procedure, a)] on
      [c] and constructs the stream from [c] and the descriptor;
    - the [_call] variant calls [build_call(service, procedure, a)] on [c]
      and returns the descriptor. *)
Definition follows_template (op : Operation) : Prop :=
  match op with
  | Void_op _ how params plain call =>
      ∃ service procedure, ∀ this args,
        let c := client_of how this in
        let a := receiver_args how this ++ params args in
        plain this args = Invoke c service procedure a (λ _, Ret ()) ∧
        call this args = Build_call c service procedure a Ret
  | @Value_op _ _ _ _ Ret_ _ how params plain stream call =>
      ∃ service procedure, ∀ this args,
        let c := client_of how this in
        let a := receiver_args how this ++ params args in
        (∃ k, plain this args = Invoke c service procedure a k ∧
              ∀ data, k data = match decode data c with
                               | Ok v => Ret v
                               | Err e => Throw e
                               end) ∧
        stream this args =
          Build_call c service procedure a
            (λ descriptor, Stream_ctor Ret_ c descriptor Ret) ∧
        call this args = Build_call c service procedure a Ret
  end.

(** The constructors of the remote-object classes. *)
Definition object_constructors
    : list { name : string &
             option Client_ptr → option uint64_t → Object name } := [
  existT "KRPC::Expression" KRPC.Expression.Expression;
  existT "KRPC::Type" KRPC.Type_.Type_;
  existT "UI::Button" UI.Button.Button;
  existT "UI::Canvas" UI.Canvas.Canvas;
  existT "UI::InputField" UI.InputField.InputField;
  existT "UI::Panel" UI.Panel.Panel;
  existT "UI::RectTransform" UI.RectTransform.RectTransform;
  existT "UI::Text" UI.Text.Text;
  existT "Drawing::Line" Drawing.Line.Line;
  existT "Drawing::Polygon" Drawing.Polygon.Polygon;
  existT "Drawing::Text" Drawing.Text.Text;
  existT "KerbalAlarmClock::Alarm" KerbalAlarmClock.Alarm.Alarm;
  existT "RemoteTech::Antenna" RemoteTech.Antenna.Antenna;
  existT "RemoteTech::Comms" RemoteTech.Comms.Comms;
  existT "InfernalRobotics::Servo" InfernalRobotics.Servo.Servo;
  existT "InfernalRobotics::ServoGroup" InfernalRobotics.ServoGroup.ServoGroup
].

(** The registrations a program makes before anything else, each of them
    returning. *)
Fixpoint registrations {A : Type} (p : Prog A)
    : list (Client_ptr * string * string) :=
  match p with
  | Add_exception_thrower c service name _ k =>
      (c, service, name) :: registrations (k ())
  | _ => []
  end.

(** The arguments of the first [invoke] of a program. *)
Definition invoked_args {A : Type} (p : Prog A) : option (list bytes) :=
  match p with
  | Invoke _ _ _ args _ => Some args
  | _ => None
  end.

(** Programs run one after the other, as statements in sequence. *)
Fixpoint in_sequence {A : Type} (ps : list (Prog A)) : Prog (list A) :=
  match ps with
  | [] => Ret []
  | p :: rest => x ← p; xs ← in_sequence rest; mret (x :: xs)
  end.

(** A program that is the [_call] variant of an operation at some receiver
    and arguments. *)
Definition call_variant (p : Prog schema_ProcedureCall) : Prop :=
  ∃ op, op ∈ operations ∧ ∃ this args, p = op_call op this args.

(** A client whose [build_call] returns a descriptor. *)
Definition builds {W : Type} (h : Handlers W) : Prop :=
  ∀ c service procedure args w,
    ∃ d w', on_build_call h c service procedure args w = (Ok d, w').

(** The three variants of an operation hand the same client, service name,
    procedure name and encoded arguments to [invoke] and to [build_call];
    the method makes no other call, and the stream is constructed from the
    descriptor of that [build_call]. *)
Definition same_request (op : Operation) : Prop :=
  match op with
  | Void_op _ _ _ plain call =>
      ∀ this args, ∃ c service procedure a,
        (∃ k, plain this args = Invoke c service procedure a k ∧
              ∀ data, final (k data)) ∧
        call this args = Build_call c service procedure a Ret
  | @Value_op _ _ _ _ Ret_ _ _ _ plain stream call =>
      ∀ this args, ∃ c service procedure a,
        (∃ k, plain this args = Invoke c service procedure a k ∧
              ∀ data, final (k data)) ∧
        stream this args =
          Build_call c service procedure a
            (λ descriptor, Stream_ctor Ret_ c descriptor Ret) ∧
        call this args = Build_call c service procedure a Ret
  end.

(** The [_call] variant only asks [build_call] for the descriptor of the
    service name, the procedure name and the encoded arguments, and returns
    that descriptor. *)
Definition call_is_descriptor (op : Operation) : Prop :=
  ∃ service procedure, ∀ this args,
    op_call op this args =
    Build_call (client_of (op_how op) this) service procedure
      (receiver_args (op_how op) this ++ op_params op args) Ret.

(** The encoded arguments of every variant are the encoding of the
    receiver, for a member of a remote-object class, followed by the
    encodings of the declared parameters, in their order. *)
Definition sends_receiver_and_parameters (op : Operation) : Prop :=
  match op with
  | Void_op _ how params plain call =>
      ∀ this args,
        let a := receiver_args how this ++ params args in
        (∃ c service procedure k,
            plain this args = Invoke c service procedure a k) ∧
        (∃ c service procedure k,
            call this args = Build_call c service procedure a k)
  | Value_op _ how params plain stream call =>
      ∀ this args,
        let a := receiver_args how this ++ params args in
        (∃ c service procedure k,
            plain this args = Invoke c service procedure a k) ∧
        (∃ c service procedure k,
            stream this args = Build_call c service procedure a k) ∧
        (∃ c service procedure k,
            call this args = Build_call c service procedure a k)
  end.

(** A method without result calls [invoke] once, whatever the client does,
    and returns when [invoke] returns, whatever bytes it returned. *)
Definition void_round_trip (op : Operation) : Prop :=
  match op with
  | Void_op _ how params plain _ =>
      ∃ service procedure, ∀ this args,
        let c := client_of how this in
        let a := receiver_args how this ++ params args in
        plain this args = Invoke c service procedure a (λ _, Ret ()) ∧
        ∀ (W : Type) (h : Handlers W) (w : W),
          trace_of (run h (plain this args) w) =
            [Invoked c service procedure a] ∧
          result_of (run h (plain this args) w) =
            match (on_invoke h c service procedure a w).1 with
            | Ok _ => Ok ()
            | Err e => Err e
            end
  | Value_op _ _ _ _ _ _ => True
  end.

(** A constructor of a remote-object class called without arguments, or
    without identifier. *)
Definition null_by_default
    (ctor : { name : string &
              option Client_ptr → option uint64_t → Object name })
    : Prop :=
  let '(existT name f) := ctor in
  f None None = Object_ name nullptr 0%N ∧
  (∀ id, Object_client (f None id) = nullptr) ∧
  (∀ client, Object_id (f client None) = 0%N).

(** The codec of a service enumeration at the value of underlying value
    [x]. *)
Definition enum_codec (E : string) `{!Encodable (enum_struct E)}
    `{!Decodable (enum_struct E)} (x : int32_t) (c : Client_ptr) : Prop :=
  let v := static_cast_enum E x in
  static_cast_int32 v = x ∧
  encode v = encode x ∧
  decode (encode v) c = Ok v.

(** Decoding into a service enumeration the bytes that decode to [n]. *)
Definition enum_decoded (E : string) `{!Decodable (enum_struct E)}
    (data : bytes) (c : Client_ptr) (n : int32_t) : Prop :=
  decode (T := enum_struct E) data c = Ok (static_cast_enum E n).

End All_services.


(** ** A reference runtime

    A small runtime on which the proxies are evaluated at concrete inputs:
    fixed-width little-endian integers, length-prefixed components, and a
    client that is not connected. *)

Module reference.

Definition byte_of (n : N) : Byte.byte :=
  default Byte.x00 (Byte.of_N (n mod 256)).

Fixpoint le_bytes (width : nat) (n : N) : bytes :=
  match width with
  | O => []
  | S w => byte_of n :: le_bytes w (n / 256)
  end.

Fixpoint le_value (b : bytes) : N :=
  match b with
  | [] => 0
  | x :: rest => Byte.to_N x + 256 * le_value rest
  end.

(** The exception of a decoder, naming the expected type. *)
Definition EncodingError (expected : string) : exception :=
  {| exception_classes := ["krpc::EncodingError"]; what := expected |}.

(** The exception of a call on a client that is not connected. *)
Definition ConnectionError (msg : string) : exception :=
  {| exception_classes := ["krpc::ConnectionError"]; what := msg |}.

Definition fixed (width : nat) (expected : string) (data : bytes)
    : Result N :=
  if decide (length data = width) then Ok (le_value data)
  else Err (EncodingError expected).

Definition put_bool (b : bool) : bytes := [if b then Byte.x01 else Byte.x00].
Definition get_bool (data : bytes) (_ : Client_ptr) : Result bool :=
  x ← fixed 1 "bool" data; mret (negb (x =? 0)%N).

(** two's complement on 32 bits *)
Definition put_int32 (x : int32_t) : bytes :=
  le_bytes 4 (Z.to_N (x mod 2 ^ 32)).
Definition get_int32 (data : bytes) (_ : Client_ptr) : Result int32_t :=
  u ← fixed 4 "int32" data;
  mret (if (u <? 2 ^ 31)%N then Z.of_N u else (Z.of_N u - 2 ^ 32)%Z).

Definition put_uint64 (x : uint64_t) : bytes := le_bytes 8 x.
Definition get_uint64 (data : bytes) (_ : Client_ptr) : Result uint64_t :=
  fixed 8 "uint64" data.

Definition put_string (s : string) : bytes := String.list_byte_of_string s.
Definition get_string (data : bytes) (_ : Client_ptr) : Result string :=
  Ok (String.string_of_list_byte data).

(** A component of a composite value, preceded by its length. *)
Definition frame (b : bytes) : bytes :=
  le_bytes 4 (N.of_nat (length b)) ++ b.

Fixpoint unframe (fuel : nat) (data : bytes) : option (list bytes) :=
  match data, fuel with
  | [], _ => Some []
  | _, O => None
  | _, S fuel' =>
      let n := N.to_nat (le_value (take 4 data)) in
      let rest := drop 4 data in
      if decide ((4 ≤ length data)%nat ∧ (n ≤ length rest)%nat)
      then cons (take n rest) <$> unframe fuel' (drop n rest)
      else None
  end.

Definition components (expected : string) (data : bytes)
    : Result (list bytes) :=
  match unframe (length data) data with
  | Some l => Ok l
  | None => Err (EncodingError expected)
  end.

Fixpoint decode_all {T : Type} `{!Decodable T} (l : list bytes)
    (c : Client_ptr) : Result (list T) :=
  match l with
  | [] => Ok []
  | x :: rest => v ← decode x c; vs ← decode_all rest c; mret (v :: vs)
  end.

Definition put_object {name : string} (o : Object name) : bytes :=
  put_uint64 (Object_id o).
Definition get_object (name : string) (data : bytes) (c : Client_ptr)
    : Result (Object name) :=
  id ← get_uint64 data c; mret (Object_ name c id).

(** [krpc::schema::ProcedureCall] *)
Record ProcedureCall : Type := {
  service : string;
  procedure : string;
  arguments : list bytes;
}.

Definition put_ProcedureCall (call : ProcedureCall) : bytes :=
  frame (put_string (service call)) ++ frame (put_string (procedure call)) ++
  frame (concat (frame <$> arguments call)).

(** [krpc::Stream<T>]: the client and the call it was constructed from. *)
Record stream (T : Type) : Type := {
  stream_client : Client_ptr;
  stream_call : ProcedureCall;
}.
Arguments stream_client {T} _.
Arguments stream_call {T} _.

#[local] Instance runtime : Runtime := {|
  float := string;
  double := string;
  double_literal := λ spelling, spelling;
  double_to_float := λ x, x;
  schema_ProcedureCall := ProcedureCall;
  schema_Stream := uint64_t;
  schema_Services := bytes;
  schema_Status := bytes;
  Event := Client_ptr * bytes;
  Stream := stream;
  encode_bool := put_bool;
  encode_int32 := put_int32;
  encode_uint64 := put_uint64;
  encode_float := put_string;
  encode_double := put_string;
  encode_string := put_string;
  encode_ProcedureCall := put_ProcedureCall;
  encode_Object := @put_object;
  encode_tuple2 := λ A B eA eB v,
    frame (eA (get2_0 _ _ v)) ++ frame (eB (get2_1 _ _ v));
  encode_tuple3 := λ A B C eA eB eC v,
    frame (eA (get3_0 _ _ _ v)) ++ frame (eB (get3_1 _ _ _ v)) ++
    frame (eC (get3_2 _ _ _ v));
  encode_tuple4 := λ A B C D eA eB eC eD v,
    frame (eA (get4_0 _ _ _ _ v)) ++ frame (eB (get4_1 _ _ _ _ v)) ++
    frame (eC (get4_2 _ _ _ _ v)) ++ frame (eD (get4_3 _ _ _ _ v));
  encode_vector := λ T eT l, concat ((λ x, frame (eT x)) <$> l);
  encode_set := λ T _ _ eT s, concat ((λ x, frame (eT x)) <$> elements s);
  encode_map := λ K V _ _ eK eV m,
    concat ((λ kv, frame (eK kv.1) ++ frame (eV kv.2)) <$> map_to_list m);
  decode_bool := get_bool;
  decode_int32 := get_int32;
  decode_float := get_string;
  decode_double := get_string;
  decode_string := get_string;
  decode_Stream := get_uint64;
  decode_Services := λ data _, Ok data;
  decode_Status := λ data _, Ok data;
  decode_Event := λ data c, Ok (c, data);
  decode_Object := get_object;
  decode_tuple2 := λ A B dA dB data c,
    l ← components "tuple" data;
    match l with
    | [a; b] => x ← dA a c; y ← dB b c; mret (Tuple2 x y)
    | _ => Err (EncodingError "tuple")
    end;
  decode_tuple3 := λ A B C dA dB dC data c,
    l ← components "tuple" data;
    match l with
    | [a; b; c'] => x ← dA a c; y ← dB b c; z ← dC c' c; mret (Tuple3 x y z)
    | _ => Err (EncodingError "tuple")
    end;
  decode_tuple4 := λ A B C D dA dB dC dD data c,
    l ← components "tuple" data;
    match l with
    | [a; b; c'; d] =>
        x ← dA a c; y ← dB b c; z ← dC c' c; u ← dD d c;
        mret (Tuple4 x y z u)
    | _ => Err (EncodingError "tuple")
    end;
  decode_vector := λ T dT data c,
    l ← components "list" data; decode_all l c;
|}.

(** Modelled from the spec: the exception registry of a connection, a table
    from (service, exception name) to the thrower registered for it;
    [raise_for] calls the registered thrower with the message of the
    server, and falls back to a generic error carrying the message. *)
Abbreviation registry := (gmap (string * string) thrower).

Definition register (service name : string) (f : thrower) (r : registry)
    : registry :=
  <[(service, name) := f]> r.

Definition raise_for (r : registry) (service name msg : string)
    : Result unit :=
  match r !! (service, name) with
  | Some f => f msg;; Err (RPCError msg)
  | None => Err (RPCError msg)
  end.

(** A client that is not connected: every call that needs the server fails,
    [build_call] returns the descriptor, and [add_exception_thrower] fills
    the registry. *)
Definition offline : Handlers registry := {|
  on_invoke := λ c service procedure args r,
    (Err (ConnectionError "not connected"), r);
  on_build_call := λ c service procedure args r,
    (Ok {| service := service; procedure := procedure; arguments := args |},
     r);
  on_stream := λ T c call r, (Err (ConnectionError "not connected"), r);
  on_add_exception_thrower := λ c service name f r,
    (Ok (), register service name f r);
|}.

End reference.

(** ** Further properties of the proxies: definitions *)

(** The remote procedure every operation addresses: the qualified name of
    the method, and the service name and the procedure name that are the
    string literals of its body; one list for each service, in the order
    of its operations. *)
Definition KRPC_procedures : list (string * string * string) := [
  ("KRPC::add_event", "KRPC", "AddEvent");
  ("KRPC::add_stream", "KRPC", "AddStream");
  ("KRPC::get_client_id", "KRPC", "GetClientID");
  ("KRPC::get_client_name", "KRPC", "GetClientName");
  ("KRPC::get_services", "KRPC", "GetServices");
  ("KRPC::get_status", "KRPC", "GetStatus");
  ("KRPC::remove_stream", "KRPC", "RemoveStream");
  ("KRPC::set_stream_rate", "KRPC", "SetStreamRate");
  ("KRPC::start_stream", "KRPC", "StartStream");
  ("KRPC::clients", "KRPC", "get_Clients");
  ("KRPC::current_game_scene", "KRPC", "get_CurrentGameScene");
  ("KRPC::paused", "KRPC", "get_Paused");
  ("KRPC::set_paused", "KRPC", "set_Paused");
  ("KRPC::Expression::add", "KRPC", "Expression_static_Add");
  ("KRPC::Expression::aggregate", "KRPC", "Expression_static_Aggregate");
  ("KRPC::Expression::aggregate_with_seed",
   "KRPC", "Expression_static_AggregateWithSeed");
  ("KRPC::Expression::all", "KRPC", "Expression_static_All");
  ("KRPC::Expression::and_", "KRPC", "Expression_static_And");
  ("KRPC::Expression::any", "KRPC", "Expression_static_Any");
  ("KRPC::Expression::average", "KRPC", "Expression_static_Average");
  ("KRPC::Expression::call", "KRPC", "Expression_static_Call");
  ("KRPC::Expression::cast", "KRPC", "Expression_static_Cast");
  ("KRPC::Expression::concat", "KRPC", "Expression_static_Concat");
  ("KRPC::Expression::constant_bool",
   "KRPC", "Expression_static_ConstantBool");
  ("KRPC::Expression::constant_double",
   "KRPC", "Expression_static_ConstantDouble");
  ("KRPC::Expression::constant_float",
   "KRPC", "Expression_static_ConstantFloat");
  ("KRPC::Expression::constant_int", "KRPC", "Expression_static_ConstantInt");
  ("KRPC::Expression::constant_string",
   "KRPC", "Expression_static_ConstantString");
  ("KRPC::Expression::contains", "KRPC", "Expression_static_Contains");
  ("KRPC::Expression::count", "KRPC", "Expression_static_Count");
  ("KRPC::Expression::create_dictionary",
   "KRPC", "Expression_static_CreateDictionary");
  ("KRPC::Expression::create_list", "KRPC", "Expression_static_CreateList");
  ("KRPC::Expression::create_set", "KRPC", "Expression_static_CreateSet");
  ("KRPC::Expression::create_tuple", "KRPC", "Expression_static_CreateTuple");
  ("KRPC::Expression::divide", "KRPC", "Expression_static_Divide");
  ("KRPC::Expression::equal", "KRPC", "Expression_static_Equal");
  ("KRPC::Expression::exclusive_or", "KRPC", "Expression_static_ExclusiveOr");
  ("KRPC::Expression::function", "KRPC", "Expression_static_Function");
  ("KRPC::Expression::get", "KRPC", "Expression_static_Get");
  ("KRPC::Expression::greater_than", "KRPC", "Expression_static_GreaterThan");
  ("KRPC::Expression::greater_than_or_equal",
   "KRPC", "Expression_static_GreaterThanOrEqual");
  ("KRPC::Expression::invoke", "KRPC", "Expression_static_Invoke");
  ("KRPC::Expression::left_shift", "KRPC", "Expression_static_LeftShift");
  ("KRPC::Expression::less_than", "KRPC", "Expression_static_LessThan");
  ("KRPC::Expression::less_than_or_equal",
   "KRPC", "Expression_static_LessThanOrEqual");
  ("KRPC::Expression::max", "KRPC", "Expression_static_Max");
  ("KRPC::Expression::min", "KRPC", "Expression_static_Min");
  ("KRPC::Expression::modulo", "KRPC", "Expression_static_Modulo");
  ("KRPC::Expression::multiply", "KRPC", "Expression_static_Multiply");
  ("KRPC::Expression::not_", "KRPC", "Expression_static_Not");
  ("KRPC::Expression::not_equal", "KRPC", "Expression_static_NotEqual");
  ("KRPC::Expression::or_", "KRPC", "Expression_static_Or");
  ("KRPC::Expression::order_by", "KRPC", "Expression_static_OrderBy");
  ("KRPC::Expression::parameter", "KRPC", "Expression_static_Parameter");
  ("KRPC::Expression::power", "KRPC", "Expression_static_Power");
  ("KRPC::Expression::right_shift", "KRPC", "Expression_static_RightShift");
  ("KRPC::Expression::select", "KRPC", "Expression_static_Select");
  ("KRPC::Expression::subtract", "KRPC", "Expression_static_Subtract");
  ("KRPC::Expression::sum", "KRPC", "Expression_static_Sum");
  ("KRPC::Expression::to_list", "KRPC", "Expression_static_ToList");
  ("KRPC::Expression::to_set", "KRPC", "Expression_static_ToSet");
  ("KRPC::Expression::where", "KRPC", "Expression_static_Where");
  ("KRPC::Type::bool_", "KRPC", "Type_static_Bool");
  ("KRPC::Type::double_", "KRPC", "Type_static_Double");
  ("KRPC::Type::float_", "KRPC", "Type_static_Float");
  ("KRPC::Type::int_", "KRPC", "Type_static_Int");
  ("KRPC::Type::string", "KRPC", "Type_static_String")
].

Definition UI_procedures : list (string * string * string) := [
  ("UI::add_canvas", "UI", "AddCanvas");
  ("UI::clear", "UI", "Clear");
  ("UI::message", "UI", "Message");
  ("UI::stock_canvas", "UI", "get_StockCanvas");
  ("UI::Button::remove", "UI", "Button_Remove");
  ("UI::Button::clicked", "UI", "Button_get_Clicked");
  ("UI::Button::set_clicked", "UI", "Button_set_Clicked");
  ("UI::Button::rect_transform", "UI", "Button_get_RectTransform");
  ("UI::Button::text", "UI", "Button_get_Text");
  ("UI::Button::visible", "UI", "Button_get_Visible");
  ("UI::Button::set_visible", "UI", "Button_set_Visible");
  ("UI::Canvas::add_button", "UI", "Canvas_AddButton");
  ("UI::Canvas::add_input_field", "UI", "Canvas_AddInputField");
  ("UI::Canvas::add_panel", "UI", "Canvas_AddPanel");
  ("UI::Canvas::add_text", "UI", "Canvas_AddText");
  ("UI::Canvas::remove", "UI", "Canvas_Remove");
  ("UI::Canvas::rect_transform", "UI", "Canvas_get_RectTransform");
  ("UI::Canvas::visible", "UI", "Canvas_get_Visible");
  ("UI::Canvas::set_visible", "UI", "Canvas_set_Visible");
  ("UI::InputField::remove", "UI", "InputField_Remove");
  ("UI::InputField::changed", "UI", "InputField_get_Changed");
  ("UI::InputField::set_changed", "UI", "InputField_set_Changed");
  ("UI::InputField::rect_transform", "UI", "InputField_get_RectTransform");
  ("UI::InputField::text", "UI", "InputField_get_Text");
  ("UI::InputField::value", "UI", "InputField_get_Value");
  ("UI::InputField::set_value", "UI", "InputField_set_Value");
  ("UI::InputField::visible", "UI", "InputField_get_Visible");
  ("UI::InputField::set_visible", "UI", "InputField_set_Visible");
  ("UI::Panel::add_button", "UI", "Panel_AddButton");
  ("UI::Panel::add_input_field", "UI", "Panel_AddInputField");
  ("UI::Panel::add_panel", "UI", "Panel_AddPanel");
  ("UI::Panel::add_text", "UI", "Panel_AddText");
  ("UI::Panel::remove", "UI", "Panel_Remove");
  ("UI::Panel::rect_transform", "UI", "Panel_get_RectTransform");
  ("UI::Panel::visible", "UI", "Panel_get_Visible");
  ("UI::Panel::set_visible", "UI", "Panel_set_Visible");
  ("UI::RectTransform::set_anchor", "UI", "RectTransform_set_Anchor");
  ("UI::RectTransform::anchor_max", "UI", "RectTransform_get_AnchorMax");
  ("UI::RectTransform::set_anchor_max", "UI", "RectTransform_set_AnchorMax");
  ("UI::RectTransform::anchor_min", "UI", "RectTransform_get_AnchorMin");
  ("UI::RectTransform::set_anchor_min", "UI", "RectTransform_set_AnchorMin");
  ("UI::RectTransform::local_position",
   "UI", "RectTransform_get_LocalPosition");
  ("UI::RectTransform::set_local_position",
   "UI", "RectTransform_set_LocalPosition");
  ("UI::RectTransform::lower_left", "UI", "RectTransform_get_LowerLeft");
  ("UI::RectTransform::set_lower_left", "UI", "RectTransform_set_LowerLeft");
  ("UI::RectTransform::pivot", "UI", "RectTransform_get_Pivot");
  ("UI::RectTransform::set_pivot", "UI", "RectTransform_set_Pivot");
  ("UI::RectTransform::position", "UI", "RectTransform_get_Position");
  ("UI::RectTransform::set_position", "UI", "RectTransform_set_Position");
  ("UI::RectTransform::rotation", "UI", "RectTransform_get_Rotation");
  ("UI::RectTransform::set_rotation", "UI", "RectTransform_set_Rotation");
  ("UI::RectTransform::scale", "UI", "RectTransform_get_Scale");
  ("UI::RectTransform::set_scale", "UI", "RectTransform_set_Scale");
  ("UI::RectTransform::size", "UI", "RectTransform_get_Size");
  ("UI::RectTransform::set_size", "UI", "RectTransform_set_Size");
  ("UI::RectTransform::upper_right", "UI", "RectTransform_get_UpperRight");
  ("UI::RectTransform::set_upper_right",
   "UI", "RectTransform_set_UpperRight");
  ("UI::Text::remove", "UI", "Text_Remove");
  ("UI::Text::alignment", "UI", "Text_get_Alignment");
  ("UI::Text::set_alignment", "UI", "Text_set_Alignment");
  ("UI::Text::available_fonts", "UI", "Text_get_AvailableFonts");
  ("UI::Text::color", "UI", "Text_get_Color");
  ("UI::Text::set_color", "UI", "Text_set_Color");
  ("UI::Text::content", "UI", "Text_get_Content");
  ("UI::Text::set_content", "UI", "Text_set_Content");
  ("UI::Text::font", "UI", "Text_get_Font");
  ("UI::Text::set_font", "UI", "Text_set_Font");
  ("UI::Text::line_spacing", "UI", "Text_get_LineSpacing");
  ("UI::Text::set_line_spacing", "UI", "Text_set_LineSpacing");
  ("UI::Text::rect_transform", "UI", "Text_get_RectTransform");
  ("UI::Text::size", "UI", "Text_get_Size");
  ("UI::Text::set_size", "UI", "Text_set_Size");
  ("UI::Text::style", "UI", "Text_get_Style");
  ("UI::Text::set_style", "UI", "Text_set_Style");
  ("UI::Text::visible", "UI", "Text_get_Visible");
  ("UI::Text::set_visible", "UI", "Text_set_Visible")
].

Definition Drawing_procedures : list (string * string * string) := [
  ("Drawing::add_direction", "Drawing", "AddDirection");
  ("Drawing::add_line", "Drawing", "AddLine");
  ("Drawing::add_polygon", "Drawing", "AddPolygon");
  ("Drawing::add_text", "Drawing", "AddText");
  ("Drawing::clear", "Drawing", "Clear");
  ("Drawing::Line::remove", "Drawing", "Line_Remove");
  ("Drawing::Line::color", "Drawing", "Line_get_Color");
  ("Drawing::Line::set_color", "Drawing", "Line_set_Color");
  ("Drawing::Line::end", "Drawing", "Line_get_End");
  ("Drawing::Line::set_end", "Drawing", "Line_set_End");
  ("Drawing::Line::material", "Drawing", "Line_get_Material");
  ("Drawing::Line::set_material", "Drawing", "Line_set_Material");
  ("Drawing::Line::reference_frame", "Drawing", "Line_get_ReferenceFrame");
  ("Drawing::Line::set_reference_frame",
   "Drawing", "Line_set_ReferenceFrame");
  ("Drawing::Line::start", "Drawing", "Line_get_Start");
  ("Drawing::Line::set_start", "Drawing", "Line_set_Start");
  ("Drawing::Line::thickness", "Drawing", "Line_get_Thickness");
  ("Drawing::Line::set_thickness", "Drawing", "Line_set_Thickness");
  ("Drawing::Line::visible", "Drawing", "Line_get_Visible");
  ("Drawing::Line::set_visible", "Drawing", "Line_set_Visible");
  ("Drawing::Polygon::remove", "Drawing", "Polygon_Remove");
  ("Drawing::Polygon::color", "Drawing", "Polygon_get_Color");
  ("Drawing::Polygon::set_color", "Drawing", "Polygon_set_Color");
  ("Drawing::Polygon::material", "Drawing", "Polygon_get_Material");
  ("Drawing::Polygon::set_material", "Drawing", "Polygon_set_Material");
  ("Drawing::Polygon::reference_frame",
   "Drawing", "Polygon_get_ReferenceFrame");
  ("Drawing::Polygon::set_reference_frame",
   "Drawing", "Polygon_set_ReferenceFrame");
  ("Drawing::Polygon::thickness", "Drawing", "Polygon_get_Thickness");
  ("Drawing::Polygon::set_thickness", "Drawing", "Polygon_set_Thickness");
  ("Drawing::Polygon::vertices", "Drawing", "Polygon_get_Vertices");
  ("Drawing::Polygon::set_vertices", "Drawing", "Polygon_set_Vertices");
  ("Drawing::Polygon::visible", "Drawing", "Polygon_get_Visible");
  ("Drawing::Polygon::set_visible", "Drawing", "Polygon_set_Visible");
  ("Drawing::Text::remove", "Drawing", "Text_Remove");
  ("Drawing::Text::alignment", "Drawing", "Text_get_Alignment");
  ("Drawing::Text::set_alignment", "Drawing", "Text_set_Alignment");
  ("Drawing::Text::anchor", "Drawing", "Text_get_Anchor");
  ("Drawing::Text::set_anchor", "Drawing", "Text_set_Anchor");
  ("Drawing::Text::character_size", "Drawing", "Text_get_CharacterSize");
  ("Drawing::Text::set_character_size", "Drawing", "Text_set_CharacterSize");
  ("Drawing::Text::color", "Drawing", "Text_get_Color");
  ("Drawing::Text::set_color", "Drawing", "Text_set_Color");
  ("Drawing::Text::content", "Drawing", "Text_get_Content");
  ("Drawing::Text::set_content", "Drawing", "Text_set_Content");
  ("Drawing::Text::font", "Drawing", "Text_get_Font");
  ("Drawing::Text::set_font", "Drawing", "Text_set_Font");
  ("Drawing::Text::line_spacing", "Drawing", "Text_get_LineSpacing");
  ("Drawing::Text::set_line_spacing", "Drawing", "Text_set_LineSpacing");
  ("Drawing::Text::material", "Drawing", "Text_get_Material");
  ("Drawing::Text::set_material", "Drawing", "Text_set_Material");
  ("Drawing::Text::position", "Drawing", "Text_get_Position");
  ("Drawing::Text::set_position", "Drawing", "Text_set_Position");
  ("Drawing::Text::reference_frame", "Drawing", "Text_get_ReferenceFrame");
  ("Drawing::Text::set_reference_frame",
   "Drawing", "Text_set_ReferenceFrame");
  ("Drawing::Text::rotation", "Drawing", "Text_get_Rotation");
  ("Drawing::Text::set_rotation", "Drawing", "Text_set_Rotation");
  ("Drawing::Text::size", "Drawing", "Text_get_Size");
  ("Drawing::Text::set_size", "Drawing", "Text_set_Size");
  ("Drawing::Text::style", "Drawing", "Text_get_Style");
  ("Drawing::Text::set_style", "Drawing", "Text_set_Style");
  ("Drawing::Text::visible", "Drawing", "Text_get_Visible");
  ("Drawing::Text::set_visible", "Drawing", "Text_set_Visible");
  ("Drawing::Text::available_fonts", "Drawing", "Text_static_AvailableFonts")
].

Definition KerbalAlarmClock_procedures : list (string * string * string) := [
  ("KerbalAlarmClock::alarm_with_name", "KerbalAlarmClock", "AlarmWithName");
  ("KerbalAlarmClock::alarms_with_type",
   "KerbalAlarmClock", "AlarmsWithType");
  ("KerbalAlarmClock::create_alarm", "KerbalAlarmClock", "CreateAlarm");
  ("KerbalAlarmClock::alarms", "KerbalAlarmClock", "get_Alarms");
  ("KerbalAlarmClock::available", "KerbalAlarmClock", "get_Available");
  ("KerbalAlarmClock::Alarm::remove", "KerbalAlarmClock", "Alarm_Remove");
  ("KerbalAlarmClock::Alarm::action", "KerbalAlarmClock", "Alarm_get_Action");
  ("KerbalAlarmClock::Alarm::set_action",
   "KerbalAlarmClock", "Alarm_set_Action");
  ("KerbalAlarmClock::Alarm::id", "KerbalAlarmClock", "Alarm_get_ID");
  ("KerbalAlarmClock::Alarm::margin", "KerbalAlarmClock", "Alarm_get_Margin");
  ("KerbalAlarmClock::Alarm::set_margin",
   "KerbalAlarmClock", "Alarm_set_Margin");
  ("KerbalAlarmClock::Alarm::name", "KerbalAlarmClock", "Alarm_get_Name");
  ("KerbalAlarmClock::Alarm::set_name", "KerbalAlarmClock", "Alarm_set_Name");
  ("KerbalAlarmClock::Alarm::notes", "KerbalAlarmClock", "Alarm_get_Notes");
  ("KerbalAlarmClock::Alarm::set_notes",
   "KerbalAlarmClock", "Alarm_set_Notes");
  ("KerbalAlarmClock::Alarm::remaining",
   "KerbalAlarmClock", "Alarm_get_Remaining");
  ("KerbalAlarmClock::Alarm::repeat", "KerbalAlarmClock", "Alarm_get_Repeat");
  ("KerbalAlarmClock::Alarm::set_repeat",
   "KerbalAlarmClock", "Alarm_set_Repeat");
  ("KerbalAlarmClock::Alarm::repeat_period",
   "KerbalAlarmClock", "Alarm_get_RepeatPeriod");
  ("KerbalAlarmClock::Alarm::set_repeat_period",
   "KerbalAlarmClock", "Alarm_set_RepeatPeriod");
  ("KerbalAlarmClock::Alarm::time", "KerbalAlarmClock", "Alarm_get_Time");
  ("KerbalAlarmClock::Alarm::set_time", "KerbalAlarmClock", "Alarm_set_Time");
  ("KerbalAlarmClock::Alarm::type", "KerbalAlarmClock", "Alarm_get_Type");
  ("KerbalAlarmClock::Alarm::vessel", "KerbalAlarmClock", "Alarm_get_Vessel");
  ("KerbalAlarmClock::Alarm::set_vessel",
   "KerbalAlarmClock", "Alarm_set_Vessel");
  ("KerbalAlarmClock::Alarm::xfer_origin_body",
   "KerbalAlarmClock", "Alarm_get_XferOriginBody");
  ("KerbalAlarmClock::Alarm::set_xfer_origin_body",
   "KerbalAlarmClock", "Alarm_set_XferOriginBody");
  ("KerbalAlarmClock::Alarm::xfer_target_body",
   "KerbalAlarmClock", "Alarm_get_XferTargetBody");
  ("KerbalAlarmClock::Alarm::set_xfer_target_body",
   "KerbalAlarmClock", "Alarm_set_XferTargetBody")
].

Definition RemoteTech_procedures : list (string * string * string) := [
  ("RemoteTech::antenna", "RemoteTech", "Antenna");
  ("RemoteTech::comms", "RemoteTech", "Comms");
  ("RemoteTech::available", "RemoteTech", "get_Available");
  ("RemoteTech::ground_stations", "RemoteTech", "get_GroundStations");
  ("RemoteTech::Antenna::has_connection",
   "RemoteTech", "Antenna_get_HasConnection");
  ("RemoteTech::Antenna::part", "RemoteTech", "Antenna_get_Part");
  ("RemoteTech::Antenna::target", "RemoteTech", "Antenna_get_Target");
  ("RemoteTech::Antenna::set_target", "RemoteTech", "Antenna_set_Target");
  ("RemoteTech::Antenna::target_body",
   "RemoteTech", "Antenna_get_TargetBody");
  ("RemoteTech::Antenna::set_target_body",
   "RemoteTech", "Antenna_set_TargetBody");
  ("RemoteTech::Antenna::target_ground_station",
   "RemoteTech", "Antenna_get_TargetGroundStation");
  ("RemoteTech::Antenna::set_target_ground_station",
   "RemoteTech", "Antenna_set_TargetGroundStation");
  ("RemoteTech::Antenna::target_vessel",
   "RemoteTech", "Antenna_get_TargetVessel");
  ("RemoteTech::Antenna::set_target_vessel",
   "RemoteTech", "Antenna_set_TargetVessel");
  ("RemoteTech::Comms::signal_delay_to_vessel",
   "RemoteTech", "Comms_SignalDelayToVessel");
  ("RemoteTech::Comms::antennas", "RemoteTech", "Comms_get_Antennas");
  ("RemoteTech::Comms::has_connection",
   "RemoteTech", "Comms_get_HasConnection");
  ("RemoteTech::Comms::has_connection_to_ground_station",
   "RemoteTech", "Comms_get_HasConnectionToGroundStation");
  ("RemoteTech::Comms::has_flight_computer",
   "RemoteTech", "Comms_get_HasFlightComputer");
  ("RemoteTech::Comms::has_local_control",
   "RemoteTech", "Comms_get_HasLocalControl");
  ("RemoteTech::Comms::signal_delay", "RemoteTech", "Comms_get_SignalDelay");
  ("RemoteTech::Comms::signal_delay_to_ground_station",
   "RemoteTech", "Comms_get_SignalDelayToGroundStation");
  ("RemoteTech::Comms::vessel", "RemoteTech", "Comms_get_Vessel")
].

Definition InfernalRobotics_procedures : list (string * string * string) := [
  ("InfernalRobotics::servo_group_with_name",
   "InfernalRobotics", "ServoGroupWithName");
  ("InfernalRobotics::servo_groups", "InfernalRobotics", "ServoGroups");
  ("InfernalRobotics::servo_with_name", "InfernalRobotics", "ServoWithName");
  ("InfernalRobotics::available", "InfernalRobotics", "get_Available");
  ("InfernalRobotics::ready", "InfernalRobotics", "get_Ready");
  ("InfernalRobotics::Servo::move_center",
   "InfernalRobotics", "Servo_MoveCenter");
  ("InfernalRobotics::Servo::move_left",
   "InfernalRobotics", "Servo_MoveLeft");
  ("InfernalRobotics::Servo::move_next_preset",
   "InfernalRobotics", "Servo_MoveNextPreset");
  ("InfernalRobotics::Servo::move_prev_preset",
   "InfernalRobotics", "Servo_MovePrevPreset");
  ("InfernalRobotics::Servo::move_right",
   "InfernalRobotics", "Servo_MoveRight");
  ("InfernalRobotics::Servo::move_to", "InfernalRobotics", "Servo_MoveTo");
  ("InfernalRobotics::Servo::stop", "InfernalRobotics", "Servo_Stop");
  ("InfernalRobotics::Servo::acceleration",
   "InfernalRobotics", "Servo_get_Acceleration");
  ("InfernalRobotics::Servo::set_acceleration",
   "InfernalRobotics", "Servo_set_Acceleration");
  ("InfernalRobotics::Servo::config_speed",
   "InfernalRobotics", "Servo_get_ConfigSpeed");
  ("InfernalRobotics::Servo::current_speed",
   "InfernalRobotics", "Servo_get_CurrentSpeed");
  ("InfernalRobotics::Servo::set_current_speed",
   "InfernalRobotics", "Servo_set_CurrentSpeed");
  ("InfernalRobotics::Servo::set_highlight",
   "InfernalRobotics", "Servo_set_Highlight");
  ("InfernalRobotics::Servo::is_axis_inverted",
   "InfernalRobotics", "Servo_get_IsAxisInverted");
  ("InfernalRobotics::Servo::set_is_axis_inverted",
   "InfernalRobotics", "Servo_set_IsAxisInverted");
  ("InfernalRobotics::Servo::is_free_moving",
   "InfernalRobotics", "Servo_get_IsFreeMoving");
  ("InfernalRobotics::Servo::is_locked",
   "InfernalRobotics", "Servo_get_IsLocked");
  ("InfernalRobotics::Servo::set_is_locked",
   "InfernalRobotics", "Servo_set_IsLocked");
  ("InfernalRobotics::Servo::is_moving",
   "InfernalRobotics", "Servo_get_IsMoving");
  ("InfernalRobotics::Servo::max_config_position",
   "InfernalRobotics", "Servo_get_MaxConfigPosition");
  ("InfernalRobotics::Servo::max_position",
   "InfernalRobotics", "Servo_get_MaxPosition");
  ("InfernalRobotics::Servo::set_max_position",
   "InfernalRobotics", "Servo_set_MaxPosition");
  ("InfernalRobotics::Servo::min_config_position",
   "InfernalRobotics", "Servo_get_MinConfigPosition");
  ("InfernalRobotics::Servo::min_position",
   "InfernalRobotics", "Servo_get_MinPosition");
  ("InfernalRobotics::Servo::set_min_position",
   "InfernalRobotics", "Servo_set_MinPosition");
  ("InfernalRobotics::Servo::name", "InfernalRobotics", "Servo_get_Name");
  ("InfernalRobotics::Servo::set_name", "InfernalRobotics", "Servo_set_Name");
  ("InfernalRobotics::Servo::part", "InfernalRobotics", "Servo_get_Part");
  ("InfernalRobotics::Servo::position",
   "InfernalRobotics", "Servo_get_Position");
  ("InfernalRobotics::Servo::speed", "InfernalRobotics", "Servo_get_Speed");
  ("InfernalRobotics::Servo::set_speed",
   "InfernalRobotics", "Servo_set_Speed");
  ("InfernalRobotics::ServoGroup::move_center",
   "InfernalRobotics", "ServoGroup_MoveCenter");
  ("InfernalRobotics::ServoGroup::move_left",
   "InfernalRobotics", "ServoGroup_MoveLeft");
  ("InfernalRobotics::ServoGroup::move_next_preset",
   "InfernalRobotics", "ServoGroup_MoveNextPreset");
  ("InfernalRobotics::ServoGroup::move_prev_preset",
   "InfernalRobotics", "ServoGroup_MovePrevPreset");
  ("InfernalRobotics::ServoGroup::move_right",
   "InfernalRobotics", "ServoGroup_MoveRight");
  ("InfernalRobotics::ServoGroup::servo_with_name",
   "InfernalRobotics", "ServoGroup_ServoWithName");
  ("InfernalRobotics::ServoGroup::stop",
   "InfernalRobotics", "ServoGroup_Stop");
  ("InfernalRobotics::ServoGroup::expanded",
   "InfernalRobotics", "ServoGroup_get_Expanded");
  ("InfernalRobotics::ServoGroup::set_expanded",
   "InfernalRobotics", "ServoGroup_set_Expanded");
  ("InfernalRobotics::ServoGroup::forward_key",
   "InfernalRobotics", "ServoGroup_get_ForwardKey");
  ("InfernalRobotics::ServoGroup::set_forward_key",
   "InfernalRobotics", "ServoGroup_set_ForwardKey");
  ("InfernalRobotics::ServoGroup::name",
   "InfernalRobotics", "ServoGroup_get_Name");
  ("InfernalRobotics::ServoGroup::set_name",
   "InfernalRobotics", "ServoGroup_set_Name");
  ("InfernalRobotics::ServoGroup::parts",
   "InfernalRobotics", "ServoGroup_get_Parts");
  ("InfernalRobotics::ServoGroup::reverse_key",
   "InfernalRobotics", "ServoGroup_get_ReverseKey");
  ("InfernalRobotics::ServoGroup::set_reverse_key",
   "InfernalRobotics", "ServoGroup_set_ReverseKey");
  ("InfernalRobotics::ServoGroup::servos",
   "InfernalRobotics", "ServoGroup_get_Servos");
  ("InfernalRobotics::ServoGroup::speed",
   "InfernalRobotics", "ServoGroup_get_Speed");
  ("InfernalRobotics::ServoGroup::set_speed",
   "InfernalRobotics", "ServoGroup_set_Speed")
].

Definition remote_procedures : list (string * string * string) :=
  KRPC_procedures ++ UI_procedures ++ Drawing_procedures ++
  KerbalAlarmClock_procedures ++ RemoteTech_procedures ++
  InfernalRobotics_procedures.

(** The character [:], of code 58. *)
Definition colon : Ascii.ascii := Ascii.ascii_of_N 58.

(** The text of a qualified name before its first [::]. *)
Fixpoint qualifier (s : string) : string :=
  match s with
  | EmptyString => EmptyString
  | String a rest =>
      if Ascii.eqb a colon then EmptyString else String a (qualifier rest)
  end.

(** The text of a qualified name after its first [::]. *)
Fixpoint unqualified (s : string) : string :=
  match s with
  | EmptyString => EmptyString
  | String a rest =>
      if Ascii.eqb a colon then
        match rest with String _ rest' => rest' | EmptyString => EmptyString end
      else unqualified rest
  end.

(** The class of [Service::Class::member], and nothing for
    [Service::member]. *)
Definition class_qualifier (s : string) : option string :=
  let r := unqualified s in
  if String.eqb (unqualified r) "" then None else Some (qualifier r).

(** The procedure of a member of class [C] is named [C_...]. *)
Definition named_after_class (w : string * string * string) : bool :=
  match class_qualifier w.1.1 with
  | Some C => String.prefix (String.append C "_") w.2
  | None => true
  end.

(** The exception classes of the [KRPC] service, with their constructors. *)
Definition KRPC_exceptions : list (string * (string → exception)) := [
  ("KRPC::ArgumentException", KRPC.ArgumentException);
  ("KRPC::ArgumentNullException", KRPC.ArgumentNullException);
  ("KRPC::ArgumentOutOfRangeException", KRPC.ArgumentOutOfRangeException);
  ("KRPC::InvalidOperationException", KRPC.InvalidOperationException)
].

(** A call with the argument left out does what the call with [d] does. *)
Definition omitted_is {A B : Type} (d : A) (f : option A → B) : Prop :=
  f None = f (Some d).

(** The enumerators of [E] are the values 0 to [count - 1]. *)
Definition counts_from_zero (E : string) (enumerators : list (enum_struct E))
    (count : Z) : Prop :=
  ∀ n : int32_t,
    static_cast_enum E n ∈ enumerators ↔ (0 ≤ n < count)%Z.

Section Further.
Context {RT : Runtime}.



(** The four registrations of the constructor of [KRPC]. *)
Definition KRPC_registrations (client : Client_ptr) : list event := [
  Registered client "KRPC" "ArgumentException"
    (λ msg, mthrow (KRPC.ArgumentException msg));
  Registered client "KRPC" "ArgumentNullException"
    (λ msg, mthrow (KRPC.ArgumentNullException msg));
  Registered client "KRPC" "ArgumentOutOfRangeException"
    (λ msg, mthrow (KRPC.ArgumentOutOfRangeException msg));
  Registered client "KRPC" "InvalidOperationException"
    (λ msg, mthrow (KRPC.InvalidOperationException msg))
].

(** The variants of [op] all name the service and the procedure. *)
Definition addresses (op : Operation) (service procedure : string) : Prop :=
  match op with
  | Void_op _ _ _ plain call =>
      ∀ this args,
        (∃ c a k, plain this args = Invoke c service procedure a k) ∧
        (∃ c a k, call this args = Build_call c service procedure a k)
  | Value_op _ _ _ plain stream call =>
      ∀ this args,
        (∃ c a k, plain this args = Invoke c service procedure a k) ∧
        (∃ c a k, stream this args = Build_call c service procedure a k) ∧
        (∃ c a k, call this args = Build_call c service procedure a k)
  end.

(** The entry of an operation in the list of the remote procedures: its
    name, and the service and the procedure its variants name. *)
Definition listed (op : Operation) (w : string * string * string) : Prop :=
  op_name op = w.1.1 ∧ addresses op w.1.2 w.2.

(** A method with a result on any client: one call of [invoke]; its
    exception leaves the method and nothing is decoded; otherwise the
    result is what the decoder makes of the answer, with the client of the
    receiver. *)
Definition value_round_trip (op : Operation) : Prop :=
  match op with
  | Void_op _ _ _ _ _ => True
  | Value_op _ how params plain _ _ =>
      ∃ service procedure, ∀ this args (W : Type) (h : Handlers W) (w : W),
        let c := client_of how this in
        let a := receiver_args how this ++ params args in
        run h (plain this args) w =
        match on_invoke h c service procedure a w with
        | (Ok data, w') =>
            (decode data c, w', [Invoked c service procedure a])
        | (Err e, w') => (Err e, w', [Invoked c service procedure a])
        end
  end.

(** A [_stream] variant on any client: [build_call], whose exception leaves
    the method before any stream is constructed; then the constructor of
    the stream, on the same client and on the descriptor [build_call]
    returned. *)
Definition stream_round_trip (op : Operation) : Prop :=
  match op with
  | Void_op _ _ _ _ _ => True
  | @Value_op _ _ _ _ Ret_ _ how params _ stream _ =>
      ∃ service procedure, ∀ this args (W : Type) (h : Handlers W) (w : W),
        let c := client_of how this in
        let a := receiver_args how this ++ params args in
        run h (stream this args) w =
        match on_build_call h c service procedure a w with
        | (Ok d, w') =>
            let '(r, w'') := on_stream h Ret_ c d w' in
            (r, w'', [Built c service procedure a; Streamed c d])
        | (Err e, w') => (Err e, w', [Built c service procedure a])
        end
  end.


(** The descriptor of [op] registered as a stream: the [_call] variant and
    then [KRPC::add_stream] on it. *)
Definition registered_as_stream (op : Operation) (this : op_This op)
    (args : op_Args op) (krpc : KRPC.t) (start : bool) : Prog schema_Stream :=
  descriptor ← op_call op this args;
  KRPC.add_stream krpc descriptor (Some start).

(** What [registered_as_stream] does on any client. *)
Definition registers_its_descriptor (op : Operation) : Prop :=
  ∃ service procedure,
    ∀ this args krpc start (W : Type) (h : Handlers W) (w : W),
      let c := client_of (op_how op) this in
      let a := receiver_args (op_how op) this ++ op_params op args in
      run h (registered_as_stream op this args krpc start) w =
      match on_build_call h c service procedure a w with
      | (Ok d, w') =>
          let request := [encode d; encode start] in
          match on_invoke h (_client krpc) "KRPC" "AddStream" request w' with
          | (Ok data, w'') =>
              (decode data (_client krpc), w'',
               [Built c service procedure a;
                Invoked (_client krpc) "KRPC" "AddStream" request])
          | (Err e, w'') =>
              (Err e, w'',
               [Built c service procedure a;
                Invoked (_client krpc) "KRPC" "AddStream" request])
          end
      | (Err e, w') => (Err e, w', [Built c service procedure a])
      end.

(** A member of a remote-object class called on the object of the default
    constructor: the call goes through [nullptr], and the first encoded
    argument is the object of identifier 0. *)
Definition calls_through_null (op : Operation) : Prop :=
  match op with
  | Void_op _ how params plain _ =>
      match how in Receiver T return (T → _ → Prog unit) → Prop with
      | Object_method name => λ plain,
          ∀ args, ∃ service procedure k,
            plain (Object_ name nullptr 0%N) args =
            Invoke nullptr service procedure
              (encode (Object_ name nullptr 0%N) :: params args) k
      | _ => λ _, True
      end plain
  | @Value_op _ _ _ _ Ret_ _ how params plain _ _ =>
      match how in Receiver T return (T → _ → Prog Ret_) → Prop with
      | Object_method name => λ plain,
          ∀ args, ∃ service procedure k,
            plain (Object_ name nullptr 0%N) args =
            Invoke nullptr service procedure
              (encode (Object_ name nullptr 0%N) :: params args) k
      | _ => λ _, True
      end plain
  end.

Definition is_object_method (op : Operation) : bool :=
  match op_how op with Object_method _ => true | _ => false end.

(** A service enumeration with its overloads of [encode] and [decode]. *)
Record enum_overloads : Type := Enum_overloads {
  enum_name : string;
  enum_encode : Encodable (enum_struct enum_name);
  enum_decode : Decodable (enum_struct enum_name);
}.

(** The eight enumerations of the sources. *)
Definition service_enums : list enum_overloads := [
  Enum_overloads "KRPC::GameScene" _ _;
  Enum_overloads "UI::FontStyle" _ _;
  Enum_overloads "UI::MessagePosition" _ _;
  Enum_overloads "UI::TextAlignment" _ _;
  Enum_overloads "UI::TextAnchor" _ _;
  Enum_overloads "KerbalAlarmClock::AlarmAction" _ _;
  Enum_overloads "KerbalAlarmClock::AlarmType" _ _;
  Enum_overloads "RemoteTech::Target" _ _
].

(** The encoding of the value [x] of one enumeration decodes, as another
    enumeration, to its value [x]. *)
Definition decodes_as (x : int32_t) (c : Client_ptr)
    (from to : enum_overloads) : Prop :=
  enum_decode to (enum_encode from (static_cast_enum (enum_name from) x)) c
  = Ok (static_cast_enum (enum_name to) x).

End Further.
(** ** Proofs *)

(** Splits a tuple of arguments into its components. *)
Ltac split_args :=
  repeat match goal with
         | x : (_ * _)%type |- _ => destruct x
         end.

(** The answer of [invoke] is decoded, and an exception of the decoder
    leaves the proxy. *)
Lemma decoded_answer {RT : Runtime} {T : Type} `{!Decodable T} (data : bytes)
    (c : Client_ptr) :
  (_result ← decoder_decode (T := T) data c; mret _result) =
  match decode data c with Ok v => Ret v | Err e => Throw e end.
Proof. unfold decoder_decode. destruct (decode data c); reflexivity. Qed.

Ltac template_row :=
  cbn [follows_template]; do 2 eexists; intros this args; split_args;
  cbn zeta;
  first
    [ split; reflexivity
    | split; [ eexists; split; [ reflexivity | intros ?; apply decoded_answer ]
             | split; reflexivity ] ].

Ltac template_rows :=
  repeat first [ apply Forall_nil_2 | apply Forall_cons_2; [ template_row | ] ].

Section Template.
Context {RT : Runtime}.

Lemma KRPC_template : Forall follows_template KRPC.operations.
Proof. unfold KRPC.operations. template_rows. Qed.

Lemma UI_template : Forall follows_template UI.operations.
Proof. unfold UI.operations. template_rows. Qed.

Lemma Drawing_template : Forall follows_template Drawing.operations.
Proof. unfold Drawing.operations. template_rows. Qed.

Lemma KerbalAlarmClock_template :
  Forall follows_template KerbalAlarmClock.operations.
Proof. unfold KerbalAlarmClock.operations. template_rows. Qed.

Lemma RemoteTech_template : Forall follows_template RemoteTech.operations.
Proof. unfold RemoteTech.operations. template_rows. Qed.

Lemma InfernalRobotics_template :
  Forall follows_template InfernalRobotics.operations.
Proof. unfold InfernalRobotics.operations. template_rows. Qed.

(** The sources have 313 remote procedures: 203 return a value and have
    three variants, 110 return nothing and have two; these are the 829
    member functions. *)
Example operations_count :
  length operations = 313 ∧
  length (filter (λ op, is_void op = false) operations) = 203 ∧
  length (filter (λ op, is_void op = true) operations) = 110 ∧
  203 * 3 + 110 * 2 = 829 ∧
  NoDup (op_name <$> operations).
Proof.
  repeat split. apply (bool_decide_unpack _). vm_compute. reflexivity.
Qed.

Lemma operations_template : Forall follows_template operations.
Proof.
  unfold operations. repeat apply Forall_app_2;
    auto using KRPC_template, UI_template, Drawing_template,
      KerbalAlarmClock_template, RemoteTech_template,
      InfernalRobotics_template.
Qed.

End Template.

(** ** Exceptions and the constructors of the service proxies *)

Section Constructors.
Context {RT : Runtime}.

(** A typed exception of the [KRPC] service keeps the message it was
    constructed with; its dynamic type is the class, and a handler for
    [krpc::RPCError] catches it. *)
Lemma typed_exception_message (name msg : string) :
  let e := derived name (RPCError msg) in
  what e = msg ∧ dynamic_type e = Some name ∧
  catches "krpc::RPCError" e = true.
Proof.
  cbn zeta. split; [reflexivity|]. split; [reflexivity|].
  apply bool_decide_eq_true. cbn. set_solver.
Qed.

(** C1: constructing the [KRPC] proxy on a client makes exactly four calls
    of [add_exception_thrower], for ("KRPC", "ArgumentException"),
    ("KRPC", "ArgumentNullException"), ("KRPC", "ArgumentOutOfRangeException")
    and ("KRPC", "InvalidOperationException"), in this order, and returns
    the proxy; for every message each registered thrower throws the
    exception of the class it is registered for, whose message is the
    message it was given. *)
Theorem KRPC_constructor_registers_four_throwers (client : Client_ptr) :
  ∃ f1 f2 f3 f4 : thrower,
    KRPC.KRPC client =
      Add_exception_thrower client "KRPC" "ArgumentException" f1 (λ _,
      Add_exception_thrower client "KRPC" "ArgumentNullException" f2 (λ _,
      Add_exception_thrower client "KRPC" "ArgumentOutOfRangeException" f3
        (λ _,
      Add_exception_thrower client "KRPC" "InvalidOperationException" f4
        (λ _, Ret (KRPC.Make (Service_ client)))))) ∧
    ∀ msg : string,
      (f1 msg = Err (KRPC.ArgumentException msg) ∧
       dynamic_type (KRPC.ArgumentException msg)
         = Some "KRPC::ArgumentException" ∧
       what (KRPC.ArgumentException msg) = msg) ∧
      (f2 msg = Err (KRPC.ArgumentNullException msg) ∧
       dynamic_type (KRPC.ArgumentNullException msg)
         = Some "KRPC::ArgumentNullException" ∧
       what (KRPC.ArgumentNullException msg) = msg) ∧
      (f3 msg = Err (KRPC.ArgumentOutOfRangeException msg) ∧
       dynamic_type (KRPC.ArgumentOutOfRangeException msg)
         = Some "KRPC::ArgumentOutOfRangeException" ∧
       what (KRPC.ArgumentOutOfRangeException msg) = msg) ∧
      (f4 msg = Err (KRPC.InvalidOperationException msg) ∧
       dynamic_type (KRPC.InvalidOperationException msg)
         = Some "KRPC::InvalidOperationException" ∧
       what (KRPC.InvalidOperationException msg) = msg).
Proof.
  do 4 eexists. split; [reflexivity|].
  intros msg. repeat split.
Qed.

(** C7, as amended: of the six service proxies only [KRPC] registers
    exception throwers when it is constructed, the four of its own service;
    the constructors of [UI], [Drawing], [KerbalAlarmClock], [RemoteTech]
    and [InfernalRobotics] only construct the [Service] base and make no
    call on the client. *)
Theorem only_KRPC_constructor_registers (client : Client_ptr) :
  registrations (KRPC.KRPC client) =
    [(client, "KRPC", "ArgumentException");
     (client, "KRPC", "ArgumentNullException");
     (client, "KRPC", "ArgumentOutOfRangeException");
     (client, "KRPC", "InvalidOperationException")] ∧
  UI.UI client = Ret (UI.Make (Service_ client)) ∧
  Drawing.Drawing client = Ret (Drawing.Make (Service_ client)) ∧
  KerbalAlarmClock.KerbalAlarmClock client =
    Ret (KerbalAlarmClock.Make (Service_ client)) ∧
  RemoteTech.RemoteTech client = Ret (RemoteTech.Make (Service_ client)) ∧
  InfernalRobotics.InfernalRobotics client =
    Ret (InfernalRobotics.Make (Service_ client)).
Proof. repeat split. Qed.

End Constructors.

(** C7 as stated fails: constructing the [UI] proxy registers nothing, and
    leaves the registry of the client as it was. *)
Lemma UI_constructor_registers_nothing :
  let client : Client_ptr := Some 1%positive in
  registrations (UI.UI (RT := reference.runtime) client) = [] ∧
  ¬ (∃ name, (client, "UI", name)
               ∈ registrations (UI.UI (RT := reference.runtime) client)) ∧
  state_of (run reference.offline (UI.UI client) ∅) = ∅.
Proof.
  cbn zeta. split; [reflexivity|]. split; [|reflexivity].
  intros [name H]. cbn in H. by apply elem_of_nil in H.
Qed.

(** On the client of the reference runtime the registry holds the four
    entries after the [KRPC] proxy is constructed, and a fault of the server
    named ("KRPC", "ArgumentException") with message "bad arg" is raised as
    that exception, with that message. *)
Example KRPC_registry_scenario :
  let r := state_of (run reference.offline
                       (KRPC.KRPC (RT := reference.runtime) (Some 1%positive))
                       ∅) in
  dom r = {[ ("KRPC", "ArgumentException"); ("KRPC", "ArgumentNullException");
             ("KRPC", "ArgumentOutOfRangeException");
             ("KRPC", "InvalidOperationException") ]} ∧
  reference.raise_for r "KRPC" "ArgumentException" "bad arg"
    = Err (KRPC.ArgumentException "bad arg") ∧
  reference.raise_for r "UI" "ArgumentException" "bad arg"
    = Err (RPCError "bad arg").
Proof.
  cbn zeta. split; [|split].
  - unfold state_of. cbn. unfold reference.register.
    rewrite !dom_insert_L, dom_empty_L. set_solver.
  - reflexivity.
  - reflexivity.
Qed.

(** ** Remote-object classes *)

(** C8: every constructor of a remote-object class has the defaults
    [client = nullptr] and [id = 0]: constructed without arguments, the
    proxy has the null client and the identifier 0. *)
Theorem object_constructors_default_to_null :
  Forall null_by_default object_constructors ∧
  length object_constructors = 16.
Proof.
  split; [|reflexivity].
  unfold object_constructors.
  repeat first [ apply Forall_nil_2
               | apply Forall_cons_2; [ repeat split | ] ].
Qed.

(** ** Default arguments of [KRPC::add_stream] *)

Section Add_stream.
Context {RT : Runtime}.

(** C9: [add_stream], [add_stream_stream] and [add_stream_call] called
    without [start] do what they do with [start = true]: the second encoded
    argument is [encode(true)]. *)
Theorem add_stream_start_defaults_to_true (this : KRPC.t)
    (call : schema_ProcedureCall) :
  let c := _client this in
  let a := [encode call; encode true] in
  (KRPC.add_stream this call None = KRPC.add_stream this call (Some true) ∧
   ∃ k, KRPC.add_stream this call None = Invoke c "KRPC" "AddStream" a k) ∧
  (KRPC.add_stream_stream this call None
     = KRPC.add_stream_stream this call (Some true) ∧
   KRPC.add_stream_stream this call None =
     Build_call c "KRPC" "AddStream" a
       (λ descriptor, Stream_ctor schema_Stream c descriptor Ret)) ∧
  (KRPC.add_stream_call this call None
     = KRPC.add_stream_call this call (Some true) ∧
   KRPC.add_stream_call this call None
     = Build_call c "KRPC" "AddStream" a Ret).
Proof.
  cbn zeta. repeat split. eexists. reflexivity.
Qed.

End Add_stream.

(** ** The three variants of an operation *)

Section Variants.
Context {RT : Runtime}.

Lemma template_same_request (op : Operation) :
  follows_template op → same_request op.
Proof.
  destruct op; cbn; intros (service & procedure & H) this args;
    exists (client_of how this), service, procedure,
           (receiver_args how this ++ params args);
    specialize (H this args); cbn zeta in H.
  - destruct H as [Hplain Hcall]. split; [|exact Hcall].
    eexists. split; [exact Hplain|]. intros data. exact I.
  - destruct H as ((k & Hplain & Hk) & Hstream & Hcall).
    split; [|split; assumption].
    exists k. split; [exact Hplain|].
    intros data. rewrite Hk. destruct (decode data _); exact I.
Qed.

(** C2: for every operation and all values of the receiver and of the
    arguments, the client, service name, procedure name and list of encoded
    arguments that the method hands to [invoke] are those its [_call]
    variant hands to [build_call], and those its [_stream] variant hands to
    [build_call] for the descriptor it constructs the stream from; thus
    [add_stream], [add_stream_stream] and [add_stream_call] all hand over
    ("KRPC", "AddStream", [encode(call), encode(start)]). *)
Theorem variants_hand_over_the_same_request :
  Forall same_request operations ∧
  ∀ (this : KRPC.t) (call : schema_ProcedureCall) (start : bool),
    let c := _client this in
    let a := [encode call; encode start] in
    (∃ k, KRPC.add_stream this call (Some start)
            = Invoke c "KRPC" "AddStream" a k) ∧
    KRPC.add_stream_stream this call (Some start) =
      Build_call c "KRPC" "AddStream" a
        (λ descriptor, Stream_ctor schema_Stream c descriptor Ret) ∧
    KRPC.add_stream_call this call (Some start)
      = Build_call c "KRPC" "AddStream" a Ret.
Proof.
  split.
  - eapply Forall_impl; [apply operations_template|].
    apply template_same_request.
  - intros this call start. cbn zeta. repeat split. eexists. reflexivity.
Qed.

Lemma template_call_is_descriptor (op : Operation) :
  follows_template op → call_is_descriptor op.
Proof.
  destruct op; cbn; intros (service & procedure & H);
    exists service, procedure; intros this args;
    specialize (H this args); cbn zeta in H; cbn; tauto.
Qed.

Lemma operations_call_is_descriptor :
  Forall call_is_descriptor operations.
Proof.
  eapply Forall_impl; [apply operations_template|].
  apply template_call_is_descriptor.
Qed.

(** A [_call] variant is one call of [build_call]. *)
Lemma call_variant_builds (p : Prog schema_ProcedureCall) :
  call_variant p →
  ∃ c service procedure a, p = Build_call c service procedure a Ret.
Proof.
  intros (op & Hin & this & args & ->).
  pose proof operations_call_is_descriptor as H.
  rewrite Forall_forall in H.
  destruct (H op Hin) as (service & procedure & Hop).
  rewrite Hop. eauto.
Qed.

(** Running [p] and then [f]: the calls of [p], then those of [f]; an
    exception in [p] ends the run. *)
Lemma run_bind {W A B : Type} (h : Handlers W) (p : Prog A) (f : A → Prog B)
    (w : W) :
  run h (p ≫= f) w =
  match run h p w with
  | (Ok x, w', t) => let '(r, w'', t') := run h (f x) w' in (r, w'', t ++ t')
  | (Err e, w', t) => (Err e, w', t)
  end.
Proof.
  revert w.
  induction p as [x|e|c s n a k IH|c s n a k IH|T c call k IH|c s n g k IH];
    intros w; cbn.
  - by destruct (run h (f x) w) as [[r w'] t].
  - reflexivity.
  - destruct (on_invoke h c s n a w) as [[x|e] w1]; cbn; [|reflexivity].
    change (Prog_bind_ f (k x)) with (k x ≫= f). rewrite IH.
    destruct (run h (k x) w1) as [[[y|e] w2] t]; [|reflexivity].
    by destruct (run h (f y) w2) as [[r w3] t'].
  - destruct (on_build_call h c s n a w) as [[x|e] w1]; cbn; [|reflexivity].
    change (Prog_bind_ f (k x)) with (k x ≫= f). rewrite IH.
    destruct (run h (k x) w1) as [[[y|e] w2] t]; [|reflexivity].
    by destruct (run h (f y) w2) as [[r w3] t'].
  - destruct (on_stream h T c call w) as [[x|e] w1]; cbn; [|reflexivity].
    change (Prog_bind_ f (k x)) with (k x ≫= f). rewrite IH.
    destruct (run h (k x) w1) as [[[y|e] w2] t]; [|reflexivity].
    by destruct (run h (f y) w2) as [[r w3] t'].
  - destruct (on_add_exception_thrower h c s n g w) as [[x|e] w1]; cbn;
      [|reflexivity].
    change (Prog_bind_ f (k x)) with (k x ≫= f). rewrite IH.
    destruct (run h (k x) w1) as [[[y|e] w2] t]; [|reflexivity].
    by destruct (run h (f y) w2) as [[r w3] t'].
Qed.

(** C3: a [_call] method never calls [invoke]: it is the single call
    [build_call(service, procedure, args)] with the encoded arguments, and
    its result is the descriptor that call returns.  So on every client
    whose [build_call] returns -- whatever its [invoke] does, failing
    always included -- any number of [_call] methods run in sequence
    return their descriptors, one for each, and no [invoke] is made. *)
Theorem call_variants_make_no_invoke {W : Type} (h : Handlers W)
    (ps : list (Prog schema_ProcedureCall)) (w : W)
    (Hbuild : builds h) (Hps : Forall call_variant ps) :
  Forall call_is_descriptor operations ∧
  ∃ ds, result_of (run h (in_sequence ps) w) = Ok ds ∧
        length ds = length ps ∧
        Forall (λ ev, is_Invoked ev = false)
               (trace_of (run h (in_sequence ps) w)).
Proof.
  split; [apply operations_call_is_descriptor|].
  revert w. induction Hps as [|p ps Hp _ IH]; intros w.
  - exists []. repeat split. constructor.
  - destruct (call_variant_builds p Hp) as (c & service & procedure & a & ->).
    destruct (Hbuild c service procedure a w) as (d & w' & Hd).
    destruct (IH w') as (ds & Hres & Hlen & Htrace).
    exists (d :: ds).
    unfold result_of, trace_of in *. cbn [in_sequence].
    rewrite run_bind. cbn. rewrite Hd. cbn.
    rewrite run_bind.
    destruct (run h (in_sequence ps) w') as [[r w''] t].
    cbn in Hres, Htrace. subst r. cbn.
    repeat split; [by rewrite Hlen|].
    constructor; [reflexivity|]. by rewrite app_nil_r.
Qed.

End Variants.

(** ** Encoded arguments *)

Section Arguments.
Context {RT : Runtime}.

Lemma template_sends_receiver_and_parameters (op : Operation) :
  follows_template op → sends_receiver_and_parameters op.
Proof.
  destruct op; cbn; intros (service & procedure & H) this args;
    specialize (H this args); cbn zeta in H.
  - destruct H as [Hplain Hcall]. split; eauto 6.
  - destruct H as ((k & Hplain & _) & Hstream & Hcall).
    repeat split; eauto 6.
Qed.

(** C4, as amended: the list of encoded arguments that every variant of
    every operation builds is the encoding of the receiver, when the method
    is a non-static member of a remote-object class, followed by the
    encodings of the declared parameters other than the [Client&] of a
    static member, in the order of the declaration.  [UI::message] builds
    the five encodings of its parameters, [KRPC::set_stream_rate] the two
    of its parameters. *)
Theorem arguments_are_receiver_then_parameters :
  Forall sends_receiver_and_parameters operations ∧
  (∀ (this : UI.t) (content : string) (duration : float)
     (position : UI.MessagePosition) (color : tuple3 double double double)
     (size : float),
     invoked_args (UI.message this content (Some duration) (Some position)
                     (Some color) (Some size))
     = Some [encode content; encode duration; encode position; encode color;
             encode size]) ∧
  (∀ (this : KRPC.t) (id : uint64_t) (rate : float),
     invoked_args (KRPC.set_stream_rate this id rate)
     = Some [encode id; encode rate]).
Proof.
  split; [|split; reflexivity].
  eapply Forall_impl; [apply operations_template|].
  apply template_sends_receiver_and_parameters.
Qed.

Lemma template_void_round_trip (op : Operation) :
  follows_template op → void_round_trip op.
Proof.
  destruct op; cbn; [|done].
  intros (service & procedure & H). exists service, procedure.
  intros this args. specialize (H this args). cbn zeta in H.
  destruct H as [Hplain _]. cbn zeta. split; [exact Hplain|].
  intros W h w. rewrite Hplain. unfold trace_of, result_of. cbn.
  by destruct (on_invoke h _ _ _ _ w) as [[x|e] w'].
Qed.

(** C6: every method without result makes one call of [invoke], with its
    service name, its procedure name and its encoded arguments, whatever
    the client answers; it drops the bytes [invoke] returns and returns
    itself, and leaves by the exception of [invoke] otherwise.  The
    sources have 110 such methods, among them [KRPC::remove_stream],
    [KRPC::start_stream] and [KRPC::set_paused]. *)
Theorem void_methods_invoke_once :
  Forall void_round_trip operations ∧
  length (filter (λ op, is_void op = true) operations) = 110 ∧
  (∀ (this : KRPC.t) (id : uint64_t),
     KRPC.remove_stream this id =
       Invoke (_client this) "KRPC" "RemoveStream" [encode id] (λ _, Ret ()) ∧
     KRPC.start_stream this id =
       Invoke (_client this) "KRPC" "StartStream" [encode id] (λ _, Ret ())) ∧
  (∀ (this : KRPC.t) (value : bool),
     KRPC.set_paused this value =
       Invoke (_client this) "KRPC" "set_Paused" [encode value]
         (λ _, Ret ())).
Proof.
  split; [|split; [reflexivity|split; [split|]; reflexivity]].
  eapply Forall_impl; [apply operations_template|].
  apply template_void_round_trip.
Qed.

End Arguments.

(** ** Service enumerations *)

Section Enumerations.
Context {RT : Runtime}.

(** Every value of an enumeration is the cast of its underlying value. *)
Lemma enum_of_underlying (E : string) (v : enum_struct E) :
  static_cast_enum E (static_cast_int32 v) = v.
Proof. by destruct v. Qed.

(** The body of the decoder of an enumeration, when the [int32_t] decoder
    returns [n]. *)
Lemma cast_of_decoded (E : string) (data : bytes) (c : Client_ptr)
    (n : int32_t) :
  decode (T := int32_t) data c = Ok n →
  (x ← decode (T := int32_t) data c; mret (static_cast_enum E x))
  = Ok (static_cast_enum E n).
Proof. intros ->. reflexivity. Qed.

(** C5: for every service enumeration and every underlying value [x], the
    value [v] of the enumeration with that underlying value is encoded as
    [x] is, and, when the [int32_t] codec of the runtime decodes the
    encoding of [x] to [x], decoding the encoding of [v] gives [v]. *)
Theorem enum_encodes_as_underlying_and_round_trips (x : int32_t)
    (c : Client_ptr)
    (Hint32 : decode (T := int32_t) (encode x) c = Ok x) :
  enum_codec "KRPC::GameScene" x c ∧
  enum_codec "UI::FontStyle" x c ∧
  enum_codec "UI::MessagePosition" x c ∧
  enum_codec "UI::TextAlignment" x c ∧
  enum_codec "UI::TextAnchor" x c ∧
  enum_codec "KerbalAlarmClock::AlarmAction" x c ∧
  enum_codec "KerbalAlarmClock::AlarmType" x c ∧
  enum_codec "RemoteTech::Target" x c.
Proof.
  repeat split; exact (cast_of_decoded _ _ _ _ Hint32).
Qed.

(** C10: decoding into a service enumeration checks no range: whenever the
    [int32_t] decoder returns [n] for the bytes, the decoder of the
    enumeration returns the cast of [n]; so for [n = 7], which is none of
    the enumerators 0 to 4 of [KRPC::GameScene]. *)
Theorem enum_decode_checks_no_range (data : bytes) (c : Client_ptr)
    (n : int32_t) (Hint32 : decode (T := int32_t) data c = Ok n) :
  (enum_decoded "KRPC::GameScene" data c n ∧
   enum_decoded "UI::FontStyle" data c n ∧
   enum_decoded "UI::MessagePosition" data c n ∧
   enum_decoded "UI::TextAlignment" data c n ∧
   enum_decoded "UI::TextAnchor" data c n ∧
   enum_decoded "KerbalAlarmClock::AlarmAction" data c n ∧
   enum_decoded "KerbalAlarmClock::AlarmType" data c n ∧
   enum_decoded "RemoteTech::Target" data c n) ∧
  (static_cast_int32 <$> KRPC.GameScene.enumerators = [0; 1; 2; 3; 4]%Z ∧
   static_cast_enum "KRPC::GameScene" 7%Z ∉ KRPC.GameScene.enumerators).
Proof.
  split.
  - repeat split; exact (cast_of_decoded _ _ _ _ Hint32).
  - split; [reflexivity|].
    unfold KRPC.GameScene.enumerators.
    rewrite !elem_of_cons, elem_of_nil. intros H.
    repeat destruct H as [H|H]; try discriminate H. exact H.
Qed.

End Enumerations.

(** ** The claims at concrete inputs *)

Section At_reference.
#[local] Existing Instance reference.runtime.

(** C4 as stated fails for the members of the remote-object classes: the
    list [UI::Button::set_clicked(value)] builds is not the encoding of its
    one parameter, it starts with the encoding of the button; and the
    static [KRPC::Expression::add(client, arg0, arg1)] builds two encodings
    for its three parameters. *)
Lemma set_clicked_sends_the_button_first :
  let button : UI.Button := Object_ "UI::Button" (Some 1%positive) 7%N in
  let a : KRPC.Expression :=
    Object_ "KRPC::Expression" (Some 1%positive) 2%N in
  let b : KRPC.Expression :=
    Object_ "KRPC::Expression" (Some 1%positive) 3%N in
  invoked_args (UI.Button.set_clicked (RT := reference.runtime) button true)
    = Some [encode button; encode true] ∧
  invoked_args (UI.Button.set_clicked (RT := reference.runtime) button true)
    ≠ Some [encode true] ∧
  invoked_args (KRPC.Expression.add (RT := reference.runtime) 1%positive a b)
    = Some [encode a; encode b].
Proof. cbn zeta. split; [reflexivity|]. split; [discriminate|reflexivity]. Qed.

Lemma call_variants_make_no_invoke_witness :
  let this := KRPC.Make (Service_ (Some 1%positive)) in
  let ps := [KRPC.remove_stream_call (RT := reference.runtime) this 5%N;
             KRPC.set_paused_call this true] in
  builds reference.offline ∧ Forall call_variant ps ∧
  (Forall call_is_descriptor operations ∧
   ∃ ds, result_of (run reference.offline (in_sequence ps) ∅) = Ok ds ∧
         length ds = length ps ∧
         Forall (λ ev, is_Invoked ev = false)
                (trace_of (run reference.offline (in_sequence ps) ∅))).
Proof.
  cbn zeta.
  assert (builds reference.offline) as Hbuild.
  { intros c service procedure args w. do 2 eexists. reflexivity. }
  assert (Forall call_variant
            [KRPC.remove_stream_call (RT := reference.runtime)
               (KRPC.Make (Service_ (Some 1%positive))) 5%N;
             KRPC.set_paused_call
               (KRPC.Make (Service_ (Some 1%positive))) true]) as Hps.
  { repeat apply Forall_cons_2; [| |apply Forall_nil_2].
    - eexists. split; [apply list_elem_of_lookup; by exists 6|].
      by exists (KRPC.Make (Service_ (Some 1%positive))), 5%N.
    - eexists. split; [apply list_elem_of_lookup; by exists 12|].
      by exists (KRPC.Make (Service_ (Some 1%positive))), true. }
  split; [exact Hbuild|]. split; [exact Hps|].
  exact (call_variants_make_no_invoke reference.offline _ ∅ Hbuild Hps).
Defined.

(** On the client that is not connected, the two descriptors are built,
    and [remove_stream] itself fails in [invoke]. *)
Example descriptors_without_connection :
  let this := KRPC.Make (Service_ (Some 1%positive)) in
  run reference.offline
    (in_sequence [KRPC.remove_stream_call (RT := reference.runtime) this 5%N;
                  KRPC.set_paused_call this true]) ∅ =
    (Ok [ {| reference.service := "KRPC";
             reference.procedure := "RemoveStream";
             reference.arguments := [encode 5%N] |};
          {| reference.service := "KRPC";
             reference.procedure := "set_Paused";
             reference.arguments := [encode true] |} ],
     ∅,
     [Built (Some 1%positive) "KRPC" "RemoveStream" [encode 5%N];
      Built (Some 1%positive) "KRPC" "set_Paused" [encode true]]) ∧
  run reference.offline (KRPC.remove_stream this 5%N) ∅ =
    (Err (reference.ConnectionError "not connected"), ∅,
     [Invoked (Some 1%positive) "KRPC" "RemoveStream" [encode 5%N]]).
Proof. split; reflexivity. Qed.

Lemma enum_encodes_as_underlying_and_round_trips_witness :
  decode (T := int32_t) (encode 3%Z) None = Ok 3%Z ∧
  enum_codec (RT := reference.runtime) "KRPC::GameScene" 3%Z None ∧
  enum_codec (RT := reference.runtime) "RemoteTech::Target" 3%Z None.
Proof.
  assert (decode (T := int32_t) (encode 3%Z) None
          = Ok 3%Z) as H by (vm_compute; reflexivity).
  split; [exact H|].
  pose proof (enum_encodes_as_underlying_and_round_trips
                (RT := reference.runtime) 3%Z None H) as P.
  split; [apply P|]. apply P.
Defined.

Lemma enum_decode_checks_no_range_witness :
  let data := encode 7%Z in
  decode (T := int32_t) data None = Ok 7%Z ∧
  decode (T := KRPC.GameScene) data None
    = Ok (static_cast_enum "KRPC::GameScene" 7%Z) ∧
  static_cast_enum "KRPC::GameScene" 7%Z ∉ KRPC.GameScene.enumerators.
Proof.
  cbn zeta.
  assert (decode (T := int32_t) (encode 7%Z) None
          = Ok 7%Z) as H by (vm_compute; reflexivity).
  split; [exact H|].
  pose proof (enum_decode_checks_no_range (RT := reference.runtime)
                _ None 7%Z H) as [P Q].
  split; [apply P|apply Q].
Defined.

(** The codec of the reference runtime on negative numbers. *)
Example reference_int32_negative :
  encode (-2)%Z
    = [Byte.xfe; Byte.xff; Byte.xff; Byte.xff] ∧
  decode (T := int32_t) (encode (-2)%Z) None
    = Ok (-2)%Z.
Proof. split; vm_compute; reflexivity. Qed.

End At_reference.

(** ** Further properties of the proxies *)

Section Further_properties.
Context {RT : Runtime}.

Lemma template_value_round_trip (op : Operation) :
  follows_template op → value_round_trip op.
Proof.
  destruct op; cbn; [done|].
  intros (service & procedure & H). exists service, procedure.
  intros this args W h w. cbn zeta.
  destruct (H this args) as ((k & Hplain & Hk) & _ & _).
  rewrite Hplain. cbn.
  destruct (on_invoke h _ _ _ _ w) as [[data|e] w']; cbn; [|reflexivity].
  rewrite Hk. by destruct (decode data _).
Qed.

(** X1: a method with a result, on any client, calls [invoke] once.  When
    [invoke] throws, the exception leaves the method and nothing is
    decoded; when it returns, the method returns what [decoder::decode]
    makes of the answer with the client of the receiver, or leaves by the
    exception of the decoder.  This holds of the 203 methods with a
    result. *)
Theorem value_methods_decode_the_answer :
  Forall value_round_trip operations.
Proof.
  eapply Forall_impl; [apply operations_template|].
  apply template_value_round_trip.
Qed.

Lemma template_stream_round_trip (op : Operation) :
  follows_template op → stream_round_trip op.
Proof.
  destruct op; cbn; [done|].
  intros (service & procedure & H). exists service, procedure.
  intros this args W h w. cbn zeta.
  destruct (H this args) as (_ & Hstream & _).
  rewrite Hstream. cbn.
  destruct (on_build_call h _ _ _ _ w) as [[d|e] w']; cbn; [|reflexivity].
  by destruct (on_stream h _ _ d w') as [[x|e] w''].
Qed.

(** X2: a [_stream] variant, on any client, first calls [build_call]; when
    that throws, no stream is constructed; when it returns a descriptor,
    the stream is constructed on the same client from that descriptor, and
    the outcome of the constructor is the outcome of the variant.  No
    [invoke] is made by the variant itself. *)
Theorem stream_variants_build_then_construct :
  Forall stream_round_trip operations.
Proof.
  eapply Forall_impl; [apply operations_template|].
  apply template_stream_round_trip.
Qed.



End Further_properties.

(** *** The names of the remote procedures *)

Ltac address_row :=
  unfold listed; split; [ reflexivity | ];
  cbn [addresses fst snd]; intros this args; split_args;
  repeat split; do 3 eexists; reflexivity.

Ltac address_rows :=
  repeat first [ apply List.Forall2_nil
               | apply List.Forall2_cons; [ address_row | ] ].

Section Remote_procedures.
Context {RT : Runtime}.

Lemma KRPC_addresses : Forall2 listed KRPC.operations KRPC_procedures.
Proof. unfold KRPC.operations, KRPC_procedures. address_rows. Qed.

Lemma UI_addresses : Forall2 listed UI.operations UI_procedures.
Proof. unfold UI.operations, UI_procedures. address_rows. Qed.

Lemma Drawing_addresses :
  Forall2 listed Drawing.operations Drawing_procedures.
Proof.
  unfold Drawing.operations, Drawing_procedures. address_rows.
Qed.

Lemma KerbalAlarmClock_addresses :
  Forall2 listed KerbalAlarmClock.operations KerbalAlarmClock_procedures.
Proof.
  unfold KerbalAlarmClock.operations, KerbalAlarmClock_procedures.
  address_rows.
Qed.

Lemma RemoteTech_addresses :
  Forall2 listed RemoteTech.operations RemoteTech_procedures.
Proof.
  unfold RemoteTech.operations, RemoteTech_procedures. address_rows.
Qed.

Lemma InfernalRobotics_addresses :
  Forall2 listed InfernalRobotics.operations InfernalRobotics_procedures.
Proof.
  unfold InfernalRobotics.operations, InfernalRobotics_procedures.
  address_rows.
Qed.

(** X4: every method, with its variants, names the service it is a member
    of, and no two of the 313 operations name the same procedure of the
    same service; the procedure of a member of a class is named after the
    class. *)
Theorem operations_address_their_own_procedures :
  Forall2 listed operations remote_procedures ∧
  Forall (λ w, qualifier w.1.1 = w.1.2) remote_procedures ∧
  NoDup ((λ w, (w.1.2, w.2)) <$> remote_procedures) ∧
  forallb named_after_class remote_procedures = true.
Proof.
  split; [|split; [|split]].
  - unfold operations, remote_procedures.
    repeat apply Forall2_app;
      auto using KRPC_addresses, UI_addresses, Drawing_addresses,
        KerbalAlarmClock_addresses, RemoteTech_addresses,
        InfernalRobotics_addresses.
  - apply (bool_decide_unpack _). vm_compute. reflexivity.
  - apply (bool_decide_unpack _). vm_compute. reflexivity.
  - vm_compute. reflexivity.
Qed.

End Remote_procedures.

(** *** Exceptions of the [KRPC] service *)

(** X5: the four exception classes of [KRPC] derive from [krpc::RPCError]
    directly and not from one another: a handler for [krpc::RPCError]
    catches each of them, and a handler for one of the four catches that
    one only -- a handler for [ArgumentException] does not catch an
    [ArgumentNullException] or an [ArgumentOutOfRangeException]. *)
Theorem KRPC_exceptions_are_siblings (msg : string) :
  Forall (λ '(name, ctor),
            catches "krpc::RPCError" (ctor msg) = true ∧
            Forall (λ '(name', ctor'),
                      catches name (ctor' msg) = bool_decide (name = name'))
                   KRPC_exceptions)
         KRPC_exceptions ∧
  catches "KRPC::ArgumentException" (KRPC.ArgumentNullException msg) = false.
Proof.
  split; [|reflexivity].
  unfold KRPC_exceptions.
  repeat first [ apply Forall_nil_2
               | apply Forall_cons_2
               | split
               | reflexivity ].
Qed.

Section Constructor_outcome.
Context {RT : Runtime} {W : Type} (h : Handlers W).

(** X10: on any client, the calls the constructor of [KRPC] has made when
    it returns or throws are the first of its four registrations, in their
    order: a registration that throws ends the construction, and the later
    ones are not made.  When the constructor returns, all four were made
    and the proxy holds the client it was given. *)
Theorem KRPC_constructor_on_any_client (client : Client_ptr) (w : W) :
  let o := run h (KRPC.KRPC client) w in
  trace_of o `prefix_of` KRPC_registrations client ∧
  (∀ this, result_of o = Ok this →
     this = KRPC.Make (Service_ client) ∧ _client this = client ∧
     trace_of o = KRPC_registrations client) ∧
  (∀ e, result_of o = Err e →
     ∃ service name f w',
       last (trace_of o) = Some (Registered client service name f) ∧
       (on_add_exception_thrower h client service name f w').1 = Err e).
Proof.
  cbn zeta. unfold result_of, trace_of, KRPC_registrations. cbn.
  destruct (on_add_exception_thrower h client "KRPC" "ArgumentException"
              _ w) as [[[]|e1] w1] eqn:H1; cbn.
  2: { split; [by eexists|]. split; [done|].
       intros e [= ->]. eexists _, _, _, w. by rewrite H1. }
  destruct (on_add_exception_thrower h client "KRPC" "ArgumentNullException"
              _ w1) as [[[]|e2] w2] eqn:H2; cbn.
  2: { split; [by eexists|]. split; [done|].
       intros e [= ->]. eexists _, _, _, w1. by rewrite H2. }
  destruct (on_add_exception_thrower h client "KRPC"
              "ArgumentOutOfRangeException" _ w2) as [[[]|e3] w3] eqn:H3; cbn.
  2: { split; [by eexists|]. split; [done|].
       intros e [= ->]. eexists _, _, _, w2. by rewrite H3. }
  destruct (on_add_exception_thrower h client "KRPC"
              "InvalidOperationException" _ w3) as [[[]|e4] w4] eqn:H4; cbn.
  2: { split; [done|]. split; [done|].
       intros e [= ->]. eexists _, _, _, w3. by rewrite H4. }
  split; [done|]. split; [|done].
  by intros this [= <-].
Qed.

End Constructor_outcome.

Section Composition.
Context {RT : Runtime}.

Lemma call_registers_its_descriptor (op : Operation) :
  call_is_descriptor op → registers_its_descriptor op.
Proof.
  intros (service & procedure & H). exists service, procedure.
  intros this args krpc start W h w. cbn zeta.
  unfold registered_as_stream. rewrite run_bind, H. cbn.
  destruct (on_build_call h _ _ _ _ w) as [[d|e] w']; cbn; [|reflexivity].
  destruct (on_invoke h _ _ _ _ w') as [[data|e] w'']; cbn; [|reflexivity].
  unfold decoder_decode. by destruct (decode data _).
Qed.

(** X9: the descriptor of any operation registered as a stream -- its
    [_call] variant, then [KRPC::add_stream] on the result.  On any client,
    when [build_call] throws nothing is sent; otherwise one [invoke] of
    ("KRPC", "AddStream") follows, whose first argument is the encoding of
    the very descriptor [build_call] returned and whose second is the
    encoding of [start]; the result is the decoded answer of that
    [invoke]. *)
Theorem descriptors_register_as_streams :
  Forall registers_its_descriptor operations.
Proof.
  eapply Forall_impl; [apply operations_call_is_descriptor|].
  apply call_registers_its_descriptor.
Qed.

Lemma template_calls_through_null (op : Operation) :
  follows_template op → calls_through_null op.
Proof.
  destruct op as [name This Args how params plain call
                 |name This Args Ret_ D how params plain stream call]; cbn;
    intros (service & procedure & H); destruct how; try done;
    intros args; specialize (H (Object_ _ nullptr 0%N) args);
    cbn zeta in H; cbn in H.
  - destruct H as [Hplain _]. eauto.
  - destruct H as ((k & Hplain & _) & _). eauto.
Qed.

(** X11: no proxy tests its client.  Each of the 222 non-static members of
    the remote-object classes, called on the object the default
    constructor gives, calls [invoke] through [nullptr], and sends the
    encoding of that object, of identifier 0, as the first argument. *)
Theorem members_of_null_objects_call_through_null :
  Forall calls_through_null operations ∧
  length (filter (λ op, is_object_method op = true) operations) = 222.
Proof.
  split; [|reflexivity].
  eapply Forall_impl; [apply operations_template|].
  apply template_calls_through_null.
Qed.

(** X6: [UI::message] called with the content alone: the message is shown
    for [1.0], at [MessagePosition::top_center], in the colour
    [{1.0, 0.92, 0.016}] and in the size [20.0]; these are the encoded
    arguments after the content, of the method and of its [_call]
    variant. *)
Theorem UI_message_defaults (this : UI.t) (content : string) :
  let a := [encode content;
            encode (double_to_float (double_literal "1.0"));
            encode UI.MessagePosition.top_center;
            encode (Tuple3 (double_literal "1.0") (double_literal "0.92")
                      (double_literal "0.016"));
            encode (double_to_float (double_literal "20.0"))] in
  UI.message this content None None None None =
    Invoke (_client this) "UI" "Message" a (λ _, Ret ()) ∧
  UI.message_call this content None None None None =
    Build_call (_client this) "UI" "Message" a Ret ∧
  static_cast_int32 UI.MessagePosition.top_center = 1%Z.
Proof. repeat split. Qed.

End Composition.

(** *** Service enumerations *)

(** The enumerators 0 to [count - 1], in this order. *)
Lemma counted_from_zero (E : string) (enumerators : list (enum_struct E))
    (count : nat) :
  enumerators = (λ i, static_cast_enum E (Z.of_nat i)) <$> seq 0 count →
  counts_from_zero E enumerators (Z.of_nat count).
Proof.
  intros -> n. rewrite list_elem_of_fmap. setoid_rewrite elem_of_seq. split.
  - intros (i & [= ->] & Hi). lia.
  - intros Hn. exists (Z.to_nat n). split; [|lia].
    unfold static_cast_enum. f_equal. lia.
Qed.

(** X8: the enumerators of every service enumeration are the values 0 to
    [count - 1] without a gap: the value of underlying value [n] is an
    enumerator exactly when [0 <= n < count].  With no range check in the
    decoders, this is the test a caller has to make on a decoded value. *)
Theorem enumerators_count_from_zero :
  counts_from_zero "KRPC::GameScene" KRPC.GameScene.enumerators 5 ∧
  counts_from_zero "UI::FontStyle" UI.FontStyle.enumerators 4 ∧
  counts_from_zero "UI::MessagePosition" UI.MessagePosition.enumerators 4 ∧
  counts_from_zero "UI::TextAlignment" UI.TextAlignment.enumerators 3 ∧
  counts_from_zero "UI::TextAnchor" UI.TextAnchor.enumerators 9 ∧
  counts_from_zero "KerbalAlarmClock::AlarmAction"
    KerbalAlarmClock.AlarmAction.enumerators 6 ∧
  counts_from_zero "KerbalAlarmClock::AlarmType"
    KerbalAlarmClock.AlarmType.enumerators 18 ∧
  counts_from_zero "RemoteTech::Target" RemoteTech.Target.enumerators 5.
Proof.
  repeat apply conj.
  - by apply (counted_from_zero _ _ 5).
  - by apply (counted_from_zero _ _ 4).
  - by apply (counted_from_zero _ _ 4).
  - by apply (counted_from_zero _ _ 3).
  - by apply (counted_from_zero _ _ 9).
  - by apply (counted_from_zero _ _ 6).
  - by apply (counted_from_zero _ _ 18).
  - by apply (counted_from_zero _ _ 5).
Qed.

Section Enumeration_codecs.
Context {RT : Runtime}.

(** The body of the decoder of an enumeration, when the [int32_t] decoder
    throws. *)
Lemma error_of_decoded (E : string) (data : bytes) (c : Client_ptr)
    (e : exception) :
  decode (T := int32_t) data c = Err e →
  (x ← decode (T := int32_t) data c; mret (static_cast_enum E x)) = Err e.
Proof. intros ->. reflexivity. Qed.

(** X7: an exception of the [int32_t] decoder -- on empty or truncated
    input, say -- leaves the decoder of every service enumeration
    unchanged; no enumeration value is made up. *)
Theorem enum_decode_propagates_the_error (data : bytes) (c : Client_ptr)
    (e : exception) (Hint32 : decode (T := int32_t) data c = Err e) :
  Forall (λ E, enum_decode E data c = Err e) service_enums.
Proof.
  unfold service_enums.
  repeat first [ apply Forall_nil_2 | apply Forall_cons_2 ];
    exact (error_of_decoded _ _ _ _ Hint32).
Qed.

(** X12: the encoding of an enumeration value carries only its underlying
    value: where the [int32_t] codec decodes the encoding of [x] to [x],
    the encoding of the value [x] of any service enumeration decodes, as
    any other service enumeration, to the value [x] of that one. *)
Theorem enums_share_their_encoding (x : int32_t) (c : Client_ptr)
    (Hint32 : decode (T := int32_t) (encode x) c = Ok x) :
  Forall (λ from, Forall (decodes_as x c from) service_enums) service_enums.
Proof.
  unfold service_enums.
  repeat first [ apply Forall_nil_2 | apply Forall_cons_2 ];
    exact (cast_of_decoded _ _ _ _ Hint32).
Qed.

End Enumeration_codecs.

Section Further_at_reference.
#[local] Existing Instance reference.runtime.

Lemma enum_decode_propagates_the_error_witness :
  decode (T := int32_t) [] None = Err (reference.EncodingError "int32") ∧
  Forall (λ E, enum_decode E [] None = Err (reference.EncodingError "int32"))
         service_enums.
Proof.
  assert (decode (T := int32_t) [] None
          = Err (reference.EncodingError "int32")) as H by reflexivity.
  split; [exact H|].
  exact (enum_decode_propagates_the_error [] None _ H).
Defined.

Lemma enums_share_their_encoding_witness :
  decode (T := int32_t) (encode 2%Z) None = Ok 2%Z ∧
  Forall (λ from, Forall (decodes_as 2%Z None from) service_enums)
         service_enums.
Proof.
  assert (decode (T := int32_t) (encode 2%Z) None = Ok 2%Z) as H
    by (vm_compute; reflexivity).
  split; [exact H|].
  exact (enums_share_their_encoding 2%Z None H).
Defined.

End Further_at_reference.
